(** * AP130X external camera ISP driver: control and bring-up plane

    A shallow embedding of [drivers/media/i2c/ap130x.c]: the paged
    register transport, the DMA proxy to the sensor registers, the
    firmware loader with its circular window, the boot sequencer and the
    stream stall controller.

    Integers of the C code are [Z] with the 32-bit wrap-around written
    out where the C arithmetic can wrap.  Every call that leaves the
    driver (regmap, regulators, clock, GPIOs, sleeps, firmware loader)
    is recorded, with its answer, in a trace carried by the device; the
    answers come from an arbitrary deterministic environment that sees
    the history so far.  Logging and the device mutexes are not
    modelled: the driver is sequential here. *)

From Stdlib Require Import ZArith List Lia Bool.
From Stdlib.Strings Require Import Byte.
From Stdlib.Strings Require String.
Import ListNotations.
Import String.StringSyntax.
Delimit Scope string_scope with string.
Open Scope Z_scope.

(** ** Machine integers and error numbers *)

Definition wrap32 (x : Z) : Z := x mod 2 ^ 32.

Definition EAGAIN : Z := 11.
Definition EINVAL : Z := 22.
Definition ETIMEDOUT : Z := 110.

(** ** Register descriptors *)

Definition AP130X_FW_WINDOW_SIZE : Z := 0x2000.
Definition AP130X_FW_WINDOW_OFFSET : Z := 0x8000.

Definition AP130X_REG_16BIT (n : Z) : Z := Z.lor (Z.shiftl 2 24) n.
Definition AP130X_REG_32BIT (n : Z) : Z := Z.lor (Z.shiftl 4 24) n.
Definition AP130X_REG_SIZE (n : Z) : Z := Z.shiftr n 24.
Definition AP130X_REG_ADDR (n : Z) : Z := Z.land n 0x0000ffff.
Definition AP130X_REG_PAGE (n : Z) : Z := Z.land n 0x00ff0000.
Definition AP130X_REG_PAGE_MASK : Z := 0x00ff0000.

Definition BIT (n : Z) : Z := Z.shiftl 1 n.

(* Info registers *)
Definition AP130X_CHIP_VERSION : Z := AP130X_REG_16BIT 0x0000.
Definition AP130X_CHIP_ID : Z := 0x0265.
Definition AP130X_CHIP_REV : Z := AP130X_REG_16BIT 0x0050.

(* Control registers *)
Definition AP130X_DZ_TGT_FCT : Z := AP130X_REG_16BIT 0x1010.
Definition AP130X_SFX_MODE : Z := AP130X_REG_16BIT 0x1016.

(* Preview context registers *)
Definition AP130X_PREVIEW_WIDTH : Z := AP130X_REG_16BIT 0x2000.
Definition AP130X_PREVIEW_HEIGHT : Z := AP130X_REG_16BIT 0x2002.
Definition AP130X_PREVIEW_OUT_FMT : Z := AP130X_REG_16BIT 0x2012.
Definition AP130X_PREVIEW_HINF_CTRL : Z := AP130X_REG_16BIT 0x2030.
Definition AP130X_PREVIEW_HINF_CTRL_SPOOF : Z := BIT 4.
Definition AP130X_PREVIEW_HINF_CTRL_MIPI_LANES (n : Z) : Z := Z.shiftl n 0.

(* IQ registers *)
Definition AP130X_AE_CTRL : Z := AP130X_REG_16BIT 0x5002.
Definition AP130X_AE_CTRL_MODE_MASK : Z := 0x000f.
Definition AP130X_AE_MANUAL_GAIN : Z := AP130X_REG_16BIT 0x5006.
Definition AP130X_AE_MET : Z := AP130X_REG_16BIT 0x503E.
Definition AP130X_AWB_CTRL : Z := AP130X_REG_16BIT 0x5100.
Definition AP130X_AWB_CTRL_FLASH : Z := BIT 8.
Definition AP130X_AWB_CTRL_MODE_MASK : Z := 0x000f.
Definition AP130X_FLICK_CTRL : Z := AP130X_REG_16BIT 0x5440.
Definition AP130X_FLICK_CTRL_FREQ (n : Z) : Z := Z.shiftl n 8.
Definition AP130X_SCENE_CTRL : Z := AP130X_REG_16BIT 0x5454.

(* System registers *)
Definition AP130X_BOOTDATA_STAGE : Z := AP130X_REG_16BIT 0x6002.
Definition AP130X_SYS_START : Z := AP130X_REG_16BIT 0x601a.
Definition AP130X_SYS_START_PLL_LOCK : Z := BIT 15.
Definition AP130X_SYS_START_STALL_STATUS : Z := BIT 9.
Definition AP130X_SYS_START_STALL_EN : Z := BIT 8.
Definition AP130X_SYS_START_STALL_MODE_DISABLED : Z := Z.shiftl 1 6.
Definition AP130X_DMA_SRC : Z := AP130X_REG_32BIT 0x60a0.
Definition AP130X_DMA_DST : Z := AP130X_REG_32BIT 0x60a4.
Definition AP130X_DMA_SIP_SIPM (n : Z) : Z := wrap32 (Z.shiftl n 26).
Definition AP130X_DMA_SIP_DATA_16_BIT : Z := BIT 25.
Definition AP130X_DMA_SIP_ADDR_16_BIT : Z := BIT 24.
Definition AP130X_DMA_SIP_ID (n : Z) : Z := wrap32 (Z.shiftl n 17).
Definition AP130X_DMA_SIP_REG (n : Z) : Z := Z.shiftl n 0.
Definition AP130X_DMA_SIZE : Z := AP130X_REG_32BIT 0x60a8.
Definition AP130X_DMA_CTRL : Z := AP130X_REG_16BIT 0x60ac.
Definition AP130X_DMA_CTRL_SCH_NORMAL : Z := Z.shiftl 0 12.
Definition AP130X_DMA_CTRL_DST_REG : Z := Z.shiftl 0 8.
Definition AP130X_DMA_CTRL_DST_SIP : Z := Z.shiftl 3 8.
Definition AP130X_DMA_CTRL_SRC_REG : Z := Z.shiftl 0 4.
Definition AP130X_DMA_CTRL_SRC_SIP : Z := Z.shiftl 3 4.
Definition AP130X_DMA_CTRL_MODE_MASK : Z := Z.shiftl 7 0.
Definition AP130X_DMA_CTRL_MODE_IDLE : Z := Z.shiftl 0 0.
Definition AP130X_DMA_CTRL_MODE_COPY : Z := Z.shiftl 2 0.

Definition AP130X_BRIGHTNESS : Z := AP130X_REG_16BIT 0x7000.
Definition AP130X_CONTRAST : Z := AP130X_REG_16BIT 0x7002.
Definition AP130X_SATURATION : Z := AP130X_REG_16BIT 0x7006.
Definition AP130X_GAMMA : Z := AP130X_REG_16BIT 0x700A.

(* Misc registers *)
Definition AP130X_REG_ADV_START : Z := 0xe000.
Definition AP130X_ADVANCED_BASE : Z := AP130X_REG_32BIT 0xf038.
Definition AP130X_SIP_CRC : Z := AP130X_REG_16BIT 0xf052.

(* Advanced system registers *)
Definition AP130X_ADV_IRQ_SYS_INTE : Z := AP130X_REG_32BIT 0x00230000.
Definition AP130X_ADV_IRQ_SYS_INTE_SIPM : Z := Z.shiftl 3 6.
Definition AP130X_ADV_IRQ_SYS_INTE_SIPS_FIFO_WRITE : Z := BIT 3.

(** ** The world outside the driver *)

(** Kernel helpers return 0 on success and a negative errno on failure. *)
Inductive status : Type :=
| Ok
| Err (e : positive).

Definition errno (s : status) : Z :=
  match s with
  | Ok => 0
  | Err e => Z.neg e
  end.

Inductive regmap : Type := regmap16 | regmap32.

Inductive gpio : Type := reset_gpio | standby_gpio.

(** The three supplies of the ISP and the supplies of each sensor. *)
Inductive supply : Type :=
| isp_supply (i : nat)
| sensor_supply (sensor j : nat).

Inductive call : Type :=
| regmap_write (map : regmap) (reg val : Z)
| regmap_read (map : regmap) (reg : Z)
| regmap_raw_write (map : regmap) (reg : Z) (val : list byte) (val_len : Z)
| gpiod_set_value_cansleep (g : gpio) (v : Z)
| regulator_enable (s : supply)
| regulator_disable (s : supply)
| regulator_bulk_disable (ss : list supply)
| clk_prepare_enable
| clk_disable_unprepare
| usleep_range (lo hi : Z)
| msleep (ms : Z)
| request_firmware
| release_firmware.

(** The answer to a call: its status, the value read (register reads)
    and the blob obtained (firmware request). *)
Record resp : Type := mk_resp {
  r_status : status;
  r_val : Z;
  r_data : list byte
}.

Definition event : Type := (call * resp)%type.

(** A deterministic environment: the answer to a call may depend on
    everything that happened before it. *)
Definition oracle : Type := list event -> call -> resp.

(** The control identifiers [ap130x_s_ctrl] switches on; every other
    identifier is [V4L2_CID_other]. *)
Inductive v4l2_cid : Type :=
| V4L2_CID_AUTO_N_PRESET_WHITE_BALANCE
| V4L2_CID_EXPOSURE
| V4L2_CID_EXPOSURE_METERING
| V4L2_CID_GAIN
| V4L2_CID_GAMMA
| V4L2_CID_CONTRAST
| V4L2_CID_BRIGHTNESS
| V4L2_CID_SATURATION
| V4L2_CID_ZOOM_ABSOLUTE
| V4L2_CID_COLORFX
| V4L2_CID_SCENE_MODE
| V4L2_CID_POWER_LINE_FREQUENCY
| V4L2_CID_other (id : Z).

(** ** Device state *)

Record ap130x_device : Type := mk_device {
  reg_page : Z;                       (* u32 reg_page, 0 after kzalloc *)
  streaming : bool;
  fw : option (list byte);            (* const struct firmware *fw *)
  (* fixed once the device tree has been parsed *)
  has_standby_gpio : bool;            (* standby_gpio != NULL *)
  sensor_info_i2c_addr : Z;
  sensor_info_supplies : option (list Z);  (* post_delay_us of each supply *)
  sensors_num_supplies : list nat;    (* sensors[0..1].num_supplies *)
  format_width : Z;
  format_height : Z;
  format_out_fmt : Z;
  width_factor : Z;
  num_data_lanes : Z;
  ctrls : list (v4l2_cid * Z);        (* (id, val) of the controls, handler order *)
  trace : list event
}.

Definition with_reg_page (p : Z) (d : ap130x_device) : ap130x_device :=
  mk_device p (streaming d) (fw d) (has_standby_gpio d)
    (sensor_info_i2c_addr d) (sensor_info_supplies d) (sensors_num_supplies d)
    (format_width d) (format_height d) (format_out_fmt d) (width_factor d)
    (num_data_lanes d) (ctrls d) (trace d).

Definition with_streaming (b : bool) (d : ap130x_device) : ap130x_device :=
  mk_device (reg_page d) b (fw d) (has_standby_gpio d)
    (sensor_info_i2c_addr d) (sensor_info_supplies d) (sensors_num_supplies d)
    (format_width d) (format_height d) (format_out_fmt d) (width_factor d)
    (num_data_lanes d) (ctrls d) (trace d).

Definition with_fw (f : option (list byte)) (d : ap130x_device) : ap130x_device :=
  mk_device (reg_page d) (streaming d) f (has_standby_gpio d)
    (sensor_info_i2c_addr d) (sensor_info_supplies d) (sensors_num_supplies d)
    (format_width d) (format_height d) (format_out_fmt d) (width_factor d)
    (num_data_lanes d) (ctrls d) (trace d).

Definition with_trace (t : list event) (d : ap130x_device) : ap130x_device :=
  mk_device (reg_page d) (streaming d) (fw d) (has_standby_gpio d)
    (sensor_info_i2c_addr d) (sensor_info_supplies d) (sensors_num_supplies d)
    (format_width d) (format_height d) (format_out_fmt d) (width_factor d)
    (num_data_lanes d) (ctrls d) t.

(** ** A state monad over the device *)

Definition M (A : Type) : Type := ap130x_device -> ap130x_device * A.

Definition ret {A : Type} (a : A) : M A := fun d => (d, a).

Definition bind {A B : Type} (m : M A) (k : A -> M B) : M B :=
  fun d => let (d', a) := m d in k a d'.

Definition gets {A : Type} (f : ap130x_device -> A) : M A := fun d => (d, f d).

Definition modify (f : ap130x_device -> ap130x_device) : M unit :=
  fun d => (f d, tt).

Declare Scope drv_scope.
Delimit Scope drv_scope with drv.
Notation "x <- m ;; k" := (bind m (fun x => k))
  (at level 61, m at next level, right associativity) : drv_scope.
Notation "m ;;; k" := (bind m (fun _ => k))
  (at level 61, right associativity) : drv_scope.
Open Scope drv_scope.

(** The events a run adds to the trace. *)
Definition emitted (d d' : ap130x_device) : list event :=
  skipn (length (trace d)) (trace d').

Section Driver.

Variable env : oracle.

Definition do_call (c : call) : M resp :=
  fun d =>
    let r := env (trace d) c in
    (with_trace (trace d ++ [(c, r)]) d, r).

(** A call whose only result is its status. *)
Definition do_call_status (c : call) : M Z :=
  r <- do_call c ;; ret (errno (r_status r)).

(** ** Register transport *)

Definition __ap130x_write (reg val : Z) : M Z :=
  let size := AP130X_REG_SIZE reg in
  let addr := AP130X_REG_ADDR reg in
  if size =? 2 then do_call_status (regmap_write regmap16 addr val)
  else if size =? 4 then do_call_status (regmap_write regmap32 addr val)
  else ret (- EINVAL).

(** [err] is the caller's sticky error slot: [None] for a NULL pointer,
    [Some e] for a slot holding [e].  The slot after the call is returned
    with the return value. *)
Definition ap130x_write_done (err : option Z) (r : Z) : M (Z * option Z) :=
  ret (r, match err with
          | Some e => if r =? 0 then Some e else Some r
          | None => None
          end).

Definition err_latched (err : option Z) : bool :=
  match err with
  | Some e => negb (e =? 0)
  | None => false
  end.

Definition err_value (err : option Z) : Z :=
  match err with
  | Some e => e
  | None => 0
  end.

(** The register a paged descriptor is accessed through:
    [reg &= ~AP130X_REG_PAGE_MASK; reg += AP130X_REG_ADV_START]. *)
Definition adv_reg (reg : Z) : Z :=
  wrap32 (Z.land reg (Z.lnot AP130X_REG_PAGE_MASK) + AP130X_REG_ADV_START).

Definition ap130x_write (reg val : Z) (err : option Z) : M (Z * option Z) :=
  let page := AP130X_REG_PAGE reg in
  if err_latched err then ret (err_value err, err)
  else if negb (page =? 0) then
    cur <- gets reg_page ;;
    if negb (cur =? page) then
      r <- __ap130x_write AP130X_ADVANCED_BASE page ;;
      if r <? 0 then ap130x_write_done err r
      else
        modify (with_reg_page page) ;;;
        r <- __ap130x_write (adv_reg reg) val ;;
        ap130x_write_done err r
    else
      r <- __ap130x_write (adv_reg reg) val ;;
      ap130x_write_done err r
  else
    r <- __ap130x_write reg val ;;
    ap130x_write_done err r.

(** Reads return the status and the value; on failure the C code leaves
    [*val] untouched and every caller returns before looking at it, the
    model yields 0 there. *)
Definition __ap130x_read (reg : Z) : M (Z * Z) :=
  let size := AP130X_REG_SIZE reg in
  let addr := AP130X_REG_ADDR reg in
  if size =? 2 then
    r <- do_call (regmap_read regmap16 addr) ;;
    ret (errno (r_status r),
         match r_status r with Ok => wrap32 (r_val r) | Err _ => 0 end)
  else if size =? 4 then
    r <- do_call (regmap_read regmap32 addr) ;;
    ret (errno (r_status r),
         match r_status r with Ok => wrap32 (r_val r) | Err _ => 0 end)
  else ret (- EINVAL, 0).

Definition ap130x_read (reg : Z) : M (Z * Z) :=
  let page := AP130X_REG_PAGE reg in
  if negb (page =? 0) then
    cur <- gets reg_page ;;
    if negb (cur =? page) then
      r <- __ap130x_write AP130X_ADVANCED_BASE page ;;
      if r <? 0 then ret (r, 0)
      else
        modify (with_reg_page page) ;;;
        __ap130x_read (adv_reg reg)
    else
      __ap130x_read (adv_reg reg)
  else
    __ap130x_read reg.

(** ** Sensor registers access through the DMA engine *)

Fixpoint dma_wait_idle_loop (i : nat) : M Z :=
  match i with
  | O => ret (- ETIMEDOUT)
  | S i' =>
      rv <- ap130x_read AP130X_DMA_CTRL ;;
      let (r, ctrl) := rv in
      if r <? 0 then ret r
      else if Z.land ctrl AP130X_DMA_CTRL_MODE_MASK =? AP130X_DMA_CTRL_MODE_IDLE
      then ret 0
      else do_call (usleep_range 1000 1500) ;;; dma_wait_idle_loop i'
  end.

Definition ap130x_dma_wait_idle : M Z := dma_wait_idle_loop 50.

(** The descriptor of the sensor side of a transfer. *)
Definition sip_descriptor (port size i2c_addr reg : Z) : Z :=
  Z.lor (Z.lor (Z.lor (Z.lor
    (AP130X_DMA_SIP_SIPM port)
    (if size =? 2 then AP130X_DMA_SIP_DATA_16_BIT else 0))
    AP130X_DMA_SIP_ADDR_16_BIT)
    (AP130X_DMA_SIP_ID i2c_addr))
    (AP130X_DMA_SIP_REG (AP130X_REG_ADDR reg)).

(** For a size of 0 the final shift is by 32 bits, which C leaves
    undefined; the model shifts mathematically. *)
Definition ap130x_sipm_read (port reg : Z) : M (Z * Z) :=
  let size := AP130X_REG_SIZE reg in
  if 2 <? size then ret (- EINVAL, 0)
  else
    r <- ap130x_dma_wait_idle ;;
    if r <? 0 then ret (r, 0)
    else
      w1 <- ap130x_write AP130X_DMA_SIZE size (Some r) ;;
      addr <- gets sensor_info_i2c_addr ;;
      w2 <- ap130x_write AP130X_DMA_SRC (sip_descriptor port size addr reg)
              (snd w1) ;;
      w3 <- ap130x_write AP130X_DMA_DST (AP130X_REG_ADDR AP130X_DMA_DST)
              (snd w2) ;;
      w4 <- ap130x_write AP130X_DMA_CTRL
              (Z.lor (Z.lor (Z.lor AP130X_DMA_CTRL_SCH_NORMAL
                 AP130X_DMA_CTRL_DST_REG) AP130X_DMA_CTRL_SRC_SIP)
                 AP130X_DMA_CTRL_MODE_COPY) (snd w3) ;;
      if err_value (snd w4) <? 0 then ret (err_value (snd w4), 0)
      else
        r <- ap130x_dma_wait_idle ;;
        if r <? 0 then ret (r, 0)
        else
          rv <- ap130x_read AP130X_DMA_DST ;;
          let (r, val) := rv in
          if r <? 0 then ret (r, 0)
          else ret (0, Z.shiftr val (32 - size * 8)).

Definition ap130x_sipm_write (port reg val : Z) : M Z :=
  let size := AP130X_REG_SIZE reg in
  if 2 <? size then ret (- EINVAL)
  else
    r <- ap130x_dma_wait_idle ;;
    if r <? 0 then ret r
    else
      w1 <- ap130x_write AP130X_DMA_SIZE size (Some r) ;;
      w2 <- ap130x_write AP130X_DMA_SRC
              (Z.lor (wrap32 (Z.shiftl val 16)) (AP130X_REG_ADDR AP130X_DMA_SRC))
              (snd w1) ;;
      if err_value (snd w2) <? 0 then ret (err_value (snd w2))
      else
        addr <- gets sensor_info_i2c_addr ;;
        w3 <- ap130x_write AP130X_DMA_DST (sip_descriptor port size addr reg)
                (snd w2) ;;
        w4 <- ap130x_write AP130X_DMA_CTRL
                (Z.lor (Z.lor (Z.lor AP130X_DMA_CTRL_SCH_NORMAL
                   AP130X_DMA_CTRL_DST_SIP) AP130X_DMA_CTRL_SRC_REG)
                   AP130X_DMA_CTRL_MODE_COPY) (snd w3) ;;
        if err_value (snd w4) <? 0 then ret (err_value (snd w4))
        else
          r <- ap130x_dma_wait_idle ;;
          if r <? 0 then ret r
          else ret 0.

(** ** Power handling *)

Definition sensor_supplies (i n : nat) : list supply :=
  map (sensor_supply i) (seq 0 n).

(** The inner loop of [ap130x_power_on_sensors] over the supplies [j ..
    j + n) of sensor [i]; on failure it returns the error and the index
    [j] the unwinding starts from. *)
Fixpoint sensor_enable_supplies (delays : list Z) (i j n : nat)
  : M (Z * nat) :=
  match n with
  | O => ret (0, j)
  | S n' =>
      r <- do_call_status (regulator_enable (sensor_supply i j)) ;;
      if r <? 0 then ret (r, j)
      else
        let delay := nth j delays 0 in
        do_call (usleep_range delay (wrap32 (delay + 100))) ;;;
        sensor_enable_supplies delays i (S j) n'
  end.

(** [for (; j > 0; --j) regulator_disable(sensor->supplies[j - 1].consumer)] *)
Fixpoint sensor_disable_supplies (i j : nat) : M unit :=
  match j with
  | O => ret tt
  | S j' =>
      do_call (regulator_disable (sensor_supply i j')) ;;;
      sensor_disable_supplies i j'
  end.

(** [for (; i > 0; --i) regulator_bulk_disable(sensors[i - 1] ...)] *)
Fixpoint sensors_bulk_disable_down (nums : list nat) (i : nat) : M unit :=
  match i with
  | O => ret tt
  | S i' =>
      do_call (regulator_bulk_disable (sensor_supplies i' (nth i' nums O))) ;;;
      sensors_bulk_disable_down nums i'
  end.

(** The outer loop over the sensors [i, i + length rest). *)
Fixpoint power_on_sensors_loop (delays : list Z) (nums : list nat)
  (i : nat) (rest : list nat) : M Z :=
  match rest with
  | [] => ret 0
  | n :: rest' =>
      rj <- sensor_enable_supplies delays i O n ;;
      let (r, j) := rj in
      if r <? 0 then
        sensor_disable_supplies i j ;;;
        sensors_bulk_disable_down nums i ;;;
        ret r
      else power_on_sensors_loop delays nums (S i) rest'
  end.

Definition ap130x_power_on_sensors : M Z :=
  sup <- gets sensor_info_supplies ;;
  match sup with
  | None => ret 0
  | Some delays =>
      nums <- gets sensors_num_supplies ;;
      power_on_sensors_loop delays nums O nums
  end.

Fixpoint power_off_sensors_loop (i : nat) (rest : list nat) : M unit :=
  match rest with
  | [] => ret tt
  | n :: rest' =>
      do_call (regulator_bulk_disable (sensor_supplies i n)) ;;;
      power_off_sensors_loop (S i) rest'
  end.

Definition ap130x_power_off_sensors : M unit :=
  sup <- gets sensor_info_supplies ;;
  match sup with
  | None => ret tt
  | Some _ =>
      nums <- gets sensors_num_supplies ;;
      power_off_sensors_loop O nums
  end.

(** [post_delay_us] of DVDD, VDDIO_HMISC and VDDIO_SMISC. *)
Definition ap130x_supplies : list Z := [2000; 2000; 2000].

Definition isp_supplies : list supply :=
  map isp_supply (seq 0 (length ap130x_supplies)).

(** Step 2 of [ap130x_power_on]: the supplies from index [i] on. *)
Fixpoint power_on_supplies (i : nat) (rest : list Z) : M Z :=
  match rest with
  | [] => ret 0
  | delay :: rest' =>
      r <- do_call_status (regulator_enable (isp_supply i)) ;;
      if r <? 0 then ret r
      else
        do_call (usleep_range delay (delay + 100)) ;;;
        power_on_supplies (S i) rest'
  end.

Definition standby_pulse (v : Z) : M unit :=
  sb <- gets has_standby_gpio ;;
  if (sb : bool) then
    do_call (gpiod_set_value_cansleep standby_gpio v) ;;;
    do_call (usleep_range 200 1000) ;;;
    ret tt
  else ret tt.

Definition ap130x_power_on : M Z :=
  standby_pulse 1 ;;;
  r <- power_on_supplies O ap130x_supplies ;;
  if r <? 0 then ret r
  else
    standby_pulse 0 ;;;
    r <- do_call_status clk_prepare_enable ;;
    if r <? 0 then ret r
    else
      do_call (gpiod_set_value_cansleep reset_gpio 0) ;;;
      do_call (usleep_range 10000 11000) ;;;
      ret 0.

Definition ap130x_power_off : M unit :=
  do_call (gpiod_set_value_cansleep reset_gpio 1) ;;;
  do_call clk_disable_unprepare ;;;
  standby_pulse 1 ;;;
  do_call (regulator_bulk_disable isp_supplies) ;;;
  sb <- gets has_standby_gpio ;;
  if (sb : bool) then
    do_call (usleep_range 200 1000) ;;;
    do_call (gpiod_set_value_cansleep standby_gpio 0) ;;;
    ret tt
  else ret tt.

(** ** Hardware configuration *)

(** ** V4L2 controls *)

Definition V4L2_WHITE_BALANCE_FLASH : Z := 7.

Definition ap130x_wb_values : list Z :=
  [0; 15; 2; 4; 5; 1; 5; 15; 6; 6].

Definition ap130x_sfx_values : list Z :=
  [0; 3; 13; 7; 4; 15; 8; 9; 10; 0; 0; 0; 0; 16; 2; 0].

Definition ap130x_scene_mode_values : list Z :=
  [0; 7; 10; 6; 0; 0; 13; 2; 5; 12; 1; 3; 14; 11].

Definition ap130x_flicker_values : list Z :=
  [0;
   Z.lor (AP130X_FLICK_CTRL_FREQ 50) 1;
   Z.lor (AP130X_FLICK_CTRL_FREQ 60) 1;
   2].

(** Table lookups: the control framework keeps the index within the
    table; outside it the model reads 0. *)
Definition table_at (t : list Z) (i : Z) : Z := nth (Z.to_nat i) t 0.

Definition ap130x_set_wb_mode (mode : Z) : M Z :=
  rv <- ap130x_read AP130X_AWB_CTRL ;;
  let (r, val) := rv in
  if negb (r =? 0) then ret r
  else
    let val := Z.land val (Z.lnot AP130X_AWB_CTRL_MODE_MASK) in
    let val := Z.lor val (table_at ap130x_wb_values mode) in
    let val := if mode =? V4L2_WHITE_BALANCE_FLASH
               then Z.lor val AP130X_AWB_CTRL_FLASH
               else Z.land val (Z.lnot AP130X_AWB_CTRL_FLASH) in
    w <- ap130x_write AP130X_AWB_CTRL val None ;;
    ret (fst w).

Definition ap130x_set_exposure (mode : Z) : M Z :=
  rv <- ap130x_read AP130X_AE_CTRL ;;
  let (r, val) := rv in
  if negb (r =? 0) then ret r
  else
    let val := Z.land val (Z.lnot AP130X_AE_CTRL_MODE_MASK) in
    let val := wrap32 (Z.lor val mode) in
    w <- ap130x_write AP130X_AE_CTRL val None ;;
    ret (fst w).

(** The setters that are a single register write. *)
Definition ap130x_set_reg (reg val : Z) : M Z :=
  w <- ap130x_write reg (wrap32 val) None ;;
  ret (fst w).

Definition ap130x_s_ctrl (id : v4l2_cid) (val : Z) : M Z :=
  match id with
  | V4L2_CID_AUTO_N_PRESET_WHITE_BALANCE => ap130x_set_wb_mode val
  | V4L2_CID_EXPOSURE => ap130x_set_exposure val
  | V4L2_CID_EXPOSURE_METERING => ap130x_set_reg AP130X_AE_MET val
  | V4L2_CID_GAIN => ap130x_set_reg AP130X_AE_MANUAL_GAIN val
  | V4L2_CID_GAMMA => ap130x_set_reg AP130X_GAMMA val
  | V4L2_CID_CONTRAST => ap130x_set_reg AP130X_CONTRAST val
  | V4L2_CID_BRIGHTNESS => ap130x_set_reg AP130X_BRIGHTNESS val
  | V4L2_CID_SATURATION => ap130x_set_reg AP130X_SATURATION val
  | V4L2_CID_ZOOM_ABSOLUTE => ap130x_set_reg AP130X_DZ_TGT_FCT val
  | V4L2_CID_COLORFX =>
      ap130x_set_reg AP130X_SFX_MODE (table_at ap130x_sfx_values val)
  | V4L2_CID_SCENE_MODE =>
      ap130x_set_reg AP130X_SCENE_CTRL (table_at ap130x_scene_mode_values val)
  | V4L2_CID_POWER_LINE_FREQUENCY =>
      ap130x_set_reg AP130X_FLICK_CTRL (table_at ap130x_flicker_values val)
  | V4L2_CID_other _ => ret (- EINVAL)
  end.

(** The control framework's [__v4l2_ctrl_handler_setup]: it hands every
    control of the handler to [s_ctrl] in order and stops at the first
    failure. *)
Fixpoint v4l2_ctrl_handler_setup (cs : list (v4l2_cid * Z)) : M Z :=
  match cs with
  | [] => ret 0
  | (id, val) :: cs' =>
      r <- ap130x_s_ctrl id val ;;
      if negb (r =? 0) then ret r
      else v4l2_ctrl_handler_setup cs'
  end.

Definition ap130x_configure : M Z :=
  lanes <- gets num_data_lanes ;;
  w1 <- ap130x_write AP130X_PREVIEW_HINF_CTRL
          (Z.lor AP130X_PREVIEW_HINF_CTRL_SPOOF
                 (AP130X_PREVIEW_HINF_CTRL_MIPI_LANES lanes)) (Some 0) ;;
  width <- gets format_width ;;
  factor <- gets width_factor ;;
  w2 <- ap130x_write AP130X_PREVIEW_WIDTH (width / factor) (snd w1) ;;
  height <- gets format_height ;;
  w3 <- ap130x_write AP130X_PREVIEW_HEIGHT height (snd w2) ;;
  out_fmt <- gets format_out_fmt ;;
  w4 <- ap130x_write AP130X_PREVIEW_OUT_FMT out_fmt (snd w3) ;;
  if err_value (snd w4) <? 0 then ret (err_value (snd w4))
  else
    cs <- gets ctrls ;;
    v4l2_ctrl_handler_setup cs ;;;
    ret 0.

Definition ap130x_stall (stall : bool) : M Z :=
  if stall then
    w1 <- ap130x_write AP130X_SYS_START
            (Z.lor AP130X_SYS_START_PLL_LOCK
                   AP130X_SYS_START_STALL_MODE_DISABLED) (Some 0) ;;
    w2 <- ap130x_write AP130X_SYS_START
            (Z.lor (Z.lor AP130X_SYS_START_PLL_LOCK
                          AP130X_SYS_START_STALL_EN)
                   AP130X_SYS_START_STALL_MODE_DISABLED) (snd w1) ;;
    if err_value (snd w2) <? 0 then ret (err_value (snd w2))
    else
      do_call (msleep 200) ;;;
      w <- ap130x_write AP130X_ADV_IRQ_SYS_INTE
             (Z.lor AP130X_ADV_IRQ_SYS_INTE_SIPM
                    AP130X_ADV_IRQ_SYS_INTE_SIPS_FIFO_WRITE) None ;;
      ret (fst w)
  else
    w <- ap130x_write AP130X_SYS_START
           (Z.lor (Z.lor (Z.lor AP130X_SYS_START_PLL_LOCK
                                AP130X_SYS_START_STALL_STATUS)
                         AP130X_SYS_START_STALL_EN)
                  AP130X_SYS_START_STALL_MODE_DISABLED) None ;;
    ret (fst w).

(** ** Stream control *)

(** [enable] is the C [int]; it is compared with the [bool] promoted to
    [int]. *)
Definition ap130x_s_stream (enable : Z) : M Z :=
  s <- gets streaming ;;
  if enable =? (if (s : bool) then 1 else 0) then ret 0
  else if negb (enable =? 0) then
    r <- ap130x_configure ;;
    if r <? 0 then ret r
    else
      r <- ap130x_stall false ;;
      if r =? 0 then modify (with_streaming true) ;;; ret r
      else ret r
  else
    r <- ap130x_stall true ;;
    if r =? 0 then modify (with_streaming false) ;;; ret r
    else ret r.

(** ** Boot and firmware handling *)

Definition byte_at (bs : list byte) (i : nat) : Z :=
  Z.of_N (Byte.to_N (nth i bs x00)).

(** A [u32] field of the header, read in the byte order of the CPU
    (little-endian on the platforms of this driver). *)
Definition le32 (bs : list byte) (off : nat) : Z :=
  byte_at bs off + 2 ^ 8 * byte_at bs (off + 1)
  + 2 ^ 16 * byte_at bs (off + 2) + 2 ^ 24 * byte_at bs (off + 3).

Definition fw_hdr_crc (blob : list byte) : Z := le32 blob 0.
Definition fw_hdr_checksum (blob : list byte) : Z := le32 blob 4.
Definition fw_hdr_pll_init_size (blob : list byte) : Z := le32 blob 8.
Definition fw_hdr_total_size (blob : list byte) : Z := le32 blob 12.

Definition sizeof_fw_hdr : Z := 16.

(** The bootdata that follows the header, [&fw_hdr[1]]. *)
Definition fw_data (blob : list byte) : list byte := skipn 16 blob.

(** The size of the firmware less the size of the header, stored in an
    [unsigned int]. *)
Definition fw_size (blob : list byte) : Z :=
  wrap32 (Z.of_nat (length blob) - sizeof_fw_hdr).

(** The name of the firmware file is not modelled; the request itself
    is one call to the firmware loader. *)
Definition ap130x_request_firmware : M Z :=
  r <- do_call request_firmware ;;
  match r_status r with
  | Err _ =>
      modify (with_fw None) ;;;
      ret (errno (r_status r))
  | Ok =>
      modify (with_fw (Some (r_data r))) ;;;
      if Z.of_nat (length (r_data r)) <? sizeof_fw_hdr then ret (- EINVAL)
      else if fw_size (r_data r) <? fw_hdr_pll_init_size (r_data r)
      then ret (- EINVAL)
      else ret 0
  end.

(** The loop of [ap130x_write_fw_window].  [fuel] bounds the number of
    iterations; [None] is "out of fuel".  The result is the device, the
    return value and the window position. *)
Fixpoint write_fw_window_loop (fuel : nat) (d : ap130x_device)
  (buf : list byte) (len win_pos : Z) : option (ap130x_device * (Z * Z)) :=
  match fuel with
  | O => None
  | S fuel' =>
      if 0 <? len then
        let write_addr := wrap32 (win_pos + AP130X_FW_WINDOW_OFFSET) in
        let write_size :=
          Z.min len (wrap32 (AP130X_FW_WINDOW_SIZE - win_pos)) in
        let (d1, r) :=
          do_call_status
            (regmap_raw_write regmap16 write_addr
               (firstn (Z.to_nat write_size) buf) write_size) d in
        if negb (r =? 0) then Some (d1, (r, win_pos))
        else
          let buf := skipn (Z.to_nat write_size) buf in
          let len := wrap32 (len - write_size) in
          let win_pos := wrap32 (win_pos + write_size) in
          let win_pos :=
            if AP130X_FW_WINDOW_SIZE <=? win_pos then 0 else win_pos in
          write_fw_window_loop fuel' d1 buf len win_pos
      else Some (d, (0, win_pos))
  end.

(** Every iteration but possibly the first consumes at least one byte,
    so [len + 2] iterations always suffice (lemma
    [write_fw_window_total]); the [None] branch is never taken. *)
Definition ap130x_write_fw_window (buf : list byte) (len win_pos : Z)
  : M (Z * Z) :=
  fun d =>
    match write_fw_window_loop (S (S (Z.to_nat len))) d buf len win_pos with
    | Some r => r
    | None => (d, (0, win_pos))
    end.

(** [crc_check] stands for the preprocessor switch around the CRC
    verification. *)
Definition load_firmware (crc_check : bool) : M Z :=
  blob <- gets (fun d => match fw d with Some b => b | None => [] end) ;;
  let pll_init_size := fw_hdr_pll_init_size blob in
  w <- ap130x_write AP130X_SIP_CRC 0xffff None ;;
  if negb (fst w =? 0) then ret (fst w)
  else
    rp <- ap130x_write_fw_window (fw_data blob) pll_init_size 0 ;;
    let (r, win_pos) := rp in
    if negb (r =? 0) then ret r
    else
      w <- ap130x_write AP130X_BOOTDATA_STAGE 0x0002 None ;;
      if negb (fst w =? 0) then ret (fst w)
      else
        do_call (usleep_range 1000 2000) ;;;
        rp <- ap130x_write_fw_window
                (skipn (Z.to_nat pll_init_size) (fw_data blob))
                (wrap32 (fw_size blob - pll_init_size)) win_pos ;;
        let (r, win_pos) := rp in
        if negb (r =? 0) then ret r
        else
          do_call (msleep 40) ;;;
          c <- (if crc_check then
                  rv <- ap130x_read AP130X_SIP_CRC ;;
                  let (r, crc) := rv in
                  if negb (r =? 0) then ret r
                  else if negb (crc =? fw_hdr_crc blob) then ret (- EAGAIN)
                  else ret 0
                else ret 0) ;;
          if negb (c =? 0) then ret c
          else
            w <- ap130x_write AP130X_BOOTDATA_STAGE 0xffff None ;;
            if negb (fst w =? 0) then ret (fst w)
            else
              r <- ap130x_stall true ;;
              if r =? 0 then modify (with_streaming false) ;;; ret r
              else ret r.

(** The driver as built: the CRC verification sits under [#if 0]. *)
Definition ap130x_load_firmware : M Z := load_firmware false.

Definition ap130x_detect_chip : M Z :=
  rv <- ap130x_read AP130X_CHIP_VERSION ;;
  let (r, version) := rv in
  if negb (r =? 0) then ret r
  else
    rv <- ap130x_read AP130X_CHIP_REV ;;
    let (r, revision) := rv in
    if negb (r =? 0) then ret r
    else if negb (version =? AP130X_CHIP_ID) then ret (- EINVAL)
    else ret 0.

Definition MAX_FW_LOAD_RETRIES : nat := 3.

(** The three error labels of [ap130x_hw_init]; each falls through to
    the next. *)
Definition error_firmware (r : Z) : M Z :=
  do_call release_firmware ;;;
  ret r.

Definition error_power_sensors (r : Z) : M Z :=
  ap130x_power_off_sensors ;;;
  error_firmware r.

Definition error_power (r : Z) : M Z :=
  ap130x_power_off ;;;
  error_power_sensors r.

(** The retry loop with [left = MAX_FW_LOAD_RETRIES - retries]
    iterations to go, followed by the code after the loop. *)
Fixpoint hw_init_loop (crc_check : bool) (left : nat) : M Z :=
  match left with
  | O => error_power_sensors (- ETIMEDOUT)
  | S left' =>
      r <- ap130x_power_on ;;
      if r <? 0 then error_power_sensors r
      else
        r <- ap130x_detect_chip ;;
        if negb (r =? 0) then error_power r
        else
          r <- load_firmware crc_check ;;
          if r =? 0 then ret 0
          else if negb (r =? - EAGAIN) then error_power r
          else
            ap130x_power_off ;;;
            hw_init_loop crc_check left'
  end.

Definition hw_init (crc_check : bool) : M Z :=
  r <- ap130x_request_firmware ;;
  if negb (r =? 0) then ret r
  else
    r <- ap130x_power_on_sensors ;;
    if r <? 0 then error_firmware r
    else hw_init_loop crc_check MAX_FW_LOAD_RETRIES.

Definition ap130x_hw_init : M Z := hw_init false.

Definition ap130x_hw_cleanup : M unit :=
  ap130x_power_off ;;;
  ap130x_power_off_sensors.

(** The hardware part of [ap130x_remove]. *)
Definition ap130x_remove : M unit :=
  ap130x_hw_cleanup ;;;
  do_call release_firmware ;;;
  ret tt.

End Driver.

(** * Vocabulary of the statements *)

(** A computation only appends to the trace, and every event it appends
    satisfies [P]. *)
Definition emits {A : Type} (P : event -> Prop) (m : M A) : Prop :=
  forall d, exists evs, trace (fst (m d)) = trace d ++ evs /\ Forall P evs.

(** The trace of [d'] continues the trace of [d]. *)
Definition extends (d d' : ap130x_device) : Prop :=
  exists evs, trace d' = trace d ++ evs.

(** A computation leaves the projection [f] of the device alone. *)
Definition preserves {A X : Type} (f : ap130x_device -> X) (m : M A) : Prop :=
  forall d, f (fst (m d)) = f d.

(** Projections that do not look at the trace. *)
Definition trace_blind {X : Type} (f : ap130x_device -> X) : Prop :=
  forall t d, f (with_trace t d) = f d.

(** The width in bytes of the values of a register map. *)
Definition val_bytes (m : regmap) : Z :=
  match m with
  | regmap16 => 2
  | regmap32 => 4
  end.

(** The page-select write of the transport. *)
Definition page_select_call (page : Z) : call :=
  regmap_write regmap32 (AP130X_REG_ADDR AP130X_ADVANCED_BASE) page.

Definition is_page_select (e : event) : bool :=
  match fst e with
  | regmap_write regmap32 reg _ => reg =? AP130X_REG_ADDR AP130X_ADVANCED_BASE
  | _ => false
  end.

Definition count_page_selects (evs : list event) : nat :=
  length (filter is_page_select evs).

(** The device right after the page-select write. *)
Definition after_page_select (env : oracle) (page : Z) (d : ap130x_device)
  : ap130x_device :=
  with_trace
    (trace d ++ [(page_select_call page, env (trace d) (page_select_call page))])
    d.

(** The word the proxy write path places in the DMA source register. *)
Definition dma_src_word (val : Z) : Z :=
  Z.lor (wrap32 (Z.shiftl val 16)) (AP130X_REG_ADDR AP130X_DMA_SRC).

(** An event that, if it is a write to the DMA source register, carries
    [dma_src_word val]. *)
Definition src_write_carries (val : Z) (e : event) : Prop :=
  forall v, fst e = regmap_write regmap32 (AP130X_REG_ADDR AP130X_DMA_SRC) v ->
            v = dma_src_word val.

(** Writes to the stall register [AP130X_SYS_START]. *)
Definition is_sys_start_write (c : call) : bool :=
  match c with
  | regmap_write regmap16 reg _ => reg =? AP130X_REG_ADDR AP130X_SYS_START
  | _ => false
  end.

Definition count_calls (p : call -> bool) (evs : list event) : nat :=
  length (filter (fun e => p (fst e)) evs).

Definition is_register_access (c : call) : bool :=
  match c with
  | regmap_write _ _ _ | regmap_read _ _ | regmap_raw_write _ _ _ _ => true
  | _ => false
  end.

(** The raw writes of the firmware loader. *)
Definition is_raw_write (c : call) : bool :=
  match c with
  | regmap_raw_write _ _ _ _ => true
  | _ => false
  end.

Definition raw_calls (evs : list event) : list call :=
  filter is_raw_write (map fst evs).

Definition raw_write_data (c : call) : list byte :=
  match c with
  | regmap_raw_write _ _ val _ => val
  | _ => []
  end.

(** The bytes sent through the window, in the order of the trace. *)
Definition stream_of (evs : list event) : list byte :=
  concat (map (fun e => raw_write_data (fst e)) evs).

(** The windowed write as the specification words it: with [len] bytes
    left and the cursor at [pos], write [run = min len (W - pos)] bytes
    at [base + pos], advance the cursor by [run], wrapping to 0 on
    reaching [W], and repeat until [len] is exhausted. *)
Fixpoint window_plan_loop (fuel : nat) (buf : list byte) (len pos : Z)
  : list call :=
  match fuel with
  | O => []
  | S fuel' =>
      if 0 <? len then
        let run := Z.min len (AP130X_FW_WINDOW_SIZE - pos) in
        regmap_raw_write regmap16 (AP130X_FW_WINDOW_OFFSET + pos)
          (firstn (Z.to_nat run) buf) run
        :: window_plan_loop fuel' (skipn (Z.to_nat run) buf) (len - run)
             (if pos + run =? AP130X_FW_WINDOW_SIZE then 0 else pos + run)
      else []
  end.

Definition window_plan (buf : list byte) (len pos : Z) : list call :=
  window_plan_loop (S (S (Z.to_nat len))) buf len pos.

(** A raw write that stays inside the firmware load window. *)
Definition in_window (c : call) : Prop :=
  match c with
  | regmap_raw_write m reg val val_len =>
      m = regmap16
      /\ AP130X_FW_WINDOW_OFFSET <= reg
          < AP130X_FW_WINDOW_OFFSET + AP130X_FW_WINDOW_SIZE
      /\ 0 < val_len
      /\ reg + val_len <= AP130X_FW_WINDOW_OFFSET + AP130X_FW_WINDOW_SIZE
      /\ (length val <= Z.to_nat val_len)%nat
  | _ => False
  end.

(** A stretch of a run, from [d] to [d']: the trace continues, with
    raw writes [rc] carrying the bytes [st]. *)
Definition seg (d d' : ap130x_device) (rc : list call) (st : list byte)
  : Prop :=
  extends d d'
  /\ raw_calls (emitted d d') = rc
  /\ stream_of (emitted d d') = st.

Definition not_raw (e : event) : Prop := is_raw_write (fst e) = false.

(** An event that, if it is a raw write, stays inside the window. *)
Definition raw_in_window (e : event) : Prop :=
  is_raw_write (fst e) = true -> in_window (fst e).

(** Calls to the register bus, with the sleeps between them. *)
Definition is_bus_call (c : call) : bool :=
  match c with
  | regmap_write _ _ _ | regmap_read _ _ | regmap_raw_write _ _ _ _
  | usleep_range _ _ | msleep _ => true
  | _ => false
  end.

(** Calls to the power-control collaborators, with their delays. *)
Definition is_power_call (c : call) : bool :=
  match c with
  | gpiod_set_value_cansleep _ _ | regulator_enable _ | regulator_disable _
  | regulator_bulk_disable _ | clk_prepare_enable | clk_disable_unprepare
  | usleep_range _ _ => true
  | _ => false
  end.

Definition is_release (c : call) : bool :=
  match c with
  | release_firmware => true
  | _ => false
  end.

Definition not_release (e : event) : Prop := is_release (fst e) = false.

(** One call of [ap130x_power_on] enables the first ISP supply once. *)
Definition is_power_on (c : call) : bool :=
  match c with
  | regulator_enable (isp_supply O) => true
  | _ => false
  end.

(** One call of [ap130x_power_off] asserts the reset line once. *)
Definition is_power_off (c : call) : bool :=
  match c with
  | gpiod_set_value_cansleep reset_gpio 1 => true
  | _ => false
  end.

Definition is_crc_read (c : call) : bool :=
  match c with
  | regmap_read regmap16 reg => reg =? AP130X_REG_ADDR AP130X_SIP_CRC
  | _ => false
  end.

(** Events that are not writes to the stall register. *)
Definition not_sys_start (e : event) : Prop :=
  is_sys_start_write (fst e) = false.

(** The two ways a computation of the boot sequencer ends: with 0 and
    the image still held, or with an error right after the release of
    the image, which then is the last event. *)
Definition boot_exit (d : ap130x_device) (res : ap130x_device * Z) : Prop :=
  (snd res = 0
   /\ exists evs, trace (fst res) = trace d ++ evs /\ Forall not_release evs)
  \/ (snd res <> 0
      /\ exists evs rsp,
           trace (fst res) = trace d ++ evs ++ [(release_firmware, rsp)]
           /\ Forall not_release evs).

Definition not_crc_read (e : event) : Prop := is_crc_read (fst e) = false.

(** The register an access finally goes to. *)
Definition target_reg (reg : Z) : Z :=
  if AP130X_REG_PAGE reg =? 0 then reg else adv_reg reg.

(** The access is not to the page-select register itself. *)
Definition not_page_select_reg (reg : Z) : bool :=
  negb ((AP130X_REG_SIZE (target_reg reg) =? 4)
        && (AP130X_REG_ADDR (target_reg reg)
            =? AP130X_REG_ADDR AP130X_ADVANCED_BASE)).

(** A register access through the transport. *)
Inductive access : Type :=
| Read (reg : Z)
| Write (reg val : Z) (err : option Z).

Definition access_reg (a : access) : Z :=
  match a with
  | Read reg => reg
  | Write reg _ _ => reg
  end.

Definition access_latched (a : access) : bool :=
  match a with
  | Read _ => false
  | Write _ _ err => err_latched err
  end.

Definition do_access (env : oracle) (a : access) : M Z :=
  match a with
  | Read reg => rv <- ap130x_read env reg ;; ret (fst rv)
  | Write reg val err => w <- ap130x_write env reg val err ;; ret (fst w)
  end.

(** * Concrete devices and environments *)

Definition resp_ok (v : Z) : resp := mk_resp Ok v [].
Definition resp_err (e : positive) : resp := mk_resp (Err e) 0 [].

(** A freshly probed device with one AR0144 sensor: page cache empty,
    not streaming, no firmware yet, the controls at their defaults. *)
Definition dev0 : ap130x_device :=
  mk_device 0 false None true 0x10 (Some [100; 100; 0]) [3%nat; O]
    1280 800 0x50 1 2
    [(V4L2_CID_BRIGHTNESS, 0x100); (V4L2_CID_CONTRAST, 0x100);
     (V4L2_CID_SATURATION, 0x1000); (V4L2_CID_GAMMA, 0x1000);
     (V4L2_CID_EXPOSURE, 0xC); (V4L2_CID_GAIN, 0x100);
     (V4L2_CID_POWER_LINE_FREQUENCY, 3); (V4L2_CID_COLORFX, 0);
     (V4L2_CID_ZOOM_ABSOLUTE, 0x100);
     (V4L2_CID_AUTO_N_PRESET_WHITE_BALANCE, 1);
     (V4L2_CID_EXPOSURE_METERING, 1); (V4L2_CID_SCENE_MODE, 0)]
    [].

(** Everything succeeds: the firmware loader hands out [blob], the chip
    identifies itself, every other register reads 0 (so the DMA engine
    is always idle). *)
Definition env_ok (blob : list byte) : oracle :=
  fun _ c =>
    match c with
    | request_firmware => mk_resp Ok 0 blob
    | regmap_read regmap16 reg =>
        resp_ok (if reg =? AP130X_REG_ADDR AP130X_CHIP_VERSION
                 then AP130X_CHIP_ID else 0)
    | _ => resp_ok 0
    end.

(** As [env_ok], but every page-select write fails with [-EIO]. *)
Definition env_page_select_fails : oracle :=
  fun tr c =>
    match c with
    | regmap_write regmap32 reg _ =>
        if reg =? AP130X_REG_ADDR AP130X_ADVANCED_BASE
        then resp_err 5 else resp_ok 0
    | _ => env_ok [] tr c
    end.

(** A small firmware image: CRC 0x1234, PLL-init segment of 2 bytes,
    6 bytes of bootdata. *)
Definition fw_small : list byte :=
  [x34; x12; x00; x00;  x00; x00; x00; x00;
   x02; x00; x00; x00;  x06; x00; x00; x00;
   x01; x02; x03; x04; x05; x06].

(** The image of the scenario: PLL-init segment of 100 bytes, 10000
    bytes of bootdata. *)
Definition fw_scenario : list byte :=
  [x34; x12; x00; x00;  x00; x00; x00; x00;
   x64; x00; x00; x00;  x10; x27; x00; x00]
  ++ repeat xa5 (Z.to_nat 10000).

Definition count_reads (reg : Z) (tr : list event) : nat :=
  length (filter (fun e => match fst e with
                           | regmap_read regmap16 a => a =? reg
                           | _ => false
                           end) tr).

(** As [env_ok], but the CRC register [AP130X_SIP_CRC] holds a wrong
    value the first [n] times it is read, and the CRC of the image
    afterwards. *)
Definition env_crc (n : nat) (blob : list byte) : oracle :=
  fun tr c =>
    match c with
    | regmap_read regmap16 reg =>
        if reg =? AP130X_REG_ADDR AP130X_SIP_CRC then
          if (count_reads reg tr <? n)%nat
          then resp_ok (Z.lxor (fw_hdr_crc blob) 0xffff)
          else resp_ok (fw_hdr_crc blob)
        else env_ok blob tr c
    | _ => env_ok blob tr c
    end.

Definition count_writes32 (reg : Z) (tr : list event) : nat :=
  length (filter (fun e => match fst e with
                           | regmap_write regmap32 a _ => a =? reg
                           | _ => false
                           end) tr).

(** As [env_ok], but the first write to the advanced register window
    (32-bit map, [AP130X_REG_ADV_START]) fails with [-EAGAIN]. *)
Definition env_eagain_once (blob : list byte) : oracle :=
  fun tr c =>
    match c with
    | regmap_write regmap32 reg _ =>
        if (reg =? AP130X_REG_ADV_START)
           && (count_writes32 AP130X_REG_ADV_START tr =? O)%nat
        then resp_err 11 else resp_ok 0
    | _ => env_ok blob tr c
    end.

(** As [env_ok], but the scratch register [AP130X_DMA_DST] reads [w]. *)
Definition env_scratch (w : Z) : oracle :=
  fun tr c =>
    match c with
    | regmap_read regmap32 reg =>
        if reg =? AP130X_REG_ADDR AP130X_DMA_DST
        then resp_ok w else resp_ok 0
    | _ => env_ok [] tr c
    end.

(** As [env_ok], but the revision register cannot be read ([-EIO]). *)
Definition env_rev_fails (blob : list byte) : oracle :=
  fun tr c =>
    match c with
    | regmap_read regmap16 reg =>
        if reg =? AP130X_REG_ADDR AP130X_CHIP_REV
        then resp_err 5 else env_ok blob tr c
    | _ => env_ok blob tr c
    end.

(** As [env_ok], but the raw write number [n] (from 0) fails ([-EIO]). *)
Definition env_raw_fails (n : nat) (blob : list byte) : oracle :=
  fun tr c =>
    match c with
    | regmap_raw_write _ _ _ _ =>
        if (length (filter (fun e => is_raw_write (fst e)) tr) =? n)%nat
        then resp_err 5 else resp_ok 0
    | _ => env_ok blob tr c
    end.

(** Power rails, read off the trace: a supply is off when it has been
    disabled as often as it has been enabled with success. *)
Definition supply_eqb (a b : supply) : bool :=
  match a, b with
  | isp_supply i, isp_supply j => Nat.eqb i j
  | sensor_supply s i, sensor_supply t j => Nat.eqb s t && Nat.eqb i j
  | _, _ => false
  end.

Definition status_ok (r : resp) : bool :=
  match r_status r with
  | Ok => true
  | Err _ => false
  end.

Definition enables (s : supply) (tr : list event) : nat :=
  length (filter (fun e => match fst e with
                           | regulator_enable s' =>
                               supply_eqb s s' && status_ok (snd e)
                           | _ => false
                           end) tr).

Definition disables (s : supply) (tr : list event) : nat :=
  length (filter (fun e => match fst e with
                           | regulator_disable s' => supply_eqb s s'
                           | regulator_bulk_disable ss =>
                               existsb (supply_eqb s) ss
                           | _ => false
                           end) tr).

Definition clock_enables (tr : list event) : nat :=
  length (filter (fun e => match fst e with
                           | clk_prepare_enable => status_ok (snd e)
                           | _ => false
                           end) tr).

Definition clock_disables (tr : list event) : nat :=
  length (filter (fun e => match fst e with
                           | clk_disable_unprepare => true
                           | _ => false
                           end) tr).

(** The supplies of [dev0]: three for the ISP, three for sensor 0. *)
Definition dev0_supplies : list supply :=
  isp_supplies ++ sensor_supplies 0 3.

Definition rails_off (tr : list event) : bool :=
  forallb (fun s => Nat.eqb (enables s tr) (disables s tr)) dev0_supplies
  && Nat.eqb (clock_enables tr) (clock_disables tr).

(** * The rest of the driver: vocabulary and further functions *)

(** ** Transport, DMA wait and the debugfs attributes *)

Definition is_dma_ctrl_read (c : call) : bool :=
  match c with
  | regmap_read regmap16 reg => reg =? AP130X_REG_ADDR AP130X_DMA_CTRL
  | _ => false
  end.

Definition is_dma_poll_sleep (c : call) : bool :=
  match c with
  | usleep_range lo hi => (lo =? 1000) && (hi =? 1500)
  | _ => false
  end.

Definition dma_poll_event (e : event) : Prop :=
  is_dma_ctrl_read (fst e) = true \/ is_dma_poll_sleep (fst e) = true.

Definition dma_always_busy (env : oracle) : Prop :=
  forall tr,
    let rsp := env tr (regmap_read regmap16 (AP130X_REG_ADDR AP130X_DMA_CTRL)) in
    r_status rsp = Ok
    /\ Z.land (wrap32 (r_val rsp)) AP130X_DMA_CTRL_MODE_MASK
       <> AP130X_DMA_CTRL_MODE_IDLE.

Definition env_dma_busy : oracle :=
  fun _ c =>
    match c with
    | regmap_read regmap16 _ => resp_ok AP130X_DMA_CTRL_MODE_COPY
    | _ => resp_ok 0
    end.

(** The four register writes [ap130x_configure] starts with. *)
Definition configure_writes (d : ap130x_device) : list call :=
  [regmap_write regmap16 (AP130X_REG_ADDR AP130X_PREVIEW_HINF_CTRL)
     (Z.lor AP130X_PREVIEW_HINF_CTRL_SPOOF
        (AP130X_PREVIEW_HINF_CTRL_MIPI_LANES (num_data_lanes d)));
   regmap_write regmap16 (AP130X_REG_ADDR AP130X_PREVIEW_WIDTH)
     (format_width d / width_factor d);
   regmap_write regmap16 (AP130X_REG_ADDR AP130X_PREVIEW_HEIGHT)
     (format_height d);
   regmap_write regmap16 (AP130X_REG_ADDR AP130X_PREVIEW_OUT_FMT)
     (format_out_fmt d)].

Definition answered_ok (e : event) : Prop := r_status (snd e) = Ok.

(** The slot of a sticky write after a write that ended with [r]. *)
Definition slot_after (err : option Z) (r : Z) : option Z :=
  match err with
  | Some _ => Some r
  | None => None
  end.

(** ** Debugfs access to the sensor bus

    The [debugfs] member of the device: the address latched by the
    [sipm_addr] attribute. *)
Record ap130x_debugfs : Type := mk_debugfs {
  sipm_addr : Z                       (* u32 sipm_addr *)
}.

(** The mask [~0x8700ffff] of [ap130x_sipm_addr_set]: the constant is an
    [unsigned int], so is its complement, which is zero-extended for the
    test against the 64-bit value. *)
Definition sipm_addr_reserved_bits : Z := wrap32 (Z.lnot 0x8700ffff).

Definition ap130x_sipm_addr_get (dbg : ap130x_debugfs) : Z * Z :=
  (0, sipm_addr dbg).

(** [val] is the [u64] written to the attribute. *)
Definition ap130x_sipm_addr_set (val : Z) (dbg : ap130x_debugfs)
  : ap130x_debugfs * Z :=
  if negb (Z.land val sipm_addr_reserved_bits =? 0) then (dbg, - EINVAL)
  else
    let size := Z.land (Z.shiftr val 24) 7 in
    if (size =? 1) || (size =? 2) then (mk_debugfs (wrap32 val), 0)
    else (dbg, - EINVAL).

Section Debugfs.

Variable env : oracle.

(** The value read is stored only when the read succeeds. *)
Definition ap130x_sipm_data_get (dbg : ap130x_debugfs) : M (Z * option Z) :=
  let addr := sipm_addr dbg in
  if addr =? 0 then ret (- EINVAL, None)
  else
    rv <- ap130x_sipm_read env (Z.shiftr addr 30)
            (Z.land addr (Z.lnot (BIT 31))) ;;
    let (r, value) := rv in
    if r =? 0 then ret (r, Some value) else ret (r, None).

Definition ap130x_sipm_data_set (val : Z) (dbg : ap130x_debugfs) : M Z :=
  let addr := sipm_addr dbg in
  if addr =? 0 then ret (- EINVAL)
  else
    ap130x_sipm_write env (Z.shiftr addr 30)
      (Z.land addr (Z.lnot (BIT 31))) (wrap32 val).

End Debugfs.


(** As [env_ok], but writes to the 16-bit register at [addr] fail with
    [-EIO]. *)
Definition env_write16_fails (addr : Z) : oracle :=
  fun tr c =>
    match c with
    | regmap_write regmap16 reg _ =>
        if reg =? addr then resp_err 5 else resp_ok 0
    | _ => env_ok [] tr c
    end.

(** ** Power sequences *)

(** The calls of a [standby_pulse]. *)
Definition standby_calls (sb : bool) (v : Z) : list call :=
  if sb then [gpiod_set_value_cansleep standby_gpio v; usleep_range 200 1000]
  else [].

(** The calls of step 2 of [ap130x_power_on]: each supply is enabled
    and given its settling time. *)
Fixpoint supplies_calls (i : nat) (delays : list Z) : list call :=
  match delays with
  | [] => []
  | delay :: rest =>
      regulator_enable (isp_supply i) :: usleep_range delay (delay + 100)
      :: supplies_calls (S i) rest
  end.

(** The power-up sequence of the ISP, as the comments of
    [ap130x_power_on] number it. *)
Definition power_on_calls (sb : bool) : list call :=
  standby_calls sb 1
  ++ supplies_calls O ap130x_supplies
  ++ standby_calls sb 0
  ++ [clk_prepare_enable;
      gpiod_set_value_cansleep reset_gpio 0;
      usleep_range 10000 11000].

Definition is_enable (c : call) : bool :=
  match c with
  | regulator_enable _ | clk_prepare_enable => true
  | _ => false
  end.

Definition is_disable (c : call) : bool :=
  match c with
  | regulator_disable _ | regulator_bulk_disable _ | clk_disable_unprepare =>
      true
  | _ => false
  end.

(** Every enable among the events was answered with success. *)
Definition enables_ok (evs : list event) : Prop :=
  Forall (fun e => is_enable (fst e) = true -> answered_ok e) evs.

(** The events end with an enable that failed with [r]; the enables
    before it succeeded. *)
Definition stops_at_failed_enable (evs : list event) (r : Z) : Prop :=
  exists evs0 c rsp,
    evs = evs0 ++ [(c, rsp)]
    /\ is_enable c = true
    /\ r = errno (r_status rsp) /\ r < 0
    /\ enables_ok evs0.

(** As [env_ok], but enabling the ISP supply [i] fails with [-EIO]. *)
Definition env_supply_fails (i : nat) : oracle :=
  fun tr c =>
    match c with
    | regulator_enable (isp_supply j) =>
        if Nat.eqb i j then resp_err 5 else resp_ok 0
    | _ => env_ok [] tr c
    end.

(** Supply [s] is one of the supplies [lo .. hi) of sensor [i]. *)
Definition sensor_rail (i lo hi : nat) (s : supply) : bool :=
  match s with
  | sensor_supply a b => Nat.eqb a i && Nat.leb lo b && Nat.ltb b hi
  | isp_supply _ => false
  end.

Definition count_if (b : bool) : nat := if b then 1%nat else O.

(** How many of the sensors below [i] own the supply [s] (0 or 1):
    sensor [a] owns its supplies [0 .. nums[a]). *)
Fixpoint rails_below (nums : list nat) (i : nat) (s : supply) : nat :=
  match i with
  | O => O
  | S i' =>
      (count_if (sensor_rail i' 0 (nth i' nums O) s)
       + rails_below nums i' s)%nat
  end.

(** As [env_ok], but enabling supply [j] of sensor [i] fails ([-EIO]). *)
Definition env_sensor_supply_fails (i j : nat) : oracle :=
  fun tr c =>
    match c with
    | regulator_enable (sensor_supply a b) =>
        if Nat.eqb a i && Nat.eqb b j then resp_err 5 else resp_ok 0
    | _ => env_ok [] tr c
    end.

(** A device with two sensors of three supplies each. *)
Definition dev_dual : ap130x_device :=
  mk_device 0 false None true 0x10 (Some [100; 100; 0]) [3%nat; 3%nat]
    2560 800 0x50 2 2 [] [].

(** ** Stall sequence and call counts *)

(** The calls of [ap130x_stall] with [stall = true] when everything
    succeeds; [cached] tells that the page of the interrupt enable
    register is the cached page. *)
Definition stall_calls (cached : bool) : list call :=
  [regmap_write regmap16 (AP130X_REG_ADDR AP130X_SYS_START)
     (Z.lor AP130X_SYS_START_PLL_LOCK AP130X_SYS_START_STALL_MODE_DISABLED);
   regmap_write regmap16 (AP130X_REG_ADDR AP130X_SYS_START)
     (Z.lor (Z.lor AP130X_SYS_START_PLL_LOCK AP130X_SYS_START_STALL_EN)
        AP130X_SYS_START_STALL_MODE_DISABLED);
   msleep 200]
  ++ (if cached then []
      else [page_select_call (AP130X_REG_PAGE AP130X_ADV_IRQ_SYS_INTE)])
  ++ [regmap_write regmap32 AP130X_REG_ADV_START
        (Z.lor AP130X_ADV_IRQ_SYS_INTE_SIPM
           AP130X_ADV_IRQ_SYS_INTE_SIPS_FIFO_WRITE)].

Definition is_regmap_write (c : call) : bool :=
  match c with
  | regmap_write _ _ _ => true
  | _ => false
  end.

(** Every register write among the events was answered with success. *)
Definition writes_ok (evs : list event) : Prop :=
  Forall (fun e => is_regmap_write (fst e) = true -> answered_ok e) evs.

(** The events end with a register write that failed with [r]; the
    register writes before it succeeded. *)
Definition stops_at_failed_write (evs : list event) (r : Z) : Prop :=
  exists evs0 c rsp,
    evs = evs0 ++ [(c, rsp)]
    /\ is_regmap_write c = true
    /\ r = errno (r_status rsp) /\ r < 0
    /\ writes_ok evs0.

(** A computation whose trace grows by at most [n] calls that satisfy
    [p]. *)
Definition at_most {A : Type} (p : call -> bool) (n : nat) (m : M A) : Prop :=
  forall d, exists evs,
    trace (fst (m d)) = trace d ++ evs /\ (count_calls p evs <= n)%nat.

Definition quiet (p : call -> bool) (e : event) : Prop := p (fst e) = false.

(** ** The control table

    [V4L2_CID_LINK_FREQ], which [ap130x_s_ctrl] does not handle. *)
Definition V4L2_CID_LINK_FREQ : v4l2_cid := V4L2_CID_other 0x009f0901.

(** The fields of [struct v4l2_ctrl_config] the table sets. *)
Record v4l2_ctrl_config : Type := mk_ctrl_config {
  cfg_id : v4l2_cid;
  cfg_min : Z;
  cfg_max : Z;
  cfg_step : Z;
  cfg_def : Z;
  cfg_menu_skip_mask : Z
}.

Definition ap130x_link_freqs : list Z := [445000000].

Definition ap130x_ctrls : list v4l2_ctrl_config :=
  [mk_ctrl_config V4L2_CID_AUTO_N_PRESET_WHITE_BALANCE 0 9 0 1 0;
   mk_ctrl_config V4L2_CID_GAMMA 0x0100 0xFFFF 0x100 0x1000 0;
   mk_ctrl_config V4L2_CID_CONTRAST 0x100 0xFFFF 0x100 0x100 0;
   mk_ctrl_config V4L2_CID_BRIGHTNESS 0x100 0xFFFF 0x100 0x100 0;
   mk_ctrl_config V4L2_CID_SATURATION 0x0100 0xFFFF 0x100 0x1000 0;
   mk_ctrl_config V4L2_CID_EXPOSURE 0x0 0xC 1 0xC 0;
   mk_ctrl_config V4L2_CID_EXPOSURE_METERING 0x0 0x3 1 0x1 0;
   mk_ctrl_config V4L2_CID_GAIN 0x0100 0xFFFF 0x100 0x100 0;
   mk_ctrl_config V4L2_CID_ZOOM_ABSOLUTE 0x0100 0x1000 1 0x0100 0;
   mk_ctrl_config V4L2_CID_COLORFX 0 15 0 0
     (Z.lor (Z.lor (Z.lor (Z.lor (BIT 15) (BIT 12)) (BIT 11)) (BIT 10)) (BIT 9));
   mk_ctrl_config V4L2_CID_SCENE_MODE 0 13 0 0 (Z.lor (BIT 5) (BIT 4));
   mk_ctrl_config V4L2_CID_POWER_LINE_FREQUENCY 0 3 0 3 0;
   mk_ctrl_config V4L2_CID_LINK_FREQ 0
     (Z.of_nat (length ap130x_link_freqs) - 1) 0 0 0].

(** The table the setter of a control indexes with the control value. *)
Definition ctrl_table (id : v4l2_cid) : option (list Z) :=
  match id with
  | V4L2_CID_AUTO_N_PRESET_WHITE_BALANCE => Some ap130x_wb_values
  | V4L2_CID_COLORFX => Some ap130x_sfx_values
  | V4L2_CID_SCENE_MODE => Some ap130x_scene_mode_values
  | V4L2_CID_POWER_LINE_FREQUENCY => Some ap130x_flicker_values
  | _ => None
  end.

(** The register a control is written to. *)
Definition ctrl_reg (id : v4l2_cid) : option Z :=
  match id with
  | V4L2_CID_AUTO_N_PRESET_WHITE_BALANCE => Some AP130X_AWB_CTRL
  | V4L2_CID_EXPOSURE => Some AP130X_AE_CTRL
  | V4L2_CID_EXPOSURE_METERING => Some AP130X_AE_MET
  | V4L2_CID_GAIN => Some AP130X_AE_MANUAL_GAIN
  | V4L2_CID_GAMMA => Some AP130X_GAMMA
  | V4L2_CID_CONTRAST => Some AP130X_CONTRAST
  | V4L2_CID_BRIGHTNESS => Some AP130X_BRIGHTNESS
  | V4L2_CID_SATURATION => Some AP130X_SATURATION
  | V4L2_CID_ZOOM_ABSOLUTE => Some AP130X_DZ_TGT_FCT
  | V4L2_CID_COLORFX => Some AP130X_SFX_MODE
  | V4L2_CID_SCENE_MODE => Some AP130X_SCENE_CTRL
  | V4L2_CID_POWER_LINE_FREQUENCY => Some AP130X_FLICK_CTRL
  | V4L2_CID_other _ => None
  end.

(** An access of the 16-bit register [reg], or nothing of the bus. *)
Definition touches_only (reg : Z) (e : event) : Prop :=
  match fst e with
  | regmap_write m a _ => m = regmap16 /\ a = AP130X_REG_ADDR reg
  | regmap_read m a => m = regmap16 /\ a = AP130X_REG_ADDR reg
  | _ => False
  end.

(** As [env_ok], but the 16-bit register at [addr] reads [v]. *)
Definition env_reg16 (addr v : Z) : oracle :=
  fun tr c =>
    match c with
    | regmap_read regmap16 reg =>
        if reg =? addr then resp_ok v else resp_ok 0
    | _ => env_ok [] tr c
    end.

(** The word [ap130x_set_wb_mode] writes back for the word [v] read. *)
Definition wb_word (mode v : Z) : Z :=
  let x := Z.lor (Z.land v (Z.lnot AP130X_AWB_CTRL_MODE_MASK))
             (table_at ap130x_wb_values mode) in
  if mode =? V4L2_WHITE_BALANCE_FLASH
  then Z.lor x AP130X_AWB_CTRL_FLASH
  else Z.land x (Z.lnot AP130X_AWB_CTRL_FLASH).

Definition exposure_word (mode v : Z) : Z :=
  wrap32 (Z.lor (Z.land v (Z.lnot AP130X_AE_CTRL_MODE_MASK)) mode).

(** A read-modify-write of a 16-bit register of page 0. *)
Definition rmw_run (env : oracle) (reg : Z) (word : Z -> Z) (d : ap130x_device)
  : ap130x_device * Z :=
  let c := regmap_read regmap16 (AP130X_REG_ADDR reg) in
  let rsp := env (trace d) c in
  let d1 := with_trace (trace d ++ [(c, rsp)]) d in
  match r_status rsp with
  | Err e => (d1, Z.neg e)
  | Ok =>
      let cw := regmap_write regmap16 (AP130X_REG_ADDR reg)
                  (word (wrap32 (r_val rsp))) in
      let rw := env (trace d1) cw in
      (with_trace (trace d1 ++ [(cw, rw)]) d1, errno (r_status rw))
  end.

(** ** Formats of the pads *)

Definition AP130X_MIN_WIDTH : Z := 24.
Definition AP130X_MIN_HEIGHT : Z := 16.
Definition AP130X_MAX_WIDTH : Z := 4224.
Definition AP130X_MAX_HEIGHT : Z := 4092.

Definition AP130X_PREVIEW_OUT_FMT_FT_YUV_JFIF : Z := Z.shiftl 5 4.
Definition AP130X_PREVIEW_OUT_FMT_FST_YUV_422 : Z := Z.shiftl 0 0.
Definition AP130X_PREVIEW_OUT_FMT_FST_YUV_420 : Z := Z.shiftl 1 0.

(* Values of the kernel's user-space headers *)
Definition MEDIA_BUS_FMT_UYVY8_1X16 : Z := 0x200f.
Definition MEDIA_BUS_FMT_UYYVYY8_0_5X24 : Z := 0x2026.
Definition MEDIA_BUS_FMT_SGRBG10_1X10 : Z := 0x300a.
Definition MEDIA_BUS_FMT_SGRBG12_1X12 : Z := 0x3011.
Definition V4L2_FIELD_NONE : Z := 1.
Definition V4L2_COLORSPACE_SRGB : Z := 8.
Definition V4L2_SEL_TGT_CROP : Z := 0x0000.
Definition V4L2_SEL_TGT_CROP_DEFAULT : Z := 0x0001.
Definition V4L2_SEL_TGT_CROP_BOUNDS : Z := 0x0002.
Definition V4L2_SEL_TGT_NATIVE_SIZE : Z := 0x0003.

Inductive ap130x_pad : Type :=
| AP130X_PAD_SINK_0
| AP130X_PAD_SINK_1
| AP130X_PAD_SOURCE.

Definition pad_eqb (a b : ap130x_pad) : bool :=
  match a, b with
  | AP130X_PAD_SINK_0, AP130X_PAD_SINK_0
  | AP130X_PAD_SINK_1, AP130X_PAD_SINK_1
  | AP130X_PAD_SOURCE, AP130X_PAD_SOURCE => true
  | _, _ => false
  end.

Inductive v4l2_subdev_format_whence : Type :=
| V4L2_SUBDEV_FORMAT_TRY
| V4L2_SUBDEV_FORMAT_ACTIVE.

(** The fields of [struct v4l2_mbus_framefmt] the driver sets. *)
Record v4l2_mbus_framefmt : Type := mk_framefmt {
  fmt_width : Z;
  fmt_height : Z;
  fmt_code : Z;
  fmt_field : Z;
  fmt_colorspace : Z
}.

Record ap130x_format_info : Type := mk_format_info {
  info_code : Z;
  info_out_fmt : Z
}.

Record ap130x_format : Type := mk_format {
  format : v4l2_mbus_framefmt;
  info : ap130x_format_info
}.

Record ap130x_size : Type := mk_size {
  size_width : Z;
  size_height : Z
}.

(** [struct ap130x_sensor_info]; [si_supplies] lists the name and the
    [post_delay_us] of each supply, without the entry that ends the
    array, and is [None] for a NULL pointer. *)
Record sensor_info : Type := mk_sensor_info {
  si_model : String.string;
  si_name : String.string;
  si_i2c_addr : Z;
  si_resolution : ap130x_size;
  si_format : Z;
  si_supplies : option (list (String.string * Z))
}.

Definition supported_video_formats : list ap130x_format_info :=
  [mk_format_info MEDIA_BUS_FMT_UYVY8_1X16
     (Z.lor AP130X_PREVIEW_OUT_FMT_FT_YUV_JFIF
        AP130X_PREVIEW_OUT_FMT_FST_YUV_422);
   mk_format_info MEDIA_BUS_FMT_UYYVYY8_0_5X24
     (Z.lor AP130X_PREVIEW_OUT_FMT_FT_YUV_JFIF
        AP130X_PREVIEW_OUT_FMT_FST_YUV_420)].

Definition ap130x_sensor_info : list sensor_info :=
  [mk_sensor_info "onnn,ar0144"%string "ar0144"%string 0x10
     (mk_size 1280 800) MEDIA_BUS_FMT_SGRBG12_1X12
     (Some [("vaa"%string, 100); ("vddio"%string, 100); ("vdd"%string, 0)]);
   mk_sensor_info "onnn,ar0330"%string "ar0330"%string 0x10
     (mk_size 2304 1536) MEDIA_BUS_FMT_SGRBG12_1X12
     (Some [("vddpll"%string, 0); ("vaa"%string, 0); ("vdd"%string, 0);
            ("vddio"%string, 0)]);
   mk_sensor_info "onnn,ar1335"%string "ar1335"%string 0x36
     (mk_size 4208 3120) MEDIA_BUS_FMT_SGRBG10_1X10
     (Some [("vaa"%string, 0); ("vddio"%string, 0); ("vdd"%string, 0)])].

Definition ap130x_sensor_info_tpg : sensor_info :=
  mk_sensor_info ""%string "tpg"%string 0 (mk_size 1920 1080) 0 None.

(** An array indexed by the pads, as [formats[AP130X_PAD_MAX]]. *)
Record pad_array (A : Type) : Type := mk_pad_array {
  at_sink_0 : A;
  at_sink_1 : A;
  at_source : A
}.
Arguments mk_pad_array {A}.
Arguments at_sink_0 {A}.
Arguments at_sink_1 {A}.
Arguments at_source {A}.

Definition pad_get {A : Type} (a : pad_array A) (p : ap130x_pad) : A :=
  match p with
  | AP130X_PAD_SINK_0 => at_sink_0 a
  | AP130X_PAD_SINK_1 => at_sink_1 a
  | AP130X_PAD_SOURCE => at_source a
  end.

Definition pad_set {A : Type} (a : pad_array A) (p : ap130x_pad) (v : A)
  : pad_array A :=
  match p with
  | AP130X_PAD_SINK_0 => mk_pad_array v (at_sink_1 a) (at_source a)
  | AP130X_PAD_SINK_1 => mk_pad_array (at_sink_0 a) v (at_source a)
  | AP130X_PAD_SOURCE => mk_pad_array (at_sink_0 a) (at_sink_1 a) v
  end.

(** The part of the device the pad operations work on: the sensor
    description, the width factor and the active formats. *)
Record ap130x_pads : Type := mk_pads {
  pads_sensor_info : sensor_info;
  pads_width_factor : Z;
  pads_formats : pad_array ap130x_format
}.

(** The try formats of a [struct v4l2_subdev_state], one per pad. *)
Definition v4l2_subdev_state : Type := pad_array v4l2_mbus_framefmt.

(** [ap130x_get_pad_format] returns a pointer to a format; the model
    has the read through that pointer and the write through it.  For a
    [which] that is neither of the two values the C function returns
    NULL, which its callers dereference; the model has the two values
    only. *)
Definition ap130x_get_pad_format (ap : ap130x_pads) (state : v4l2_subdev_state)
  (pad : ap130x_pad) (which : v4l2_subdev_format_whence) : v4l2_mbus_framefmt :=
  match which with
  | V4L2_SUBDEV_FORMAT_TRY => pad_get state pad
  | V4L2_SUBDEV_FORMAT_ACTIVE => format (pad_get (pads_formats ap) pad)
  end.

Definition store_pad_format (ap : ap130x_pads) (state : v4l2_subdev_state)
  (pad : ap130x_pad) (which : v4l2_subdev_format_whence)
  (f : v4l2_mbus_framefmt) : ap130x_pads * v4l2_subdev_state :=
  match which with
  | V4L2_SUBDEV_FORMAT_TRY => (ap, pad_set state pad f)
  | V4L2_SUBDEV_FORMAT_ACTIVE =>
      (mk_pads (pads_sensor_info ap) (pads_width_factor ap)
         (pad_set (pads_formats ap) pad
            (mk_format f (info (pad_get (pads_formats ap) pad)))),
       state)
  end.

Definition store_pad_info (ap : ap130x_pads) (pad : ap130x_pad)
  (i : ap130x_format_info) : ap130x_pads :=
  mk_pads (pads_sensor_info ap) (pads_width_factor ap)
    (pad_set (pads_formats ap) pad
       (mk_format (format (pad_get (pads_formats ap) pad)) i)).

(** One iteration of the loop of [ap130x_init_cfg]. *)
Definition init_cfg_pad (which : v4l2_subdev_format_whence)
  (s : ap130x_pads * v4l2_subdev_state) (pad : ap130x_pad)
  : ap130x_pads * v4l2_subdev_state :=
  let (ap, state) := s in
  let si := pads_sensor_info ap in
  let width := size_width (si_resolution si) in
  let height := size_height (si_resolution si) in
  let f :=
    if pad_eqb pad AP130X_PAD_SOURCE then
      mk_framefmt (wrap32 (width * pads_width_factor ap)) height
        (info_code (info (pad_get (pads_formats ap) pad)))
        V4L2_FIELD_NONE V4L2_COLORSPACE_SRGB
    else
      mk_framefmt width height (si_format si)
        V4L2_FIELD_NONE V4L2_COLORSPACE_SRGB in
  store_pad_format ap state pad which f.

(** [has_state] tells whether the [state] argument is non-NULL. *)
Definition ap130x_init_cfg (ap : ap130x_pads) (state : v4l2_subdev_state)
  (has_state : bool) : (ap130x_pads * v4l2_subdev_state) * Z :=
  let which := if has_state then V4L2_SUBDEV_FORMAT_TRY
               else V4L2_SUBDEV_FORMAT_ACTIVE in
  (fold_left (init_cfg_pad which)
     [AP130X_PAD_SINK_0; AP130X_PAD_SINK_1; AP130X_PAD_SOURCE] (ap, state),
   0).

Definition ap130x_enum_mbus_code (ap : ap130x_pads) (pad : ap130x_pad)
  (index : Z) : Z * option Z :=
  if negb (pad_eqb pad AP130X_PAD_SOURCE) then
    if negb (index =? 0) then (- EINVAL, None)
    else (0, Some (si_format (pads_sensor_info ap)))
  else
    match nth_error supported_video_formats (Z.to_nat index) with
    | None => (- EINVAL, None)
    | Some i => (0, Some (info_code i))
    end.

(** The sizes reported: minimum width and height, maximum width and
    height. *)
Definition frame_size_of (si : sensor_info) : Z * Z * Z * Z :=
  (size_width (si_resolution si), size_height (si_resolution si),
   size_width (si_resolution si), size_height (si_resolution si)).

Definition ap130x_enum_frame_size (ap : ap130x_pads) (pad : ap130x_pad)
  (index code : Z) : Z * option (Z * Z * Z * Z) :=
  if negb (index =? 0) then (- EINVAL, None)
  else if negb (pad_eqb pad AP130X_PAD_SOURCE) then
    if negb (code =? si_format (pads_sensor_info ap)) then (- EINVAL, None)
    else (0, Some (frame_size_of (pads_sensor_info ap)))
  else
    match find (fun i => info_code i =? code) supported_video_formats with
    | None => (- EINVAL, None)
    | Some _ => (0, Some (frame_size_of (pads_sensor_info ap)))
    end.

Definition ap130x_get_fmt (ap : ap130x_pads) (state : v4l2_subdev_state)
  (pad : ap130x_pad) (which : v4l2_subdev_format_whence)
  : Z * v4l2_mbus_framefmt :=
  (0, ap130x_get_pad_format ap state pad which).

(** The kernel's [ALIGN_DOWN] and [clamp] on [unsigned int]. *)
Definition ALIGN_DOWN (x a : Z) : Z :=
  let mask := wrap32 (a - 1) in
  Z.land (wrap32 (wrap32 (x - mask) + mask)) (wrap32 (Z.lnot mask)).

Definition clamp (val lo hi : Z) : Z := Z.min (Z.max val lo) hi.

Definition ap130x_set_fmt (ap : ap130x_pads) (state : v4l2_subdev_state)
  (pad : ap130x_pad) (which : v4l2_subdev_format_whence)
  (fmt : v4l2_mbus_framefmt)
  : (ap130x_pads * v4l2_subdev_state) * (Z * v4l2_mbus_framefmt) :=
  if negb (pad_eqb pad AP130X_PAD_SOURCE) then
    ((ap, state), ap130x_get_fmt ap state pad which)
  else
    let i :=
      match find (fun i => info_code i =? fmt_code fmt)
              supported_video_formats with
      | Some i => i
      | None => nth 0 supported_video_formats (mk_format_info 0 0)
      end in
    let factor := pads_width_factor ap in
    let width :=
      clamp (ALIGN_DOWN (fmt_width fmt) (wrap32 (4 * factor)))
        (wrap32 (AP130X_MIN_WIDTH * factor)) AP130X_MAX_WIDTH in
    let height :=
      clamp (ALIGN_DOWN (fmt_height fmt) 2)
        AP130X_MIN_HEIGHT AP130X_MAX_HEIGHT in
    let old := ap130x_get_pad_format ap state pad which in
    let new := mk_framefmt width height (info_code i)
                 (fmt_field old) (fmt_colorspace old) in
    let (ap1, state1) := store_pad_format ap state pad which new in
    let ap2 := match which with
               | V4L2_SUBDEV_FORMAT_ACTIVE => store_pad_info ap1 pad i
               | V4L2_SUBDEV_FORMAT_TRY => ap1
               end in
    ((ap2, state1), (0, new)).

(** The rectangle reported: left, top, width, height. *)
Definition ap130x_get_selection (ap : ap130x_pads) (target : Z)
  : Z * option (Z * Z * Z * Z) :=
  if (target =? V4L2_SEL_TGT_NATIVE_SIZE)
     || (target =? V4L2_SEL_TGT_CROP_BOUNDS)
     || (target =? V4L2_SEL_TGT_CROP_DEFAULT)
     || (target =? V4L2_SEL_TGT_CROP)
  then
    let res := si_resolution (pads_sensor_info ap) in
    (0, Some (0, 0, wrap32 (size_width res * pads_width_factor ap),
              size_height res))
  else (- EINVAL, None).

(** The pad operations of the sensor sub-devices. *)
Definition ap130x_sensor_enum_mbus_code (si : sensor_info) (index : Z)
  : Z * option Z :=
  if negb (index =? 0) then (- EINVAL, None)
  else (0, Some (si_format si)).

Definition ap130x_sensor_enum_frame_size (si : sensor_info) (index code : Z)
  : Z * option (Z * Z * Z * Z) :=
  if negb (index =? 0) then (- EINVAL, None)
  else if negb (code =? si_format si) then (- EINVAL, None)
  else (0, Some (frame_size_of si)).

Definition ap130x_sensor_get_fmt (si : sensor_info) : Z * v4l2_mbus_framefmt :=
  (0, mk_framefmt (size_width (si_resolution si))
        (size_height (si_resolution si)) (si_format si)
        V4L2_FIELD_NONE V4L2_COLORSPACE_SRGB).

(** A format the source pad accepts as it is. *)
Definition source_format_ok (factor : Z) (f : v4l2_mbus_framefmt) : Prop :=
  AP130X_MIN_WIDTH * factor <= fmt_width f <= AP130X_MAX_WIDTH
  /\ fmt_width f mod (4 * factor) = 0
  /\ AP130X_MIN_HEIGHT <= fmt_height f <= AP130X_MAX_HEIGHT
  /\ fmt_height f mod 2 = 0
  /\ (fmt_code f = MEDIA_BUS_FMT_UYVY8_1X16
      \/ fmt_code f = MEDIA_BUS_FMT_UYYVYY8_0_5X24).

(** The formats of the source pad as [ap130x_configure] reads them. *)
Definition with_pads (ap : ap130x_pads) (d : ap130x_device) : ap130x_device :=
  mk_device (reg_page d) (streaming d) (fw d) (has_standby_gpio d)
    (sensor_info_i2c_addr d) (sensor_info_supplies d) (sensors_num_supplies d)
    (fmt_width (format (pad_get (pads_formats ap) AP130X_PAD_SOURCE)))
    (fmt_height (format (pad_get (pads_formats ap) AP130X_PAD_SOURCE)))
    (info_out_fmt (info (pad_get (pads_formats ap) AP130X_PAD_SOURCE)))
    (pads_width_factor ap)
    (num_data_lanes d) (ctrls d) (trace d).

(** A request of [VIDIOC_SUBDEV_S_FMT] and a sequence of them. *)
Record v4l2_subdev_format : Type := mk_subdev_format {
  sf_which : v4l2_subdev_format_whence;
  sf_pad : ap130x_pad;
  sf_format : v4l2_mbus_framefmt
}.

Definition set_fmt_all (reqs : list v4l2_subdev_format)
  (s : ap130x_pads * v4l2_subdev_state) : ap130x_pads * v4l2_subdev_state :=
  fold_left
    (fun s r =>
       fst (ap130x_set_fmt (fst s) (snd s) (sf_pad r) (sf_which r)
              (sf_format r)))
    reqs s.

(** Pads with two AR0144 sensors, as [kzalloc] and the loop of
    [ap130x_config_v4l2] leave them. *)
Definition pads0 : ap130x_pads :=
  let z := mk_format (mk_framefmt 0 0 0 0 0)
             (nth 0 supported_video_formats (mk_format_info 0 0)) in
  mk_pads (nth 0 ap130x_sensor_info ap130x_sensor_info_tpg) 2
    (mk_pad_array z z z).

Definition state0 : v4l2_subdev_state :=
  let z := mk_framefmt 0 0 0 0 0 in mk_pad_array z z z.

(** The format part of [ap130x_config_v4l2]: every pad starts with the
    first supported format information, then [ap130x_init_cfg] runs
    without a state. *)
Definition config_v4l2_formats (ap : ap130x_pads) (state : v4l2_subdev_state)
  : (ap130x_pads * v4l2_subdev_state) * Z :=
  let first := nth 0 supported_video_formats (mk_format_info 0 0) in
  ap130x_init_cfg
    (fold_left (fun a p => store_pad_info a p first)
       [AP130X_PAD_SINK_0; AP130X_PAD_SINK_1; AP130X_PAD_SOURCE] ap)
    state false.

(** What holds of the active formats once they are initialised. *)
Definition active_inv (si : sensor_info) (factor : Z) (ap : ap130x_pads)
  : Prop :=
  pads_sensor_info ap = si
  /\ pads_width_factor ap = factor
  /\ format (at_sink_0 (pads_formats ap)) = snd (ap130x_sensor_get_fmt si)
  /\ format (at_sink_1 (pads_formats ap)) = snd (ap130x_sensor_get_fmt si)
  /\ fmt_field (format (at_source (pads_formats ap))) = V4L2_FIELD_NONE
  /\ fmt_colorspace (format (at_source (pads_formats ap)))
     = V4L2_COLORSPACE_SRGB
  /\ fmt_code (format (at_source (pads_formats ap)))
     = info_code (info (at_source (pads_formats ap)))
  /\ In (info (at_source (pads_formats ap))) supported_video_formats.

(** What holds of the try formats once they are initialised. *)
Definition try_inv (si : sensor_info) (st : v4l2_subdev_state) : Prop :=
  at_sink_0 st = snd (ap130x_sensor_get_fmt si)
  /\ at_sink_1 st = snd (ap130x_sensor_get_fmt si)
  /\ fmt_field (at_source st) = V4L2_FIELD_NONE
  /\ fmt_colorspace (at_source st) = V4L2_COLORSPACE_SRGB.

(** The format information [ap130x_set_fmt] selects for a code. *)
Definition info_for (code : Z) : ap130x_format_info :=
  if code =? MEDIA_BUS_FMT_UYYVYY8_0_5X24
  then mk_format_info MEDIA_BUS_FMT_UYYVYY8_0_5X24 0x51
  else mk_format_info MEDIA_BUS_FMT_UYVY8_1X16 0x50.

(** A request no pad accepts as it is. *)
Definition fmt_request : v4l2_mbus_framefmt :=
  mk_framefmt 1925 1081 MEDIA_BUS_FMT_SGRBG12_1X12 0 0.

(** * Footprints and frames *)

Section Footprint.

Variable env : oracle.

Lemma emitted_app (d d' : ap130x_device) (evs : list event) :
  trace d' = trace d ++ evs -> emitted d d' = evs.
Proof.
  unfold emitted. intros ->.
  induction (trace d) as [|e t IH]; simpl; auto.
Qed.

Lemma emitted_refl (d : ap130x_device) : emitted d d = [].
Proof. apply emitted_app. now rewrite app_nil_r. Qed.

Lemma emits_ret {A : Type} (P : event -> Prop) (a : A) : emits P (ret a).
Proof. intros d. exists []. simpl. rewrite app_nil_r. auto. Qed.

Lemma emits_gets {A : Type} (P : event -> Prop) (f : ap130x_device -> A) :
  emits P (gets f).
Proof. intros d. exists []. simpl. rewrite app_nil_r. auto. Qed.

Lemma emits_bind {A B : Type} (P : event -> Prop) (m : M A) (k : A -> M B) :
  emits P m -> (forall a, emits P (k a)) -> emits P (bind m k).
Proof.
  intros Hm Hk d. unfold bind.
  destruct (Hm d) as (e1 & E1 & F1).
  destruct (m d) as [d1 a] eqn:Em. simpl in E1.
  destruct (Hk a d1) as (e2 & E2 & F2).
  exists (e1 ++ e2). split.
  - rewrite E2, E1. now rewrite app_assoc.
  - apply Forall_app. auto.
Qed.

(** [bind] when the continuation relies on a property of the result. *)
Lemma emits_bind_post {A B : Type} (P : event -> Prop) (Q : A -> Prop)
  (m : M A) (k : A -> M B) :
  emits P m -> (forall d, Q (snd (m d))) ->
  (forall a, Q a -> emits P (k a)) -> emits P (bind m k).
Proof.
  intros Hm HQ Hk d. unfold bind.
  destruct (Hm d) as (e1 & E1 & F1). specialize (HQ d).
  destruct (m d) as [d1 a] eqn:Em. cbn [fst snd] in *.
  destruct (Hk a HQ d1) as (e2 & E2 & F2).
  exists (e1 ++ e2). split.
  - rewrite E2, E1. now rewrite app_assoc.
  - apply Forall_app. auto.
Qed.

Lemma emits_modify (P : event -> Prop) (f : ap130x_device -> ap130x_device) :
  (forall d, trace (f d) = trace d) -> emits P (modify f).
Proof.
  intros H d. exists []. simpl. rewrite app_nil_r. auto.
Qed.

Lemma emits_do_call (P : event -> Prop) (c : call) :
  (forall r, P (c, r)) -> emits P (do_call env c).
Proof.
  intros H d. exists [(c, env (trace d) c)]. simpl. auto.
Qed.

Lemma emits_weaken {A : Type} (P Q : event -> Prop) (m : M A) :
  (forall e, P e -> Q e) -> emits P m -> emits Q m.
Proof.
  intros H Hm d. destruct (Hm d) as (evs & E & F).
  exists evs. split; auto. eapply Forall_impl; eauto.
Qed.

Lemma emits_extends {A : Type} (P : event -> Prop) (m : M A)
  (d d' : ap130x_device) (a : A) :
  emits P m -> m d = (d', a) -> extends d d'.
Proof.
  intros Hm E. destruct (Hm d) as (evs & Ht & _).
  rewrite E in Ht. now exists evs.
Qed.

Lemma emits_Forall {A : Type} (P : event -> Prop) (m : M A)
  (d d' : ap130x_device) (a : A) :
  emits P m -> m d = (d', a) -> Forall P (emitted d d').
Proof.
  intros Hm E. destruct (Hm d) as (evs & Ht & F).
  rewrite E in Ht. cbn [fst] in Ht. now rewrite (emitted_app _ _ _ Ht).
Qed.

Lemma extends_refl (d : ap130x_device) : extends d d.
Proof. exists []. now rewrite app_nil_r. Qed.

Lemma extends_trans (d1 d2 d3 : ap130x_device) :
  extends d1 d2 -> extends d2 d3 -> extends d1 d3.
Proof.
  intros (e1 & E1) (e2 & E2). exists (e1 ++ e2).
  now rewrite E2, E1, app_assoc.
Qed.

Lemma extends_emitted (d d' : ap130x_device) :
  extends d d' -> trace d' = trace d ++ emitted d d'.
Proof. intros (evs & E). now rewrite (emitted_app _ _ _ E). Qed.

Lemma emitted_trans (d1 d2 d3 : ap130x_device) :
  extends d1 d2 -> extends d2 d3 ->
  emitted d1 d3 = emitted d1 d2 ++ emitted d2 d3.
Proof.
  intros (e1 & E1) (e2 & E2).
  rewrite (emitted_app _ _ _ E1), (emitted_app _ _ _ E2).
  apply emitted_app. now rewrite E2, E1, app_assoc.
Qed.

Lemma preserves_ret {A X : Type} (f : ap130x_device -> X) (a : A) :
  preserves f (ret a).
Proof. intros d. reflexivity. Qed.

Lemma preserves_gets {A X : Type} (f : ap130x_device -> X)
  (g : ap130x_device -> A) : preserves f (gets g).
Proof. intros d. reflexivity. Qed.

Lemma preserves_bind {A B X : Type} (f : ap130x_device -> X)
  (m : M A) (k : A -> M B) :
  preserves f m -> (forall a, preserves f (k a)) -> preserves f (bind m k).
Proof.
  intros Hm Hk d. unfold bind.
  specialize (Hm d). destruct (m d) as [d1 a]. simpl in Hm.
  rewrite <- Hm. apply Hk.
Qed.

Lemma preserves_do_call {X : Type} (f : ap130x_device -> X) (c : call) :
  trace_blind f -> preserves f (do_call env c).
Proof. intros H d. unfold do_call. simpl. apply H. Qed.

Lemma preserves_modify {X : Type} (f : ap130x_device -> X)
  (g : ap130x_device -> ap130x_device) :
  (forall d, f (g d) = f d) -> preserves f (modify g).
Proof. intros H d. simpl. apply H. Qed.

End Footprint.

(** One step of a footprint proof: follow the shape of the code. *)
Ltac emits_step :=
  match goal with
  | |- emits _ (ret _) => apply emits_ret
  | |- emits _ (gets _) => apply emits_gets
  | |- emits _ (modify _) => apply emits_modify; intros; reflexivity
  | |- emits _ (do_call _ _) => apply emits_do_call; intros
  | |- emits _ (do_call_status _ _) => unfold do_call_status
  | |- emits _ (bind _ _) => apply emits_bind; [| intros]
  | |- emits _ (if ?b then _ else _) => destruct b
  | |- emits _ (let (_, _) := ?x in _) => destruct x
  | |- emits _ (match ?x with _ => _ end) => destruct x
  end.

Ltac preserves_step :=
  match goal with
  | |- preserves _ (ret _) => apply preserves_ret
  | |- preserves _ (gets _) => apply preserves_gets
  | |- preserves _ (do_call _ _) =>
      apply preserves_do_call; first [assumption | intros ? ?; reflexivity]
  | |- preserves _ (do_call_status _ _) => unfold do_call_status
  | |- preserves _ (bind _ _) => apply preserves_bind; [| intros]
  | |- preserves _ (if ?b then _ else _) => destruct b
  | |- preserves _ (let (_, _) := ?x in _) => destruct x
  | |- preserves _ (match ?x with _ => _ end) => destruct x
  end.

(** * The register transport *)

Section Transport.

Variable env : oracle.

Lemma emits___ap130x_write (P : event -> Prop) (reg val : Z) :
  (forall m r, AP130X_REG_SIZE reg = val_bytes m ->
               P (regmap_write m (AP130X_REG_ADDR reg) val, r)) ->
  emits P (__ap130x_write env reg val).
Proof.
  intros H. unfold __ap130x_write.
  destruct (AP130X_REG_SIZE reg =? 2) eqn:E2;
    [|destruct (AP130X_REG_SIZE reg =? 4) eqn:E4];
    repeat emits_step; apply H; simpl; lia.
Qed.

Lemma emits___ap130x_read (P : event -> Prop) (reg : Z) :
  (forall m r, AP130X_REG_SIZE reg = val_bytes m ->
               P (regmap_read m (AP130X_REG_ADDR reg), r)) ->
  emits P (__ap130x_read env reg).
Proof.
  intros H. unfold __ap130x_read.
  destruct (AP130X_REG_SIZE reg =? 2) eqn:E2;
    [|destruct (AP130X_REG_SIZE reg =? 4) eqn:E4];
    repeat emits_step; apply H; simpl; lia.
Qed.

Lemma emits_page_select (P : event -> Prop) (page : Z) :
  (forall r, P (page_select_call page, r)) ->
  emits P (__ap130x_write env AP130X_ADVANCED_BASE page).
Proof.
  intros H. apply emits___ap130x_write. intros [] r E.
  - discriminate E.
  - apply H.
Qed.

Lemma emits_ap130x_write (P : event -> Prop) (reg val : Z) (err : option Z) :
  (AP130X_REG_PAGE reg <> 0 ->
   forall r, P (page_select_call (AP130X_REG_PAGE reg), r)) ->
  (forall m r, AP130X_REG_SIZE (target_reg reg) = val_bytes m ->
               P (regmap_write m (AP130X_REG_ADDR (target_reg reg)) val, r)) ->
  emits P (ap130x_write env reg val err).
Proof.
  intros Hp Ht. unfold ap130x_write, ap130x_write_done, target_reg in *.
  destruct (err_latched err); [apply emits_ret|].
  destruct (AP130X_REG_PAGE reg =? 0) eqn:E; cbn [negb].
  - repeat emits_step. apply emits___ap130x_write; auto.
  - apply Z.eqb_neq in E.
    repeat emits_step;
      first [ now apply emits_page_select; auto
            | apply emits___ap130x_write; auto ].
Qed.

Lemma emits_ap130x_read (P : event -> Prop) (reg : Z) :
  (AP130X_REG_PAGE reg <> 0 ->
   forall r, P (page_select_call (AP130X_REG_PAGE reg), r)) ->
  (forall m r, AP130X_REG_SIZE (target_reg reg) = val_bytes m ->
               P (regmap_read m (AP130X_REG_ADDR (target_reg reg)), r)) ->
  emits P (ap130x_read env reg).
Proof.
  intros Hp Ht. unfold ap130x_read, target_reg in *.
  destruct (AP130X_REG_PAGE reg =? 0) eqn:E; cbn [negb].
  - apply emits___ap130x_read; auto.
  - apply Z.eqb_neq in E.
    repeat emits_step;
      first [ now apply emits_page_select; auto
            | apply emits___ap130x_read; auto ].
Qed.

Lemma emits_write_any (P : event -> Prop) (reg val : Z) (err : option Z) :
  (forall m a v r, P (regmap_write m a v, r)) ->
  emits P (ap130x_write env reg val err).
Proof. intros H. apply emits_ap130x_write; intros; apply H. Qed.

Lemma emits_read_any (P : event -> Prop) (reg : Z) :
  (forall m a v r, P (regmap_write m a v, r)) ->
  (forall m a r, P (regmap_read m a, r)) ->
  emits P (ap130x_read env reg).
Proof. intros Hw Hr. apply emits_ap130x_read; intros; auto. apply Hw. Qed.

(** The accesses to the registers the driver names: the page and the
    register map are known, what is left is the event itself. *)
Lemma emits_write16 (P : event -> Prop) (reg val : Z) (err : option Z) :
  AP130X_REG_PAGE reg = 0 -> AP130X_REG_SIZE reg = 2 ->
  (forall r, P (regmap_write regmap16 (AP130X_REG_ADDR reg) val, r)) ->
  emits P (ap130x_write env reg val err).
Proof.
  intros Hp Hs H. apply emits_ap130x_write.
  - intros Hne. now elim Hne.
  - unfold target_reg. rewrite Hp. cbn [Z.eqb].
    intros [] r E; [apply H|]. rewrite Hs in E. discriminate E.
Qed.

Lemma emits_write32 (P : event -> Prop) (reg val : Z) (err : option Z) :
  AP130X_REG_PAGE reg = 0 -> AP130X_REG_SIZE reg = 4 ->
  (forall r, P (regmap_write regmap32 (AP130X_REG_ADDR reg) val, r)) ->
  emits P (ap130x_write env reg val err).
Proof.
  intros Hp Hs H. apply emits_ap130x_write.
  - intros Hne. now elim Hne.
  - unfold target_reg. rewrite Hp. cbn [Z.eqb].
    intros [] r E; [|apply H]. rewrite Hs in E. discriminate E.
Qed.

Lemma emits_read16 (P : event -> Prop) (reg : Z) :
  AP130X_REG_PAGE reg = 0 -> AP130X_REG_SIZE reg = 2 ->
  (forall r, P (regmap_read regmap16 (AP130X_REG_ADDR reg), r)) ->
  emits P (ap130x_read env reg).
Proof.
  intros Hp Hs H. apply emits_ap130x_read.
  - intros Hne. now elim Hne.
  - unfold target_reg. rewrite Hp. cbn [Z.eqb].
    intros [] r E; [apply H|]. rewrite Hs in E. discriminate E.
Qed.

Lemma emits_read32 (P : event -> Prop) (reg : Z) :
  AP130X_REG_PAGE reg = 0 -> AP130X_REG_SIZE reg = 4 ->
  (forall r, P (regmap_read regmap32 (AP130X_REG_ADDR reg), r)) ->
  emits P (ap130x_read env reg).
Proof.
  intros Hp Hs H. apply emits_ap130x_read.
  - intros Hne. now elim Hne.
  - unfold target_reg. rewrite Hp. cbn [Z.eqb].
    intros [] r E; [|apply H]. rewrite Hs in E. discriminate E.
Qed.

End Transport.

Section PageSelect.

Variable env : oracle.

Lemma preserves___ap130x_write {X : Type} (f : ap130x_device -> X)
  (reg val : Z) : trace_blind f -> preserves f (__ap130x_write env reg val).
Proof.
  intros H. unfold __ap130x_write.
  repeat preserves_step; apply preserves_do_call; auto.
Qed.

Lemma preserves___ap130x_read {X : Type} (f : ap130x_device -> X)
  (reg : Z) : trace_blind f -> preserves f (__ap130x_read env reg).
Proof.
  intros H. unfold __ap130x_read.
  repeat preserves_step; apply preserves_do_call; auto.
Qed.

Lemma write_page0 (reg val : Z) (err : option Z) (d : ap130x_device) :
  AP130X_REG_PAGE reg = 0 -> err_latched err = false ->
  ap130x_write env reg val err d =
  (let (d', r) := __ap130x_write env reg val d in ap130x_write_done err r d').
Proof.
  intros Hp He. unfold ap130x_write. rewrite He, Hp. reflexivity.
Qed.

Lemma read_page0 (reg : Z) (d : ap130x_device) :
  AP130X_REG_PAGE reg = 0 ->
  ap130x_read env reg d = __ap130x_read env reg d.
Proof.
  intros Hp. unfold ap130x_read. rewrite Hp. reflexivity.
Qed.

Lemma write_hit (reg val : Z) (err : option Z) (d : ap130x_device) :
  AP130X_REG_PAGE reg <> 0 -> reg_page d = AP130X_REG_PAGE reg ->
  err_latched err = false ->
  ap130x_write env reg val err d =
  (let (d', r) := __ap130x_write env (adv_reg reg) val d in
   ap130x_write_done err r d').
Proof.
  intros Hp Hc He. unfold ap130x_write. rewrite He.
  apply Z.eqb_neq in Hp. rewrite Hp. cbn [negb].
  unfold bind at 1. unfold gets at 1. rewrite Hc, Z.eqb_refl. reflexivity.
Qed.

Lemma read_hit (reg : Z) (d : ap130x_device) :
  AP130X_REG_PAGE reg <> 0 -> reg_page d = AP130X_REG_PAGE reg ->
  ap130x_read env reg d = __ap130x_read env (adv_reg reg) d.
Proof.
  intros Hp Hc. unfold ap130x_read.
  apply Z.eqb_neq in Hp. rewrite Hp. cbn [negb].
  unfold bind at 1. unfold gets at 1. rewrite Hc, Z.eqb_refl. reflexivity.
Qed.

Lemma page_select_run (page : Z) (d : ap130x_device) :
  __ap130x_write env AP130X_ADVANCED_BASE page d =
  (after_page_select env page d,
   errno (r_status (env (trace d) (page_select_call page)))).
Proof. reflexivity. Qed.

Lemma write_miss (reg val : Z) (err : option Z) (d : ap130x_device) :
  AP130X_REG_PAGE reg <> 0 -> reg_page d <> AP130X_REG_PAGE reg ->
  err_latched err = false ->
  ap130x_write env reg val err d =
  match r_status (env (trace d) (page_select_call (AP130X_REG_PAGE reg))) with
  | Ok =>
      let (d', r) :=
        __ap130x_write env (adv_reg reg) val
          (with_reg_page (AP130X_REG_PAGE reg)
             (after_page_select env (AP130X_REG_PAGE reg) d)) in
      ap130x_write_done err r d'
  | Err e =>
      ap130x_write_done err (Z.neg e)
        (after_page_select env (AP130X_REG_PAGE reg) d)
  end.
Proof.
  intros Hp Hc He. unfold ap130x_write. rewrite He.
  apply Z.eqb_neq in Hp. rewrite Hp. cbn [negb].
  unfold bind at 1. unfold gets at 1.
  apply Z.eqb_neq in Hc. rewrite Hc. cbn [negb].
  unfold bind at 1. rewrite page_select_run.
  destruct (r_status _); reflexivity.
Qed.

Lemma read_miss (reg : Z) (d : ap130x_device) :
  AP130X_REG_PAGE reg <> 0 -> reg_page d <> AP130X_REG_PAGE reg ->
  ap130x_read env reg d =
  match r_status (env (trace d) (page_select_call (AP130X_REG_PAGE reg))) with
  | Ok =>
      __ap130x_read env (adv_reg reg)
        (with_reg_page (AP130X_REG_PAGE reg)
           (after_page_select env (AP130X_REG_PAGE reg) d))
  | Err e => (after_page_select env (AP130X_REG_PAGE reg) d, (Z.neg e, 0))
  end.
Proof.
  intros Hp Hc. unfold ap130x_read.
  apply Z.eqb_neq in Hp. rewrite Hp. cbn [negb].
  unfold bind at 1. unfold gets at 1.
  apply Z.eqb_neq in Hc. rewrite Hc. cbn [negb].
  unfold bind at 1. rewrite page_select_run.
  destruct (r_status _); reflexivity.
Qed.

Lemma write_latched (reg val : Z) (err : option Z) (d : ap130x_device) :
  err_latched err = true ->
  ap130x_write env reg val err d = (d, (err_value err, err)).
Proof. intros He. unfold ap130x_write. now rewrite He. Qed.

Lemma write32_run (reg val : Z) (err : option Z) (d : ap130x_device) :
  AP130X_REG_PAGE reg = 0 -> AP130X_REG_SIZE reg = 4 ->
  err_latched err = false ->
  ap130x_write env reg val err d =
  (let c := regmap_write regmap32 (AP130X_REG_ADDR reg) val in
   let r := env (trace d) c in
   ap130x_write_done err (errno (r_status r))
     (with_trace (trace d ++ [(c, r)]) d)).
Proof.
  intros Hp Hs He. rewrite write_page0 by assumption.
  unfold __ap130x_write. rewrite Hs. reflexivity.
Qed.

Lemma write16_run (reg val : Z) (err : option Z) (d : ap130x_device) :
  AP130X_REG_PAGE reg = 0 -> AP130X_REG_SIZE reg = 2 ->
  err_latched err = false ->
  ap130x_write env reg val err d =
  (let c := regmap_write regmap16 (AP130X_REG_ADDR reg) val in
   let r := env (trace d) c in
   ap130x_write_done err (errno (r_status r))
     (with_trace (trace d ++ [(c, r)]) d)).
Proof.
  intros Hp Hs He. rewrite write_page0 by assumption.
  unfold __ap130x_write. rewrite Hs. reflexivity.
Qed.

Lemma count_page_selects_app (e1 e2 : list event) :
  count_page_selects (e1 ++ e2) = (count_page_selects e1 + count_page_selects e2)%nat.
Proof. unfold count_page_selects. now rewrite filter_app, length_app. Qed.

Lemma count_page_selects_none (evs : list event) :
  Forall (fun e => is_page_select e = false) evs -> count_page_selects evs = O.
Proof.
  unfold count_page_selects. induction 1 as [|e evs He _ IH]; simpl; auto.
  now rewrite He.
Qed.

Lemma target_write_quiet (reg val : Z) (d : ap130x_device) :
  negb ((AP130X_REG_SIZE reg =? 4)
        && (AP130X_REG_ADDR reg =? AP130X_REG_ADDR AP130X_ADVANCED_BASE)) = true ->
  exists evs, trace (fst (__ap130x_write env reg val d)) = trace d ++ evs
              /\ count_page_selects evs = O.
Proof.
  intros H.
  destruct (emits___ap130x_write env (fun e => is_page_select e = false) reg val)
    with (d := d) as (evs & E & F).
  - intros [] r Hs; unfold is_page_select; cbn [fst]; auto.
    cbn [val_bytes] in Hs. rewrite Hs, Z.eqb_refl in H. cbn [andb] in H.
    now apply negb_true_iff in H.
  - exists evs. split; auto. now apply count_page_selects_none.
Qed.

Lemma target_read_quiet (reg : Z) (d : ap130x_device) :
  exists evs, trace (fst (__ap130x_read env reg d)) = trace d ++ evs
              /\ count_page_selects evs = O.
Proof.
  destruct (emits___ap130x_read env (fun e => is_page_select e = false) reg)
    with (d := d) as (evs & E & F).
  - intros [] r Hs; reflexivity.
  - exists evs. split; auto. now apply count_page_selects_none.
Qed.

Lemma after_page_select_trace (page : Z) (d : ap130x_device) :
  trace (after_page_select env page d) =
  trace d ++ [(page_select_call page, env (trace d) (page_select_call page))].
Proof. reflexivity. Qed.

Lemma do_access_read (reg : Z) (d : ap130x_device) :
  do_access env (Read reg) d =
  (fst (ap130x_read env reg d), fst (snd (ap130x_read env reg d))).
Proof.
  unfold do_access, bind, ret. now destruct (ap130x_read env reg d).
Qed.

Lemma do_access_write (reg val : Z) (err : option Z) (d : ap130x_device) :
  do_access env (Write reg val err) d =
  (fst (ap130x_write env reg val err d),
   fst (snd (ap130x_write env reg val err d))).
Proof.
  unfold do_access, bind, ret. now destruct (ap130x_write env reg val err d).
Qed.

(** An access to a non-zero page that is the cached one: nothing but
    the target access. *)
Lemma access_hit (a : access) (d : ap130x_device) :
  AP130X_REG_PAGE (access_reg a) <> 0 ->
  reg_page d = AP130X_REG_PAGE (access_reg a) ->
  not_page_select_reg (access_reg a) = true ->
  exists evs,
    trace (fst (do_access env a d)) = trace d ++ evs
    /\ count_page_selects evs = O
    /\ reg_page (fst (do_access env a d)) = reg_page d.
Proof.
  intros Hp Hc Hn. unfold not_page_select_reg, target_reg in Hn.
  pose proof Hp as Hp'. apply Z.eqb_neq in Hp'. rewrite Hp' in Hn.
  destruct a as [reg | reg val err]; cbn [access_reg] in *.
  - rewrite do_access_read. cbn [fst snd].
    rewrite read_hit by assumption.
    destruct (target_read_quiet (adv_reg reg) d) as (evs & E & C).
    pose proof (preserves___ap130x_read reg_page (adv_reg reg)
                  (fun _ _ => eq_refl) d) as R.
    exists evs. auto.
  - rewrite do_access_write. cbn [fst snd].
    destruct (err_latched err) eqn:He.
    + unfold ap130x_write. rewrite He. exists []. cbn.
      rewrite app_nil_r. auto.
    + rewrite write_hit by assumption.
      destruct (target_write_quiet (adv_reg reg) val d Hn) as (evs & E & C).
      pose proof (preserves___ap130x_write reg_page (adv_reg reg) val
                    (fun _ _ => eq_refl) d) as R.
      destruct (__ap130x_write env (adv_reg reg) val d) as [d' r].
      exists evs. auto.
Qed.

(** An access to a non-zero page that is not the cached one: the
    page-select write comes first; the cache follows it only when it
    succeeded, and a failed one ends the access. *)
Lemma access_miss (a : access) (d : ap130x_device) :
  AP130X_REG_PAGE (access_reg a) <> 0 ->
  reg_page d <> AP130X_REG_PAGE (access_reg a) ->
  access_latched a = false ->
  not_page_select_reg (access_reg a) = true ->
  let c := page_select_call (AP130X_REG_PAGE (access_reg a)) in
  let r := env (trace d) c in
  exists evs,
    trace (fst (do_access env a d)) = trace d ++ (c, r) :: evs
    /\ count_page_selects evs = O
    /\ match r_status r with
       | Ok => reg_page (fst (do_access env a d))
               = AP130X_REG_PAGE (access_reg a)
       | Err e => reg_page (fst (do_access env a d)) = reg_page d
                  /\ evs = [] /\ snd (do_access env a d) = Z.neg e
       end.
Proof.
  intros Hp Hc Hl Hn. unfold not_page_select_reg, target_reg in Hn.
  pose proof Hp as Hp'. apply Z.eqb_neq in Hp'. rewrite Hp' in Hn.
  destruct a as [reg | reg val err]; cbn [access_reg access_latched] in *;
    cbv zeta.
  - rewrite do_access_read. cbn [fst snd].
    rewrite read_miss by assumption.
    destruct (r_status (env (trace d) (page_select_call (AP130X_REG_PAGE reg)))).
    + set (d1 := with_reg_page _ _).
      destruct (target_read_quiet (adv_reg reg) d1) as (evs & E & C).
      pose proof (preserves___ap130x_read reg_page (adv_reg reg)
                    (fun _ _ => eq_refl) d1) as R.
      exists evs. rewrite E, R. unfold d1. cbn [trace with_reg_page reg_page].
      rewrite after_page_select_trace, <- app_assoc. auto.
    + exists []. cbn [fst snd]. auto.
  - rewrite do_access_write. cbn [fst snd].
    rewrite write_miss by assumption.
    destruct (r_status (env (trace d) (page_select_call (AP130X_REG_PAGE reg)))).
    + set (d1 := with_reg_page _ _).
      destruct (target_write_quiet (adv_reg reg) val d1 Hn) as (evs & E & C).
      pose proof (preserves___ap130x_write reg_page (adv_reg reg) val
                    (fun _ _ => eq_refl) d1) as R.
      destruct (__ap130x_write env (adv_reg reg) val d1) as [d' r].
      exists evs. unfold ap130x_write_done, ret. cbn [fst] in *.
      rewrite E, R. unfold d1. cbn [trace with_reg_page reg_page].
      rewrite after_page_select_trace, <- app_assoc. auto.
    + exists []. unfold ap130x_write_done, ret. cbn [fst snd]. auto.
Qed.

(** C3 -- Page-select discipline of the register transport, for writes
    ([ap130x_write]) and reads ([ap130x_read]).

    - A write whose error slot already holds an error does nothing.
    - Page 0: the access is the bare target access, no page-select
      write is issued.
    - Non-zero page equal to the cached page: the access is the bare
      access to the translated register, no page-select write.
    - Non-zero page different from the cached page: the first thing
      issued is the page-select write; when it succeeds the cache is set
      to the new page and the target access follows; when it fails the
      access ends there with that error and the cache is unchanged.
    - Hence two consecutive accesses to the same non-zero page, starting
      from a cache that holds another page and with a page-select write
      that succeeds, issue exactly one page-select write, at the head of
      the first access; and two consecutive accesses to two different
      non-zero pages issue one each, at the head of each access.
    In the counting statements the accessed registers are not the
    page-select register itself. *)
Theorem page_select_discipline :
  (forall reg val err d,
      err_latched err = true ->
      ap130x_write env reg val err d = (d, (err_value err, err)))
  /\ (forall reg val err d,
      AP130X_REG_PAGE reg = 0 -> err_latched err = false ->
      ap130x_write env reg val err d =
      (let (d', r) := __ap130x_write env reg val d in
       ap130x_write_done err r d'))
  /\ (forall reg d,
      AP130X_REG_PAGE reg = 0 ->
      ap130x_read env reg d = __ap130x_read env reg d)
  /\ (forall reg val err d,
      AP130X_REG_PAGE reg <> 0 -> reg_page d = AP130X_REG_PAGE reg ->
      err_latched err = false ->
      ap130x_write env reg val err d =
      (let (d', r) := __ap130x_write env (adv_reg reg) val d in
       ap130x_write_done err r d'))
  /\ (forall reg d,
      AP130X_REG_PAGE reg <> 0 -> reg_page d = AP130X_REG_PAGE reg ->
      ap130x_read env reg d = __ap130x_read env (adv_reg reg) d)
  /\ (forall reg val err d,
      AP130X_REG_PAGE reg <> 0 -> reg_page d <> AP130X_REG_PAGE reg ->
      err_latched err = false ->
      ap130x_write env reg val err d =
      match r_status (env (trace d) (page_select_call (AP130X_REG_PAGE reg))) with
      | Ok =>
          let (d', r) :=
            __ap130x_write env (adv_reg reg) val
              (with_reg_page (AP130X_REG_PAGE reg)
                 (after_page_select env (AP130X_REG_PAGE reg) d)) in
          ap130x_write_done err r d'
      | Err e =>
          ap130x_write_done err (Z.neg e)
            (after_page_select env (AP130X_REG_PAGE reg) d)
      end)
  /\ (forall reg d,
      AP130X_REG_PAGE reg <> 0 -> reg_page d <> AP130X_REG_PAGE reg ->
      ap130x_read env reg d =
      match r_status (env (trace d) (page_select_call (AP130X_REG_PAGE reg))) with
      | Ok =>
          __ap130x_read env (adv_reg reg)
            (with_reg_page (AP130X_REG_PAGE reg)
               (after_page_select env (AP130X_REG_PAGE reg) d))
      | Err e => (after_page_select env (AP130X_REG_PAGE reg) d, (Z.neg e, 0))
      end)
  /\ (forall a1 a2 d,
      let p := AP130X_REG_PAGE (access_reg a1) in
      let d1 := fst (do_access env a1 d) in
      let d2 := fst (do_access env a2 d1) in
      p <> 0 -> AP130X_REG_PAGE (access_reg a2) = p ->
      reg_page d <> p -> access_latched a1 = false ->
      r_status (env (trace d) (page_select_call p)) = Ok ->
      not_page_select_reg (access_reg a1) = true ->
      not_page_select_reg (access_reg a2) = true ->
      hd_error (emitted d d1)
      = Some (page_select_call p, env (trace d) (page_select_call p))
      /\ count_page_selects (emitted d d1) = 1%nat
      /\ count_page_selects (emitted d1 d2) = 0%nat
      /\ count_page_selects (emitted d d2) = 1%nat)
  /\ (forall a1 a2 d,
      let p1 := AP130X_REG_PAGE (access_reg a1) in
      let p2 := AP130X_REG_PAGE (access_reg a2) in
      let d1 := fst (do_access env a1 d) in
      let d2 := fst (do_access env a2 d1) in
      p1 <> 0 -> p2 <> 0 -> p1 <> p2 ->
      reg_page d <> p1 ->
      access_latched a1 = false -> access_latched a2 = false ->
      r_status (env (trace d) (page_select_call p1)) = Ok ->
      not_page_select_reg (access_reg a1) = true ->
      not_page_select_reg (access_reg a2) = true ->
      hd_error (emitted d d1)
      = Some (page_select_call p1, env (trace d) (page_select_call p1))
      /\ count_page_selects (emitted d d1) = 1%nat
      /\ hd_error (emitted d1 d2)
         = Some (page_select_call p2, env (trace d1) (page_select_call p2))
      /\ count_page_selects (emitted d1 d2) = 1%nat).
Proof.
  split; [|split; [|split; [|split; [|split; [|split; [|split; [|split]]]]]]].
  - intros reg val err d He. unfold ap130x_write. now rewrite He.
  - apply write_page0.
  - apply read_page0.
  - apply write_hit.
  - apply read_hit.
  - apply write_miss.
  - apply read_miss.
  - intros a1 a2 d p d1 d2 Hp Hp2 Hc Hl Hok Hn1 Hn2.
    destruct (access_miss a1 d Hp Hc Hl Hn1) as (e1 & E1 & C1 & S1).
    fold p in E1, S1. rewrite Hok in S1. fold d1 in E1, S1.
    assert (Hp2' : AP130X_REG_PAGE (access_reg a2) <> 0) by now rewrite Hp2.
    assert (Hc2 : reg_page d1 = AP130X_REG_PAGE (access_reg a2))
      by now rewrite Hp2.
    destruct (access_hit a2 d1 Hp2' Hc2 Hn2) as (e2 & E2 & C2 & _).
    fold d2 in E2.
    rewrite (emitted_app d d1 _ E1), (emitted_app d1 d2 _ E2).
    assert (E : trace d2 = trace d ++ ((page_select_call p,
                env (trace d) (page_select_call p)) :: e1) ++ e2)
      by (rewrite E2, E1; now rewrite <- app_assoc).
    rewrite (emitted_app d d2 _ E).
    repeat split; auto.
    + change (count_page_selects ([(page_select_call p,
                env (trace d) (page_select_call p))] ++ e1) = 1%nat).
      rewrite count_page_selects_app, C1. reflexivity.
    + change (count_page_selects (([(page_select_call p,
                env (trace d) (page_select_call p))] ++ e1) ++ e2) = 1%nat).
      rewrite !count_page_selects_app, C1, C2. reflexivity.
  - intros a1 a2 d p1 p2 d1 d2 Hp1 Hp2 Hne Hc Hl1 Hl2 Hok Hn1 Hn2.
    destruct (access_miss a1 d Hp1 Hc Hl1 Hn1) as (e1 & E1 & C1 & S1).
    fold p1 in E1, S1. rewrite Hok in S1. fold d1 in E1, S1.
    assert (Hc2 : reg_page d1 <> AP130X_REG_PAGE (access_reg a2))
      by (rewrite S1; exact Hne).
    destruct (access_miss a2 d1 Hp2 Hc2 Hl2 Hn2) as (e2 & E2 & C2 & _).
    fold p2 in E2. fold d2 in E2.
    rewrite (emitted_app d d1 _ E1), (emitted_app d1 d2 _ E2).
    repeat split; auto.
    + change (count_page_selects ([(page_select_call p1,
                env (trace d) (page_select_call p1))] ++ e1) = 1%nat).
      rewrite count_page_selects_app, C1. reflexivity.
    + change (count_page_selects ([(page_select_call p2,
                env (trace d1) (page_select_call p2))] ++ e2) = 1%nat).
      rewrite count_page_selects_app, C2. reflexivity.
Qed.

End PageSelect.

(** * Power handling *)

Section Power.

Variable env : oracle.

Section Frame.

Context {X : Type} (f : ap130x_device -> X) (Hf : trace_blind f).

Lemma preserves_standby_pulse (v : Z) : preserves f (standby_pulse env v).
Proof. unfold standby_pulse. repeat preserves_step. Qed.

Lemma preserves_power_on_supplies (rest : list Z) (i : nat) :
  preserves f (power_on_supplies env i rest).
Proof.
  revert i. induction rest as [|delay rest IH]; intros i; cbn [power_on_supplies].
  - apply preserves_ret.
  - repeat preserves_step. apply IH.
Qed.

Lemma preserves_power_on : preserves f (ap130x_power_on env).
Proof.
  unfold ap130x_power_on.
  repeat first [ preserves_step
               | apply preserves_standby_pulse
               | apply preserves_power_on_supplies ].
Qed.

Lemma preserves_power_off : preserves f (ap130x_power_off env).
Proof.
  unfold ap130x_power_off.
  repeat first [ preserves_step | apply preserves_standby_pulse ].
Qed.

Lemma preserves_sensor_enable_supplies (delays : list Z) (i n j : nat) :
  preserves f (sensor_enable_supplies env delays i j n).
Proof.
  revert j. induction n as [|n IH]; intros j; cbn [sensor_enable_supplies].
  - apply preserves_ret.
  - repeat preserves_step. apply IH.
Qed.

Lemma preserves_sensor_disable_supplies (i j : nat) :
  preserves f (sensor_disable_supplies env i j).
Proof.
  induction j as [|j IH]; cbn [sensor_disable_supplies].
  - apply preserves_ret.
  - repeat preserves_step. apply IH.
Qed.

Lemma preserves_sensors_bulk_disable_down (nums : list nat) (i : nat) :
  preserves f (sensors_bulk_disable_down env nums i).
Proof.
  induction i as [|i IH]; cbn [sensors_bulk_disable_down].
  - apply preserves_ret.
  - repeat preserves_step. apply IH.
Qed.

Lemma preserves_power_on_sensors_loop (delays : list Z) (nums rest : list nat)
  (i : nat) : preserves f (power_on_sensors_loop env delays nums i rest).
Proof.
  revert i. induction rest as [|n rest IH]; intros i;
    cbn [power_on_sensors_loop].
  - apply preserves_ret.
  - repeat first [ apply preserves_sensor_enable_supplies
                 | apply preserves_sensor_disable_supplies
                 | apply preserves_sensors_bulk_disable_down
                 | apply IH
                 | preserves_step ].
Qed.

Lemma preserves_power_on_sensors : preserves f (ap130x_power_on_sensors env).
Proof.
  unfold ap130x_power_on_sensors.
  apply preserves_bind; [apply preserves_gets|intros [delays|]].
  - apply preserves_bind; [apply preserves_gets|intros nums].
    apply preserves_power_on_sensors_loop.
  - apply preserves_ret.
Qed.



End Frame.


End Power.

(** Run the next statement of the code in hypothesis [H]. *)
Ltac run_step H :=
  lazymatch type of H with
  | bind _ _ _ = _ =>
      unfold bind at 1 in H;
      lazymatch type of H with
      | (let (_, _) := ?m in _) = _ =>
          let E := fresh "E" in destruct m as [? ?] eqn:E
      end
  | (if ?b then _ else _) _ = _ =>
      let C := fresh "C" in destruct b eqn:C
  | (let (_, _) := ?x in _) _ = _ => destruct x as [? ?]
  | ret _ _ = _ => unfold ret in H
  end.

Lemma pair_inv {A B : Type} (a a' : A) (b b' : B) :
  (a, b) = (a', b') -> a = a' /\ b = b'.
Proof. intros H. now inversion H. Qed.

Lemma pair3_inv {A B C : Type} (a a' : A) (b b' : B) (c c' : C) :
  (a, (b, c)) = (a', (b', c')) -> a = a' /\ b = b' /\ c = c'.
Proof. intros H. now inversion H. Qed.

(** Close a branch whose return value contradicts the tests passed:
    [E] says that the value returned is 0, a test says it is not. *)
Ltac ret_contra E :=
  exfalso;
  match type of E with
  | ?x = 0 =>
      match goal with
      | C : (x <? 0) = true |- _ => rewrite E in C; discriminate C
      | C : negb (x =? 0) = true |- _ => rewrite E in C; discriminate C
      | C : (x =? 0) = false |- _ => rewrite E in C; discriminate C
      end
  end.

(** * Sensor registers access *)

Section Sipm.

Variable env : oracle.

Lemma read_DMA_DST (d : ap130x_device) :
  ap130x_read env AP130X_DMA_DST d =
  (let c := regmap_read regmap32 (AP130X_REG_ADDR AP130X_DMA_DST) in
   let r := env (trace d) c in
   (with_trace (trace d ++ [(c, r)]) d,
    (errno (r_status r),
     match r_status r with Ok => wrap32 (r_val r) | Err _ => 0 end))).
Proof. reflexivity. Qed.

Lemma errno_nonpos (s : status) : errno s <= 0.
Proof. destruct s; simpl; lia. Qed.

Lemma sipm_read_value (port reg : Z) (d d' : ap130x_device) (v : Z) :
  ap130x_sipm_read env port reg d = (d', (0, v)) ->
  exists tr w,
    trace d' = tr ++ [(regmap_read regmap32 (AP130X_REG_ADDR AP130X_DMA_DST), w)]
    /\ r_status w = Ok
    /\ v = Z.shiftr (wrap32 (r_val w)) (32 - AP130X_REG_SIZE reg * 8).
Proof.
  intros H. unfold ap130x_sipm_read in H.
  destruct (2 <? AP130X_REG_SIZE reg); [discriminate H|].
  repeat run_step H.
  all: lazymatch type of H with
       | (_, (0, _)) = _ => idtac
       | _ => apply pair3_inv in H as (_ & H0 & _); ret_contra H0
       end.
  apply pair3_inv in H as (<- & _ & <-).
  match goal with
  | E : ap130x_read env AP130X_DMA_DST _ = _ |- _ =>
      rewrite read_DMA_DST in E; cbv zeta in E;
      apply pair3_inv in E as (<- & <- & <-)
  end.
  eexists. eexists. split; [reflexivity|].
  destruct (r_status _) eqn:S.
  - auto.
  - match goal with
    | C : (errno _ <? 0) = false |- _ => discriminate C
    end.
Qed.

Lemma emits_dma_wait_idle (P : event -> Prop) :
  (forall r, P (regmap_read regmap16 (AP130X_REG_ADDR AP130X_DMA_CTRL), r)) ->
  (forall r, P (usleep_range 1000 1500, r)) ->
  emits P (ap130x_dma_wait_idle env).
Proof.
  intros Hr Hs. unfold ap130x_dma_wait_idle.
  generalize 50%nat. intros i.
  induction i as [|i IH]; cbn [dma_wait_idle_loop].
  - apply emits_ret.
  - apply emits_bind; [now apply emits_read16|].
    intros [r ctrl]. repeat emits_step; auto.
Qed.

Lemma dma_wait_idle_loop_ret (i : nat) (d : ap130x_device) :
  snd (dma_wait_idle_loop env i d) <= 0.
Proof.
  revert d. induction i as [|i IH]; intros d; cbn [dma_wait_idle_loop].
  - cbn. unfold ETIMEDOUT. lia.
  - unfold bind at 1. destruct (ap130x_read env AP130X_DMA_CTRL d) as [d1 [r ctrl]].
    destruct (r <? 0) eqn:C; [cbn; lia|].
    destruct (_ =? _); [cbn; lia|].
    unfold bind at 1. destruct (do_call env _ d1) as [d2 x]. apply IH.
Qed.

Lemma dma_wait_idle_ret (d : ap130x_device) :
  snd (ap130x_dma_wait_idle env d) <= 0.
Proof. apply dma_wait_idle_loop_ret. Qed.

(** What a write leaves in a slot that held no error: the status of the
    write, never a positive number. *)
Lemma write_slot (reg val : Z) (d d' : ap130x_device) (w : Z * option Z) :
  ap130x_write env reg val (Some 0) d = (d', w) ->
  snd w = Some (fst w) /\ fst w <= 0.
Proof.
  unfold ap130x_write. cbn [err_latched Z.eqb negb].
  assert (D : forall r x y, r <= 0 ->
            ap130x_write_done (Some 0) r x = (y, w) ->
            snd w = Some (fst w) /\ fst w <= 0).
  { intros r x y Hr E. unfold ap130x_write_done, ret in E.
    injection E as <- <-. cbn [fst snd].
    destruct (r =? 0) eqn:Z0; [apply Z.eqb_eq in Z0; subst|]; auto. }
  assert (W : forall rg v x, snd (__ap130x_write env rg v x) <= 0).
  { intros rg v x. unfold __ap130x_write, do_call_status.
    destruct (_ =? 2); [|destruct (_ =? 4)]; cbn;
      try apply errno_nonpos. unfold EINVAL. lia. }
  intros H.
  repeat run_step H;
    match goal with
    | E : __ap130x_write env ?rg ?v ?x = (_, ?r) |- _ =>
        pose proof (W rg v x) as Wr; rewrite E in Wr; cbn [snd] in Wr
    end;
    eapply D; eauto.
Qed.

Lemma emits_sipm_write (port reg val : Z) :
  emits (src_write_carries val) (ap130x_sipm_write env port reg val).
Proof.
  unfold ap130x_sipm_write.
  destruct (2 <? AP130X_REG_SIZE reg); [apply emits_ret|].
  repeat first
    [ apply emits_dma_wait_idle; intros r v E; discriminate E
    | apply emits_write32; [reflexivity|reflexivity|];
      intros r v E; cbn [fst] in E; injection E as E;
      first [ now rewrite <- E | vm_compute in E; discriminate E ]
    | apply emits_write16; [reflexivity|reflexivity|];
      intros r v E; discriminate E
    | emits_step ].
Qed.

Lemma sipm_write_src_issued (port reg val : Z) (d d' : ap130x_device) :
  ap130x_sipm_write env port reg val d = (d', 0) ->
  exists r,
    In (regmap_write regmap32 (AP130X_REG_ADDR AP130X_DMA_SRC)
          (dma_src_word val), r) (emitted d d').
Proof.
  intros H. pose proof H as H0.
  unfold ap130x_sipm_write in H.
  destruct (2 <? AP130X_REG_SIZE reg); [discriminate H|].
  run_step H. run_step H.
  { apply pair_inv in H as (_ & H). ret_contra H. }
  assert (z = 0) as ->.
  { pose proof (dma_wait_idle_ret d) as R. rewrite E in R. cbn in R.
    apply Z.ltb_ge in C. lia. }
  run_step H. run_step H. run_step H.
  { apply pair_inv in H as (_ & H). ret_contra H. }
  destruct (write_slot _ _ _ _ _ E0) as (S1 & N1).
  destruct (err_latched (snd p)) eqn:L.
  { rewrite write_latched in E1 by assumption.
    apply pair_inv in E1 as (<- & <-).
    cbn [snd] in C0. rewrite S1 in L, C0. cbn in L, C0.
    apply negb_true_iff, Z.eqb_neq in L. apply Z.ltb_ge in C0. lia. }
  rewrite write32_run in E1 by (assumption || reflexivity).
  cbv zeta in E1. unfold ap130x_write_done, ret in E1.
  apply pair_inv in E1 as (E1 & _).
  assert (X1 : extends d a0).
  { eapply extends_trans.
    - eapply emits_extends; [|exact E].
      apply (emits_dma_wait_idle (fun _ => True)); auto.
    - eapply emits_extends; [|exact E0].
      apply (emits_write32 env (fun _ => True)); auto. }
  repeat run_step H.
  all: lazymatch type of H with
       | (_, 0) = _ => idtac
       | _ => apply pair_inv in H as (_ & Hz); ret_contra Hz
       end.
  apply pair_inv in H as (Hd & _).
  assert (X2 : extends a1 d').
  { rewrite <- Hd. eapply extends_trans; [|eapply extends_trans; [|eapply extends_trans]].
    - eapply (emits_extends (fun _ => True)); [apply emits_gets|eassumption].
    - eapply (emits_extends (fun _ => True)); [|eassumption].
      apply emits_write32; auto.
    - eapply (emits_extends (fun _ => True)); [|eassumption].
      apply emits_write16; auto.
    - eapply (emits_extends (fun _ => True)); [|eassumption].
      apply emits_dma_wait_idle; auto. }
  destruct X1 as (e1 & X1). destruct X2 as (e2 & X2).
  assert (T : trace a1 = trace a0 ++
            [(regmap_write regmap32 (AP130X_REG_ADDR AP130X_DMA_SRC)
                (dma_src_word val),
              env (trace a0)
                (regmap_write regmap32 (AP130X_REG_ADDR AP130X_DMA_SRC)
                   (dma_src_word val)))])
    by (now rewrite <- E1).
  set (ev := (regmap_write regmap32 _ _, _)) in T.
  exists (snd ev).
  assert (Tr : trace d' = trace d ++ (e1 ++ ev :: e2))
    by (rewrite X2, T, X1; now rewrite <- !app_assoc).
  rewrite (emitted_app _ _ _ Tr).
  apply in_or_app. right. left. reflexivity.
Qed.

Lemma dma_src_word_high (val : Z) :
  Z.shiftr (dma_src_word val) 16 = val mod 2 ^ 16.
Proof.
  unfold dma_src_word, wrap32. rewrite Z.shiftr_lor.
  change (Z.shiftr (AP130X_REG_ADDR AP130X_DMA_SRC) 16) with 0.
  rewrite Z.lor_0_r, Z.shiftl_mul_pow2, Z.shiftr_div_pow2 by lia.
  change (2 ^ 32) with (2 ^ 16 * 2 ^ 16).
  rewrite Z.mul_mod_distr_r by lia.
  apply Z.div_mul. lia.
Qed.

(** C5 -- Shift quirks of the sensor proxy.  A proxy read that succeeds
    ends with the read of the scratch register [AP130X_DMA_DST] and
    returns that 32-bit word shifted right by [32 - size * 8] bits: 24
    bits for a 1-byte register and 16 bits for a 2-byte register.  A
    proxy write places its value in the source register
    [AP130X_DMA_SRC] shifted left by 16 bits (within 32 bits), whatever
    the width: every write to that register carries [dma_src_word val],
    whose bits 31:16 are the low 16 bits of [val] (its low half holds
    the address of the register itself), and a proxy write that succeeds
    has issued that write. *)
Theorem sipm_shift_quirks :
  (forall port reg d d' v,
      AP130X_REG_SIZE reg = 1 \/ AP130X_REG_SIZE reg = 2 ->
      ap130x_sipm_read env port reg d = (d', (0, v)) ->
      exists tr w,
        trace d' =
        tr ++ [(regmap_read regmap32 (AP130X_REG_ADDR AP130X_DMA_DST), w)]
        /\ r_status w = Ok
        /\ v = Z.shiftr (wrap32 (r_val w)) (32 - AP130X_REG_SIZE reg * 8)
        /\ (AP130X_REG_SIZE reg = 1 -> v = Z.shiftr (wrap32 (r_val w)) 24)
        /\ (AP130X_REG_SIZE reg = 2 -> v = Z.shiftr (wrap32 (r_val w)) 16))
  /\ (forall port reg val d d' r,
      ap130x_sipm_write env port reg val d = (d', r) ->
      Forall (src_write_carries val) (emitted d d'))
  /\ (forall port reg val d d',
      ap130x_sipm_write env port reg val d = (d', 0) ->
      exists r,
        In (regmap_write regmap32 (AP130X_REG_ADDR AP130X_DMA_SRC)
              (dma_src_word val), r) (emitted d d'))
  /\ (forall val,
      dma_src_word val
      = Z.lor (wrap32 (Z.shiftl val 16)) (AP130X_REG_ADDR AP130X_DMA_SRC)
      /\ Z.shiftr (dma_src_word val) 16 = val mod 2 ^ 16).
Proof.
  split; [|split; [|split]].
  - intros port reg d d' v Hs H.
    destruct (sipm_read_value port reg d d' v H) as (tr & w & Ht & Hw & Hv).
    exists tr, w. repeat split; auto.
    + intros S1. rewrite Hv, S1. reflexivity.
    + intros S2. rewrite Hv, S2. reflexivity.
  - intros port reg val d d' r H.
    eapply emits_Forall; [apply emits_sipm_write|exact H].
  - apply sipm_write_src_issued.
  - intros val. split; [reflexivity|apply dma_src_word_high].
Qed.


End Sipm.

(** * Stream control *)

Section Stream.

Variable env : oracle.

Lemma emits_set_reg (P : event -> Prop) (reg val : Z) :
  AP130X_REG_PAGE reg = 0 -> AP130X_REG_SIZE reg = 2 ->
  (forall v r, P (regmap_write regmap16 (AP130X_REG_ADDR reg) v, r)) ->
  emits P (ap130x_set_reg env reg val).
Proof.
  intros Hp Hs H. unfold ap130x_set_reg.
  apply emits_bind; [now apply emits_write16|intros w; apply emits_ret].
Qed.

Lemma emits_s_ctrl (id : v4l2_cid) (val : Z) :
  emits not_sys_start (ap130x_s_ctrl env id val).
Proof.
  destruct id; cbn [ap130x_s_ctrl];
    try (apply emits_set_reg; [reflexivity|reflexivity|intros; reflexivity]).
  - unfold ap130x_set_wb_mode.
    repeat first
      [ apply emits_read16; [reflexivity|reflexivity|intros; reflexivity]
      | apply emits_write16; [reflexivity|reflexivity|intros; reflexivity]
      | emits_step ].
  - unfold ap130x_set_exposure.
    repeat first
      [ apply emits_read16; [reflexivity|reflexivity|intros; reflexivity]
      | apply emits_write16; [reflexivity|reflexivity|intros; reflexivity]
      | emits_step ].
  - apply emits_ret.
Qed.

Lemma emits_ctrl_handler_setup (cs : list (v4l2_cid * Z)) :
  emits not_sys_start (v4l2_ctrl_handler_setup env cs).
Proof.
  induction cs as [|[id val] cs IH]; cbn [v4l2_ctrl_handler_setup].
  - apply emits_ret.
  - apply emits_bind; [apply emits_s_ctrl|].
    intros r. destruct (negb (r =? 0)); [apply emits_ret|apply IH].
Qed.

Lemma emits_configure : emits not_sys_start (ap130x_configure env).
Proof.
  unfold ap130x_configure.
  repeat first
    [ apply emits_write16; [reflexivity|reflexivity|intros; reflexivity]
    | apply emits_ctrl_handler_setup
    | emits_step ].
Qed.

Lemma stall_off_run (d : ap130x_device) :
  ap130x_stall env false d =
  (let c := regmap_write regmap16 (AP130X_REG_ADDR AP130X_SYS_START)
              (Z.lor (Z.lor (Z.lor AP130X_SYS_START_PLL_LOCK
                                   AP130X_SYS_START_STALL_STATUS)
                            AP130X_SYS_START_STALL_EN)
                     AP130X_SYS_START_STALL_MODE_DISABLED) in
   let r := env (trace d) c in
   (with_trace (trace d ++ [(c, r)]) d, errno (r_status r))).
Proof. reflexivity. Qed.

Lemma count_calls_app (p : call -> bool) (e1 e2 : list event) :
  count_calls p (e1 ++ e2) = (count_calls p e1 + count_calls p e2)%nat.
Proof. unfold count_calls. now rewrite filter_app, length_app. Qed.

Lemma count_calls_none (p : call -> bool) (evs : list event) :
  Forall (fun e => p (fst e) = false) evs -> count_calls p evs = O.
Proof.
  unfold count_calls. induction 1 as [|e evs He _ IH]; simpl; auto.
  now rewrite He.
Qed.

(** C8 -- Idempotence of the stream controller.  From the stalled state
    ([streaming = false]), a start call ([enable = 1]) that succeeds has
    issued exactly one write to the stall register [AP130X_SYS_START]
    and left the device streaming; a second start call right after it
    returns 0 without touching the device: no event at all, so no
    second stall-register write.  A stop call ([enable = 0]) that
    succeeds, from either state, leaves the device stalled, and a second
    stop call right after it returns 0 without any event: zero register
    writes. *)
Theorem s_stream_idempotent :
  (forall d d1,
      streaming d = false ->
      ap130x_s_stream env 1 d = (d1, 0) ->
      count_calls is_sys_start_write (emitted d d1) = 1%nat
      /\ streaming d1 = true
      /\ ap130x_s_stream env 1 d1 = (d1, 0)
      /\ count_calls is_sys_start_write
           (emitted d (fst (ap130x_s_stream env 1 d1))) = 1%nat)
  /\ (forall d d1,
      ap130x_s_stream env 0 d = (d1, 0) ->
      streaming d1 = false
      /\ ap130x_s_stream env 0 d1 = (d1, 0)
      /\ count_calls is_register_access
           (emitted d1 (fst (ap130x_s_stream env 0 d1))) = O).
Proof.
  split.
  - intros d d1 Hs H.
    assert (Hcount : count_calls is_sys_start_write (emitted d d1) = 1%nat
                     /\ streaming d1 = true).
    { unfold ap130x_s_stream in H.
      unfold bind at 1 in H. unfold gets at 1 in H. rewrite Hs in H.
      change (1 =? 0) with false in H. cbn [negb] in H.
      run_step H. run_step H.
      { apply pair_inv in H as (_ & Hz). ret_contra Hz. }
      run_step H. rewrite stall_off_run in E0. cbv zeta in E0.
      apply pair_inv in E0 as (E0 & Er).
      run_step H.
      2:{ apply pair_inv in H as (_ & Hz). ret_contra Hz. }
      unfold bind, modify, ret in H. apply pair_inv in H as (<- & _).
      split; [|reflexivity].
      pose proof (emits_configure d) as (ec & Ec & Fc).
      rewrite E in Ec. cbn [fst] in Ec.
      assert (T : trace (with_streaming true a0) = trace d ++ ec ++
                  [(regmap_write regmap16 (AP130X_REG_ADDR AP130X_SYS_START)
                      (Z.lor (Z.lor (Z.lor AP130X_SYS_START_PLL_LOCK
                                           AP130X_SYS_START_STALL_STATUS)
                                    AP130X_SYS_START_STALL_EN)
                             AP130X_SYS_START_STALL_MODE_DISABLED),
                    env (trace a)
                      (regmap_write regmap16 (AP130X_REG_ADDR AP130X_SYS_START)
                         (Z.lor (Z.lor (Z.lor AP130X_SYS_START_PLL_LOCK
                                              AP130X_SYS_START_STALL_STATUS)
                                       AP130X_SYS_START_STALL_EN)
                                AP130X_SYS_START_STALL_MODE_DISABLED)))]).
      { rewrite <- E0. cbn [trace with_streaming with_trace].
        now rewrite Ec, <- app_assoc. }
      rewrite (emitted_app _ _ _ T), count_calls_app.
      rewrite (count_calls_none _ _ Fc). reflexivity. }
    destruct Hcount as (Hc & Hst).
    assert (Hnoop : ap130x_s_stream env 1 d1 = (d1, 0)).
    { unfold ap130x_s_stream. unfold bind at 1. unfold gets at 1.
      rewrite Hst. reflexivity. }
    repeat split; auto.
    rewrite Hnoop. exact Hc.
  - intros d d1 H.
    assert (Hst : streaming d1 = false).
    { unfold ap130x_s_stream in H.
      unfold bind at 1 in H. unfold gets at 1 in H.
      destruct (streaming d) eqn:Hs.
      - change (0 =? 1) with false in H. change (0 =? 0) with true in H.
        cbn [negb] in H. run_step H. run_step H.
        + unfold bind, modify, ret in H. now apply pair_inv in H as (<- & _).
        + apply pair_inv in H as (_ & Hz). ret_contra Hz.
      - change (0 =? 0) with true in H. unfold ret in H.
        now apply pair_inv in H as (<- & _). }
    assert (Hnoop : ap130x_s_stream env 0 d1 = (d1, 0)).
    { unfold ap130x_s_stream. unfold bind at 1. unfold gets at 1.
      rewrite Hst. reflexivity. }
    repeat split; auto.
    rewrite Hnoop. cbn [fst]. now rewrite emitted_refl.
Qed.

End Stream.

(** * The firmware load window *)

Section Window.

Variable env : oracle.

Lemma firstn_plus {A : Type} (a b : nat) (l : list A) :
  firstn (a + b) l = firstn a l ++ firstn b (skipn a l).
Proof.
  revert l. induction a as [|a IH]; intros [|x l]; cbn; auto.
  - now rewrite firstn_nil.
  - now rewrite IH.
Qed.

Lemma window_loop_step (fuel : nat) (d : ap130x_device) (buf : list byte)
  (len pos : Z) :
  0 <= pos < AP130X_FW_WINDOW_SIZE -> 0 < len < 2 ^ 32 ->
  let run := Z.min len (AP130X_FW_WINDOW_SIZE - pos) in
  let c := regmap_raw_write regmap16 (AP130X_FW_WINDOW_OFFSET + pos)
             (firstn (Z.to_nat run) buf) run in
  let r := env (trace d) c in
  let d1 := with_trace (trace d ++ [(c, r)]) d in
  write_fw_window_loop env (S fuel) d buf len pos =
  if negb (errno (r_status r) =? 0) then Some (d1, (errno (r_status r), pos))
  else write_fw_window_loop env fuel d1 (skipn (Z.to_nat run) buf) (len - run)
         (if pos + run =? AP130X_FW_WINDOW_SIZE then 0 else pos + run).
Proof.
  intros Hp Hl run c r d1. cbn [write_fw_window_loop].
  assert (Hlt : (0 <? len) = true) by (apply Z.ltb_lt; lia).
  rewrite Hlt.
  unfold AP130X_FW_WINDOW_SIZE, AP130X_FW_WINDOW_OFFSET in *.
  assert (W1 : wrap32 (pos + 0x8000) = 0x8000 + pos)
    by (unfold wrap32; rewrite Z.mod_small; lia).
  assert (W2 : wrap32 (0x2000 - pos) = 0x2000 - pos)
    by (unfold wrap32; rewrite Z.mod_small; lia).
  rewrite W1, W2. fold run.
  unfold do_call_status, bind, do_call, ret. fold c. fold r. fold d1.
  destruct (negb (errno (r_status r) =? 0)); [reflexivity|].
  assert (Hr : 0 < run <= 0x2000 - pos) by (unfold run; lia).
  assert (Hr' : run <= len) by (unfold run; lia).
  assert (W3 : wrap32 (len - run) = len - run)
    by (unfold wrap32; rewrite Z.mod_small; lia).
  assert (W4 : wrap32 (pos + run) = pos + run)
    by (unfold wrap32; rewrite Z.mod_small; lia).
  rewrite W3, W4.
  replace (0x2000 <=? pos + run) with (pos + run =? 0x2000); [reflexivity|].
  destruct (Z.eqb_spec (pos + run) 0x2000), (Z.leb_spec 0x2000 (pos + run));
    auto; lia.
Qed.

Lemma window_loop_done (fuel : nat) (d : ap130x_device) (buf : list byte)
  (pos : Z) :
  write_fw_window_loop env (S fuel) d buf 0 pos = Some (d, (0, pos)).
Proof. reflexivity. Qed.

(** The loop always returns when given more fuel than bytes. *)
Lemma write_fw_window_loop_total (fuel : nat) :
  forall d buf len pos,
    0 <= pos < AP130X_FW_WINDOW_SIZE -> 0 <= len < 2 ^ 32 ->
    (Z.to_nat len < fuel)%nat ->
    exists res, write_fw_window_loop env fuel d buf len pos = Some res.
Proof.
  induction fuel as [|fuel IH]; intros d buf len pos Hp Hl Hf; [lia|].
  destruct (Z.eq_dec len 0) as [->|Hn].
  - eexists. apply window_loop_done.
  - rewrite window_loop_step by lia. cbv zeta.
    destruct (negb _); [eexists; reflexivity|].
    unfold AP130X_FW_WINDOW_SIZE in *.
    apply IH;
      try (destruct (Z.eqb_spec (pos + Z.min len (0x2000 - pos)) 0x2000));
      lia.
Qed.

Lemma wrap32_range (x : Z) : 0 <= wrap32 x < 2 ^ 32.
Proof. unfold wrap32. apply Z.mod_pos_bound. lia. Qed.

(** From any position a [u32] can hold, the fuel given by
    [ap130x_write_fw_window] suffices: its [None] branch is never
    taken. *)
Lemma write_fw_window_total (d : ap130x_device) (buf : list byte)
  (len pos : Z) :
  0 <= len < 2 ^ 32 -> 0 <= pos < 2 ^ 32 ->
  exists res,
    write_fw_window_loop env (S (S (Z.to_nat len))) d buf len pos = Some res.
Proof.
  intros Hl Hp.
  set (f := S (Z.to_nat len)).
  change (write_fw_window_loop env (S f) d buf len pos)
    with (if 0 <? len then
            let write_addr := wrap32 (pos + AP130X_FW_WINDOW_OFFSET) in
            let write_size :=
              Z.min len (wrap32 (AP130X_FW_WINDOW_SIZE - pos)) in
            let (d1, r) :=
              do_call_status env
                (regmap_raw_write regmap16 write_addr
                   (firstn (Z.to_nat write_size) buf) write_size) d in
            if negb (r =? 0) then Some (d1, (r, pos))
            else
              write_fw_window_loop env f d1
                (skipn (Z.to_nat write_size) buf)
                (wrap32 (len - write_size))
                (if AP130X_FW_WINDOW_SIZE <=? wrap32 (pos + write_size)
                 then 0 else wrap32 (pos + write_size))
          else Some (d, (0, pos))).
  destruct (0 <? len); [|eexists; reflexivity].
  cbv zeta.
  destruct (do_call_status env _ d) as [d1 r].
  destruct (negb (r =? 0)); [eexists; reflexivity|].
  pose proof (wrap32_range (AP130X_FW_WINDOW_SIZE - pos)) as Hw.
  set (ws := Z.min len (wrap32 (AP130X_FW_WINDOW_SIZE - pos))) in *.
  assert (Hws : 0 <= ws <= len) by (unfold ws; lia).
  assert (Hl' : wrap32 (len - ws) = len - ws)
    by (unfold wrap32; rewrite Z.mod_small; lia).
  rewrite Hl'.
  apply write_fw_window_loop_total; [|lia|unfold f; lia].
  pose proof (wrap32_range (pos + ws)) as Hq.
  destruct (Z.leb_spec AP130X_FW_WINDOW_SIZE (wrap32 (pos + ws)));
    unfold AP130X_FW_WINDOW_SIZE in *; lia.
Qed.

(** What a run of the loop does: it only appends raw writes that stay
    inside the window, the cursor stays below the window size, and when
    it returns 0 the writes are those of the plan and the cursor has
    advanced by [len] modulo the window size. *)
Lemma window_loop_spec (fuel : nat) :
  forall d buf len pos d' r pos',
    0 <= pos < AP130X_FW_WINDOW_SIZE -> 0 <= len < 2 ^ 32 ->
    write_fw_window_loop env fuel d buf len pos = Some (d', (r, pos')) ->
    exists evs,
      trace d' = trace d ++ evs
      /\ d' = with_trace (trace d') d
      /\ Forall (fun e => in_window (fst e)) evs
      /\ 0 <= pos' < AP130X_FW_WINDOW_SIZE
      /\ (r = 0 ->
          map fst evs = window_plan_loop fuel buf len pos
          /\ pos' = (pos + len) mod AP130X_FW_WINDOW_SIZE).
Proof.
  induction fuel as [|fuel IH]; intros d buf len pos d' r pos' Hp Hl H.
  - discriminate H.
  - destruct (Z.eq_dec len 0) as [->|Hn].
    + rewrite window_loop_done in H.
      apply (f_equal (fun o => match o with Some x => x | None => (d, (0, 0)) end)) in H.
      apply pair3_inv in H as (<- & <- & <-).
      exists []. rewrite app_nil_r. repeat split; auto; try lia.
      * now destruct d.
      * rewrite Z.add_0_r, Z.mod_small; lia.
    + rewrite window_loop_step in H by lia. cbv zeta in H.
      set (run := Z.min len (AP130X_FW_WINDOW_SIZE - pos)) in *.
      set (c := regmap_raw_write regmap16 _ _ run) in *.
      set (rsp := env (trace d) c) in *.
      set (d1 := with_trace _ d) in *.
      assert (Hrun : 0 < run <= AP130X_FW_WINDOW_SIZE - pos /\ run <= len)
        by (unfold run; lia).
      assert (Hin : in_window c).
      { unfold c, in_window, AP130X_FW_WINDOW_OFFSET, AP130X_FW_WINDOW_SIZE in *.
        repeat split; try lia. apply firstn_le_length. }
      destruct (negb (errno (r_status rsp) =? 0)) eqn:Cr.
      * apply (f_equal (fun o => match o with Some x => x | None => (d, (0, 0)) end)) in H.
        apply pair3_inv in H as (<- & <- & <-).
        exists [(c, rsp)]. repeat split; auto; try lia.
      * set (pos1 := if pos + run =? AP130X_FW_WINDOW_SIZE then 0 else pos + run) in *.
        assert (Hp1 : 0 <= pos1 < AP130X_FW_WINDOW_SIZE).
        { unfold pos1. destruct (Z.eqb_spec (pos + run) AP130X_FW_WINDOW_SIZE);
            unfold AP130X_FW_WINDOW_SIZE in *; lia. }
        destruct (IH d1 _ (len - run) pos1 d' r pos' Hp1 ltac:(lia) H)
          as (evs & Et & Ed & Fw & Hp' & Hok).
        exists ((c, rsp) :: evs).
        split; [|split; [|split; [|split]]].
        -- rewrite Et. unfold d1. cbn [trace with_trace].
           now rewrite <- app_assoc.
        -- exact Ed.
        -- now constructor.
        -- exact Hp'.
        -- intros E0. destruct (Hok E0) as (Hplan & ->). split.
           ++ cbn [map fst window_plan_loop].
              assert (Hlt : (0 <? len) = true) by (apply Z.ltb_lt; lia).
              rewrite Hlt. fold run. fold c. fold pos1. now rewrite Hplan.
           ++ unfold pos1.
              destruct (Z.eqb_spec (pos + run) AP130X_FW_WINDOW_SIZE) as [Ew|Ew].
              ** replace (pos + len) with (len - run + 1 * AP130X_FW_WINDOW_SIZE)
                   by lia.
                 rewrite Z.mod_add by (unfold AP130X_FW_WINDOW_SIZE; lia).
                 reflexivity.
              ** f_equal. lia.
Qed.

Lemma window_plan_stream (fuel : nat) :
  forall buf len pos,
    0 <= pos < AP130X_FW_WINDOW_SIZE -> 0 <= len ->
    (Z.to_nat len < fuel)%nat ->
    concat (map raw_write_data (window_plan_loop fuel buf len pos))
    = firstn (Z.to_nat len) buf.
Proof.
  induction fuel as [|fuel IH]; intros buf len pos Hp Hl Hf; [lia|].
  cbn [window_plan_loop].
  destruct (Z.ltb_spec 0 len) as [Hlt|Hge].
  - set (run := Z.min len (AP130X_FW_WINDOW_SIZE - pos)).
    assert (Hrun : 0 < run <= AP130X_FW_WINDOW_SIZE - pos /\ run <= len)
      by (unfold run; lia).
    cbn [map concat raw_write_data].
    rewrite IH.
    + replace (Z.to_nat len) with (Z.to_nat run + Z.to_nat (len - run))%nat
        by lia.
      now rewrite firstn_plus.
    + destruct (Z.eqb_spec (pos + run) AP130X_FW_WINDOW_SIZE);
        unfold AP130X_FW_WINDOW_SIZE in *; lia.
    + lia.
    + lia.
  - replace len with 0 by lia. reflexivity.
Qed.

Lemma window_plan_loop_fuel (f1 : nat) :
  forall f2 buf len pos,
    0 <= pos < AP130X_FW_WINDOW_SIZE -> 0 <= len ->
    (Z.to_nat len < f1)%nat -> (Z.to_nat len < f2)%nat ->
    window_plan_loop f1 buf len pos = window_plan_loop f2 buf len pos.
Proof.
  induction f1 as [|f1 IH]; intros f2 buf len pos Hp Hl H1 H2; [lia|].
  destruct f2 as [|f2]; [lia|].
  cbn [window_plan_loop].
  destruct (Z.ltb_spec 0 len) as [Hlt|Hge]; [|reflexivity].
  f_equal. apply IH; try lia.
  destruct (Z.eqb_spec (pos + Z.min len (AP130X_FW_WINDOW_SIZE - pos))
              AP130X_FW_WINDOW_SIZE);
    unfold AP130X_FW_WINDOW_SIZE in *; lia.
Qed.

Lemma window_plan_loop_S (f : nat) (buf : list byte) (len pos : Z) :
  window_plan_loop (S f) buf len pos =
  if 0 <? len then
    regmap_raw_write regmap16 (AP130X_FW_WINDOW_OFFSET + pos)
      (firstn (Z.to_nat (Z.min len (AP130X_FW_WINDOW_SIZE - pos))) buf)
      (Z.min len (AP130X_FW_WINDOW_SIZE - pos))
    :: window_plan_loop f
         (skipn (Z.to_nat (Z.min len (AP130X_FW_WINDOW_SIZE - pos))) buf)
         (len - Z.min len (AP130X_FW_WINDOW_SIZE - pos))
         (if pos + Z.min len (AP130X_FW_WINDOW_SIZE - pos)
             =? AP130X_FW_WINDOW_SIZE
          then 0 else pos + Z.min len (AP130X_FW_WINDOW_SIZE - pos))
  else [].
Proof. reflexivity. Qed.

Lemma window_plan_nil (buf : list byte) (pos : Z) : window_plan buf 0 pos = [].
Proof. reflexivity. Qed.

(** The plan, one run at a time. *)
Lemma window_plan_cons (buf : list byte) (len pos : Z) :
  0 <= pos < AP130X_FW_WINDOW_SIZE -> 0 < len ->
  window_plan buf len pos =
  regmap_raw_write regmap16 (AP130X_FW_WINDOW_OFFSET + pos)
    (firstn (Z.to_nat (Z.min len (AP130X_FW_WINDOW_SIZE - pos))) buf)
    (Z.min len (AP130X_FW_WINDOW_SIZE - pos))
  :: window_plan
       (skipn (Z.to_nat (Z.min len (AP130X_FW_WINDOW_SIZE - pos))) buf)
       (len - Z.min len (AP130X_FW_WINDOW_SIZE - pos))
       (if pos + Z.min len (AP130X_FW_WINDOW_SIZE - pos)
           =? AP130X_FW_WINDOW_SIZE
        then 0 else pos + Z.min len (AP130X_FW_WINDOW_SIZE - pos)).
Proof.
  intros Hp Hl. unfold window_plan at 1. rewrite window_plan_loop_S.
  assert (Hlt : (0 <? len) = true) by (apply Z.ltb_lt; lia).
  rewrite Hlt. f_equal. unfold window_plan.
  apply window_plan_loop_fuel; try lia.
  destruct (Z.eqb_spec (pos + Z.min len (AP130X_FW_WINDOW_SIZE - pos))
              AP130X_FW_WINDOW_SIZE);
    unfold AP130X_FW_WINDOW_SIZE in *; lia.
Qed.

Lemma write_fw_window_spec (d : ap130x_device) (buf : list byte)
  (len pos : Z) (d' : ap130x_device) (r pos' : Z) :
  0 <= pos < AP130X_FW_WINDOW_SIZE -> 0 <= len < 2 ^ 32 ->
  ap130x_write_fw_window env buf len pos d = (d', (r, pos')) ->
  exists evs,
    trace d' = trace d ++ evs
    /\ d' = with_trace (trace d') d
    /\ Forall (fun e => in_window (fst e)) evs
    /\ 0 <= pos' < AP130X_FW_WINDOW_SIZE
    /\ (r = 0 ->
        map fst evs = window_plan buf len pos
        /\ pos' = (pos + len) mod AP130X_FW_WINDOW_SIZE
        /\ stream_of evs = firstn (Z.to_nat len) buf).
Proof.
  intros Hp Hl H. unfold ap130x_write_fw_window in H.
  destruct (write_fw_window_loop_total (S (S (Z.to_nat len))) d buf len pos
              Hp Hl ltac:(lia)) as ([d0 [r0 p0]] & Hres).
  rewrite Hres in H. apply pair3_inv in H as (-> & -> & ->).
  destruct (window_loop_spec _ _ _ _ _ _ _ _ Hp Hl Hres)
    as (evs & Et & Ed & Fw & Hp' & Hok).
  exists evs. split; [|split; [|split; [|split]]]; auto.
  intros E0. destruct (Hok E0) as (Hplan & Hpos).
  split; [|split]; auto.
  unfold stream_of. rewrite <- (map_map fst raw_write_data), Hplan.
  apply window_plan_stream; lia.
Qed.

Lemma in_window_raw (evs : list event) :
  Forall (fun e => in_window (fst e)) evs -> raw_calls evs = map fst evs.
Proof.
  unfold raw_calls. induction 1 as [|[c r] evs Hc _ IH]; cbn; auto.
  destruct c; cbn in Hc; try contradiction. cbn. now rewrite IH.
Qed.

Lemma quiet_raw (evs : list event) :
  Forall not_raw evs -> raw_calls evs = [] /\ stream_of evs = [].
Proof.
  unfold raw_calls, stream_of, not_raw.
  induction 1 as [|[c r] evs Hc _ [IH1 IH2]]; cbn in *; auto.
  rewrite Hc, IH2. split; auto. now destruct c.
Qed.

Lemma raw_calls_app (e1 e2 : list event) :
  raw_calls (e1 ++ e2) = raw_calls e1 ++ raw_calls e2.
Proof. unfold raw_calls. now rewrite map_app, filter_app. Qed.

Lemma stream_of_app (e1 e2 : list event) :
  stream_of (e1 ++ e2) = stream_of e1 ++ stream_of e2.
Proof. unfold stream_of. now rewrite map_app, concat_app. Qed.

Lemma seg_refl (d : ap130x_device) : seg d d [] [].
Proof.
  unfold seg. rewrite emitted_refl. split; [apply extends_refl|auto].
Qed.

Lemma seg_trans (d1 d2 d3 : ap130x_device) (rc1 rc2 : list call)
  (st1 st2 : list byte) :
  seg d1 d2 rc1 st1 -> seg d2 d3 rc2 st2 -> seg d1 d3 (rc1 ++ rc2) (st1 ++ st2).
Proof.
  intros (X1 & R1 & S1) (X2 & R2 & S2). split; [|split].
  - eapply extends_trans; eauto.
  - rewrite (emitted_trans _ _ _ X1 X2), raw_calls_app. congruence.
  - rewrite (emitted_trans _ _ _ X1 X2), stream_of_app. congruence.
Qed.

Lemma seg_quiet {A : Type} (m : M A) (d d' : ap130x_device) (a : A) :
  emits not_raw m -> m d = (d', a) -> seg d d' [] [].
Proof.
  intros Hm E. split.
  - eapply emits_extends; eauto.
  - apply quiet_raw. eapply emits_Forall; eauto.
Qed.

Lemma seg_window (d : ap130x_device) (buf : list byte) (len pos : Z)
  (d' : ap130x_device) (pos' : Z) :
  0 <= pos < AP130X_FW_WINDOW_SIZE -> 0 <= len < 2 ^ 32 ->
  ap130x_write_fw_window env buf len pos d = (d', (0, pos')) ->
  seg d d' (window_plan buf len pos) (firstn (Z.to_nat len) buf)
  /\ pos' = (pos + len) mod AP130X_FW_WINDOW_SIZE.
Proof.
  intros Hp Hl H.
  destruct (write_fw_window_spec _ _ _ _ _ _ _ Hp Hl H)
    as (evs & Et & _ & Fw & _ & Hok).
  destruct (Hok eq_refl) as (Hplan & Hpos & Hst).
  split; auto. split; [now exists evs|].
  rewrite (emitted_app _ _ _ Et). split; auto.
  now rewrite in_window_raw.
Qed.

Lemma emits_stall (P : event -> Prop) (stall : bool) :
  (forall m a v r, P (regmap_write m a v, r)) ->
  (forall r, P (msleep 200, r)) ->
  emits P (ap130x_stall env stall).
Proof.
  intros Hw Hs. unfold ap130x_stall.
  repeat first [ apply emits_write_any; assumption | emits_step ]; auto.
Qed.

Lemma byte_at_range (bs : list byte) (i : nat) : 0 <= byte_at bs i < 2 ^ 8.
Proof.
  unfold byte_at. pose proof (Byte.to_N_bounded (nth i bs x00)). lia.
Qed.

Lemma le32_range (bs : list byte) (off : nat) : 0 <= le32 bs off < 2 ^ 32.
Proof.
  unfold le32.
  pose proof (byte_at_range bs off).
  pose proof (byte_at_range bs (off + 1)).
  pose proof (byte_at_range bs (off + 2)).
  pose proof (byte_at_range bs (off + 3)).
  lia.
Qed.

(** Proves that a piece of the code issues no raw write. *)
Ltac quiet_tac :=
  repeat first
    [ apply emits_write_any; intros; reflexivity
    | apply emits_read_any; intros; reflexivity
    | apply emits_stall; intros; reflexivity
    | emits_step; try reflexivity ].

(** From a run [E : m d = (d', a)] of a piece of code that issues no raw
    write, the stretch [S : seg d d' [] []]. *)
Ltac seg_quiet_of E S :=
  match type of E with
  | ?m ?x = (?y, ?a) =>
      assert (S : seg x y [] [])
        by (apply (seg_quiet m x y a); [quiet_tac | exact E])
  end.

(** A load that succeeds: the raw writes are the plan of the PLL
    segment from cursor 0 followed by the plan of the remainder from the
    cursor the first segment left, and together they carry the
    bootdata. *)
Lemma load_firmware_seg (crc_check : bool) (d d' : ap130x_device)
  (blob : list byte) :
  fw d = Some blob ->
  sizeof_fw_hdr <= Z.of_nat (length blob) < 2 ^ 32 ->
  fw_hdr_pll_init_size blob <= fw_size blob ->
  load_firmware env crc_check d = (d', 0) ->
  seg d d'
    (window_plan (fw_data blob) (fw_hdr_pll_init_size blob) 0
     ++ window_plan
          (skipn (Z.to_nat (fw_hdr_pll_init_size blob)) (fw_data blob))
          (fw_size blob - fw_hdr_pll_init_size blob)
          (fw_hdr_pll_init_size blob mod AP130X_FW_WINDOW_SIZE))
    (fw_data blob).
Proof.
  intros Hfw Hlen Hpll H.
  pose proof (le32_range blob 8) as Hr. fold (fw_hdr_pll_init_size blob) in Hr.
  set (pll := fw_hdr_pll_init_size blob) in *.
  assert (Hsz : fw_size blob = Z.of_nat (length blob) - 16).
  { unfold fw_size, wrap32, sizeof_fw_hdr in *. rewrite Z.mod_small; lia. }
  assert (Hdl : Z.of_nat (length (fw_data blob)) = fw_size blob).
  { unfold fw_data. rewrite length_skipn. unfold sizeof_fw_hdr in *. lia. }
  unfold load_firmware in H.
  unfold bind at 1 in H. unfold gets at 1 in H. rewrite Hfw in H.
  fold pll in H.
  run_step H. run_step H.
  { apply pair_inv in H as (_ & Hz). ret_contra Hz. }
  run_step H. run_step H. run_step H.
  { apply pair_inv in H as (_ & Hz). ret_contra Hz. }
  run_step H. run_step H.
  { apply pair_inv in H as (_ & Hz). ret_contra Hz. }
  run_step H. run_step H. run_step H. run_step H.
  { apply pair_inv in H as (_ & Hz). ret_contra Hz. }
  run_step H. run_step H. run_step H.
  { apply pair_inv in H as (_ & Hz). ret_contra Hz. }
  run_step H. run_step H.
  { apply pair_inv in H as (_ & Hz). ret_contra Hz. }
  run_step H.
  assert (z = 0) as -> by (now apply negb_false_iff, Z.eqb_eq in C0).
  assert (z1 = 0) as -> by (now apply negb_false_iff, Z.eqb_eq in C2).
  assert (HW : 0 < AP130X_FW_WINDOW_SIZE) by reflexivity.
  assert (H0W : 0 <= 0 < AP130X_FW_WINDOW_SIZE) by lia.
  destruct (seg_window _ _ _ _ _ _ H0W Hr E0) as (S1 & Hz0).
  rewrite Z.add_0_l in Hz0.
  assert (Wl : wrap32 (fw_size blob - pll) = fw_size blob - pll)
    by (unfold wrap32; rewrite Z.mod_small; lia).
  rewrite Wl in E3.
  assert (Hz0r : 0 <= z0 < AP130X_FW_WINDOW_SIZE)
    by (rewrite Hz0; apply Z.mod_pos_bound; lia).
  assert (Hrem : 0 <= fw_size blob - pll < 2 ^ 32) by lia.
  destruct (seg_window _ _ _ _ _ _ Hz0r Hrem E3) as (S3 & _).
  rewrite Hz0 in S3.
  seg_quiet_of E S0.
  seg_quiet_of E1 S1'.
  seg_quiet_of E2 S2.
  seg_quiet_of E4 S4.
  seg_quiet_of E5 S5.
  seg_quiet_of E6 S6.
  seg_quiet_of E7 S7.
  seg_quiet_of H S8.
  pose proof (seg_trans _ _ _ _ _ _ _ S7 S8) as Sg.
  pose proof (seg_trans _ _ _ _ _ _ _ S6 Sg) as Sg6. clear Sg.
  pose proof (seg_trans _ _ _ _ _ _ _ S5 Sg6) as Sg5. clear Sg6.
  pose proof (seg_trans _ _ _ _ _ _ _ S4 Sg5) as Sg4. clear Sg5.
  pose proof (seg_trans _ _ _ _ _ _ _ S3 Sg4) as Sg3. clear Sg4.
  pose proof (seg_trans _ _ _ _ _ _ _ S2 Sg3) as Sg2. clear Sg3.
  pose proof (seg_trans _ _ _ _ _ _ _ S1' Sg2) as Sg1'. clear Sg2.
  pose proof (seg_trans _ _ _ _ _ _ _ S1 Sg1') as Sg1. clear Sg1'.
  pose proof (seg_trans _ _ _ _ _ _ _ S0 Sg1) as Sg. clear Sg1.
  cbn [app] in Sg. rewrite !app_nil_r in Sg.
  rewrite <- firstn_plus in Sg.
  replace (Z.to_nat pll + Z.to_nat (fw_size blob - pll))%nat
    with (length (fw_data blob)) in Sg by lia.
  now rewrite firstn_all in Sg.
Qed.

Lemma emits_write_fw_window (buf : list byte) (len pos : Z) :
  0 <= pos < AP130X_FW_WINDOW_SIZE -> 0 <= len < 2 ^ 32 ->
  emits raw_in_window (ap130x_write_fw_window env buf len pos)
  /\ forall d,
      0 <= snd (snd (ap130x_write_fw_window env buf len pos d))
      < AP130X_FW_WINDOW_SIZE.
Proof.
  intros Hp Hl. split; intros d.
  - destruct (ap130x_write_fw_window env buf len pos d) as [d' [r pos']] eqn:E.
    destruct (write_fw_window_spec _ _ _ _ _ _ _ Hp Hl E)
      as (evs & Et & _ & Fw & _).
    exists evs. split; auto.
    eapply Forall_impl; [|exact Fw]. intros e He _. exact He.
  - destruct (ap130x_write_fw_window env buf len pos d) as [d' [r pos']] eqn:E.
    destruct (write_fw_window_spec _ _ _ _ _ _ _ Hp Hl E)
      as (evs & _ & _ & _ & Hp' & _).
    exact Hp'.
Qed.

(** Proves that a piece of the code issues no raw write, for the
    footprint [raw_in_window]. *)
Ltac raw_absurd :=
  unfold raw_in_window; intros;
  match goal with
  | H : is_raw_write _ = true |- _ => discriminate H
  end.

Ltac in_window_tac :=
  repeat first
    [ apply emits_write_any; raw_absurd
    | apply emits_read_any; raw_absurd
    | apply emits_stall; raw_absurd
    | apply emits_do_call; raw_absurd
    | emits_step ].

Lemma emits_load_firmware (crc_check : bool) :
  emits raw_in_window (load_firmware env crc_check).
Proof.
  unfold load_firmware.
  apply emits_bind; [apply emits_gets|intros blob].
  apply emits_bind; [in_window_tac|intros w].
  destruct (negb (fst w =? 0)); [apply emits_ret|].
  assert (H0W : 0 <= 0 < AP130X_FW_WINDOW_SIZE)
    by (unfold AP130X_FW_WINDOW_SIZE; lia).
  pose proof (le32_range blob 8) as Hr.
  destruct (emits_write_fw_window (fw_data blob) (fw_hdr_pll_init_size blob) 0
              H0W Hr) as (Hw1 & Hc1).
  apply (emits_bind_post _
           (fun rp => 0 <= snd rp < AP130X_FW_WINDOW_SIZE) _ _ Hw1 Hc1).
  intros [r win_pos] Hpos. cbn [snd] in Hpos.
  destruct (negb (r =? 0)); [apply emits_ret|].
  apply emits_bind; [in_window_tac|intros w2].
  destruct (negb (fst w2 =? 0)); [apply emits_ret|].
  apply emits_bind; [in_window_tac|intros _].
  apply emits_bind.
  { apply emits_write_fw_window; [exact Hpos|apply wrap32_range]. }
  intros [r2 win_pos2].
  destruct (negb (r2 =? 0)); [apply emits_ret|].
  in_window_tac.
Qed.

(** C1 -- Windowed firmware write.
    - One call of [ap130x_write_fw_window] that succeeds, from a cursor
      below the window size: the writes it issued are exactly the runs
      of the plan ([min len (W - pos)] bytes at [base + pos], the cursor
      wrapping to 0 on reaching [W = 8192]); concatenated they are the
      first [len] bytes of the buffer; the cursor returned is
      [(pos + len) mod W], that is [len mod W] from cursor 0.
    - One firmware load that succeeds, on a validated image: the raw
      writes are the runs of the PLL-init segment from cursor 0 followed
      by the runs of the remainder from the cursor the first segment
      left (the cursor is threaded, not reset); concatenated they are
      the whole bootdata; the cursor ends at [fw_size mod W].
    - For a bootdata of 10000 bytes with [pll_init_size = 100] the raw
      writes of the load are 100 bytes at offset 0, 8092 bytes at offset
      100 and 1808 bytes at offset 0. *)
Theorem windowed_firmware_write :
  (forall d buf len pos d' pos',
      0 <= pos < AP130X_FW_WINDOW_SIZE -> 0 <= len < 2 ^ 32 ->
      ap130x_write_fw_window env buf len pos d = (d', (0, pos')) ->
      map fst (emitted d d') = window_plan buf len pos
      /\ stream_of (emitted d d') = firstn (Z.to_nat len) buf
      /\ pos' = (pos + len) mod AP130X_FW_WINDOW_SIZE
      /\ (pos = 0 -> pos' = len mod AP130X_FW_WINDOW_SIZE))
  /\ (forall d d' blob,
      fw d = Some blob ->
      sizeof_fw_hdr <= Z.of_nat (length blob) < 2 ^ 32 ->
      fw_hdr_pll_init_size blob <= fw_size blob ->
      ap130x_load_firmware env d = (d', 0) ->
      stream_of (emitted d d') = fw_data blob
      /\ raw_calls (emitted d d')
         = window_plan (fw_data blob) (fw_hdr_pll_init_size blob) 0
           ++ window_plan
                (skipn (Z.to_nat (fw_hdr_pll_init_size blob)) (fw_data blob))
                (fw_size blob - fw_hdr_pll_init_size blob)
                (fw_hdr_pll_init_size blob mod AP130X_FW_WINDOW_SIZE)
      /\ (fw_hdr_pll_init_size blob mod AP130X_FW_WINDOW_SIZE
          + (fw_size blob - fw_hdr_pll_init_size blob))
         mod AP130X_FW_WINDOW_SIZE
         = fw_size blob mod AP130X_FW_WINDOW_SIZE)
  /\ (forall d d' blob,
      fw d = Some blob ->
      Z.of_nat (length blob) = sizeof_fw_hdr + 10000 ->
      fw_hdr_pll_init_size blob = 100 ->
      ap130x_load_firmware env d = (d', 0) ->
      raw_calls (emitted d d')
      = [regmap_raw_write regmap16 0x8000
           (firstn (Z.to_nat 100) (fw_data blob)) 100;
         regmap_raw_write regmap16 (0x8000 + 100)
           (firstn (Z.to_nat 8092) (skipn (Z.to_nat 100) (fw_data blob)))
           8092;
         regmap_raw_write regmap16 0x8000
           (firstn (Z.to_nat 1808)
              (skipn (Z.to_nat 8092)
                 (skipn (Z.to_nat 100) (fw_data blob))))
           1808]
      /\ (0 + 100) mod AP130X_FW_WINDOW_SIZE = 100
      /\ (100 + 8092) mod AP130X_FW_WINDOW_SIZE = 0
      /\ (100 + 9900) mod AP130X_FW_WINDOW_SIZE = 1808).
Proof.
  split; [|split].
  - intros d buf len pos d' pos' Hp Hl H.
    destruct (write_fw_window_spec _ _ _ _ _ _ _ Hp Hl H)
      as (evs & Et & _ & _ & _ & Hok).
    destruct (Hok eq_refl) as (Hplan & Hpos & Hst).
    rewrite (emitted_app _ _ _ Et). repeat split; auto.
    intros ->. now rewrite Hpos.
  - intros d d' blob Hfw Hlen Hpll H.
    destruct (load_firmware_seg false d d' blob Hfw Hlen Hpll H)
      as (_ & Hrc & Hst).
    repeat split; auto.
    rewrite Z.add_mod_idemp_l by (unfold AP130X_FW_WINDOW_SIZE; lia).
    f_equal. lia.
  - intros d d' blob Hfw Hlen Hpll H.
    assert (Hsz : fw_size blob = 10000).
    { unfold fw_size. rewrite Hlen. reflexivity. }
    assert (Hlen' : sizeof_fw_hdr <= Z.of_nat (length blob) < 2 ^ 32)
      by (rewrite Hlen; unfold sizeof_fw_hdr; lia).
    assert (Hpll' : fw_hdr_pll_init_size blob <= fw_size blob)
      by (rewrite Hpll, Hsz; lia).
    destruct (load_firmware_seg false d d' blob Hfw Hlen' Hpll' H)
      as (_ & Hrc & _).
    rewrite Hrc, Hpll, Hsz.
    generalize (fw_data blob). intros data.
    split; [|repeat split].
    change (100 mod AP130X_FW_WINDOW_SIZE) with 100.
    change (10000 - 100) with 9900.
    rewrite (window_plan_cons data 100 0)
      by (unfold AP130X_FW_WINDOW_SIZE; lia).
    change (Z.min 100 (AP130X_FW_WINDOW_SIZE - 0)) with 100.
    change (100 - 100) with 0. rewrite window_plan_nil.
    rewrite (window_plan_cons _ 9900 100)
      by (unfold AP130X_FW_WINDOW_SIZE; lia).
    change (Z.min 9900 (AP130X_FW_WINDOW_SIZE - 100)) with 8092.
    change (9900 - 8092) with 1808.
    change (if 100 + 8092 =? AP130X_FW_WINDOW_SIZE then 0 else 100 + 8092)
      with 0.
    rewrite (window_plan_cons _ 1808 0)
      by (unfold AP130X_FW_WINDOW_SIZE; lia).
    change (Z.min 1808 (AP130X_FW_WINDOW_SIZE - 0)) with 1808.
    change (1808 - 1808) with 0. rewrite window_plan_nil.
    reflexivity.
Qed.

(** C9 -- Window write bounds.  Whatever the outcome of a call of
    [ap130x_write_fw_window] from a cursor below the window size (8192),
    every write it issues is a raw write to the window of the 16-bit
    register map: it starts in [0x8000, 0x8000 + 8192), and does not run
    past the end of the window; and the cursor it returns is again below
    the window size.  Hence every raw write of a load attempt, in the
    PLL-init segment and in the remainder, stays inside the window. *)
Theorem window_write_bounds :
  (forall d buf len pos d' r pos',
      0 <= pos < AP130X_FW_WINDOW_SIZE -> 0 <= len < 2 ^ 32 ->
      ap130x_write_fw_window env buf len pos d = (d', (r, pos')) ->
      Forall (fun e => in_window (fst e)) (emitted d d')
      /\ 0 <= pos' < AP130X_FW_WINDOW_SIZE)
  /\ (forall d d' r,
      ap130x_load_firmware env d = (d', r) ->
      Forall raw_in_window (emitted d d')).
Proof.
  split.
  - intros d buf len pos d' r pos' Hp Hl H.
    destruct (write_fw_window_spec _ _ _ _ _ _ _ Hp Hl H)
      as (evs & Et & _ & Fw & Hp' & _).
    rewrite (emitted_app _ _ _ Et). auto.
  - intros d d' r H. unfold ap130x_load_firmware in H.
    eapply emits_Forall; [apply emits_load_firmware|exact H].
Qed.

End Window.

(** * The boot sequencer *)

Section Boot.

Variable env : oracle.

Lemma emits_window_loop_any (P : event -> Prop) (fuel : nat) :
  (forall m a v n r, P (regmap_raw_write m a v n, r)) ->
  forall d buf len pos,
    match write_fw_window_loop env fuel d buf len pos with
    | Some (d', _) => exists evs, trace d' = trace d ++ evs /\ Forall P evs
    | None => True
    end.
Proof.
  intros HP.
  induction fuel as [|fuel IH]; intros d buf len pos; cbn [write_fw_window_loop].
  - exact I.
  - destruct (0 <? len).
    + unfold do_call_status, bind, do_call, ret.
      set (c := regmap_raw_write _ _ _ _).
      set (d1 := with_trace _ d).
      destruct (negb _).
      * exists [(c, env (trace d) c)]. split; [reflexivity|].
        constructor; [apply HP|constructor].
      * specialize (IH d1
          (skipn (Z.to_nat (Z.min len (wrap32 (AP130X_FW_WINDOW_SIZE - pos)))) buf)
          (wrap32 (len - Z.min len (wrap32 (AP130X_FW_WINDOW_SIZE - pos))))
          (if AP130X_FW_WINDOW_SIZE
              <=? wrap32 (pos + Z.min len (wrap32 (AP130X_FW_WINDOW_SIZE - pos)))
           then 0
           else wrap32 (pos + Z.min len (wrap32 (AP130X_FW_WINDOW_SIZE - pos))))).
        destruct (write_fw_window_loop _ _ _ _ _ _) as [[d' x]|]; [|exact I].
        destruct IH as (evs & Et & F).
        exists ((c, env (trace d) c) :: evs). split.
        -- rewrite Et. unfold d1. cbn [trace with_trace].
           now rewrite <- app_assoc.
        -- constructor; [apply HP|exact F].
    + exists []. rewrite app_nil_r. auto.
Qed.

(** The window writer issues raw writes only. *)
Lemma emits_window_any (P : event -> Prop) (buf : list byte) (len pos : Z) :
  (forall m a v n r, P (regmap_raw_write m a v n, r)) ->
  emits P (ap130x_write_fw_window env buf len pos).
Proof.
  intros HP d. unfold ap130x_write_fw_window.
  pose proof (emits_window_loop_any P (S (S (Z.to_nat len))) HP d buf len pos)
    as H.
  destruct (write_fw_window_loop _ _ _ _ _ _) as [[d' x]|].
  - exact H.
  - exists []. cbn [fst]. rewrite app_nil_r. auto.
Qed.

Section BusFootprint.

Variable P : event -> Prop.
Hypothesis HP : forall c r, is_bus_call c = true -> P (c, r).

Lemma bus_write (reg val : Z) (err : option Z) :
  emits P (ap130x_write env reg val err).
Proof. apply emits_write_any. intros. now apply HP. Qed.

Lemma bus_read (reg : Z) : emits P (ap130x_read env reg).
Proof. apply emits_read_any; intros; now apply HP. Qed.

Lemma bus_stall (stall : bool) : emits P (ap130x_stall env stall).
Proof. apply emits_stall; intros; now apply HP. Qed.

Lemma bus_window (buf : list byte) (len pos : Z) :
  emits P (ap130x_write_fw_window env buf len pos).
Proof. apply emits_window_any. intros. now apply HP. Qed.

Lemma bus_load_firmware (crc_check : bool) :
  emits P (load_firmware env crc_check).
Proof.
  unfold load_firmware.
  repeat first
    [ apply bus_write | apply bus_read | apply bus_stall | apply bus_window
    | apply emits_do_call; intros; now apply HP
    | emits_step ].
Qed.

Lemma bus_detect_chip : emits P (ap130x_detect_chip env).
Proof.
  unfold ap130x_detect_chip.
  repeat first [ apply bus_read | emits_step ].
Qed.

End BusFootprint.

Section PowerFootprint.

Variable P : event -> Prop.
Hypothesis HP : forall c r, is_power_call c = true -> P (c, r).

Ltac power_tac :=
  repeat first
    [ apply emits_do_call; intros; now apply HP
    | emits_step ].

Lemma pw_standby_pulse (v : Z) : emits P (standby_pulse env v).
Proof. unfold standby_pulse. power_tac. Qed.

Lemma pw_power_on_supplies (rest : list Z) (i : nat) :
  emits P (power_on_supplies env i rest).
Proof.
  revert i. induction rest as [|delay rest IH]; intros i;
    cbn [power_on_supplies]; power_tac. apply IH.
Qed.

Lemma pw_power_on : emits P (ap130x_power_on env).
Proof.
  unfold ap130x_power_on.
  repeat first
    [ apply emits_do_call; intros; now apply HP
    | emits_step
    | apply pw_standby_pulse | apply pw_power_on_supplies ].
Qed.

Lemma pw_power_off : emits P (ap130x_power_off env).
Proof.
  unfold ap130x_power_off.
  repeat first
    [ apply emits_do_call; intros; now apply HP
    | emits_step
    | apply pw_standby_pulse ].
Qed.

Lemma pw_sensor_enable_supplies (delays : list Z) (i n j : nat) :
  emits P (sensor_enable_supplies env delays i j n).
Proof.
  revert j. induction n as [|n IH]; intros j;
    cbn [sensor_enable_supplies]; power_tac. apply IH.
Qed.

Lemma pw_sensor_disable_supplies (i j : nat) :
  emits P (sensor_disable_supplies env i j).
Proof.
  induction j as [|j IH]; cbn [sensor_disable_supplies]; power_tac. apply IH.
Qed.

Lemma pw_sensors_bulk_disable_down (nums : list nat) (i : nat) :
  emits P (sensors_bulk_disable_down env nums i).
Proof.
  induction i as [|i IH]; cbn [sensors_bulk_disable_down]; power_tac.
  apply IH.
Qed.

Lemma pw_power_on_sensors_loop (delays : list Z) (nums rest : list nat)
  (i : nat) : emits P (power_on_sensors_loop env delays nums i rest).
Proof.
  revert i. induction rest as [|n rest IH]; intros i;
    cbn [power_on_sensors_loop].
  - apply emits_ret.
  - repeat first
      [ apply pw_sensor_enable_supplies | apply pw_sensor_disable_supplies
      | apply pw_sensors_bulk_disable_down | apply IH
      | emits_step ].
Qed.

Lemma pw_power_on_sensors : emits P (ap130x_power_on_sensors env).
Proof.
  unfold ap130x_power_on_sensors.
  apply emits_bind; [apply emits_gets|intros [delays|]].
  - apply emits_bind; [apply emits_gets|intros nums].
    apply pw_power_on_sensors_loop.
  - apply emits_ret.
Qed.

Lemma pw_power_off_sensors_loop (rest : list nat) (i : nat) :
  emits P (power_off_sensors_loop env i rest).
Proof.
  revert i. induction rest as [|n rest IH]; intros i;
    cbn [power_off_sensors_loop]; power_tac. apply IH.
Qed.

Lemma pw_power_off_sensors : emits P (ap130x_power_off_sensors env).
Proof.
  unfold ap130x_power_off_sensors.
  apply emits_bind; [apply emits_gets|intros [delays|]].
  - apply emits_bind; [apply emits_gets|intros nums].
    apply pw_power_off_sensors_loop.
  - apply emits_ret.
Qed.

End PowerFootprint.

Lemma not_release_bus (c : call) (r : resp) :
  is_bus_call c = true -> not_release (c, r).
Proof. now destruct c. Qed.

Lemma not_release_power (c : call) (r : resp) :
  is_power_call c = true -> not_release (c, r).
Proof. now destruct c. Qed.

Lemma hw_init_loop_S (crc_check : bool) (left : nat) :
  hw_init_loop env crc_check (S left) =
  (r <- ap130x_power_on env ;;
   if r <? 0 then error_power_sensors env r
   else
     r <- ap130x_detect_chip env ;;
     if negb (r =? 0) then error_power env r
     else
       r <- load_firmware env crc_check ;;
       if r =? 0 then ret 0
       else if negb (r =? - EAGAIN) then error_power env r
       else ap130x_power_off env ;;; hw_init_loop env crc_check left).
Proof. reflexivity. Qed.

Lemma boot_exit_bind {A : Type} (m : M A) (k : A -> M Z) (d : ap130x_device) :
  emits not_release m ->
  (forall a d1, boot_exit d1 (k a d1)) ->
  boot_exit d (bind m k d).
Proof.
  intros Hm Hk. unfold bind.
  destruct (Hm d) as (e1 & E1 & F1).
  destruct (m d) as [d1 a]. cbn [fst] in E1.
  destruct (Hk a d1) as [(H0 & evs & Et & F)|(H0 & evs & rsp & Et & F)].
  - left. split; auto. exists (e1 ++ evs). split.
    + now rewrite Et, E1, app_assoc.
    + now apply Forall_app.
  - right. split; auto. exists (e1 ++ evs), rsp. split.
    + now rewrite Et, E1, !app_assoc.
    + now apply Forall_app.
Qed.

Lemma boot_exit_error_firmware (r : Z) (d : ap130x_device) :
  r <> 0 -> boot_exit d (error_firmware env r d).
Proof.
  intros Hr. right. split; auto.
  exists [], (env (trace d) release_firmware). split; auto.
Qed.

Lemma boot_exit_error_power_sensors (r : Z) (d : ap130x_device) :
  r <> 0 -> boot_exit d (error_power_sensors env r d).
Proof.
  intros Hr. unfold error_power_sensors. apply boot_exit_bind.
  - apply pw_power_off_sensors. apply not_release_power.
  - intros _ d1. now apply boot_exit_error_firmware.
Qed.

Lemma boot_exit_error_power (r : Z) (d : ap130x_device) :
  r <> 0 -> boot_exit d (error_power env r d).
Proof.
  intros Hr. unfold error_power. apply boot_exit_bind.
  - apply pw_power_off. apply not_release_power.
  - intros _ d1. now apply boot_exit_error_power_sensors.
Qed.

Lemma boot_exit_loop (crc_check : bool) (left : nat) :
  forall d, boot_exit d (hw_init_loop env crc_check left d).
Proof.
  induction left as [|left IH]; intros d.
  - cbn [hw_init_loop]. apply boot_exit_error_power_sensors.
    unfold ETIMEDOUT. lia.
  - rewrite hw_init_loop_S.
    apply boot_exit_bind; [apply pw_power_on, not_release_power|].
    intros r d1. destruct (Z.ltb_spec r 0).
    { apply boot_exit_error_power_sensors. lia. }
    apply boot_exit_bind; [apply bus_detect_chip, not_release_bus|].
    intros r1 d2. destruct (Z.eqb_spec r1 0); cbn [negb].
    2:{ now apply boot_exit_error_power. }
    apply boot_exit_bind; [apply bus_load_firmware, not_release_bus|].
    intros r2 d3. destruct (Z.eqb_spec r2 0).
    { left. split; auto. exists []. now rewrite app_nil_r. }
    destruct (negb (r2 =? - EAGAIN)).
    { now apply boot_exit_error_power. }
    apply boot_exit_bind; [apply pw_power_off, not_release_power|].
    intros _ d4. apply IH.
Qed.

Lemma emits_request_firmware : emits not_release (ap130x_request_firmware env).
Proof.
  unfold ap130x_request_firmware.
  repeat first [ apply emits_do_call; intros; reflexivity | emits_step ].
Qed.

(** C7, as the driver has it -- Ownership of the firmware image in
    [ap130x_hw_init], once the image has been requested and validated.
    On every failing exit (sensor power-on failure, ISP power-on
    failure, chip detection failure, fatal load failure, retries
    exhausted) the image is released exactly once and the release is the
    last thing done before returning, hence after the power-off steps.
    On success the image is not released: the device keeps it, and
    [ap130x_remove] releases it after the hardware cleanup. *)
Theorem firmware_release_on_failure :
  (forall d d1 d' r,
      ap130x_request_firmware env d = (d1, 0) ->
      ap130x_hw_init env d = (d', r) ->
      (r <> 0 ->
       exists evs rsp,
         emitted d d' = evs ++ [(release_firmware, rsp)]
         /\ Forall not_release evs)
      /\ (r = 0 -> Forall not_release (emitted d d')))
  /\ (forall d,
      exists evs rsp,
        emitted d (fst (ap130x_remove env d))
        = evs ++ [(release_firmware, rsp)]
        /\ Forall not_release evs).
Proof.
  split.
  - intros d d1 d' r Hreq H.
    unfold ap130x_hw_init, hw_init in H. unfold bind at 1 in H.
    rewrite Hreq in H. change (negb (0 =? 0)) with false in H. cbv iota in H.
    assert (X : boot_exit d1 (d', r)).
    { rewrite <- H. apply boot_exit_bind.
      - apply pw_power_on_sensors, not_release_power.
      - intros r1 d2. destruct (Z.ltb_spec r1 0).
        + apply boot_exit_error_firmware. lia.
        + apply boot_exit_loop. }
    destruct (emits_request_firmware d) as (e0 & E0 & F0).
    rewrite Hreq in E0. cbn [fst] in E0.
    destruct X as [(H0 & evs & Et & F)|(H0 & evs & rsp & Et & F)];
      cbn [fst snd] in *.
    + split; [intros Hr; contradiction|intros _].
      rewrite (emitted_app d d' (e0 ++ evs)).
      * now apply Forall_app.
      * now rewrite Et, E0, app_assoc.
    + split; [intros _|intros Hr; contradiction].
      exists (e0 ++ evs), rsp. split.
      * apply emitted_app. now rewrite Et, E0, !app_assoc.
      * now apply Forall_app.
  - intros d. unfold ap130x_remove, ap130x_hw_cleanup.
    unfold bind at 1.
    destruct ((ap130x_power_off env;;; ap130x_power_off_sensors env) d)
      as [d1 u] eqn:E.
    assert (Hc : emits not_release
                   (ap130x_power_off env;;; ap130x_power_off_sensors env)).
    { apply emits_bind; [apply pw_power_off, not_release_power|intros _].
      apply pw_power_off_sensors, not_release_power. }
    destruct (Hc d) as (evs & Et & F). rewrite E in Et. cbn [fst] in Et.
    exists evs, (env (trace d1) release_firmware). split; auto.
    apply emitted_app. unfold bind, do_call, ret.
    cbn [fst trace with_trace]. now rewrite Et, app_assoc.
Qed.

Lemma error_power_ret (r : Z) (d : ap130x_device) :
  snd (error_power env r d) = r.
Proof.
  unfold error_power, error_power_sensors, error_firmware, bind, ret.
  destruct (ap130x_power_off env d) as [d1 u1].
  destruct (ap130x_power_off_sensors env d1) as [d2 u2].
  destruct (do_call env release_firmware d2) as [d3 u3]. reflexivity.
Qed.

(** C10 -- The revision read of chip detection is load-bearing.  After a
    version read that succeeds, [ap130x_detect_chip] reads the revision
    register [AP130X_CHIP_REV] before it compares the version: whatever
    the version read, the two reads are what detection issues.  When
    the revision read fails, detection returns the error of that read,
    also when the version is the expected [AP130X_CHIP_ID]; the
    revision value itself never influences the result.  The boot
    sequencer then fails with the same error. *)
Theorem detect_chip_revision_read :
  (forall d,
      let c1 := regmap_read regmap16 (AP130X_REG_ADDR AP130X_CHIP_VERSION) in
      let r1 := env (trace d) c1 in
      let c2 := regmap_read regmap16 (AP130X_REG_ADDR AP130X_CHIP_REV) in
      let r2 := env (trace d ++ [(c1, r1)]) c2 in
      r_status r1 = Ok ->
      emitted d (fst (ap130x_detect_chip env d)) = [(c1, r1); (c2, r2)]
      /\ (forall e, r_status r2 = Err e ->
                    snd (ap130x_detect_chip env d) = Z.neg e)
      /\ (r_status r2 = Ok ->
          snd (ap130x_detect_chip env d)
          = if wrap32 (r_val r1) =? AP130X_CHIP_ID then 0 else - EINVAL))
  /\ (forall d d1 d2 d3 rs rp e,
      let c1 := regmap_read regmap16 (AP130X_REG_ADDR AP130X_CHIP_VERSION) in
      let r1 := env (trace d3) c1 in
      let c2 := regmap_read regmap16 (AP130X_REG_ADDR AP130X_CHIP_REV) in
      let r2 := env (trace d3 ++ [(c1, r1)]) c2 in
      ap130x_request_firmware env d = (d1, 0) ->
      ap130x_power_on_sensors env d1 = (d2, rs) -> 0 <= rs ->
      ap130x_power_on env d2 = (d3, rp) -> 0 <= rp ->
      r_status r1 = Ok ->
      r_status r2 = Err e ->
      snd (ap130x_hw_init env d) = Z.neg e).
Proof.
  assert (D : forall d,
      let c1 := regmap_read regmap16 (AP130X_REG_ADDR AP130X_CHIP_VERSION) in
      let r1 := env (trace d) c1 in
      let c2 := regmap_read regmap16 (AP130X_REG_ADDR AP130X_CHIP_REV) in
      let r2 := env (trace d ++ [(c1, r1)]) c2 in
      r_status r1 = Ok ->
      ap130x_detect_chip env d =
      (with_trace (trace d ++ [(c1, r1); (c2, r2)]) d,
       match r_status r2 with
       | Ok => if wrap32 (r_val r1) =? AP130X_CHIP_ID then 0 else - EINVAL
       | Err e => Z.neg e
       end)).
  { intros d c1 r1 c2 r2 H1.
    unfold ap130x_detect_chip. unfold bind at 1.
    change (ap130x_read env AP130X_CHIP_VERSION d)
      with (with_trace (trace d ++ [(c1, r1)]) d,
            (errno (r_status r1),
             match r_status r1 with Ok => wrap32 (r_val r1) | Err _ => 0 end)).
    rewrite H1. cbn [errno Z.eqb negb]. unfold bind at 1.
    change (ap130x_read env AP130X_CHIP_REV (with_trace (trace d ++ [(c1, r1)]) d))
      with (with_trace ((trace d ++ [(c1, r1)]) ++ [(c2, r2)]) d,
            (errno (r_status r2),
             match r_status r2 with Ok => wrap32 (r_val r2) | Err _ => 0 end)).
    rewrite <- app_assoc. cbn [app].
    destruct (r_status r2); cbn [errno Z.eqb negb].
    - destruct (wrap32 (r_val r1) =? AP130X_CHIP_ID); reflexivity.
    - reflexivity. }
  split.
  - intros d c1 r1 c2 r2 H1. rewrite (D d H1). cbn [fst snd]. fold c1 r1 c2 r2.
    split; [|split].
    + now apply emitted_app.
    + intros e He. now rewrite He.
    + intros He. now rewrite He.
  - intros d d1 d2 d3 rs rp e c1 r1 c2 r2 Hreq Hs Hrs Hp Hrp H1 H2.
    unfold ap130x_hw_init, hw_init. unfold bind at 1. rewrite Hreq.
    change (negb (0 =? 0)) with false. cbv iota.
    unfold bind at 1. rewrite Hs.
    apply Z.ltb_ge in Hrs. rewrite Hrs.
    unfold MAX_FW_LOAD_RETRIES. rewrite hw_init_loop_S.
    unfold bind at 1. rewrite Hp.
    apply Z.ltb_ge in Hrp. rewrite Hrp.
    unfold bind at 1. rewrite (D d3 H1). fold c1 r1 c2 r2. rewrite H2.
    change (negb (Z.neg e =? 0)) with true. cbv iota.
    apply error_power_ret.
Qed.

Lemma not_crc_read_power (c : call) (r : resp) :
  is_power_call c = true -> not_crc_read (c, r).
Proof. now destruct c. Qed.

(** The driver as built never reads the CRC register during boot. *)
Lemma hw_init_no_crc_read : emits not_crc_read (ap130x_hw_init env).
Proof.
  assert (Hw : forall reg val err,
             emits not_crc_read (ap130x_write env reg val err))
    by (intros; apply emits_write_any; intros; reflexivity).
  assert (Hrel : forall r, emits not_crc_read (error_firmware env r)).
  { intros r. unfold error_firmware.
    repeat first [ apply emits_do_call; intros; reflexivity | emits_step ]. }
  assert (Hps : forall r, emits not_crc_read (error_power_sensors env r)).
  { intros r. unfold error_power_sensors.
    apply emits_bind; [apply pw_power_off_sensors, not_crc_read_power|].
    intros _. apply Hrel. }
  assert (Hpw : forall r, emits not_crc_read (error_power env r)).
  { intros r. unfold error_power.
    apply emits_bind; [apply pw_power_off, not_crc_read_power|].
    intros _. apply Hps. }
  assert (Hdet : emits not_crc_read (ap130x_detect_chip env)).
  { unfold ap130x_detect_chip.
    repeat first
      [ apply emits_read16; [reflexivity|reflexivity|intros; reflexivity]
      | emits_step ]. }
  assert (Hload : emits not_crc_read (load_firmware env false)).
  { unfold load_firmware.
    repeat first
      [ apply Hw
      | apply emits_window_any; intros; reflexivity
      | apply emits_stall; intros; reflexivity
      | apply emits_do_call; intros; reflexivity
      | emits_step ]. }
  assert (Hloop : forall left, emits not_crc_read (hw_init_loop env false left)).
  { induction left as [|left IH].
    - cbn [hw_init_loop]. apply Hps.
    - rewrite hw_init_loop_S.
      apply emits_bind; [apply pw_power_on, not_crc_read_power|intros r].
      destruct (r <? 0); [apply Hps|].
      apply emits_bind; [apply Hdet|intros r1].
      destruct (negb (r1 =? 0)); [apply Hpw|].
      apply emits_bind; [apply Hload|intros r2].
      destruct (r2 =? 0); [apply emits_ret|].
      destruct (negb (r2 =? - EAGAIN)); [apply Hpw|].
      apply emits_bind; [apply pw_power_off, not_crc_read_power|intros _].
      apply IH. }
  unfold ap130x_hw_init, hw_init.
  apply emits_bind.
  { unfold ap130x_request_firmware.
    repeat first [ apply emits_do_call; intros; reflexivity | emits_step ]. }
  intros r. destruct (negb (r =? 0)); [apply emits_ret|].
  apply emits_bind; [apply pw_power_on_sensors, not_crc_read_power|intros r1].
  destruct (r1 <? 0); [apply Hrel|apply Hloop].
Qed.

End Boot.


(** * Concrete runs *)

(** C2 -- The driver as built never verifies the CRC.  Whatever the
    environment, [ap130x_hw_init] issues no read of the CRC register
    [AP130X_SIP_CRC].  On a chip whose CRC register never matches the
    header of the image, and on one where it fails to match twice,
    [ap130x_hw_init] returns 0 after a single power-on and without a
    power-off: no retry, no [-ETIMEDOUT]. *)
Theorem hw_init_ignores_crc_mismatch :
  (forall env d,
      Forall not_crc_read (emitted d (fst (ap130x_hw_init env d))))
  /\ (let res := ap130x_hw_init (env_crc 1000 fw_small) dev0 in
   snd res = 0
   /\ count_calls is_power_on (trace (fst res)) = 1%nat
   /\ count_calls is_power_off (trace (fst res)) = 0%nat
   /\ count_calls is_crc_read (trace (fst res)) = 0%nat)
  /\ (let res := ap130x_hw_init (env_crc 2 fw_small) dev0 in
      snd res = 0
      /\ count_calls is_power_on (trace (fst res)) = 1%nat
      /\ count_calls is_power_off (trace (fst res)) = 0%nat
      /\ count_calls is_crc_read (trace (fst res)) = 0%nat).
Proof.
  split.
  - intros env d.
    destruct (hw_init_no_crc_read env d) as (evs & Et & F).
    now rewrite (emitted_app _ _ _ Et).
  - vm_compute. repeat split; reflexivity.
Qed.

(** The retry loop itself, run with the CRC verification compiled in:
    two mismatches then a match give three power-ons and a booted chip;
    mismatches only give [-ETIMEDOUT] after exactly three power-ons,
    with every rail off and the image released. *)
Lemma retry_policy_with_crc_check :
  (let res := hw_init (env_crc 2 fw_small) true dev0 in
   snd res = 0
   /\ count_calls is_power_on (trace (fst res)) = 3%nat
   /\ count_calls is_power_off (trace (fst res)) = 2%nat
   /\ count_calls is_crc_read (trace (fst res)) = 3%nat)
  /\ (let res := hw_init (env_crc 1000 fw_small) true dev0 in
      snd res = - ETIMEDOUT
      /\ count_calls is_power_on (trace (fst res)) = 3%nat
      /\ count_calls is_power_off (trace (fst res)) = 3%nat
      /\ rails_off (trace (fst res)) = true
      /\ count_calls is_release (trace (fst res)) = 1%nat).
Proof. vm_compute. repeat split; reflexivity. Qed.

Lemma count_calls_in (p : call -> bool) (c : call) (r : resp)
  (evs : list event) :
  In (c, r) evs -> p c = true -> count_calls p evs <> O.
Proof.
  unfold count_calls. induction evs as [|e evs IH]; cbn [In filter].
  - contradiction.
  - intros [->|Hin] Hp.
    + cbn [fst]. rewrite Hp. discriminate.
    + destruct (p (fst e)); [discriminate|]. now apply IH.
Qed.


(** The same inside the boot sequencer: when the write to the advanced
    register window fails once with [-EAGAIN], the chip is power-cycled
    and the second attempt writes to the window with no page-select
    write after the power-on: two power-ons, two window writes, one
    page-select write. *)
Lemma boot_retry_reuses_cached_page :
  let res := ap130x_hw_init (env_eagain_once fw_small) dev0 in
  snd res = 0
  /\ count_calls is_power_on (trace (fst res)) = 2%nat
  /\ count_calls is_power_off (trace (fst res)) = 1%nat
  /\ count_writes32 AP130X_REG_ADV_START (trace (fst res)) = 2%nat
  /\ count_page_selects (trace (fst res)) = 1%nat.
Proof. vm_compute. repeat split; reflexivity. Qed.

(** C7, counterexample -- It is not the case that every exit of the
    boot sequencer has released the firmware image: a boot that
    succeeds returns without a release. *)
Lemma firmware_kept_on_success :
  ~ (forall env d d' r,
        ap130x_hw_init env d = (d', r) ->
        exists rsp, In (release_firmware, rsp) (emitted d d')).
Proof.
  intros H.
  set (d' := fst (ap130x_hw_init (env_ok fw_small) dev0)).
  assert (Hrun : ap130x_hw_init (env_ok fw_small) dev0 = (d', 0))
    by (vm_compute; reflexivity).
  assert (C : count_calls is_release (emitted dev0 d') = O)
    by (vm_compute; reflexivity).
  destruct (H (env_ok fw_small) dev0 d' 0 Hrun) as (rsp & Hin).
  revert Hin C. generalize (emitted dev0 d'). intros evs Hin C.
  exact (count_calls_in is_release _ _ _ Hin eq_refl C).
Qed.

(** * Witnesses *)

Lemma page_select_discipline_witness :
  let env := env_ok [] in
  let a1 := Write AP130X_ADV_IRQ_SYS_INTE 0xc8 None in
  let a2 := Read AP130X_ADV_IRQ_SYS_INTE in
  let a3 := Read (AP130X_REG_32BIT 0x00490040) in
  let d1 := fst (do_access env a1 dev0) in
  let d2 := fst (do_access env a2 d1) in
  let d3 := fst (do_access env a3 d1) in
  (AP130X_REG_PAGE (access_reg a1) <> 0
   /\ AP130X_REG_PAGE (access_reg a2) = AP130X_REG_PAGE (access_reg a1)
   /\ AP130X_REG_PAGE (access_reg a3) <> AP130X_REG_PAGE (access_reg a1)
   /\ reg_page dev0 <> AP130X_REG_PAGE (access_reg a1)
   /\ access_latched a1 = false)
  /\ (count_page_selects (emitted dev0 d1) = 1%nat
      /\ count_page_selects (emitted d1 d2) = 0%nat
      /\ count_page_selects (emitted dev0 d2) = 1%nat)
  /\ (count_page_selects (emitted dev0 d1) = 1%nat
      /\ count_page_selects (emitted d1 d3) = 1%nat)
  /\ ap130x_write env AP130X_SYS_START 0 (Some 0) dev0
     = (let (d', r) := __ap130x_write env AP130X_SYS_START 0 dev0 in
        ap130x_write_done (Some 0) r d')
  /\ ap130x_write env_page_select_fails AP130X_ADV_IRQ_SYS_INTE 0xc8 None dev0
     = ap130x_write_done None (-5)
         (after_page_select env_page_select_fails 0x230000 dev0).
Proof.
  intros env a1 a2 a3 d1 d2 d3.
  destruct (page_select_discipline env)
    as (_ & Hw0 & _ & _ & _ & _ & _ & Hsame & Hdiff).
  destruct (page_select_discipline env_page_select_fails)
    as (_ & _ & _ & _ & _ & Hmiss & _).
  assert (Hp : AP130X_REG_PAGE (access_reg a1) <> 0)
    by (vm_compute; discriminate).
  assert (Hc : reg_page dev0 <> AP130X_REG_PAGE (access_reg a1))
    by (vm_compute; discriminate).
  split; [|split; [|split; [|split]]].
  - repeat split; auto. vm_compute; discriminate.
  - destruct (Hsame a1 a2 dev0) as (_ & C1 & C2 & C3); auto.
  - destruct (Hdiff a1 a3 dev0) as (_ & C1 & _ & C2); auto;
      vm_compute; discriminate.
  - apply Hw0; reflexivity.
  - apply (Hmiss AP130X_ADV_IRQ_SYS_INTE 0xc8 None dev0); auto.
Defined.

Lemma windowed_firmware_write_witness :
  let env := env_ok [] in
  let w := ap130x_write_fw_window env (fw_data fw_small) 6 8190 dev0 in
  let d := with_fw (Some fw_scenario) dev0 in
  let d' := fst (ap130x_load_firmware env d) in
  (0 <= 8190 < AP130X_FW_WINDOW_SIZE /\ 0 <= 6 < 2 ^ 32
   /\ w = (fst w, (0, 4)))
  /\ (map fst (emitted dev0 (fst w)) = window_plan (fw_data fw_small) 6 8190
      /\ stream_of (emitted dev0 (fst w))
         = firstn (Z.to_nat 6) (fw_data fw_small)
      /\ 4 = (8190 + 6) mod AP130X_FW_WINDOW_SIZE)
  /\ (fw d = Some fw_scenario
      /\ Z.of_nat (length fw_scenario) = sizeof_fw_hdr + 10000
      /\ fw_hdr_pll_init_size fw_scenario = 100
      /\ ap130x_load_firmware env d = (d', 0))
  /\ stream_of (emitted d d') = fw_data fw_scenario
  /\ raw_calls (emitted d d')
     = [regmap_raw_write regmap16 0x8000
          (firstn (Z.to_nat 100) (fw_data fw_scenario)) 100;
        regmap_raw_write regmap16 (0x8000 + 100)
          (firstn (Z.to_nat 8092)
             (skipn (Z.to_nat 100) (fw_data fw_scenario))) 8092;
        regmap_raw_write regmap16 0x8000
          (firstn (Z.to_nat 1808)
             (skipn (Z.to_nat 8092)
                (skipn (Z.to_nat 100) (fw_data fw_scenario)))) 1808].
Proof.
  intros env w d d'.
  destruct (windowed_firmware_write env) as (H1 & H2 & H3).
  assert (Hp : 0 <= 8190 < AP130X_FW_WINDOW_SIZE)
    by (unfold AP130X_FW_WINDOW_SIZE; lia).
  assert (Hl : 0 <= 6 < 2 ^ 32) by lia.
  assert (Hw : w = (fst w, (0, 4))) by (vm_compute; reflexivity).
  assert (Hfw : fw d = Some fw_scenario) by reflexivity.
  assert (Hlen : Z.of_nat (length fw_scenario) = sizeof_fw_hdr + 10000)
    by (vm_compute; reflexivity).
  assert (Hpll : fw_hdr_pll_init_size fw_scenario = 100)
    by (vm_compute; reflexivity).
  assert (Hload : ap130x_load_firmware env d = (d', 0))
    by (vm_compute; reflexivity).
  split; [auto|]. split.
  - destruct (H1 dev0 (fw_data fw_small) 6 8190 (fst w) 4 Hp Hl Hw)
      as (A & B & C & _). auto.
  - assert (Hlen' : sizeof_fw_hdr <= Z.of_nat (length fw_scenario) < 2 ^ 32)
      by (rewrite Hlen; unfold sizeof_fw_hdr; lia).
    assert (Hpll' : fw_hdr_pll_init_size fw_scenario <= fw_size fw_scenario)
      by (rewrite Hpll; vm_compute; discriminate).
    split; [auto|]. split.
    + destruct (H2 d d' fw_scenario Hfw Hlen' Hpll' Hload) as (A & _).
      exact A.
    + destruct (H3 d d' fw_scenario Hfw Hlen Hpll Hload) as (A & _).
      exact A.
Defined.


Lemma sipm_shift_quirks_witness :
  let env := env_scratch 0xAB000000 in
  let rd := ap130x_sipm_read env 0 0x01003000 dev0 in
  let wr := ap130x_sipm_write env 0 0x02003000 0x1234 dev0 in
  (AP130X_REG_SIZE 0x01003000 = 1
   /\ rd = (fst rd, (0, 0xAB))
   /\ wr = (fst wr, 0))
  /\ (exists tr w,
        trace (fst rd)
        = tr ++ [(regmap_read regmap32 (AP130X_REG_ADDR AP130X_DMA_DST), w)]
        /\ r_status w = Ok
        /\ 0xAB = Z.shiftr (wrap32 (r_val w)) 24)
  /\ Forall (src_write_carries 0x1234) (emitted dev0 (fst wr))
  /\ (exists r,
        In (regmap_write regmap32 (AP130X_REG_ADDR AP130X_DMA_SRC)
              (dma_src_word 0x1234), r) (emitted dev0 (fst wr))).
Proof.
  intros env rd wr.
  destruct (sipm_shift_quirks env) as (H1 & H2 & H3 & _).
  assert (Hs : AP130X_REG_SIZE 0x01003000 = 1) by reflexivity.
  assert (Hrd : rd = (fst rd, (0, 0xAB))) by (vm_compute; reflexivity).
  assert (Hwr : wr = (fst wr, 0)) by (vm_compute; reflexivity).
  split; [auto|]. split; [|split].
  - destruct (H1 0 0x01003000 dev0 (fst rd) 0xAB (or_introl Hs) Hrd)
      as (tr & w & Ht & Hw & _ & H24 & _).
    exists tr, w. auto.
  - apply (H2 0 0x02003000 0x1234 dev0 (fst wr) 0 Hwr).
  - apply (H3 0 0x02003000 0x1234 dev0 (fst wr) Hwr).
Defined.

Lemma firmware_release_on_failure_witness :
  let env := env_rev_fails fw_small in
  let d1 := fst (ap130x_request_firmware env dev0) in
  let d' := fst (ap130x_hw_init env dev0) in
  (ap130x_request_firmware env dev0 = (d1, 0)
   /\ ap130x_hw_init env dev0 = (d', -5)
   /\ -5 <> 0)
  /\ (exists evs rsp,
        emitted dev0 d' = evs ++ [(release_firmware, rsp)]
        /\ Forall not_release evs).
Proof.
  intros env d1 d'.
  destruct (firmware_release_on_failure env) as (H1 & _).
  assert (Hreq : ap130x_request_firmware env dev0 = (d1, 0))
    by (vm_compute; reflexivity).
  assert (Hinit : ap130x_hw_init env dev0 = (d', -5))
    by (vm_compute; reflexivity).
  assert (Hr : -5 <> 0) by discriminate.
  split; [auto|].
  destruct (H1 dev0 d1 d' (-5) Hreq Hinit) as (Hfail & _).
  apply (Hfail Hr).
Defined.

Lemma s_stream_idempotent_witness :
  let env := env_ok [] in
  let d1 := fst (ap130x_s_stream env 1 dev0) in
  let d2 := fst (ap130x_s_stream env 0 d1) in
  (streaming dev0 = false
   /\ ap130x_s_stream env 1 dev0 = (d1, 0)
   /\ ap130x_s_stream env 0 d1 = (d2, 0))
  /\ (count_calls is_sys_start_write (emitted dev0 d1) = 1%nat
      /\ ap130x_s_stream env 1 d1 = (d1, 0))
  /\ (streaming d2 = false
      /\ ap130x_s_stream env 0 d2 = (d2, 0)).
Proof.
  intros env d1 d2.
  destruct (s_stream_idempotent env) as (H1 & H2).
  assert (Hs : streaming dev0 = false) by reflexivity.
  assert (Hstart : ap130x_s_stream env 1 dev0 = (d1, 0))
    by (vm_compute; reflexivity).
  assert (Hstop : ap130x_s_stream env 0 d1 = (d2, 0))
    by (vm_compute; reflexivity).
  split; [auto|]. split.
  - destruct (H1 dev0 d1 Hs Hstart) as (A & _ & B & _). auto.
  - destruct (H2 d1 d2 Hstop) as (A & B & _). auto.
Defined.

Lemma window_write_bounds_witness :
  let env := env_raw_fails 1 [] in
  let w := ap130x_write_fw_window env (fw_data fw_small) 6 8190 dev0 in
  (0 <= 8190 < AP130X_FW_WINDOW_SIZE /\ 0 <= 6 < 2 ^ 32
   /\ w = (fst w, (-5, 0)))
  /\ Forall (fun e => in_window (fst e)) (emitted dev0 (fst w))
  /\ 0 <= 0 < AP130X_FW_WINDOW_SIZE.
Proof.
  intros env w.
  destruct (window_write_bounds env) as (H1 & _).
  assert (Hp : 0 <= 8190 < AP130X_FW_WINDOW_SIZE)
    by (unfold AP130X_FW_WINDOW_SIZE; lia).
  assert (Hl : 0 <= 6 < 2 ^ 32) by lia.
  assert (Hw : w = (fst w, (-5, 0))) by (vm_compute; reflexivity).
  split; [auto|].
  apply (H1 dev0 (fw_data fw_small) 6 8190 (fst w) (-5) 0 Hp Hl Hw).
Defined.

Lemma detect_chip_revision_read_witness :
  let env := env_rev_fails fw_small in
  let d1 := fst (ap130x_request_firmware env dev0) in
  let d2 := fst (ap130x_power_on_sensors env d1) in
  let d3 := fst (ap130x_power_on env d2) in
  let c1 := regmap_read regmap16 (AP130X_REG_ADDR AP130X_CHIP_VERSION) in
  let c2 := regmap_read regmap16 (AP130X_REG_ADDR AP130X_CHIP_REV) in
  (ap130x_request_firmware env dev0 = (d1, 0)
   /\ ap130x_power_on_sensors env d1 = (d2, 0)
   /\ ap130x_power_on env d2 = (d3, 0)
   /\ r_status (env (trace d3) c1) = Ok
   /\ wrap32 (r_val (env (trace d3) c1)) = AP130X_CHIP_ID
   /\ r_status (env (trace d3 ++ [(c1, env (trace d3) c1)]) c2) = Err 5)
  /\ snd (ap130x_detect_chip env d3) = -5
  /\ snd (ap130x_hw_init env dev0) = -5.
Proof.
  intros env d1 d2 d3 c1 c2.
  destruct (detect_chip_revision_read env) as (H1 & H2).
  assert (Hreq : ap130x_request_firmware env dev0 = (d1, 0))
    by (vm_compute; reflexivity).
  assert (Hs : ap130x_power_on_sensors env d1 = (d2, 0))
    by (vm_compute; reflexivity).
  assert (Hp : ap130x_power_on env d2 = (d3, 0))
    by (vm_compute; reflexivity).
  assert (Hv : r_status (env (trace d3) c1) = Ok) by reflexivity.
  assert (Hid : wrap32 (r_val (env (trace d3) c1)) = AP130X_CHIP_ID)
    by reflexivity.
  assert (Hrev : r_status (env (trace d3 ++ [(c1, env (trace d3) c1)]) c2)
                 = Err 5) by reflexivity.
  split; [auto 10|]. split.
  - destruct (H1 d3 Hv) as (_ & Herr & _). apply (Herr 5%positive Hrev).
  - apply (H2 dev0 d1 d2 d3 0 0 5%positive Hreq Hs ltac:(lia) Hp ltac:(lia)
              Hv Hrev).
Defined.

(** * Further properties of the driver *)

Lemma testbit_above (x k n : Z) :
  0 <= x < 2 ^ k -> k <= n -> Z.testbit x n = false.
Proof.
  intros Hx Hn.
  destruct (Z.eq_dec x 0) as [->|Hz]; [apply Z.bits_0|].
  apply Z.bits_above_log2; [lia|].
  assert (0 <= k) by (destruct (Z_lt_le_dec k 0); [rewrite Z.pow_neg_r in Hx; lia|lia]).
  apply Z.lt_le_trans with k; [|lia].
  apply Z.log2_lt_pow2; lia.
Qed.

Lemma lor_disjoint_add (x y k : Z) :
  0 <= k -> 0 <= y < 2 ^ k -> x mod 2 ^ k = 0 -> Z.lor x y = x + y.
Proof.
  intros Hk Hy Hx.
  assert (L : Z.land x y = 0); [|now rewrite Z.add_nocarry_lxor, Z.lxor_lor].
  apply Z.bits_inj'. intros n Hn.
  rewrite Z.land_spec, Z.bits_0.
  destruct (Z_lt_le_dec n k).
  - rewrite <- (Z.mod_pow2_bits_low x k n) by lia. rewrite Hx, Z.bits_0. reflexivity.
  - rewrite (testbit_above y k n) by lia. apply andb_false_r.
Qed.

Lemma clear_page_mask (reg : Z) :
  0 <= reg ->
  Z.land reg (Z.lnot AP130X_REG_PAGE_MASK) = 2 ^ 24 * (reg / 2 ^ 24) + reg mod 2 ^ 16.
Proof.
  intros Hr.
  change (Z.lnot AP130X_REG_PAGE_MASK) with (Z.lor (Z.lnot (Z.ones 24)) (Z.ones 16)).
  rewrite Z.land_lor_distr_r.
  rewrite <- Z.ldiff_land, Z.ldiff_ones_r by lia.
  rewrite Z.land_ones by lia.
  rewrite Z.shiftr_div_pow2, Z.shiftl_mul_pow2 by lia.
  rewrite (lor_disjoint_add _ _ 16); try lia.
  - apply Z.mod_pos_bound. lia.
  - change (2 ^ 24) with (2 ^ 8 * 2 ^ 16). rewrite Z.mul_assoc. apply Z.mod_mul. lia.
Qed.

Section X_Transport.

Variable env : oracle.

Lemma reg_addr_mod (reg : Z) : AP130X_REG_ADDR reg = reg mod 2 ^ 16.
Proof.
  unfold AP130X_REG_ADDR. change 0x0000ffff with (Z.ones 16).
  apply Z.land_ones. lia.
Qed.

Lemma adv_reg_sum (reg : Z) :
  0 <= reg < 2 ^ 32 ->
  adv_reg reg = 2 ^ 24 * (reg / 2 ^ 24) + (reg mod 2 ^ 16 + 0xe000).
Proof.
  intros Hr. unfold adv_reg, wrap32, AP130X_REG_ADV_START.
  rewrite clear_page_mask by lia.
  pose proof (Z.mod_pos_bound reg (2 ^ 16) ltac:(lia)).
  assert (0 <= reg / 2 ^ 24 < 2 ^ 8).
  { split; [apply Z.div_pos; lia|apply Z.div_lt_upper_bound; lia]. }
  rewrite Z.mod_small; lia.
Qed.

Lemma adv_reg_size (reg : Z) :
  0 <= reg < 2 ^ 32 -> AP130X_REG_SIZE (adv_reg reg) = AP130X_REG_SIZE reg.
Proof.
  intros Hr. unfold AP130X_REG_SIZE.
  rewrite !Z.shiftr_div_pow2 by lia. rewrite adv_reg_sum by lia.
  pose proof (Z.mod_pos_bound reg (2 ^ 16) ltac:(lia)) as Hb.
  rewrite Z.mul_comm, Z.div_add_l by lia.
  rewrite (Z.div_small (_ + _)) by lia. lia.
Qed.

Lemma adv_reg_addr (reg : Z) :
  0 <= reg < 2 ^ 32 ->
  AP130X_REG_ADDR (adv_reg reg)
  = (AP130X_REG_ADDR reg + AP130X_REG_ADV_START) mod 2 ^ 16.
Proof.
  intros Hr. rewrite !reg_addr_mod, adv_reg_sum by lia.
  unfold AP130X_REG_ADV_START.
  change (2 ^ 24) with (2 ^ 8 * 2 ^ 16).
  rewrite <- Z.mul_assoc, (Z.mul_comm (2 ^ 16)), Z.mul_assoc.
  rewrite Z.add_comm, Z.mod_add by lia. reflexivity.
Qed.

(** X1 -- Address translation of the paged registers.  For a 32-bit
    descriptor, the register a paged access goes to keeps the width tag
    of the descriptor and has the 16-bit address
    [(offset + 0xe000) mod 2^16]: offsets below 0x2000 land in the
    advanced window [0xe000, 0xffff]; larger offsets wrap around to
    [offset - 0x2000].  A read of a 4-byte register of the cached page
    is that one bus read. *)
Theorem adv_reg_translation (reg : Z) :
  0 <= reg < 2 ^ 32 ->
  AP130X_REG_SIZE (adv_reg reg) = AP130X_REG_SIZE reg
  /\ AP130X_REG_ADDR (adv_reg reg)
     = (AP130X_REG_ADDR reg + AP130X_REG_ADV_START) mod 2 ^ 16
  /\ (AP130X_REG_ADDR reg < 0x2000 ->
      AP130X_REG_ADDR (adv_reg reg) = AP130X_REG_ADV_START + AP130X_REG_ADDR reg)
  /\ (0x2000 <= AP130X_REG_ADDR reg ->
      AP130X_REG_ADDR (adv_reg reg) = AP130X_REG_ADDR reg - 0x2000)
  /\ (forall d,
      AP130X_REG_PAGE reg <> 0 -> reg_page d = AP130X_REG_PAGE reg ->
      AP130X_REG_SIZE reg = 4 ->
      map fst (emitted d (fst (ap130x_read env reg d)))
      = [regmap_read regmap32
           ((AP130X_REG_ADDR reg + AP130X_REG_ADV_START) mod 2 ^ 16)]).
Proof.
  intros Hr.
  pose proof (adv_reg_size reg Hr) as Hs.
  pose proof (adv_reg_addr reg Hr) as Hd.
  pose proof (Z.mod_pos_bound reg (2 ^ 16) ltac:(lia)) as Hb.
  split; [exact Hs|]. split; [exact Hd|].
  rewrite Hd, reg_addr_mod. unfold AP130X_REG_ADV_START.
  split; [|split].
  - intros H. rewrite Z.mod_small; lia.
  - intros H.
    replace (reg mod 2 ^ 16 + 0xe000)
      with (reg mod 2 ^ 16 - 0x2000 + 1 * 2 ^ 16) by lia.
    rewrite Z.mod_add by lia. rewrite Z.mod_small; lia.
  - intros d Hp Hc H4.
    rewrite read_hit by assumption.
    unfold __ap130x_read. rewrite Hs, H4. cbn [Z.eqb Pos.eqb].
    unfold bind, do_call, ret. cbn [fst].
    erewrite emitted_app by (cbn [trace with_trace]; reflexivity).
    cbn [map fst]. rewrite Hd, reg_addr_mod. reflexivity.
Qed.

(** X2 -- A descriptor whose width tag is neither 2 nor 4 never reaches
    its target register: on page 0, or on the cached page, a read or a
    write returns [-EINVAL] and leaves the device as it was (no bus
    access at all); on another page the page-select write is issued
    first and, when it succeeds, the cached page is updated before the
    access is refused with [-EINVAL]. *)
Theorem transport_rejects_bad_width (reg val : Z) (err : option Z)
  (d : ap130x_device) :
  0 <= reg < 2 ^ 32 ->
  AP130X_REG_SIZE reg <> 2 -> AP130X_REG_SIZE reg <> 4 ->
  err_latched err = false ->
  (AP130X_REG_PAGE reg = 0 \/ reg_page d = AP130X_REG_PAGE reg ->
   ap130x_write env reg val err d = (d, (- EINVAL, slot_after err (- EINVAL)))
   /\ ap130x_read env reg d = (d, (- EINVAL, 0)))
  /\ (AP130X_REG_PAGE reg <> 0 -> reg_page d <> AP130X_REG_PAGE reg ->
      r_status (env (trace d) (page_select_call (AP130X_REG_PAGE reg))) = Ok ->
      let d' := with_reg_page (AP130X_REG_PAGE reg)
                  (after_page_select env (AP130X_REG_PAGE reg) d) in
      ap130x_write env reg val err d
      = (d', (- EINVAL, slot_after err (- EINVAL)))
      /\ ap130x_read env reg d = (d', (- EINVAL, 0))
      /\ map fst (emitted d d') = [page_select_call (AP130X_REG_PAGE reg)]).
Proof.
  intros Hr H2 H4 Hl.
  assert (W : forall rg x, AP130X_REG_SIZE rg = AP130X_REG_SIZE reg ->
                __ap130x_write env rg val x = (x, - EINVAL)).
  { intros rg x E. unfold __ap130x_write. rewrite E.
    destruct (Z.eqb_spec (AP130X_REG_SIZE reg) 2); [contradiction|].
    destruct (Z.eqb_spec (AP130X_REG_SIZE reg) 4); [contradiction|].
    reflexivity. }
  assert (R : forall rg x, AP130X_REG_SIZE rg = AP130X_REG_SIZE reg ->
                __ap130x_read env rg x = (x, (- EINVAL, 0))).
  { intros rg x E. unfold __ap130x_read. rewrite E.
    destruct (Z.eqb_spec (AP130X_REG_SIZE reg) 2); [contradiction|].
    destruct (Z.eqb_spec (AP130X_REG_SIZE reg) 4); [contradiction|].
    reflexivity. }
  assert (D : forall x, ap130x_write_done err (- EINVAL) x
                        = (x, (- EINVAL, slot_after err (- EINVAL)))).
  { intros x. unfold ap130x_write_done, ret, slot_after.
    destruct err; reflexivity. }
  pose proof (adv_reg_size reg Hr) as Hs.
  split.
  - intros Hp.
    destruct (Z.eq_dec (AP130X_REG_PAGE reg) 0) as [H0|H0].
    + rewrite write_page0, read_page0 by assumption.
      rewrite W, R by reflexivity. now rewrite D.
    + destruct Hp as [Hp|Hp]; [contradiction|].
      rewrite write_hit, read_hit by assumption.
      rewrite W, R by assumption. now rewrite D.
  - intros H0 Hm Hok d'.
    rewrite write_miss, read_miss by assumption. rewrite Hok.
    rewrite W, R by assumption. rewrite D.
    split; [reflexivity|]. split; [reflexivity|].
    unfold d', emitted, after_page_select. cbn [trace with_reg_page with_trace].
    rewrite skipn_app, skipn_all, Nat.sub_diag. reflexivity.
Qed.

(** A sticky write to a 16-bit register of page 0: with a clean slot it
    is one bus write, whose status is latched; with an error in the
    slot it does nothing. *)
Lemma write16_slot (reg val e : Z) (d : ap130x_device) :
  AP130X_REG_PAGE reg = 0 -> AP130X_REG_SIZE reg = 2 ->
  ap130x_write env reg val (Some e) d =
  if e =? 0 then
    let c := regmap_write regmap16 (AP130X_REG_ADDR reg) val in
    let r := env (trace d) c in
    (with_trace (trace d ++ [(c, r)]) d,
     (errno (r_status r), Some (errno (r_status r))))
  else (d, (e, Some e)).
Proof.
  intros Hp Hs. destruct (Z.eqb_spec e 0) as [->|Hn].
  - rewrite write16_run by auto. cbv zeta.
    unfold ap130x_write_done, ret.
    destruct (r_status _); reflexivity.
  - rewrite write_latched; [reflexivity|].
    cbn. now apply Z.eqb_neq in Hn as ->.
Qed.

Lemma emitted_snoc (d : ap130x_device) (evs : list event) :
  emitted d (with_trace (trace d ++ evs) d) = evs.
Proof. apply emitted_app. reflexivity. Qed.

(** The shape of a run of [ap130x_configure]. *)
Lemma configure_shape (d d' : ap130x_device) (r : Z) :
  ap130x_configure env d = (d', r) ->
  (r = 0 ->
   exists evs rest,
     emitted d d' = evs ++ rest
     /\ map fst evs = configure_writes d
     /\ Forall answered_ok evs)
  /\ (r <> 0 ->
      exists evs c rsp,
        emitted d d' = evs ++ [(c, rsp)]
        /\ map fst (evs ++ [(c, rsp)])
           = firstn (S (length evs)) (configure_writes d)
        /\ (length evs < 4)%nat
        /\ Forall answered_ok evs
        /\ r = errno (r_status rsp) /\ r < 0).
Proof.
  unfold ap130x_configure, configure_writes.
  unfold bind at 1. unfold gets at 1.
  unfold bind at 1. rewrite write16_slot by reflexivity.
  cbn [Z.eqb]. cbv zeta.
  set (c1 := regmap_write regmap16 (AP130X_REG_ADDR AP130X_PREVIEW_HINF_CTRL) _).
  destruct (r_status (env (trace d) c1)) as [|e1] eqn:S1; cbn [errno snd].
  2:{ unfold bind at 1, gets at 1. unfold bind at 1, gets at 1.
      unfold bind at 1. rewrite write16_slot by reflexivity. cbn [Z.eqb snd].
      unfold bind at 1, gets at 1.
      unfold bind at 1. rewrite write16_slot by reflexivity. cbn [Z.eqb snd].
      unfold bind at 1, gets at 1.
      unfold bind at 1. rewrite write16_slot by reflexivity. cbn [Z.eqb snd].
      cbn [err_value Z.ltb Z.compare]. unfold ret.
      intros H. apply pair_inv in H as (<- & <-).
      split; [intros H; discriminate H|]. intros _.
      exists [], c1, (env (trace d) c1).
      rewrite emitted_snoc, S1. cbn.
      repeat split; auto; lia. }
  set (d1 := with_trace (trace d ++ [(c1, env (trace d) c1)]) d).
  unfold bind at 1, gets at 1. unfold bind at 1, gets at 1.
  unfold bind at 1. rewrite write16_slot by reflexivity. cbn [Z.eqb snd].
  cbv zeta.
  set (c2 := regmap_write regmap16 (AP130X_REG_ADDR AP130X_PREVIEW_WIDTH) _).
  destruct (r_status (env (trace d1) c2)) as [|e2] eqn:S2; cbn [errno snd].
  2:{ unfold bind at 1, gets at 1.
      unfold bind at 1. rewrite write16_slot by reflexivity. cbn [Z.eqb snd].
      unfold bind at 1, gets at 1.
      unfold bind at 1. rewrite write16_slot by reflexivity. cbn [Z.eqb snd].
      cbn [err_value Z.ltb Z.compare]. unfold ret.
      intros H. apply pair_inv in H as (<- & <-).
      split; [intros H; discriminate H|]. intros _.
      exists [(c1, env (trace d) c1)], c2, (env (trace d1) c2).
      unfold d1 at 1. cbn [trace with_trace].
      rewrite <- app_assoc. rewrite emitted_app with (evs := [(c1, env (trace d) c1)] ++ [(c2, env (trace d1) c2)]) by reflexivity.
      rewrite S2. cbn.
      repeat split; auto; try lia; repeat (constructor; try assumption). }
  set (d2 := with_trace (trace d1 ++ [(c2, env (trace d1) c2)]) d1).
  unfold bind at 1, gets at 1.
  unfold bind at 1. rewrite write16_slot by reflexivity. cbn [Z.eqb snd].
  cbv zeta.
  set (c3 := regmap_write regmap16 (AP130X_REG_ADDR AP130X_PREVIEW_HEIGHT) _).
  destruct (r_status (env (trace d2) c3)) as [|e3] eqn:S3; cbn [errno snd].
  2:{ unfold bind at 1, gets at 1.
      unfold bind at 1. rewrite write16_slot by reflexivity. cbn [Z.eqb snd].
      cbn [err_value Z.ltb Z.compare]. unfold ret.
      intros H. apply pair_inv in H as (<- & <-).
      split; [intros H; discriminate H|]. intros _.
      exists [(c1, env (trace d) c1); (c2, env (trace d1) c2)], c3,
        (env (trace d2) c3).
      rewrite emitted_app
        with (evs := [(c1, env (trace d) c1); (c2, env (trace d1) c2)]
                     ++ [(c3, env (trace d2) c3)])
        by (unfold d2, d1; cbn [trace with_trace];
            now rewrite <- !app_assoc).
      rewrite S3. cbn.
      repeat split; auto; try lia; repeat (constructor; try assumption). }
  set (d3 := with_trace (trace d2 ++ [(c3, env (trace d2) c3)]) d2).
  unfold bind at 1, gets at 1.
  unfold bind at 1. rewrite write16_slot by reflexivity. cbn [Z.eqb snd].
  cbv zeta.
  set (c4 := regmap_write regmap16 (AP130X_REG_ADDR AP130X_PREVIEW_OUT_FMT) _).
  destruct (r_status (env (trace d3) c4)) as [|e4] eqn:S4; cbn [errno snd].
  2:{ cbn [err_value Z.ltb Z.compare]. unfold ret.
      intros H. apply pair_inv in H as (<- & <-).
      split; [intros H; discriminate H|]. intros _.
      exists [(c1, env (trace d) c1); (c2, env (trace d1) c2);
              (c3, env (trace d2) c3)], c4, (env (trace d3) c4).
      rewrite emitted_app
        with (evs := [(c1, env (trace d) c1); (c2, env (trace d1) c2);
                      (c3, env (trace d2) c3)]
                     ++ [(c4, env (trace d3) c4)])
        by (unfold d3, d2, d1; cbn [trace with_trace];
            now rewrite <- !app_assoc).
      rewrite S4. cbn.
      repeat split; auto; try lia; repeat (constructor; try assumption). }
  set (d4 := with_trace (trace d3 ++ [(c4, env (trace d3) c4)]) d3).
  cbn [err_value Z.ltb Z.compare].
  unfold bind at 1, gets at 1. unfold bind at 1.
  destruct (v4l2_ctrl_handler_setup env (ctrls d4) d4) as [d5 x] eqn:E5.
  unfold ret. intros H. apply pair_inv in H as (<- & <-).
  split; [intros _|intros H; now contradiction H].
  destruct (emits_ctrl_handler_setup env (ctrls d4) d4) as (rest & Et & _).
  rewrite E5 in Et. cbn [fst] in Et.
  exists [(c1, env (trace d) c1); (c2, env (trace d1) c2);
          (c3, env (trace d2) c3); (c4, env (trace d3) c4)], rest.
  split; [|split].
  - apply emitted_app. rewrite Et. unfold d4, d3, d2, d1.
    cbn [trace with_trace]. now rewrite <- !app_assoc.
  - reflexivity.
  - repeat constructor; assumption.
Qed.

(** X3 -- [ap130x_configure] stops at the first failure among its four
    format writes: when it returns an error, the writes issued are an
    initial stretch of the four, all but the last answered with
    success, and the error is the status of the last one.  When the
    four writes succeed it returns 0, whatever the outcome of the
    control setup that follows. *)
Theorem configure_first_error (d d' : ap130x_device) (r : Z) :
  ap130x_configure env d = (d', r) ->
  (r = 0 ->
   exists evs rest,
     emitted d d' = evs ++ rest
     /\ map fst evs = configure_writes d
     /\ Forall answered_ok evs)
  /\ (r <> 0 ->
      exists evs c rsp,
        emitted d d' = evs ++ [(c, rsp)]
        /\ map fst (evs ++ [(c, rsp)])
           = firstn (S (length evs)) (configure_writes d)
        /\ (length evs < 4)%nat
        /\ Forall answered_ok evs
        /\ r = errno (r_status rsp) /\ r < 0).
Proof.
  intros Run. split.
  - intros Hr. apply (configure_shape d d' r Run). exact Hr.
  - intros Hr. apply (configure_shape d d' r Run). exact Hr.
Qed.

End X_Transport.

Section X_Dma.

Variable env : oracle.

Lemma count_calls_cons (p : call -> bool) (c : call) (r : resp)
  (evs : list event) :
  count_calls p ((c, r) :: evs)
  = ((if p c then 1 else 0) + count_calls p evs)%nat.
Proof. unfold count_calls. cbn [filter fst]. now destruct (p c). Qed.

Lemma count_calls_nil (p : call -> bool) : count_calls p [] = O.
Proof. reflexivity. Qed.

Lemma read_DMA_CTRL (d : ap130x_device) :
  ap130x_read env AP130X_DMA_CTRL d =
  (let c := regmap_read regmap16 (AP130X_REG_ADDR AP130X_DMA_CTRL) in
   let r := env (trace d) c in
   (with_trace (trace d ++ [(c, r)]) d,
    (errno (r_status r),
     match r_status r with Ok => wrap32 (r_val r) | Err _ => 0 end))).
Proof. reflexivity. Qed.

Lemma dma_wait_idle_loop_run (i : nat) :
  forall d d' r,
    dma_wait_idle_loop env i d = (d', r) ->
    exists evs,
      trace d' = trace d ++ evs
      /\ Forall dma_poll_event evs
      /\ (count_calls is_dma_ctrl_read evs <= i)%nat
      /\ (count_calls is_dma_poll_sleep evs
          <= count_calls is_dma_ctrl_read evs)%nat
      /\ (r = 0 ->
          exists evs' rsp,
            evs = evs' ++ [(regmap_read regmap16
                              (AP130X_REG_ADDR AP130X_DMA_CTRL), rsp)]
            /\ r_status rsp = Ok
            /\ Z.land (wrap32 (r_val rsp)) AP130X_DMA_CTRL_MODE_MASK
               = AP130X_DMA_CTRL_MODE_IDLE)
      /\ (dma_always_busy env ->
          r = - ETIMEDOUT
          /\ count_calls is_dma_ctrl_read evs = i
          /\ count_calls is_dma_poll_sleep evs = i).
Proof.
  induction i as [|i IH]; intros d d' r; cbn [dma_wait_idle_loop].
  - unfold ret. intros H. apply pair_inv in H as (<- & <-).
    exists []. rewrite app_nil_r.
    split; [|split; [|split; [|split; [|split]]]]; auto.
    intros H; discriminate H.
  - unfold bind at 1. rewrite read_DMA_CTRL. cbv zeta.
    set (c := regmap_read regmap16 (AP130X_REG_ADDR AP130X_DMA_CTRL)).
    set (rsp := env (trace d) c).
    set (d1 := with_trace (trace d ++ [(c, rsp)]) d).
    assert (Pc : dma_poll_event (c, rsp)).
    { left. reflexivity. }
    assert (Cr : is_dma_ctrl_read c = true) by reflexivity.
    destruct (r_status rsp) as [|e] eqn:S; cbn [errno].
    + cbn [Z.ltb Z.compare].
      destruct (Z.eqb_spec (Z.land (wrap32 (r_val rsp)) AP130X_DMA_CTRL_MODE_MASK)
                  AP130X_DMA_CTRL_MODE_IDLE) as [Hi|Hb].
      * unfold ret. intros H. apply pair_inv in H as (<- & <-).
        exists [(c, rsp)]. unfold d1. cbn [trace with_trace].
        rewrite !count_calls_cons, !count_calls_nil, Cr.
        change (is_dma_poll_sleep c) with false.
        split; [|split; [|split; [|split; [|split]]]]; auto; try lia.
        -- intros _. exists [], rsp. auto.
        -- intros B. exfalso. destruct (B (trace d)) as (_ & B2). now apply B2.
      * unfold bind at 1. unfold do_call at 1.
        set (s := usleep_range 1000 1500).
        set (d2 := with_trace (trace d1 ++ [(s, env (trace d1) s)]) d1).
        intros H.
        destruct (IH d2 d' r H) as (evs & Et & F & C1 & C2 & Hz & Hb').
        exists ((c, rsp) :: (s, env (trace d1) s) :: evs).
        rewrite !count_calls_cons, Cr.
        change (is_dma_poll_sleep c) with false.
        change (is_dma_ctrl_read s) with false.
        change (is_dma_poll_sleep s) with true.
        split; [|split; [|split; [|split; [|split]]]].
        -- rewrite Et. unfold d2, d1. cbn [trace with_trace].
           now rewrite <- !app_assoc.
        -- constructor; [exact Pc|]. constructor; [|exact F]. now right.
        -- lia.
        -- lia.
        -- intros H0. destruct (Hz H0) as (evs' & rsp' & Ee & H1 & H2).
           exists ((c, rsp) :: (s, env (trace d1) s) :: evs'), rsp'.
           rewrite Ee. auto.
        -- intros B. destruct (Hb' B) as (B1 & B2 & B3).
           rewrite B1, B2, B3. auto.
    + assert (N : (Z.neg e <? 0) = true) by reflexivity. rewrite N.
      unfold ret. intros H. apply pair_inv in H as (<- & <-).
      exists [(c, rsp)]. unfold d1. cbn [trace with_trace].
      rewrite !count_calls_cons, !count_calls_nil, Cr.
      change (is_dma_poll_sleep c) with false.
      split; [|split; [|split; [|split; [|split]]]]; auto; try lia.
      intros B. exfalso. destruct (B (trace d)) as (B1 & _).
      fold c in B1. fold rsp in B1. rewrite S in B1. discriminate B1.
Qed.

(** X4 -- The wait for the DMA engine is a bounded poll.  Whatever the
    bus answers, [ap130x_dma_wait_idle] reads the control register at
    most 50 times, and does nothing else but sleep 1000-1500 us between
    two reads (never more sleeps than reads).  When it returns 0, the
    last thing it did is a successful read that showed the idle mode.
    When the engine never becomes idle, it returns [-ETIMEDOUT] after
    exactly 50 reads and 50 sleeps. *)
Theorem dma_wait_idle_bounded_poll :
  (forall d,
      let d' := fst (ap130x_dma_wait_idle env d) in
      Forall dma_poll_event (emitted d d')
      /\ (count_calls is_dma_ctrl_read (emitted d d') <= 50)%nat
      /\ (count_calls is_dma_poll_sleep (emitted d d')
          <= count_calls is_dma_ctrl_read (emitted d d'))%nat)
  /\ (forall d d',
      ap130x_dma_wait_idle env d = (d', 0) ->
      exists evs rsp,
        emitted d d'
        = evs ++ [(regmap_read regmap16 (AP130X_REG_ADDR AP130X_DMA_CTRL), rsp)]
        /\ r_status rsp = Ok
        /\ Z.land (wrap32 (r_val rsp)) AP130X_DMA_CTRL_MODE_MASK
           = AP130X_DMA_CTRL_MODE_IDLE)
  /\ (dma_always_busy env ->
      forall d,
        let res := ap130x_dma_wait_idle env d in
        snd res = - ETIMEDOUT
        /\ count_calls is_dma_ctrl_read (emitted d (fst res)) = 50%nat
        /\ count_calls is_dma_poll_sleep (emitted d (fst res)) = 50%nat).
Proof.
  unfold ap130x_dma_wait_idle.
  split; [|split].
  - intros d.
    destruct (dma_wait_idle_loop env 50 d) as [d' r] eqn:E.
    destruct (dma_wait_idle_loop_run 50 d d' r E)
      as (evs & Et & F & C1 & C2 & _).
    cbn [fst]. rewrite (emitted_app _ _ _ Et). auto.
  - intros d d' H.
    destruct (dma_wait_idle_loop_run 50 d d' 0 H)
      as (evs & Et & _ & _ & _ & Hz & _).
    rewrite (emitted_app _ _ _ Et). now apply Hz.
  - intros B d.
    destruct (dma_wait_idle_loop env 50 d) as [d' r] eqn:E.
    destruct (dma_wait_idle_loop_run 50 d d' r E)
      as (evs & Et & _ & _ & _ & _ & Hb).
    cbn [fst snd]. rewrite (emitted_app _ _ _ Et). now apply Hb.
Qed.

End X_Dma.

Lemma dma_wait_idle_bounded_poll_witness :
  dma_always_busy env_dma_busy
  /\ snd (ap130x_dma_wait_idle env_dma_busy dev0) = - ETIMEDOUT
  /\ count_calls is_dma_ctrl_read
       (emitted dev0 (fst (ap130x_dma_wait_idle env_dma_busy dev0))) = 50%nat.
Proof.
  assert (B : dma_always_busy env_dma_busy).
  { intros tr. cbn. split; [reflexivity|]. intros H; discriminate H. }
  destruct (dma_wait_idle_bounded_poll env_dma_busy) as (_ & _ & H).
  destruct (H B dev0) as (H1 & H2 & _).
  split; [exact B|]. split; [exact H1|exact H2].
Defined.

Section X_Sipm.

Variable env : oracle.

Lemma div_pow2_testbit (x n : Z) :
  0 <= n -> Z.testbit x n = Z.odd (x / 2 ^ n).
Proof.
  intros Hn. rewrite Z.testbit_odd, Z.shiftr_div_pow2 by lia. reflexivity.
Qed.

Lemma sip_descriptor_sum (port size i2c_addr reg : Z) :
  0 <= port < 64 -> 0 <= i2c_addr < 128 ->
  sip_descriptor port size i2c_addr reg
  = port * 2 ^ 26 + (if size =? 2 then 2 ^ 25 else 0) + 2 ^ 24
    + i2c_addr * 2 ^ 17 + reg mod 2 ^ 16.
Proof.
  intros Hp Hi. unfold sip_descriptor.
  unfold AP130X_DMA_SIP_SIPM, AP130X_DMA_SIP_ID, AP130X_DMA_SIP_REG, wrap32.
  rewrite reg_addr_mod, Z.shiftl_0_r, !Z.shiftl_mul_pow2 by lia.
  rewrite (Z.mod_small (port * _)) by lia.
  rewrite (Z.mod_small (i2c_addr * _)) by lia.
  change AP130X_DMA_SIP_DATA_16_BIT with (2 ^ 25).
  change AP130X_DMA_SIP_ADDR_16_BIT with (2 ^ 24).
  pose proof (Z.mod_pos_bound reg (2 ^ 16) ltac:(lia)) as Hr.
  assert (M26 : forall q, (q * 2 ^ 26) mod 2 ^ 26 = 0)
    by (intros; apply Z.mod_mul; lia).
  set (S := if size =? 2 then 2 ^ 25 else 0).
  assert (HS : S = 0 \/ S = 2 ^ 25) by (unfold S; destruct (size =? 2); auto).
  rewrite (lor_disjoint_add (port * 2 ^ 26) S 26); [| lia | lia | apply M26].
  rewrite (lor_disjoint_add (port * 2 ^ 26 + S) (2 ^ 24) 25); [| lia | lia |].
  2:{ destruct HS as [-> | ->].
      - replace (port * 2 ^ 26 + 0) with ((port * 2) * 2 ^ 25) by lia.
        apply Z.mod_mul. lia.
      - replace (port * 2 ^ 26 + 2 ^ 25) with ((port * 2 + 1) * 2 ^ 25) by lia.
        apply Z.mod_mul. lia. }
  rewrite (lor_disjoint_add (port * 2 ^ 26 + S + 2 ^ 24) (i2c_addr * 2 ^ 17) 24);
    [| lia | lia |].
  2:{ destruct HS as [-> | ->].
      - replace (port * 2 ^ 26 + 0 + 2 ^ 24)
          with ((port * 4 + 1) * 2 ^ 24) by lia.
        apply Z.mod_mul. lia.
      - replace (port * 2 ^ 26 + 2 ^ 25 + 2 ^ 24)
          with ((port * 4 + 3) * 2 ^ 24) by lia.
        apply Z.mod_mul. lia. }
  rewrite (lor_disjoint_add _ (reg mod 2 ^ 16) 16); [| lia | lia |].
  2:{ destruct HS as [-> | ->].
      - replace (port * 2 ^ 26 + 0 + 2 ^ 24 + i2c_addr * 2 ^ 17)
          with ((port * 2 ^ 10 + 2 ^ 8 + i2c_addr * 2) * 2 ^ 16) by lia.
        apply Z.mod_mul. lia.
      - replace (port * 2 ^ 26 + 2 ^ 25 + 2 ^ 24 + i2c_addr * 2 ^ 17)
          with ((port * 2 ^ 10 + 2 ^ 9 + 2 ^ 8 + i2c_addr * 2) * 2 ^ 16) by lia.
        apply Z.mod_mul. lia. }
  reflexivity.
Qed.

(** X5 -- The sensor-side descriptor of a DMA transfer is a bit-field
    record that can be read back: for a port below 64 and a 7-bit I2C
    address, bits 31:26 hold the port, bit 25 tells a 16-bit data
    width, bit 24 (16-bit register addresses) is always set, bits 23:17
    hold the I2C address of the sensor, bit 16 is clear and bits 15:0
    hold the address of the sensor register. *)
Theorem sip_descriptor_fields (port size i2c_addr reg : Z) :
  0 <= port < 64 -> 0 <= i2c_addr < 128 ->
  let w := sip_descriptor port size i2c_addr reg in
  0 <= w < 2 ^ 32
  /\ Z.shiftr w 26 = port
  /\ Z.testbit w 25 = (size =? 2)
  /\ Z.testbit w 24 = true
  /\ Z.land (Z.shiftr w 17) 0x7f = i2c_addr
  /\ Z.testbit w 16 = false
  /\ AP130X_REG_ADDR w = AP130X_REG_ADDR reg.
Proof.
  intros Hp Hi w. subst w. rewrite sip_descriptor_sum by assumption.
  pose proof (Z.mod_pos_bound reg (2 ^ 16) ltac:(lia)) as Hr.
  set (a := reg mod 2 ^ 16) in *.
  set (s := if size =? 2 then 2 ^ 25 else 0).
  assert (Hs : s = 0 \/ s = 2 ^ 25) by (unfold s; destruct (size =? 2); auto).
  split; [lia|].
  split.
  { rewrite Z.shiftr_div_pow2 by lia.
    symmetry. apply (Z.div_unique _ _ _ (s + 2 ^ 24 + i2c_addr * 2 ^ 17 + a)); lia. }
  split.
  { rewrite div_pow2_testbit by lia.
    replace ((port * 2 ^ 26 + s + 2 ^ 24 + i2c_addr * 2 ^ 17 + a) / 2 ^ 25)
      with (s / 2 ^ 25 + 2 * port).
    - rewrite Z.odd_add_mul_2. unfold s. now destruct (size =? 2).
    - apply (Z.div_unique _ _ _ (2 ^ 24 + i2c_addr * 2 ^ 17 + a)); [lia|].
      destruct Hs as [-> | ->];
        [change (0 / 2 ^ 25) with 0|change (2 ^ 25 / 2 ^ 25) with 1]; lia. }
  split.
  { rewrite div_pow2_testbit by lia.
    replace ((port * 2 ^ 26 + s + 2 ^ 24 + i2c_addr * 2 ^ 17 + a) / 2 ^ 24)
      with (1 + 2 * (port * 2 + s / 2 ^ 25)).
    - rewrite Z.odd_add_mul_2. reflexivity.
    - apply (Z.div_unique _ _ _ (i2c_addr * 2 ^ 17 + a)); [lia|].
      destruct Hs as [-> | ->];
        [change (0 / 2 ^ 25) with 0|change (2 ^ 25 / 2 ^ 25) with 1]; lia. }
  split.
  { change 0x7f with (Z.ones 7). rewrite Z.land_ones, Z.shiftr_div_pow2 by lia.
    replace ((port * 2 ^ 26 + s + 2 ^ 24 + i2c_addr * 2 ^ 17 + a) / 2 ^ 17)
      with (i2c_addr + (port * 2 ^ 2 + s / 2 ^ 24 + 1) * 2 ^ 7).
    - rewrite Z.mod_add by lia. apply Z.mod_small. lia.
    - apply (Z.div_unique _ _ _ a); [lia|].
      destruct Hs as [-> | ->];
        [change (0 / 2 ^ 24) with 0|change (2 ^ 25 / 2 ^ 24) with 2]; lia. }
  split.
  { rewrite div_pow2_testbit by lia.
    replace ((port * 2 ^ 26 + s + 2 ^ 24 + i2c_addr * 2 ^ 17 + a) / 2 ^ 16)
      with (0 + 2 * (port * 2 ^ 9 + s / 2 ^ 17 + 2 ^ 7 + i2c_addr)).
    - rewrite Z.odd_add_mul_2. reflexivity.
    - apply (Z.div_unique _ _ _ a); [lia|].
      destruct Hs as [-> | ->];
        [change (0 / 2 ^ 17) with 0|change (2 ^ 25 / 2 ^ 17) with (2 ^ 8)]; lia. }
  rewrite !reg_addr_mod. fold a.
  replace (port * 2 ^ 26 + s + 2 ^ 24 + i2c_addr * 2 ^ 17 + a)
    with (a + (port * 2 ^ 10 + s / 2 ^ 16 + 2 ^ 8 + i2c_addr * 2) * 2 ^ 16).
  - rewrite Z.mod_add by lia. apply Z.mod_small. lia.
  - destruct Hs as [-> | ->];
      [change (0 / 2 ^ 16) with 0|change (2 ^ 25 / 2 ^ 16) with (2 ^ 9)]; lia.
Qed.

End X_Sipm.

Section X_Debugfs.

Variable env : oracle.

Lemma masked_bit (x m n : Z) :
  Z.land x m = 0 -> Z.testbit m n = true -> Z.testbit x n = false.
Proof.
  intros H Hm.
  assert (E : Z.testbit (Z.land x m) n = false) by (rewrite H; apply Z.bits_0).
  rewrite Z.land_spec, Hm, andb_true_r in E. exact E.
Qed.

Lemma wrap32_testbit (x n : Z) :
  0 <= n ->
  Z.testbit (wrap32 x) n = if n <? 32 then Z.testbit x n else false.
Proof.
  intros Hn. unfold wrap32. destruct (Z.ltb_spec n 32).
  - apply Z.mod_pow2_bits_low. lia.
  - apply Z.mod_pow2_bits_high. lia.
Qed.

Lemma bit31_testbit (n : Z) : 0 <= n -> Z.testbit (BIT 31) n = (n =? 31).
Proof.
  intros Hn. unfold BIT. rewrite Z.shiftl_1_l.
  rewrite Z.pow2_bits_eqb by lia. apply Z.eqb_sym.
Qed.

(** The address latched by a successful [ap130x_sipm_addr_set]. *)
Lemma sipm_addr_format (val : Z) :
  Z.land val sipm_addr_reserved_bits = 0 ->
  let a := wrap32 val in
  let reg := Z.land a (Z.lnot (BIT 31)) in
  AP130X_REG_SIZE reg = Z.land (Z.shiftr val 24) 7
  /\ AP130X_REG_ADDR reg = AP130X_REG_ADDR val
  /\ (Z.shiftr a 30 = 0 \/ Z.shiftr a 30 = 2).
Proof.
  intros Hm a reg.
  assert (Hb : forall n, Z.testbit sipm_addr_reserved_bits n = true ->
                         Z.testbit val n = false).
  { intros n. now apply masked_bit. }
  assert (Ha : 0 <= a < 2 ^ 32) by (apply Z.mod_pos_bound; lia).
  split; [|split].
  - unfold AP130X_REG_SIZE. apply Z.bits_inj'. intros n Hn.
    rewrite Z.shiftr_spec by lia. unfold reg.
    rewrite !Z.land_spec, Z.lnot_spec, bit31_testbit by lia.
    unfold a. rewrite wrap32_testbit by lia.
    rewrite Z.shiftr_spec by lia.
    change 7 with (Z.ones 3). rewrite Z.testbit_ones_nonneg by lia.
    destruct (Z.ltb_spec n 3) as [L3|G3].
    + destruct (Z.ltb_spec (n + 24) 32); [|lia].
      destruct (Z.eqb_spec (n + 24) 31); [lia|].
      cbn [negb]. now rewrite !andb_true_r.
    + rewrite andb_false_r.
      destruct (Z.ltb_spec (n + 24) 32) as [L|G]; [|reflexivity].
      destruct (Z.eqb_spec (n + 24) 31); [now rewrite andb_false_r|].
      assert (N : n = 3 \/ n = 4 \/ n = 5 \/ n = 6) by lia.
      rewrite Hb; [reflexivity|].
      destruct N as [-> | [-> | [-> | ->]]]; reflexivity.
  - unfold AP130X_REG_ADDR. change 0x0000ffff with (Z.ones 16).
    apply Z.bits_inj'. intros n Hn. unfold reg.
    rewrite !Z.land_spec, Z.lnot_spec, bit31_testbit by lia.
    unfold a. rewrite wrap32_testbit by lia.
    rewrite Z.testbit_ones_nonneg by lia.
    destruct (Z.ltb_spec n 16) as [L|G]; [|now rewrite !andb_false_r].
    destruct (Z.ltb_spec n 32); [|lia].
    destruct (Z.eqb_spec n 31); [lia|]. cbn [negb]. now rewrite !andb_true_r.
  - assert (T : Z.testbit a 30 = false).
    { unfold a. rewrite wrap32_testbit by lia. cbn [Z.ltb Z.compare].
      apply Hb. reflexivity. }
    rewrite div_pow2_testbit in T by lia.
    rewrite Z.shiftr_div_pow2 by lia.
    assert (Q : 0 <= a / 2 ^ 30 < 4).
    { split; [apply Z.div_pos; lia|apply Z.div_lt_upper_bound; lia]. }
    assert (C : a / 2 ^ 30 = 0 \/ a / 2 ^ 30 = 1 \/ a / 2 ^ 30 = 2
                \/ a / 2 ^ 30 = 3) by lia.
    destruct C as [C | [C | [C | C]]]; rewrite C in T |- *;
      auto; discriminate T.
Qed.

(** X6 -- The [sipm_addr] attribute validates what the [sipm_data]
    attribute relies on.  A value accepted by [ap130x_sipm_addr_set] is
    latched (its low 32 bits) and read back by [ap130x_sipm_addr_get];
    it is never 0, the descriptor handed to the proxy has a width tag of
    1 or 2 and the register address of the value, and the port handed
    to the proxy ([addr >> 30]) is 0 or 2.  A value that is refused
    ([-EINVAL]) leaves the latched address as it was.  While no address
    has been latched, reading or writing [sipm_data] fails with
    [-EINVAL] without any access to the bus; otherwise it is the proxy
    read or write of that descriptor. *)
Theorem debugfs_addr_validation :
  (forall val dbg dbg' r,
      ap130x_sipm_addr_set val dbg = (dbg', r) ->
      (r = 0 ->
       let a := sipm_addr dbg' in
       let reg := Z.land a (Z.lnot (BIT 31)) in
       a = wrap32 val /\ a <> 0
       /\ ap130x_sipm_addr_get dbg' = (0, a)
       /\ (AP130X_REG_SIZE reg = 1 \/ AP130X_REG_SIZE reg = 2)
       /\ AP130X_REG_ADDR reg = AP130X_REG_ADDR val
       /\ (Z.shiftr a 30 = 0 \/ Z.shiftr a 30 = 2))
      /\ (r <> 0 -> r = - EINVAL /\ dbg' = dbg))
  /\ (forall dbg val d,
      sipm_addr dbg = 0 ->
      ap130x_sipm_data_get env dbg d = (d, (- EINVAL, None))
      /\ ap130x_sipm_data_set env val dbg d = (d, - EINVAL))
  /\ (forall dbg val d,
      sipm_addr dbg <> 0 ->
      let port := Z.shiftr (sipm_addr dbg) 30 in
      let reg := Z.land (sipm_addr dbg) (Z.lnot (BIT 31)) in
      ap130x_sipm_data_get env dbg d
      = (let (d', rv) := ap130x_sipm_read env port reg d in
         (d', (fst rv, if fst rv =? 0 then Some (snd rv) else None)))
      /\ ap130x_sipm_data_set env val dbg d
         = ap130x_sipm_write env port reg (wrap32 val) d).
Proof.
  split; [|split].
  - intros val dbg dbg' r. unfold ap130x_sipm_addr_set.
    destruct (Z.eqb_spec (Z.land val sipm_addr_reserved_bits) 0) as [Hm|Hm];
      cbn [negb].
    2:{ intros H. apply pair_inv in H as (<- & <-).
        split; [intros H; discriminate H|auto]. }
    destruct (sipm_addr_format val Hm) as (Hs & Ha & Hp).
    destruct ((Z.land (Z.shiftr val 24) 7 =? 1)
              || (Z.land (Z.shiftr val 24) 7 =? 2)) eqn:Hz.
    2:{ intros H. apply pair_inv in H as (<- & <-).
        split; [intros H; discriminate H|auto]. }
    intros H. apply pair_inv in H as (<- & <-).
    split; [intros _|intros H; now contradiction H].
    cbn [sipm_addr]. cbv zeta.
    assert (Hsz : AP130X_REG_SIZE (Z.land (wrap32 val) (Z.lnot (BIT 31))) = 1
                  \/ AP130X_REG_SIZE (Z.land (wrap32 val) (Z.lnot (BIT 31))) = 2).
    { rewrite Hs. apply orb_true_iff in Hz as [Hz|Hz];
        apply Z.eqb_eq in Hz; auto. }
    split; [reflexivity|]. split.
    { intros E0. rewrite E0 in Hsz. destruct Hsz as [Hsz|Hsz]; discriminate Hsz. }
    split; [reflexivity|]. split; [exact Hsz|]. split; [exact Ha|exact Hp].
  - intros dbg val d H0.
    unfold ap130x_sipm_data_get, ap130x_sipm_data_set. rewrite H0.
    split; reflexivity.
  - intros dbg val d Hn port reg.
    unfold ap130x_sipm_data_get, ap130x_sipm_data_set.
    apply Z.eqb_neq in Hn. rewrite Hn. split; [|reflexivity].
    unfold bind. fold port. fold reg.
    destruct (ap130x_sipm_read env port reg d) as [d' [r v]].
    cbn [fst snd]. destruct (r =? 0); reflexivity.
Qed.

End X_Debugfs.

Section SipmWidth.

Variable env : oracle.



End SipmWidth.

(** * Witnesses X-batch 1 *)

Lemma adv_reg_translation_witness :
  0 <= AP130X_ADV_IRQ_SYS_INTE < 2 ^ 32
  /\ AP130X_REG_ADDR (adv_reg AP130X_ADV_IRQ_SYS_INTE) = 0xe000
  /\ AP130X_REG_ADDR (adv_reg (AP130X_REG_32BIT 0x00233000)) = 0x1000
  /\ map fst (emitted (with_reg_page 0x230000 dev0)
                (fst (ap130x_read (env_ok []) AP130X_ADV_IRQ_SYS_INTE
                        (with_reg_page 0x230000 dev0))))
     = [regmap_read regmap32 0xe000].
Proof.
  assert (H : 0 <= AP130X_ADV_IRQ_SYS_INTE < 2 ^ 32)
    by (split; [discriminate|reflexivity]).
  assert (H' : 0 <= AP130X_REG_32BIT 0x00233000 < 2 ^ 32)
    by (split; [discriminate|reflexivity]).
  destruct (adv_reg_translation (env_ok []) _ H) as (_ & _ & H3 & _ & H5).
  destruct (adv_reg_translation (env_ok []) _ H') as (_ & _ & _ & H4 & _).
  split; [exact H|]. split; [|split].
  - rewrite H3; reflexivity.
  - rewrite H4; [reflexivity|discriminate].
  - rewrite H5; [reflexivity|discriminate|reflexivity|reflexivity].
Defined.

Lemma transport_rejects_bad_width_witness :
  AP130X_REG_SIZE 0x3000 <> 2 /\ AP130X_REG_SIZE 0x3000 <> 4
  /\ ap130x_write (env_ok []) 0x3000 7 None dev0 = (dev0, (- EINVAL, None))
  /\ ap130x_read (env_ok []) 0x3000 dev0 = (dev0, (- EINVAL, 0))
  /\ fst (snd (ap130x_read (env_ok []) 0x01233000 dev0)) = - EINVAL
  /\ reg_page (fst (ap130x_read (env_ok []) 0x01233000 dev0)) = 0x230000.
Proof.
  assert (H2 : AP130X_REG_SIZE 0x3000 <> 2) by discriminate.
  assert (H4 : AP130X_REG_SIZE 0x3000 <> 4) by discriminate.
  assert (Hr : 0 <= 0x3000 < 2 ^ 32) by (split; [discriminate|reflexivity]).
  destruct (transport_rejects_bad_width (env_ok []) 0x3000 7 None dev0
              Hr H2 H4 eq_refl) as (A & _).
  destruct (A (or_introl eq_refl)) as (A1 & A2).
  assert (Hr' : 0 <= 0x01233000 < 2 ^ 32) by (split; [discriminate|reflexivity]).
  assert (G2 : AP130X_REG_SIZE 0x01233000 <> 2) by discriminate.
  assert (G4 : AP130X_REG_SIZE 0x01233000 <> 4) by discriminate.
  destruct (transport_rejects_bad_width (env_ok []) 0x01233000 7 None dev0
              Hr' G2 G4 eq_refl) as (_ & B).
  assert (P0 : AP130X_REG_PAGE 0x01233000 <> 0) by discriminate.
  assert (P1 : reg_page dev0 <> AP130X_REG_PAGE 0x01233000) by discriminate.
  destruct (B P0 P1 eq_refl) as (_ & B2 & _).
  split; [exact H2|]. split; [exact H4|]. split; [exact A1|].
  split; [exact A2|]. rewrite B2. split; reflexivity.
Defined.

Lemma configure_first_error_witness :
  (let res := ap130x_configure (env_write16_fails 0x2002) dev0 in
   snd res = -5
   /\ map fst (emitted dev0 (fst res))
      = firstn 3 (configure_writes dev0))
  /\ (let res := ap130x_configure (env_write16_fails 0x7000) dev0 in
      snd res = 0
      /\ exists evs rest,
           emitted dev0 (fst res) = evs ++ rest
           /\ map fst evs = configure_writes dev0
           /\ Forall answered_ok evs).
Proof.
  split.
  - set (env := env_write16_fails 0x2002).
    destruct (ap130x_configure env dev0) as [d' r] eqn:E.
    assert (Hr : r = -5) by (apply (f_equal snd) in E; vm_compute in E; now symmetry).
    destruct (configure_first_error env dev0 d' r E) as (_ & F).
    destruct F as (evs & c & rsp & Ee & Em & Hl & _); [rewrite Hr; discriminate|].
    cbn [fst snd]. split; [exact Hr|].
    rewrite Ee, Em.
    assert (L : length (emitted dev0 d') = 3%nat)
      by (apply (f_equal fst) in E; cbn [fst] in E; rewrite <- E; reflexivity).
    rewrite Ee, length_app in L. cbn [length] in L.
    replace (S (length evs)) with 3%nat by lia. reflexivity.
  - set (env := env_write16_fails 0x7000).
    destruct (ap130x_configure env dev0) as [d' r] eqn:E.
    assert (Hr : r = 0) by (apply (f_equal snd) in E; vm_compute in E; now symmetry).
    destruct (configure_first_error env dev0 d' r E) as (S & _).
    cbn [fst snd]. split; [exact Hr|]. exact (S Hr).
Defined.

Lemma debugfs_addr_validation_witness :
  ap130x_sipm_addr_set 0x82003012 (mk_debugfs 0) = (mk_debugfs 0x82003012, 0)
  /\ AP130X_REG_SIZE (Z.land 0x82003012 (Z.lnot (BIT 31))) = 2
  /\ Z.shiftr 0x82003012 30 = 2
  /\ ap130x_sipm_data_get (env_ok []) (mk_debugfs 0) dev0
     = (dev0, (- EINVAL, None))
  /\ snd (ap130x_sipm_addr_set 0x03003012 (mk_debugfs 0x82003012)) = - EINVAL
  /\ fst (ap130x_sipm_addr_set 0x03003012 (mk_debugfs 0x82003012))
     = mk_debugfs 0x82003012.
Proof.
  destruct (debugfs_addr_validation (env_ok [])) as (A & B & _).
  destruct (A 0x82003012 (mk_debugfs 0) (mk_debugfs 0x82003012) 0 eq_refl)
    as (A1 & _).
  destruct (A1 eq_refl) as (_ & _ & _ & _ & _ & _).
  destruct (A 0x03003012 (mk_debugfs 0x82003012) (mk_debugfs 0x82003012)
              (- EINVAL) eq_refl) as (_ & A2).
  destruct A2 as (A3 & A4); [discriminate|].
  destruct (B (mk_debugfs 0) 0 dev0 eq_refl) as (B1 & _).
  split; [reflexivity|]. split; [reflexivity|]. split; [reflexivity|].
  split; [exact B1|]. split; reflexivity.
Defined.

Lemma sip_descriptor_fields_witness :
  0 <= 2 < 64 /\ 0 <= 0x10 < 128
  /\ Z.shiftr (sip_descriptor 2 2 0x10 0x3012) 26 = 2
  /\ Z.land (Z.shiftr (sip_descriptor 2 2 0x10 0x3012) 17) 0x7f = 0x10.
Proof.
  assert (Hp : 0 <= 2 < 64) by lia.
  assert (Hi : 0 <= 0x10 < 128) by lia.
  destruct (sip_descriptor_fields 2 2 0x10 0x3012 Hp Hi)
    as (_ & F1 & _ & _ & F2 & _).
  split; [exact Hp|]. split; [exact Hi|]. split; [exact F1|exact F2].
Defined.

Section X_Power.

Variable env : oracle.

Lemma enables_ok_app (e1 e2 : list event) :
  enables_ok e1 -> enables_ok e2 -> enables_ok (e1 ++ e2).
Proof. intros. now apply Forall_app. Qed.

Lemma enables_ok_other (c : call) (r : resp) :
  is_enable c = false -> enables_ok [(c, r)].
Proof.
  intros H. constructor; [|constructor]. cbn [fst]. rewrite H. discriminate.
Qed.

Lemma enables_ok_one (c : call) (r : resp) :
  r_status r = Ok -> enables_ok [(c, r)].
Proof. intros H. constructor; [|constructor]. intros _. exact H. Qed.

Lemma stops_app (e1 e2 : list event) (r : Z) :
  enables_ok e1 -> stops_at_failed_enable e2 r ->
  stops_at_failed_enable (e1 ++ e2) r.
Proof.
  intros H1 (evs0 & c & rsp & -> & Hc & Hr & Hn & H0).
  exists (e1 ++ evs0), c, rsp. rewrite app_assoc.
  repeat split; auto. now apply enables_ok_app.
Qed.

Lemma power_on_supplies_run (rest : list Z) :
  forall i d d' r,
    power_on_supplies env i rest d = (d', r) ->
    exists evs tail,
      d' = with_trace (trace d ++ evs) d
      /\ supplies_calls i rest = map fst evs ++ tail
      /\ (r = 0 -> tail = [] /\ enables_ok evs)
      /\ (r <> 0 -> stops_at_failed_enable evs r).
Proof.
  induction rest as [|delay rest IH]; intros i d d' r;
    cbn [power_on_supplies supplies_calls].
  - unfold ret. intros H. apply pair_inv in H as (<- & <-).
    exists [], []. rewrite app_nil_r.
    split; [now destruct d|]. split; [reflexivity|].
    split; [intros _; split; [reflexivity|constructor]|intros H; now contradiction H].
  - unfold bind at 1, do_call_status, bind at 1, do_call at 1, ret at 1.
    set (c := regulator_enable (isp_supply i)).
    set (rsp := env (trace d) c).
    set (d1 := with_trace (trace d ++ [(c, rsp)]) d).
    destruct (r_status rsp) as [|e] eqn:St; cbn [errno].
    + cbn [Z.ltb Z.compare].
      unfold bind at 1, do_call at 1.
      set (s := usleep_range delay (delay + 100)).
      set (d2 := with_trace (trace d1 ++ [(s, env (trace d1) s)]) d1).
      intros H. destruct (IH (S i) d2 d' r H) as (evs & tail & Ed & Ec & H0 & Hn).
      exists ((c, rsp) :: (s, env (trace d1) s) :: evs), tail.
      split; [|split; [|split]].
      * rewrite Ed. unfold d2, d1. cbn [trace with_trace].
        now rewrite <- !app_assoc.
      * cbn [map fst app]. now rewrite Ec.
      * intros Hr. destruct (H0 Hr) as (-> & Ho). split; [reflexivity|].
        constructor; [intros _; exact St|].
        constructor; [intros Hx; discriminate Hx|exact Ho].
      * intros Hr.
        apply (stops_app [(c, rsp); (s, env (trace d1) s)] evs r); auto.
        constructor; [intros _; exact St|].
        constructor; [intros Hx; discriminate Hx|constructor].
    + assert (N : (Z.neg e <? 0) = true) by reflexivity. rewrite N.
      unfold ret. intros H. apply pair_inv in H as (<- & <-).
      exists [(c, rsp)], (usleep_range delay (delay + 100)
                          :: supplies_calls (S i) rest).
      split; [reflexivity|]. split; [reflexivity|].
      split; [intros H; discriminate H|]. intros _.
      exists [], c, rsp. rewrite St. cbn [errno].
      repeat split; auto; try reflexivity. constructor.
Qed.

Lemma standby_pulse_run (v : Z) (d : ap130x_device) :
  exists evs,
    standby_pulse env v d = (with_trace (trace d ++ evs) d, tt)
    /\ map fst evs = standby_calls (has_standby_gpio d) v
    /\ enables_ok evs.
Proof.
  unfold standby_pulse, standby_calls, bind at 1, gets.
  destruct (has_standby_gpio d).
  - unfold bind, do_call, ret. cbn [trace with_trace].
    eexists [(_, _); (_, _)]. rewrite <- app_assoc.
    split; [reflexivity|]. split; [reflexivity|].
    constructor; [intros Hx; discriminate Hx|].
    constructor; [intros Hx; discriminate Hx|constructor].
  - exists []. unfold ret. rewrite app_nil_r.
    split; [now destruct d|]. split; [reflexivity|constructor].
Qed.

Lemma no_disable_prefix (evs : list event) (l rest : list call) :
  l = map fst evs ++ rest ->
  Forall (fun c => is_disable c = false) l ->
  count_calls is_disable evs = O.
Proof.
  intros -> F. apply Forall_app in F as (F & _).
  apply count_calls_none. rewrite Forall_map in F. exact F.
Qed.

Lemma power_on_calls_no_disable (sb : bool) :
  Forall (fun c => is_disable c = false) (power_on_calls sb).
Proof. destruct sb; repeat constructor. Qed.

(** X7 -- The power-up sequence of the ISP.  Whatever happens, the
    calls issued by [ap130x_power_on] are an initial stretch of the
    power-up sequence: STANDBY asserted (when the line exists), the
    three supplies enabled in order with their settling times, STANDBY
    released, the clock enabled, RESET released, 10 ms of start-up
    time.  It returns 0 exactly when the whole sequence was issued and
    every enable succeeded.  Otherwise it stops right at the first
    regulator or clock enable that fails and returns its error; nothing
    is ever disabled, so the supplies enabled before the failure stay
    on. *)
Theorem power_on_outcome (d d' : ap130x_device) (r : Z) :
  ap130x_power_on env d = (d', r) ->
  (exists rest,
      power_on_calls (has_standby_gpio d) = map fst (emitted d d') ++ rest
      /\ (r = 0 -> rest = []))
  /\ (r = 0 -> enables_ok (emitted d d'))
  /\ (r <> 0 -> stops_at_failed_enable (emitted d d') r)
  /\ count_calls is_disable (emitted d d') = O.
Proof.
  intros H.
  assert (G : exists rest,
             power_on_calls (has_standby_gpio d) = map fst (emitted d d') ++ rest
             /\ (r = 0 -> rest = [] /\ enables_ok (emitted d d'))
             /\ (r <> 0 -> stops_at_failed_enable (emitted d d') r)).
  2:{ destruct G as (rest & Gp & G0 & Gn).
      split; [exists rest; split; [exact Gp|intros Hr; now apply G0]|].
      split; [intros Hr; now apply G0|]. split; [exact Gn|].
      eapply no_disable_prefix; [exact Gp|apply power_on_calls_no_disable]. }
  unfold ap130x_power_on in H.
  destruct (standby_pulse_run 1 d) as (e1 & E1 & M1 & O1).
  unfold bind at 1 in H. rewrite E1 in H.
  set (d1 := with_trace (trace d ++ e1) d) in *.
  unfold bind at 1 in H.
  destruct (power_on_supplies env O ap130x_supplies d1) as [d2 r2] eqn:E2.
  destruct (power_on_supplies_run ap130x_supplies _ _ _ _ E2)
    as (e2 & tail & Ed2 & Ec & H0 & Hn).
  unfold power_on_calls. rewrite <- M1, Ec.
  assert (T2 : trace d2 = trace d ++ e1 ++ e2)
    by (rewrite Ed2; unfold d1; cbn [trace with_trace]; now rewrite app_assoc).
  destruct (r2 <? 0) eqn:C.
  - unfold ret in H. apply pair_inv in H as (<- & <-).
    assert (R2 : r2 <> 0) by (intros ->; discriminate C).
    rewrite (emitted_app _ _ _ T2).
    exists (tail ++ standby_calls (has_standby_gpio d) 0
            ++ [clk_prepare_enable; gpiod_set_value_cansleep reset_gpio 0;
                usleep_range 10000 11000]).
    split; [now rewrite map_app, <- !app_assoc|].
    split; [intros Hr; now contradiction R2|].
    intros _. now apply stops_app; auto.
  - assert (R2 : r2 = 0).
    { destruct (Z.eq_dec r2 0) as [|N]; [assumption|].
      destruct (Hn N) as (? & ? & ? & _ & _ & _ & L & _).
      apply Z.ltb_ge in C. lia. }
    destruct (H0 R2) as (-> & O2). clear H0 Hn.
    destruct (standby_pulse_run 0 d2) as (e3 & E3 & M3 & O3).
    unfold bind at 1 in H. rewrite E3 in H.
    assert (SB : has_standby_gpio d2 = has_standby_gpio d)
      by (rewrite Ed2; reflexivity).
    rewrite SB in M3. rewrite <- M3.
    set (d3 := with_trace (trace d2 ++ e3) d2) in *.
    unfold bind at 1, do_call_status, bind at 1, do_call at 1, ret at 1 in H.
    set (c := clk_prepare_enable) in *.
    set (rsp := env (trace d3) c) in *.
    set (d4 := with_trace (trace d3 ++ [(c, rsp)]) d3) in *.
    assert (T4 : trace d4 = trace d ++ e1 ++ e2 ++ e3 ++ [(c, rsp)]).
    { unfold d4, d3. cbn [trace with_trace]. rewrite T2.
      now rewrite <- !app_assoc. }
    destruct (r_status rsp) as [|e] eqn:St; cbn [errno] in H.
    + cbn [Z.ltb Z.compare] in H.
      unfold bind, do_call, ret in H. apply pair_inv in H as (<- & <-).
      cbn [trace with_trace].
      erewrite emitted_app
        by (cbn [trace with_trace]; fold d4; rewrite T4;
            rewrite <- !app_assoc; reflexivity).
      exists []. rewrite app_nil_r, !map_app. cbn [map fst].
      split; [now rewrite <- !app_assoc|].
      split; [|intros Hx; now contradiction Hx].
      intros _. split; [reflexivity|].
      repeat apply enables_ok_app; auto.
      * now apply enables_ok_one.
      * now apply enables_ok_other.
      * now apply enables_ok_other.
    + assert (N : (Z.neg e <? 0) = true) by reflexivity. rewrite N in H.
      unfold ret in H. apply pair_inv in H as (<- & <-).
      rewrite (emitted_app _ _ _ T4).
      exists [gpiod_set_value_cansleep reset_gpio 0; usleep_range 10000 11000].
      rewrite !map_app. cbn [map fst].
      split; [now rewrite <- !app_assoc|].
      split; [intros Hx; discriminate Hx|].
      intros _. exists (e1 ++ e2 ++ e3), c, rsp.
      rewrite St. cbn [errno].
      split; [now rewrite <- !app_assoc|].
      repeat split; auto.
      repeat apply enables_ok_app; auto.
Qed.

End X_Power.

Lemma power_on_outcome_witness :
  let res := ap130x_power_on (env_supply_fails 1) dev0 in
  snd res = -5
  /\ stops_at_failed_enable (emitted dev0 (fst res)) (-5)
  /\ count_calls is_disable (emitted dev0 (fst res)) = O
  /\ enables (isp_supply 0) (emitted dev0 (fst res)) = 1%nat.
Proof.
  set (env := env_supply_fails 1).
  destruct (ap130x_power_on env dev0) as [d' r] eqn:E.
  assert (Hr : r = -5)
    by (apply (f_equal snd) in E; vm_compute in E; now symmetry).
  destruct (power_on_outcome env dev0 d' r E) as (_ & _ & Hs & Hd).
  cbn [fst snd]. split; [exact Hr|]. rewrite <- Hr.
  split; [apply Hs; rewrite Hr; discriminate|]. split; [exact Hd|].
  apply (f_equal fst) in E. cbn [fst] in E. rewrite <- E. reflexivity.
Defined.

Section X_SensorPower.

Variable env : oracle.

Lemma enables_app (s : supply) (e1 e2 : list event) :
  enables s (e1 ++ e2) = (enables s e1 + enables s e2)%nat.
Proof. unfold enables. now rewrite filter_app, length_app. Qed.

Lemma disables_app (s : supply) (e1 e2 : list event) :
  disables s (e1 ++ e2) = (disables s e1 + disables s e2)%nat.
Proof. unfold disables. now rewrite filter_app, length_app. Qed.

Lemma enables_cons (s : supply) (c : call) (r : resp) (evs : list event) :
  enables s ((c, r) :: evs)
  = (count_if (match c with
               | regulator_enable s' => supply_eqb s s' && status_ok r
               | _ => false
               end) + enables s evs)%nat.
Proof.
  unfold enables. cbn [filter fst snd].
  destruct c; try reflexivity.
  now destruct (supply_eqb s s0 && status_ok r).
Qed.

Lemma disables_cons (s : supply) (c : call) (r : resp) (evs : list event) :
  disables s ((c, r) :: evs)
  = (count_if (match c with
               | regulator_disable s' => supply_eqb s s'
               | regulator_bulk_disable ss => existsb (supply_eqb s) ss
               | _ => false
               end) + disables s evs)%nat.
Proof.
  unfold disables. cbn [filter fst].
  destruct c; try reflexivity.
  - now destruct (supply_eqb s s0).
  - now destruct (existsb (supply_eqb s) ss).
Qed.

Lemma supply_eqb_rail (s : supply) (i j : nat) :
  supply_eqb s (sensor_supply i j) = sensor_rail i j (S j) s.
Proof.
  destruct s as [k|a b]; [reflexivity|]. cbn [supply_eqb sensor_rail].
  destruct (Nat.eqb_spec a i); cbn [andb]; [|reflexivity].
  destruct (Nat.eqb_spec b j), (Nat.leb_spec j b), (Nat.ltb_spec b (S j));
    try reflexivity; lia.
Qed.

Lemma rail_split (i lo mid hi : nat) (s : supply) :
  (lo <= mid <= hi)%nat ->
  count_if (sensor_rail i lo hi s)
  = (count_if (sensor_rail i lo mid s) + count_if (sensor_rail i mid hi s))%nat.
Proof.
  intros H. destruct s as [k|a b]; [reflexivity|]. cbn [sensor_rail].
  destruct (Nat.eqb a i); cbn [andb]; [|reflexivity].
  destruct (Nat.leb_spec lo b), (Nat.ltb_spec b hi), (Nat.leb_spec mid b),
    (Nat.ltb_spec b mid); cbn; lia.
Qed.

Lemma rail_empty (i lo : nat) (s : supply) : sensor_rail i lo lo s = false.
Proof.
  destruct s as [k|a b]; [reflexivity|]. cbn [sensor_rail].
  destruct (Nat.eqb a i); cbn [andb]; [|reflexivity].
  destruct (Nat.leb_spec lo b), (Nat.ltb_spec b lo); cbn; try reflexivity; lia.
Qed.

Lemma existsb_sensor_supplies (s : supply) (i n : nat) :
  existsb (supply_eqb s) (sensor_supplies i n) = sensor_rail i 0 n s.
Proof.
  unfold sensor_supplies.
  induction n as [|n IH].
  - cbn. now rewrite rail_empty.
  - rewrite seq_S, map_app, existsb_app, IH. cbn [map existsb Nat.add].
    rewrite orb_false_r, supply_eqb_rail.
    pose proof (rail_split i 0 n (S n) s ltac:(lia)) as R.
    destruct (sensor_rail i 0 n s), (sensor_rail i n (S n) s),
      (sensor_rail i 0 (S n) s); cbn in R |- *; try reflexivity; lia.
Qed.

Lemma sensor_enable_supplies_run (delays : list Z) (i : nat) (n : nat) :
  forall j d d' r j',
    sensor_enable_supplies env delays i j n d = (d', (r, j')) ->
    exists evs,
      d' = with_trace (trace d ++ evs) d
      /\ r <= 0
      /\ (j <= j' <= j + n)%nat
      /\ (r = 0 -> j' = (j + n)%nat)
      /\ forall s, enables s evs = count_if (sensor_rail i j j' s)
                   /\ disables s evs = O.
Proof.
  induction n as [|n IH]; intros j d d' r j'; cbn [sensor_enable_supplies].
  - unfold ret. intros H. apply pair3_inv in H as (<- & <- & <-).
    exists []. rewrite app_nil_r.
    split; [now destruct d|]. split; [lia|]. split; [lia|].
    split; [lia|]. intros s. now rewrite rail_empty.
  - unfold bind at 1, do_call_status, bind at 1, do_call at 1, ret at 1.
    set (c := regulator_enable (sensor_supply i j)).
    set (rsp := env (trace d) c).
    set (d1 := with_trace (trace d ++ [(c, rsp)]) d).
    destruct (r_status rsp) as [|e] eqn:St; cbn [errno].
    + cbn [Z.ltb Z.compare]. unfold bind at 1, do_call at 1.
      set (u := usleep_range _ _).
      set (d2 := with_trace (trace d1 ++ [(u, env (trace d1) u)]) d1).
      intros H. destruct (IH (S j) d2 d' r j' H) as (evs & Ed & Hr & Hj & H0 & Hc).
      exists ((c, rsp) :: (u, env (trace d1) u) :: evs).
      split; [|split; [exact Hr|split; [lia|split; [intros Hz; rewrite (H0 Hz); lia|]]]].
      * rewrite Ed. unfold d2, d1. cbn [trace with_trace].
        now rewrite <- !app_assoc.
      * intros s. destruct (Hc s) as (He & Hd).
        rewrite !enables_cons, !disables_cons, He, Hd.
        unfold c, u. unfold status_ok. rewrite St, andb_true_r, supply_eqb_rail.
        rewrite (rail_split i j (S j) j' s) by lia.
        split; reflexivity.
    + assert (N : (Z.neg e <? 0) = true) by reflexivity. rewrite N.
      unfold ret. intros H. apply pair3_inv in H as (<- & <- & <-).
      exists [(c, rsp)].
      split; [reflexivity|]. split; [lia|]. split; [lia|].
      split; [intros Hz; discriminate Hz|].
      intros s. rewrite enables_cons, disables_cons.
      unfold c. unfold status_ok. rewrite St, andb_false_r, rail_empty.
      split; reflexivity.
Qed.

Lemma sensor_disable_supplies_run (i j : nat) :
  forall d,
    exists evs,
      sensor_disable_supplies env i j d = (with_trace (trace d ++ evs) d, tt)
      /\ forall s, enables s evs = O
                   /\ disables s evs = count_if (sensor_rail i 0 j s).
Proof.
  induction j as [|j IH]; intros d; cbn [sensor_disable_supplies].
  - exists []. unfold ret. rewrite app_nil_r.
    split; [now destruct d|]. intros s. now rewrite rail_empty.
  - unfold bind at 1, do_call at 1.
    set (c := regulator_disable (sensor_supply i j)).
    set (d1 := with_trace (trace d ++ [(c, env (trace d) c)]) d).
    destruct (IH d1) as (evs & E & Hc).
    exists ((c, env (trace d) c) :: evs).
    split.
    + rewrite E. unfold d1. cbn [trace with_trace]. now rewrite <- app_assoc.
    + intros s. destruct (Hc s) as (He & Hd).
      rewrite enables_cons, disables_cons, He, Hd. unfold c.
      rewrite supply_eqb_rail, (rail_split i 0 j (S j) s) by lia.
      split; [reflexivity|lia].
Qed.

Lemma sensors_bulk_disable_down_run (nums : list nat) (i : nat) :
  forall d,
    exists evs,
      sensors_bulk_disable_down env nums i d
      = (with_trace (trace d ++ evs) d, tt)
      /\ forall s, enables s evs = O /\ disables s evs = rails_below nums i s.
Proof.
  induction i as [|i IH]; intros d; cbn [sensors_bulk_disable_down rails_below].
  - exists []. unfold ret. rewrite app_nil_r.
    split; [now destruct d|]. intros s. split; reflexivity.
  - unfold bind at 1, do_call at 1.
    set (c := regulator_bulk_disable _).
    set (d1 := with_trace (trace d ++ [(c, env (trace d) c)]) d).
    destruct (IH d1) as (evs & E & Hc).
    exists ((c, env (trace d) c) :: evs).
    split.
    + rewrite E. unfold d1. cbn [trace with_trace]. now rewrite <- app_assoc.
    + intros s. destruct (Hc s) as (He & Hd).
      rewrite enables_cons, disables_cons, He, Hd. unfold c.
      rewrite existsb_sensor_supplies. split; reflexivity.
Qed.

Lemma power_on_sensors_loop_run (delays : list Z) (nums : list nat)
  (rest : list nat) :
  forall i d d' r,
    rest = skipn i nums ->
    power_on_sensors_loop env delays nums i rest d = (d', r) ->
    exists evs,
      d' = with_trace (trace d ++ evs) d
      /\ r <= 0
      /\ (r = 0 ->
          forall s, (enables s evs + rails_below nums i s)%nat
                    = rails_below nums (i + length rest) s
                    /\ disables s evs = O)
      /\ (r <> 0 ->
          forall s, (enables s evs + rails_below nums i s)%nat
                    = disables s evs).
Proof.
  induction rest as [|n rest IH]; intros i d d' r Hrest;
    cbn [power_on_sensors_loop].
  - unfold ret. intros H. apply pair_inv in H as (<- & <-).
    exists []. rewrite app_nil_r.
    split; [now destruct d|]. split; [lia|].
    split; [|intros H; now contradiction H].
    intros _ s. cbn [length]. rewrite Nat.add_0_r. split; reflexivity.
  - assert (Hn : nth i nums O = n).
    { rewrite <- (Nat.add_0_r i), <- nth_skipn, <- Hrest. reflexivity. }
    assert (Hrest' : rest = skipn (S i) nums).
    { change (S i) with (1 + i)%nat. rewrite <- skipn_skipn, <- Hrest.
      reflexivity. }
    unfold bind at 1.
    destruct (sensor_enable_supplies env delays i 0 n d) as [d1 [r1 j]] eqn:E1.
    destruct (sensor_enable_supplies_run delays i n 0 d d1 r1 j E1)
      as (e1 & Ed1 & Hr1 & Hj & H0 & Hc1).
    destruct (r1 <? 0) eqn:C.
    + destruct (sensor_disable_supplies_run i j d1) as (e2 & E2 & Hc2).
      unfold bind at 1. rewrite E2.
      set (d2 := with_trace (trace d1 ++ e2) d1).
      destruct (sensors_bulk_disable_down_run nums i d2) as (e3 & E3 & Hc3).
      unfold bind at 1. rewrite E3.
      unfold ret. intros H. apply pair_inv in H as (<- & <-).
      exists (e1 ++ e2 ++ e3).
      split; [|split; [exact Hr1|split]].
      * unfold d2. rewrite Ed1. cbn [trace with_trace].
        now rewrite <- !app_assoc.
      * intros ->. discriminate C.
      * intros _ s.
        destruct (Hc1 s) as (A1 & A2), (Hc2 s) as (B1 & B2), (Hc3 s) as (C1 & C2).
        rewrite !enables_app, !disables_app, A1, A2, B1, B2, C1, C2. lia.
    + assert (R1 : r1 = 0) by (apply Z.ltb_ge in C; lia).
      specialize (H0 R1). cbn [Nat.add] in H0. subst j.
      intros H.
      destruct (IH (S i) d1 d' r Hrest' H) as (e2 & Ed & Hr & Hz & Hnz).
      exists (e1 ++ e2).
      split; [|split; [exact Hr|split]].
      * rewrite Ed, Ed1. cbn [trace with_trace]. now rewrite <- app_assoc.
      * intros Hr0 s. destruct (Hz Hr0 s) as (Z1 & Z2), (Hc1 s) as (A1 & A2).
        rewrite enables_app, disables_app, A1, A2, Z2.
        cbn [rails_below] in Z1. rewrite Hn in Z1.
        cbn [length]. rewrite Nat.add_succ_r. cbn [Nat.add] in Z1. lia.
      * intros Hr0 s. specialize (Hnz Hr0 s). destruct (Hc1 s) as (A1 & A2).
        rewrite enables_app, disables_app, A1, A2.
        cbn [rails_below] in Hnz. rewrite Hn in Hnz. lia.
Qed.

(** X8 -- Power-up of the sensors is all or nothing.  When
    [ap130x_power_on_sensors] returns 0, every supply of every sensor
    has been enabled once and nothing has been disabled.  When it
    fails, every supply it had enabled has been disabled again: for
    each supply, the number of successful enables equals the number of
    disables. *)
Theorem power_on_sensors_all_or_nothing (d d' : ap130x_device) (r : Z) :
  ap130x_power_on_sensors env d = (d', r) ->
  r <= 0
  /\ (r = 0 ->
      forall s,
        disables s (emitted d d') = O
        /\ enables s (emitted d d')
           = match sensor_info_supplies d with
             | Some _ =>
                 rails_below (sensors_num_supplies d)
                   (length (sensors_num_supplies d)) s
             | None => O
             end)
  /\ (r <> 0 ->
      forall s, enables s (emitted d d') = disables s (emitted d d')).
Proof.
  unfold ap130x_power_on_sensors, bind at 1, gets at 1.
  destruct (sensor_info_supplies d) as [delays|].
  - unfold bind at 1, gets at 1. intros H.
    destruct (power_on_sensors_loop_run delays (sensors_num_supplies d)
                (sensors_num_supplies d) 0 d d' r eq_refl H)
      as (evs & Ed & Hr & H0 & Hn).
    assert (Ee : emitted d d' = evs)
      by (apply emitted_app; rewrite Ed; reflexivity).
    rewrite Ee. split; [exact Hr|]. split.
    + intros Hz s. destruct (H0 Hz s) as (A & B).
      cbn [rails_below Nat.add] in A. rewrite Nat.add_0_r in A. auto.
    + intros Hz s. specialize (Hn Hz s). cbn [rails_below] in Hn. lia.
  - unfold ret. intros H. apply pair_inv in H as (<- & <-).
    rewrite emitted_refl. split; [lia|]. split; [|intros H; now contradiction H].
    intros _ s. split; reflexivity.
Qed.

End X_SensorPower.

Lemma power_on_sensors_all_or_nothing_witness :
  let res := ap130x_power_on_sensors (env_sensor_supply_fails 1 1) dev_dual in
  snd res = -5
  /\ enables (sensor_supply 0 2) (emitted dev_dual (fst res)) = 1%nat
  /\ disables (sensor_supply 0 2) (emitted dev_dual (fst res)) = 1%nat
  /\ forall s, enables s (emitted dev_dual (fst res))
               = disables s (emitted dev_dual (fst res)).
Proof.
  set (env := env_sensor_supply_fails 1 1).
  destruct (ap130x_power_on_sensors env dev_dual) as [d' r] eqn:E.
  assert (Hr : r = -5)
    by (apply (f_equal snd) in E; vm_compute in E; now symmetry).
  destruct (power_on_sensors_all_or_nothing env dev_dual d' r E) as (_ & _ & H).
  assert (Hn : r <> 0) by (rewrite Hr; discriminate).
  cbn [fst snd]. split; [exact Hr|].
  assert (E1 : enables (sensor_supply 0 2) (emitted dev_dual d') = 1%nat)
    by (apply (f_equal fst) in E; cbn [fst] in E; rewrite <- E; reflexivity).
  split; [exact E1|]. split; [rewrite <- (H Hn); exact E1|exact (H Hn)].
Defined.

(** One step of a frame proof through the register transport. *)
Ltac frame_step Hf Hp :=
  first
    [ apply preserves___ap130x_write; exact Hf
    | apply preserves___ap130x_read; exact Hf
    | apply preserves_modify; intros; apply Hp
    | apply preserves_do_call; exact Hf
    | preserves_step ].

Section X_Frame.

Variable env : oracle.

Context {X : Type} (f : ap130x_device -> X) (Hf : trace_blind f)
  (Hp : forall p d, f (with_reg_page p d) = f d).

Lemma frame_write (reg val : Z) (err : option Z) :
  preserves f (ap130x_write env reg val err).
Proof.
  unfold ap130x_write, ap130x_write_done. repeat frame_step Hf Hp.
Qed.

Lemma frame_read (reg : Z) : preserves f (ap130x_read env reg).
Proof. unfold ap130x_read. repeat frame_step Hf Hp. Qed.

Lemma frame_stall (stall : bool) : preserves f (ap130x_stall env stall).
Proof.
  unfold ap130x_stall.
  repeat first [ apply frame_write | frame_step Hf Hp ].
Qed.

Lemma frame_s_ctrl (id : v4l2_cid) (val : Z) :
  preserves f (ap130x_s_ctrl env id val).
Proof.
  unfold ap130x_s_ctrl, ap130x_set_reg, ap130x_set_wb_mode, ap130x_set_exposure.
  repeat first [ apply frame_write | apply frame_read | frame_step Hf Hp ].
Qed.

Lemma frame_ctrl_handler_setup (cs : list (v4l2_cid * Z)) :
  preserves f (v4l2_ctrl_handler_setup env cs).
Proof.
  induction cs as [|[id val] cs IH]; cbn [v4l2_ctrl_handler_setup].
  - apply preserves_ret.
  - apply preserves_bind; [apply frame_s_ctrl|].
    intros r. destruct (negb (r =? 0)); [apply preserves_ret|apply IH].
Qed.

Lemma frame_configure : preserves f (ap130x_configure env).
Proof.
  unfold ap130x_configure.
  repeat first [ apply frame_write | apply frame_ctrl_handler_setup
               | frame_step Hf Hp ].
Qed.

Lemma frame_detect_chip : preserves f (ap130x_detect_chip env).
Proof.
  unfold ap130x_detect_chip.
  repeat first [ apply frame_read | frame_step Hf Hp ].
Qed.

Lemma frame_window_loop (fuel : nat) :
  forall d buf len pos d' x,
    write_fw_window_loop env fuel d buf len pos = Some (d', x) -> f d' = f d.
Proof.
  induction fuel as [|fuel IH]; intros d buf len pos d' x;
    cbn [write_fw_window_loop]; [discriminate|].
  destruct (0 <? len).
  - unfold do_call_status, bind, do_call, ret.
    destruct (negb _).
    + intros H. injection H as <- _. apply Hf.
    + intros H. apply IH in H. rewrite H. apply Hf.
  - intros H. now injection H as <- _.
Qed.

Lemma frame_window (buf : list byte) (len pos : Z) :
  preserves f (ap130x_write_fw_window env buf len pos).
Proof.
  intros d. unfold ap130x_write_fw_window.
  destruct (write_fw_window_loop _ _ _ _ _ _) as [[d' x]|] eqn:E.
  - cbn [fst]. eapply frame_window_loop; eauto.
  - reflexivity.
Qed.

Hypothesis Hs : forall b d, f (with_streaming b d) = f d.

Lemma frame_load_firmware (crc_check : bool) :
  preserves f (load_firmware env crc_check).
Proof.
  unfold load_firmware.
  repeat first [ apply frame_write | apply frame_read | apply frame_stall
               | apply frame_window
               | apply preserves_modify; intros; apply Hs
               | frame_step Hf Hp ].
Qed.

End X_Frame.

Section X_Stall.

Variable env : oracle.

Lemma inte_write_cached (val : Z) (d : ap130x_device) :
  reg_page d = AP130X_REG_PAGE AP130X_ADV_IRQ_SYS_INTE ->
  ap130x_write env AP130X_ADV_IRQ_SYS_INTE val None d =
  (let c := regmap_write regmap32 AP130X_REG_ADV_START val in
   let r := env (trace d) c in
   (with_trace (trace d ++ [(c, r)]) d, (errno (r_status r), None))).
Proof.
  intros Hc. rewrite write_hit; [reflexivity|discriminate|exact Hc|reflexivity].
Qed.

Lemma inte_write_miss (val : Z) (d : ap130x_device) :
  reg_page d <> AP130X_REG_PAGE AP130X_ADV_IRQ_SYS_INTE ->
  ap130x_write env AP130X_ADV_IRQ_SYS_INTE val None d =
  (let p := page_select_call (AP130X_REG_PAGE AP130X_ADV_IRQ_SYS_INTE) in
   let rp := env (trace d) p in
   let d1 := with_trace (trace d ++ [(p, rp)]) d in
   match r_status rp with
   | Ok =>
       let c := regmap_write regmap32 AP130X_REG_ADV_START val in
       let r := env (trace d1) c in
       (with_reg_page (AP130X_REG_PAGE AP130X_ADV_IRQ_SYS_INTE)
          (with_trace (trace d1 ++ [(c, r)]) d1),
        (errno (r_status r), None))
   | Err e => (d1, (Z.neg e, None))
   end).
Proof.
  intros Hc. rewrite write_miss; [|discriminate|exact Hc|reflexivity].
  cbv zeta. destruct (r_status _); reflexivity.
Qed.

(** The outcome of stalling the output. *)
(** Proves [writes_ok] of an explicit list of events from the statuses
    at hand. *)
Ltac writes_ok_tac :=
  unfold writes_ok;
  repeat (apply Forall_cons;
          [ let Hx := fresh "Hx" in
            cbn [fst snd]; intros Hx;
            try (vm_compute in Hx; discriminate Hx);
            unfold answered_ok; cbn [snd]; try assumption
          | ]);
  try apply Forall_nil.

Lemma stall_on_run (d d' : ap130x_device) (r : Z) :
  ap130x_stall env true d = (d', r) ->
  exists rest,
    stall_calls (reg_page d =? AP130X_REG_PAGE AP130X_ADV_IRQ_SYS_INTE)
    = map fst (emitted d d') ++ rest
    /\ extends d d'
    /\ (r = 0 ->
        rest = []
        /\ reg_page d' = AP130X_REG_PAGE AP130X_ADV_IRQ_SYS_INTE
        /\ Forall (fun e => is_regmap_write (fst e) = true -> answered_ok e)
             (emitted d d'))
    /\ (r <> 0 -> stops_at_failed_write (emitted d d') r).
Proof.
  unfold ap130x_stall, stall_calls.
  unfold bind at 1. rewrite write16_slot by reflexivity.
  cbn [Z.eqb]. cbv zeta.
  set (c1 := regmap_write regmap16 (AP130X_REG_ADDR AP130X_SYS_START)
               (Z.lor AP130X_SYS_START_PLL_LOCK
                  AP130X_SYS_START_STALL_MODE_DISABLED)).
  set (c2 := regmap_write regmap16 (AP130X_REG_ADDR AP130X_SYS_START)
               (Z.lor (Z.lor AP130X_SYS_START_PLL_LOCK AP130X_SYS_START_STALL_EN)
                  AP130X_SYS_START_STALL_MODE_DISABLED)).
  set (v3 := Z.lor AP130X_ADV_IRQ_SYS_INTE_SIPM
               AP130X_ADV_IRQ_SYS_INTE_SIPS_FIFO_WRITE).
  set (c3 := regmap_write regmap32 AP130X_REG_ADV_START v3).
  set (pg := AP130X_REG_PAGE AP130X_ADV_IRQ_SYS_INTE).
  set (tailc := (if reg_page d =? pg then [] else [page_select_call pg]) ++ [c3]).
  destruct (r_status (env (trace d) c1)) as [|e1] eqn:S1; cbn [errno snd].
  2:{ unfold bind at 1. rewrite write16_slot by reflexivity. cbn [Z.eqb snd].
      cbn [err_value Z.ltb Z.compare]. unfold ret.
      intros H. apply pair_inv in H as (<- & <-).
      rewrite emitted_snoc.
      exists ([c2; msleep 200] ++ tailc).
      split; [reflexivity|]. split; [eexists; reflexivity|].
      split; [intros H; discriminate H|]. intros _.
      exists [], c1, (env (trace d) c1). rewrite S1.
      repeat split; auto; writes_ok_tac. }
  set (d1 := with_trace (trace d ++ [(c1, env (trace d) c1)]) d).
  unfold bind at 1. rewrite write16_slot by reflexivity. cbn [Z.eqb snd].
  cbv zeta. fold c2.
  destruct (r_status (env (trace d1) c2)) as [|e2] eqn:S2; cbn [errno snd].
  2:{ cbn [err_value Z.ltb Z.compare]. unfold ret.
      intros H. apply pair_inv in H as (<- & <-).
      erewrite emitted_app
        by (unfold d1; cbn [trace with_trace]; rewrite <- app_assoc; reflexivity).
      exists ([msleep 200] ++ tailc).
      split; [reflexivity|].
      split; [eexists; unfold d1; cbn [trace with_trace];
              rewrite <- app_assoc; reflexivity|].
      split; [intros H; discriminate H|]. intros _.
      exists [(c1, env (trace d) c1)], c2, (env (trace d1) c2). rewrite S2.
      repeat split; auto; writes_ok_tac. }
  set (d2 := with_trace (trace d1 ++ [(c2, env (trace d1) c2)]) d1).
  cbn [err_value Z.ltb Z.compare].
  unfold bind at 1, do_call at 1.
  set (m := msleep 200).
  set (d3 := with_trace (trace d2 ++ [(m, env (trace d2) m)]) d2).
  assert (T3 : trace d3 = trace d ++ [(c1, env (trace d) c1);
                                      (c2, env (trace d1) c2);
                                      (m, env (trace d2) m)]).
  { unfold d3, d2, d1. cbn [trace with_trace]. now rewrite <- !app_assoc. }
  assert (P3 : reg_page d3 = reg_page d) by reflexivity.
  unfold bind at 1. fold v3. unfold tailc. rewrite <- P3.
  destruct (Z.eqb_spec (reg_page d3) pg) as [Hc|Hm].
  - rewrite inte_write_cached by exact Hc. cbv zeta. fold c3.
    set (r3 := env (trace d3) c3).
    unfold ret. cbn [fst]. intros H. apply pair_inv in H as (<- & <-).
    erewrite emitted_app
      by (cbn [trace with_trace]; rewrite T3, <- app_assoc; reflexivity).
    exists []. split; [reflexivity|].
    split; [eexists; cbn [trace with_trace]; rewrite T3, <- app_assoc;
            reflexivity|].
    split.
    + intros Hr. split; [reflexivity|]. split; [exact Hc|].
      destruct (r_status r3) eqn:S3; [|discriminate Hr].
      repeat constructor; auto. intros Hx; discriminate Hx.
    + intros Hr. exists [(c1, env (trace d) c1); (c2, env (trace d1) c2);
                        (m, env (trace d2) m)], c3, r3.
      split; [reflexivity|]. split; [reflexivity|]. split; [reflexivity|].
      split; [pose proof (errno_nonpos (r_status r3)); lia|writes_ok_tac].
  - rewrite inte_write_miss by exact Hm. cbv zeta. fold pg.
    set (ps := page_select_call pg).
    set (rp := env (trace d3) ps).
    set (d4 := with_trace (trace d3 ++ [(ps, rp)]) d3).
    destruct (r_status rp) as [|ep] eqn:Sp.
    + fold c3. set (r3 := env (trace d4) c3).
      unfold ret. cbn [fst]. intros H. apply pair_inv in H as (<- & <-).
      erewrite emitted_app
        by (unfold d4; cbn [trace with_trace]; rewrite T3, <- !app_assoc;
            reflexivity).
      exists []. split; [reflexivity|].
      split; [eexists; unfold d4; cbn [trace with_trace];
              rewrite T3, <- !app_assoc; reflexivity|].
      split.
      * intros Hr. split; [reflexivity|]. split; [reflexivity|].
        destruct (r_status r3) eqn:S3; [|discriminate Hr].
        repeat constructor; auto. intros Hx; discriminate Hx.
      * intros Hr. exists [(c1, env (trace d) c1); (c2, env (trace d1) c2);
                          (m, env (trace d2) m); (ps, rp)], c3, r3.
        split; [reflexivity|]. split; [reflexivity|]. split; [reflexivity|].
        split; [pose proof (errno_nonpos (r_status r3)); lia|writes_ok_tac].
    + unfold ret. cbn [fst]. intros H. apply pair_inv in H as (<- & <-).
      erewrite emitted_app
        by (unfold d4; cbn [trace with_trace]; rewrite T3, <- !app_assoc;
            reflexivity).
      exists [c3]. split; [reflexivity|].
      split; [eexists; unfold d4; cbn [trace with_trace];
              rewrite T3, <- !app_assoc; reflexivity|].
      split; [intros H; discriminate H|]. intros _.
      exists [(c1, env (trace d) c1); (c2, env (trace d1) c2);
              (m, env (trace d2) m)], ps, rp.
      rewrite Sp. repeat split; auto; writes_ok_tac.
Qed.

End X_Stall.

(** Proves that a piece of the driver only appends to the trace. *)
Ltac grows_tac :=
  repeat first
    [ apply emits_write_any; intros; exact I
    | apply emits_read_any; intros; exact I
    | apply emits_stall; intros; exact I
    | apply emits_window_any; intros; exact I
    | apply emits_do_call; intros; exact I
    | emits_step; try exact I ].

(** Turns every run [E : m x = (y, a)] of the context into
    [extends x y]. *)
Ltac extends_of_runs :=
  repeat match goal with
         | E : ?m ?x = (?y, ?a) |- _ =>
             apply (emits_extends (fun _ => True) m x y a) in E;
             [| solve [grows_tac] ]
         end.

Ltac extends_chain :=
  repeat (eapply extends_trans; [eassumption|]); try apply extends_refl.

Section X_Boot.

Variable env : oracle.

Lemma extends_length (d d' : ap130x_device) :
  extends d d' -> (length (trace d) <= length (trace d'))%nat.
Proof. intros (evs & ->). rewrite length_app. lia. Qed.

(** A load that succeeds ends with the stall of the output. *)
Lemma load_firmware_tail (crc_check : bool) (d d' : ap130x_device) :
  load_firmware env crc_check d = (d', 0) ->
  exists d1 d2,
    extends d d1
    /\ ap130x_stall env true d1 = (d2, 0)
    /\ d' = with_streaming false d2.
Proof.
  intros H. unfold load_firmware in H.
  repeat run_step H.
  all: apply pair_inv in H as (Hd & Hz).
  all: try solve [ret_contra Hz].
  all: subst.
  all: match goal with
       | Es : ap130x_stall env true ?x = (?y, _) |- _ =>
           exists x, y; split; [|split; [exact Es|]]
       end.
  all: try match goal with
           | Em : modify (with_streaming false) ?y = (?z, _) |- ?z = _ =>
               unfold modify in Em; apply pair_inv in Em as (<- & _);
               reflexivity
           end.
  all: match goal with
       | Es : ap130x_stall env true ?x = (?y, _) |- _ => clear Es
       end.
  all: try match goal with
           | Em : modify _ _ = _ |- _ => clear Em
           end.
  all: extends_of_runs; extends_chain.
Qed.

Lemma request_firmware_ok (d d1 : ap130x_device) :
  ap130x_request_firmware env d = (d1, 0) ->
  extends d d1
  /\ exists blob,
       fw d1 = Some blob
       /\ sizeof_fw_hdr <= Z.of_nat (length blob)
       /\ fw_hdr_pll_init_size blob <= fw_size blob.
Proof.
  unfold ap130x_request_firmware, bind at 1, do_call at 1.
  set (rsp := env (trace d) request_firmware).
  destruct (r_status rsp) as [|e].
  - unfold bind, modify, ret.
    destruct (Z.ltb_spec (Z.of_nat (length (r_data rsp))) sizeof_fw_hdr)
      as [L1|G1];
      [intros Hx; apply pair_inv in Hx as (_ & Hx); discriminate Hx|].
    destruct (Z.ltb_spec (fw_size (r_data rsp)) (fw_hdr_pll_init_size (r_data rsp)))
      as [L2|G2];
      [intros Hx; apply pair_inv in Hx as (_ & Hx); discriminate Hx|].
    intros H. apply pair_inv in H as (<- & _).
    split; [eexists; reflexivity|].
    exists (r_data rsp). auto.
  - unfold bind, modify, ret. cbn [errno].
    intros H. apply pair_inv in H as (_ & H). discriminate H.
Qed.

Lemma error_power_sensors_ret (r : Z) (d : ap130x_device) :
  snd (error_power_sensors env r d) = r.
Proof.
  unfold error_power_sensors, error_firmware, bind, ret.
  destruct (ap130x_power_off_sensors env d) as [d2 u2].
  destruct (do_call env release_firmware d2) as [d3 u3]. reflexivity.
Qed.

Lemma error_firmware_ret (r : Z) (d : ap130x_device) :
  snd (error_firmware env r d) = r.
Proof. reflexivity. Qed.

Lemma fw_blind : trace_blind fw.
Proof. intros t d. reflexivity. Qed.

(** A retry loop that succeeds ends with a load that succeeds. *)
Lemma hw_init_loop_ok (crc_check : bool) (left : nat) :
  forall d d',
    hw_init_loop env crc_check left d = (d', 0) ->
    exists d1, extends d d1 /\ fw d1 = fw d
               /\ load_firmware env crc_check d1 = (d', 0).
Proof.
  induction left as [|left IH]; intros d d' H.
  - cbn [hw_init_loop] in H.
    pose proof (error_power_sensors_ret (- ETIMEDOUT) d) as R.
    rewrite H in R. discriminate R.
  - rewrite hw_init_loop_S in H.
    unfold bind at 1 in H.
    destruct (ap130x_power_on env d) as [d1 r1] eqn:E1.
    pose proof (preserves_power_on env fw fw_blind d) as F1.
    rewrite E1 in F1. cbn [fst] in F1.
    destruct (r1 <? 0) eqn:C1.
    { pose proof (error_power_sensors_ret r1 d1) as R. rewrite H in R.
      cbn [snd] in R. subst r1. discriminate C1. }
    unfold bind at 1 in H.
    destruct (ap130x_detect_chip env d1) as [d2 r2] eqn:E2.
    pose proof (frame_detect_chip env fw fw_blind (fun _ _ => eq_refl) d1) as F2.
    rewrite E2 in F2. cbn [fst] in F2.
    destruct (negb (r2 =? 0)) eqn:C2.
    { pose proof (error_power_ret env r2 d2) as R. rewrite H in R.
      cbn [snd] in R. subst r2. discriminate C2. }
    unfold bind at 1 in H.
    destruct (load_firmware env crc_check d2) as [d3 r3] eqn:E3.
    pose proof (frame_load_firmware env fw fw_blind (fun _ _ => eq_refl)
                  (fun _ _ => eq_refl) crc_check d2) as F3.
    rewrite E3 in F3. cbn [fst] in F3.
    assert (X12 : extends d d2).
    { apply (emits_extends (fun _ => True) _ _ _ _) in E1;
        [|apply pw_power_on; intros; exact I].
      apply (emits_extends (fun _ => True) _ _ _ _) in E2;
        [|apply bus_detect_chip; intros; exact I].
      eapply extends_trans; eassumption. }
    destruct (Z.eqb_spec r3 0) as [->|N3].
    { unfold ret in H. apply pair_inv in H as (<- & _).
      exists d2. split; [exact X12|]. split; [congruence|exact E3]. }
    destruct (negb (r3 =? - EAGAIN)) eqn:C4.
    { pose proof (error_power_ret env r3 d3) as R. rewrite H in R.
      cbn [snd] in R. now subst r3. }
    unfold bind at 1 in H.
    destruct (ap130x_power_off env d3) as [d4 u] eqn:E4.
    pose proof (preserves_power_off env fw fw_blind d3) as F4.
    rewrite E4 in F4. cbn [fst] in F4.
    destruct (IH d4 d' H) as (d5 & X5 & F5 & L5).
    exists d5. split; [|split; [congruence|exact L5]].
    apply (emits_extends (fun _ => True) _ _ _ _) in E3;
      [|apply bus_load_firmware; intros; exact I].
    apply (emits_extends (fun _ => True) _ _ _ _) in E4;
      [|apply pw_power_off; intros; exact I].
    eapply extends_trans; [exact X12|].
    eapply extends_trans; [exact E3|].
    eapply extends_trans; [exact E4|exact X5].
Qed.

(** X9 -- What a successful boot leaves behind.  When the boot
    sequencer returns 0, the device holds the firmware image it
    requested, with a header that passed validation; the output is
    stalled ([streaming = false]); the page cached by the transport is
    the page of the interrupt enable register; and the last thing done
    is the write of that register, answered with success. *)
Theorem boot_success_state (crc_check : bool) (d d' : ap130x_device) :
  hw_init env crc_check d = (d', 0) ->
  streaming d' = false
  /\ reg_page d' = AP130X_REG_PAGE AP130X_ADV_IRQ_SYS_INTE
  /\ (exists blob,
         fw d' = Some blob
         /\ sizeof_fw_hdr <= Z.of_nat (length blob)
         /\ fw_hdr_pll_init_size blob <= fw_size blob)
  /\ (exists evs rsp,
         emitted d d'
         = evs ++ [(regmap_write regmap32 AP130X_REG_ADV_START
                      (Z.lor AP130X_ADV_IRQ_SYS_INTE_SIPM
                         AP130X_ADV_IRQ_SYS_INTE_SIPS_FIFO_WRITE), rsp)]
         /\ r_status rsp = Ok).
Proof.
  intros H. unfold hw_init in H.
  unfold bind at 1 in H.
  destruct (ap130x_request_firmware env d) as [d1 r1] eqn:E1.
  destruct (Z.eqb_spec r1 0) as [->|N1]; cbn [negb] in H;
    [|unfold ret in H; apply pair_inv in H as (_ & H); now contradiction N1].
  destruct (request_firmware_ok d d1 E1) as (X1 & blob & Hb & Hl & Hp).
  unfold bind at 1 in H.
  destruct (ap130x_power_on_sensors env d1) as [d2 r2] eqn:E2.
  pose proof (preserves_power_on_sensors env fw fw_blind d1) as F2.
  rewrite E2 in F2. cbn [fst] in F2.
  destruct (r2 <? 0) eqn:C2.
  { pose proof (error_firmware_ret r2 d2) as R. rewrite H in R.
    cbn [snd] in R. subst r2. discriminate C2. }
  apply (emits_extends (fun _ => True) _ _ _ _) in E2;
    [|apply pw_power_on_sensors; intros; exact I].
  destruct (hw_init_loop_ok crc_check _ d2 d' H) as (d3 & X3 & F3 & L).
  pose proof (frame_load_firmware env fw fw_blind (fun _ _ => eq_refl)
                (fun _ _ => eq_refl) crc_check d3) as FL.
  rewrite L in FL. cbn [fst] in FL.
  destruct (load_firmware_tail crc_check d3 d' L) as (d4 & d5 & X4 & Es & ->).
  destruct (stall_on_run env d4 d5 0 Es) as (rest & Ec & X5 & H0 & _).
  destruct (H0 eq_refl) as (-> & Hpg & Hok). rewrite app_nil_r in Ec.
  split; [reflexivity|]. split; [exact Hpg|].
  split; [exists blob; split; [congruence|auto]|].
  assert (Xd : extends d d4).
  { eapply extends_trans; [exact X1|]. eapply extends_trans; [exact E2|].
    eapply extends_trans; [exact X3|exact X4]. }
  assert (Em : emitted d (with_streaming false d5)
               = emitted d d4 ++ emitted d4 d5).
  { change (emitted d (with_streaming false d5)) with (emitted d d5).
    now apply emitted_trans. }
  rewrite Em.
  assert (Hlast : exists evs rsp,
             emitted d4 d5
             = evs ++ [(regmap_write regmap32 AP130X_REG_ADV_START
                          (Z.lor AP130X_ADV_IRQ_SYS_INTE_SIPM
                             AP130X_ADV_IRQ_SYS_INTE_SIPS_FIFO_WRITE), rsp)]
             /\ r_status rsp = Ok).
  { destruct (emitted d4 d5) as [|e0 l] eqn:El using rev_ind.
    - unfold stall_calls in Ec. cbn [map] in Ec.
      destruct (_ =? _); discriminate Ec.
    - clear IHl. destruct e0 as [c rsp]. exists l, rsp.
      rewrite map_app in Ec. cbn [map fst] in Ec.
      assert (Ecl : c = regmap_write regmap32 AP130X_REG_ADV_START
                          (Z.lor AP130X_ADV_IRQ_SYS_INTE_SIPM
                             AP130X_ADV_IRQ_SYS_INTE_SIPS_FIFO_WRITE)).
      { unfold stall_calls in Ec. rewrite !app_assoc in Ec.
        apply app_inj_tail in Ec as (_ & Ec). now symmetry. }
      subst c. split; [reflexivity|].
      apply Forall_app in Hok as (_ & Hok).
      apply Forall_inv in Hok. now apply Hok. }
  destruct Hlast as (evs & rsp & -> & Hr).
  exists (emitted d d4 ++ evs), rsp. now rewrite app_assoc.
Qed.

(** X10 -- An image that fails validation, or that cannot be obtained,
    stops the boot at once.  When the firmware loader hands out an image
    that is shorter than the header, or whose PLL-init size exceeds the
    bootdata, [ap130x_hw_init] returns [-EINVAL]; when the loader fails
    it returns the loader's error.  In both cases the request is the
    only call made: no supply is enabled, and nothing is released -- an
    image that failed validation stays in the device. *)
Theorem boot_rejects_invalid_image (crc_check : bool) (d : ap130x_device) :
  let rsp := env (trace d) request_firmware in
  let d1 := with_trace (trace d ++ [(request_firmware, rsp)]) d in
  (r_status rsp = Ok ->
   Z.of_nat (length (r_data rsp)) < sizeof_fw_hdr
   \/ fw_size (r_data rsp) < fw_hdr_pll_init_size (r_data rsp) ->
   hw_init env crc_check d = (with_fw (Some (r_data rsp)) d1, - EINVAL))
  /\ (forall e, r_status rsp = Err e ->
      hw_init env crc_check d = (with_fw None d1, Z.neg e)).
Proof.
  intros rsp d1. unfold hw_init, ap130x_request_firmware.
  split.
  - intros Hok Hbad.
    unfold bind at 1, bind at 1, do_call at 1.
    change (env (trace d) request_firmware) with rsp.
    rewrite Hok. unfold bind at 1, modify at 1.
    destruct (Z.ltb_spec (Z.of_nat (length (r_data rsp))) sizeof_fw_hdr)
      as [L|G]; [reflexivity|].
    destruct (Z.ltb_spec (fw_size (r_data rsp))
                (fw_hdr_pll_init_size (r_data rsp))) as [L'|G'];
      [reflexivity|].
    destruct Hbad; lia.
  - intros e He.
    unfold bind at 1, bind at 1, do_call at 1.
    change (env (trace d) request_firmware) with rsp.
    rewrite He. reflexivity.
Qed.

End X_Boot.

Section X_Bound.

Variable env : oracle.

Lemma at_most_ret {A : Type} (p : call -> bool) (n : nat) (a : A) :
  at_most p n (ret a).
Proof. intros d. exists []. cbn. rewrite app_nil_r. split; [auto|lia]. Qed.

Lemma at_most_le {A : Type} (p : call -> bool) (n n' : nat) (m : M A) :
  (n <= n')%nat -> at_most p n m -> at_most p n' m.
Proof.
  intros L H d. destruct (H d) as (evs & E & C). exists evs. split; [auto|lia].
Qed.

Lemma at_most_bind {A B : Type} (p : call -> bool) (n1 n2 : nat)
  (m : M A) (k : A -> M B) :
  at_most p n1 m -> (forall a, at_most p n2 (k a)) ->
  at_most p (n1 + n2) (bind m k).
Proof.
  intros Hm Hk d. unfold bind.
  destruct (Hm d) as (e1 & E1 & C1).
  destruct (m d) as [d1 a]. cbn [fst] in E1.
  destruct (Hk a d1) as (e2 & E2 & C2).
  exists (e1 ++ e2). split.
  - rewrite E2, E1. now rewrite app_assoc.
  - rewrite count_calls_app. lia.
Qed.

Lemma at_most_quiet {A : Type} (p : call -> bool) (m : M A) :
  emits (quiet p) m -> at_most p 0 m.
Proof.
  intros H d. destruct (H d) as (evs & E & F). exists evs.
  split; [exact E|]. rewrite count_calls_none; [lia|exact F].
Qed.

Lemma at_most_call (p : call -> bool) (c : call) :
  at_most p (count_if (p c)) (do_call env c).
Proof.
  intros d. exists [(c, env (trace d) c)]. split; [reflexivity|].
  rewrite count_calls_cons, count_calls_nil. unfold count_if.
  destruct (p c); lia.
Qed.

Section Loop.

Variable p : call -> bool.
Variables a b c : nat.
Hypothesis Hbus : forall x, is_bus_call x = true -> p x = false.
Hypothesis Hon : at_most p a (ap130x_power_on env).
Hypothesis Hoff : at_most p b (ap130x_power_off env).
Hypothesis Hsoff : at_most p 0 (ap130x_power_off_sensors env).
Hypothesis Hrel : at_most p c (do_call env release_firmware).

Lemma at_most_error_firmware (r : Z) : at_most p c (error_firmware env r).
Proof.
  unfold error_firmware.
  apply (at_most_le p (c + 0)); [lia|].
  apply at_most_bind; [exact Hrel|intros; apply at_most_ret].
Qed.

Lemma at_most_error_power_sensors (r : Z) :
  at_most p c (error_power_sensors env r).
Proof.
  unfold error_power_sensors.
  apply (at_most_le p (0 + c)); [lia|].
  apply at_most_bind; [exact Hsoff|intros; apply at_most_error_firmware].
Qed.

Lemma at_most_error_power (r : Z) : at_most p (b + c) (error_power env r).
Proof.
  unfold error_power.
  apply at_most_bind; [exact Hoff|intros; apply at_most_error_power_sensors].
Qed.

Lemma at_most_hw_init_loop (crc_check : bool) (left : nat) :
  at_most p (left * (a + b) + c) (hw_init_loop env crc_check left).
Proof.
  induction left as [|left IH].
  - cbn [hw_init_loop Nat.mul Nat.add]. apply at_most_error_power_sensors.
  - rewrite hw_init_loop_S.
    apply (at_most_le p (a + (b + (left * (a + b) + c)))); [lia|].
    apply at_most_bind; [exact Hon|intros r].
    destruct (r <? 0).
    { apply (at_most_le p c); [lia|apply at_most_error_power_sensors]. }
    apply (at_most_le p (0 + (b + (left * (a + b) + c)))); [lia|].
    apply at_most_bind.
    { apply at_most_quiet. apply bus_detect_chip. intros x rx Hx.
      now apply Hbus. }
    intros r1. destruct (negb (r1 =? 0)).
    { apply (at_most_le p (b + c)); [lia|apply at_most_error_power]. }
    apply (at_most_le p (0 + (b + (left * (a + b) + c)))); [lia|].
    apply at_most_bind.
    { apply at_most_quiet. apply bus_load_firmware. intros x rx Hx.
      now apply Hbus. }
    intros r2. destruct (r2 =? 0).
    { apply at_most_ret. }
    destruct (negb (r2 =? - EAGAIN)).
    { apply (at_most_le p (b + c)); [lia|apply at_most_error_power]. }
    apply at_most_bind; [exact Hoff|intros; exact IH].
Qed.

End Loop.

Ltac quiet_calls :=
  repeat first
    [ apply emits_do_call; intros; reflexivity
    | emits_step ].

Lemma power_on_supplies_at_most_on (rest : list Z) (i : nat) :
  at_most is_power_on (count_if (Nat.eqb i 0) * count_if (negb (Nat.eqb (length rest) 0)))
    (power_on_supplies env i rest).
Proof.
  revert i. induction rest as [|delay rest IH]; intros i;
    cbn [power_on_supplies].
  - apply at_most_ret.
  - cbn [length Nat.eqb negb count_if]. rewrite Nat.mul_1_r.
    apply (at_most_le is_power_on (count_if (i =? 0)%nat + 0)); [lia|].
    apply at_most_bind.
    + unfold do_call_status.
      apply (at_most_le is_power_on (count_if (i =? 0)%nat + 0)); [lia|].
      apply at_most_bind; [|intros; apply at_most_ret].
      apply (at_most_le is_power_on
               (count_if (is_power_on (regulator_enable (isp_supply i)))));
        [destruct i; cbn; lia|apply at_most_call].
    + intros r. destruct (r <? 0); [apply at_most_ret|].
      apply (at_most_le is_power_on (0 + 0)); [lia|].
      apply at_most_bind; [apply (at_most_call is_power_on)|intros _].
      apply (at_most_le is_power_on
               (count_if (S i =? 0)%nat
                * count_if (negb (length rest =? 0)%nat))); [cbn; lia|apply IH].
Qed.

Lemma power_on_at_most_on : at_most is_power_on 1 (ap130x_power_on env).
Proof.
  unfold ap130x_power_on.
  apply (at_most_le is_power_on (0 + (1 + 0))); [lia|].
  apply at_most_bind.
  { apply at_most_quiet. unfold standby_pulse. quiet_calls. }
  intros _. apply at_most_bind.
  { apply (at_most_le is_power_on _ _ _ (Nat.le_refl _)
             (power_on_supplies_at_most_on ap130x_supplies 0)). }
  intros r. destruct (r <? 0); [apply at_most_ret|].
  apply at_most_quiet.
  unfold standby_pulse. quiet_calls.
Qed.

Lemma power_on_quiet_off : emits (quiet is_power_off) (ap130x_power_on env).
Proof.
  unfold ap130x_power_on.
  assert (S : forall rest i,
             emits (quiet is_power_off) (power_on_supplies env i rest)).
  { induction rest as [|delay rest IH]; intros i; cbn [power_on_supplies].
    - apply emits_ret.
    - quiet_calls. apply IH. }
  unfold standby_pulse.
  repeat first [ apply S | apply emits_do_call; intros; reflexivity | emits_step ].
Qed.

Lemma power_off_at_most_off : at_most is_power_off 1 (ap130x_power_off env).
Proof.
  unfold ap130x_power_off.
  apply (at_most_le is_power_off (1 + 0)); [lia|].
  apply at_most_bind; [apply (at_most_call is_power_off)|intros _].
  apply at_most_quiet. unfold standby_pulse. quiet_calls.
Qed.

Lemma power_off_quiet (p : call -> bool) :
  p clk_disable_unprepare = false ->
  (forall g v, p (gpiod_set_value_cansleep g v) = false) ->
  (forall ss, p (regulator_bulk_disable ss) = false) ->
  (forall lo hi, p (usleep_range lo hi) = false) ->
  emits (quiet p) (ap130x_power_off env).
Proof.
  intros H1 H2 H3 H4. unfold ap130x_power_off, standby_pulse.
  repeat first
    [ apply emits_do_call; intros; unfold quiet; cbn [fst]; auto
    | emits_step ].
Qed.

Lemma sensors_quiet (p : call -> bool) :
  (forall i j, p (regulator_enable (sensor_supply i j)) = false) ->
  (forall i j, p (regulator_disable (sensor_supply i j)) = false) ->
  (forall ss, p (regulator_bulk_disable ss) = false) ->
  (forall lo hi, p (usleep_range lo hi) = false) ->
  emits (quiet p) (ap130x_power_on_sensors env)
  /\ emits (quiet p) (ap130x_power_off_sensors env).
Proof.
  intros H1 H2 H3 H4.
  assert (Q : forall c, (exists i j, c = regulator_enable (sensor_supply i j))
                        \/ (exists i j, c = regulator_disable (sensor_supply i j))
                        \/ (exists ss, c = regulator_bulk_disable ss)
                        \/ (exists lo hi, c = usleep_range lo hi) ->
                        emits (quiet p) (do_call env c)).
  { intros c Hc. apply emits_do_call. intros r. unfold quiet. cbn [fst].
    destruct Hc as [(i & j & ->)|[(i & j & ->)|[(ss & ->)|(lo & hi & ->)]]];
      auto. }
  assert (A : forall delays i n j,
             emits (quiet p) (sensor_enable_supplies env delays i j n)).
  { intros delays i n. induction n as [|n IH]; intros j;
      cbn [sensor_enable_supplies].
    - apply emits_ret.
    - unfold do_call_status.
      repeat first [ apply IH | apply Q; eauto 6 | emits_step ]. }
  assert (B : forall i j, emits (quiet p) (sensor_disable_supplies env i j)).
  { intros i j. induction j as [|j IH]; cbn [sensor_disable_supplies].
    - apply emits_ret.
    - repeat first [ apply IH | apply Q; eauto 6 | emits_step ]. }
  assert (C : forall nums i,
             emits (quiet p) (sensors_bulk_disable_down env nums i)).
  { intros nums i. induction i as [|i IH]; cbn [sensors_bulk_disable_down].
    - apply emits_ret.
    - repeat first [ apply IH | apply Q; eauto 6 | emits_step ]. }
  assert (D : forall delays nums rest i,
             emits (quiet p) (power_on_sensors_loop env delays nums i rest)).
  { intros delays nums rest. induction rest as [|n rest IH]; intros i;
      cbn [power_on_sensors_loop].
    - apply emits_ret.
    - repeat first [ apply IH | apply A | apply B | apply C | emits_step ]. }
  assert (E : forall rest i,
             emits (quiet p) (power_off_sensors_loop env i rest)).
  { intros rest. induction rest as [|n rest IH]; intros i;
      cbn [power_off_sensors_loop].
    - apply emits_ret.
    - repeat first [ apply IH | apply Q; eauto 6 | emits_step ]. }
  split.
  - unfold ap130x_power_on_sensors.
    repeat first [ apply D | emits_step ].
  - unfold ap130x_power_off_sensors.
    repeat first [ apply E | emits_step ].
Qed.

Lemma at_most_hw_init (p : call -> bool) (a b c : nat)
  (crc_check : bool) :
  (forall x, is_bus_call x = true -> p x = false) ->
  p request_firmware = false ->
  (forall i j, p (regulator_enable (sensor_supply i j)) = false) ->
  (forall i j, p (regulator_disable (sensor_supply i j)) = false) ->
  (forall ss, p (regulator_bulk_disable ss) = false) ->
  at_most p a (ap130x_power_on env) ->
  at_most p b (ap130x_power_off env) ->
  at_most p c (do_call env release_firmware) ->
  at_most p (3 * (a + b) + c) (hw_init env crc_check).
Proof.
  intros Hbus Hreq He Hd Hb Hon Hoff Hrel.
  assert (Hu : forall lo hi, p (usleep_range lo hi) = false)
    by (intros; now apply Hbus).
  destruct (sensors_quiet p He Hd Hb Hu) as (Son & Soff).
  unfold hw_init.
  apply (at_most_le p (0 + (0 + (3 * (a + b) + c)))); [lia|].
  apply at_most_bind.
  { apply at_most_quiet. unfold ap130x_request_firmware.
    repeat first
      [ apply emits_do_call; intros; unfold quiet; cbn [fst]; exact Hreq
      | emits_step ]. }
  intros r. destruct (negb (r =? 0)); [apply at_most_ret|].
  apply at_most_bind; [now apply at_most_quiet|intros r1].
  destruct (r1 <? 0).
  - apply (at_most_le p c); [lia|].
    now apply at_most_error_firmware.
  - apply at_most_hw_init_loop; auto. now apply at_most_quiet.
Qed.

(** X11 -- The retry bound of the boot sequencer.  Whatever the
    environment does, and with the CRC verification compiled in or out,
    one run of the boot sequencer powers the ISP on at most three times
    and off at most three times, and releases the firmware image at most
    once. *)
Theorem boot_power_cycles_bounded (crc_check : bool) (d : ap130x_device) :
  let evs := emitted d (fst (hw_init env crc_check d)) in
  (count_calls is_power_on evs <= 3)%nat
  /\ (count_calls is_power_off evs <= 3)%nat
  /\ (count_calls is_release evs <= 1)%nat.
Proof.
  intros evs. subst evs.
  assert (Bus : forall q : call -> bool,
             (forall m r v, q (regmap_write m r v) = false) ->
             (forall m r, q (regmap_read m r) = false) ->
             (forall m r v n, q (regmap_raw_write m r v n) = false) ->
             (forall lo hi, q (usleep_range lo hi) = false) ->
             (forall ms, q (msleep ms) = false) ->
             forall x, is_bus_call x = true -> q x = false).
  { intros q H1 H2 H3 H4 H5 x Hx. destruct x; try discriminate Hx; auto. }
  split; [|split].
  - destruct (at_most_hw_init is_power_on 1 0 0 crc_check) with (d := d)
      as (evs & E & C); try (intros; reflexivity).
    + apply Bus; intros; reflexivity.
    + exact power_on_at_most_on.
    + apply at_most_quiet. apply power_off_quiet; intros; reflexivity.
    + apply (at_most_call is_power_on).
    + rewrite (emitted_app _ _ _ E). cbn in C. lia.
  - destruct (at_most_hw_init is_power_off 0 1 0 crc_check) with (d := d)
      as (evs & E & C); try (intros; reflexivity).
    + apply Bus; intros; reflexivity.
    + apply at_most_quiet. exact power_on_quiet_off.
    + exact power_off_at_most_off.
    + apply (at_most_call is_power_off).
    + rewrite (emitted_app _ _ _ E). cbn in C. lia.
  - destruct (at_most_hw_init is_release 0 0 1 crc_check) with (d := d)
      as (evs & E & C); try (intros; reflexivity).
    + apply Bus; intros; reflexivity.
    + apply at_most_quiet. apply pw_power_on. intros x r Hx.
      unfold quiet. cbn [fst]. now destruct x.
    + apply at_most_quiet. apply pw_power_off. intros x r Hx.
      unfold quiet. cbn [fst]. now destruct x.
    + apply (at_most_call is_release).
    + rewrite (emitted_app _ _ _ E). cbn in C. lia.
Qed.

End X_Bound.

Section X_Stream.

Variable env : oracle.

Lemma streaming_blind : trace_blind streaming.
Proof. intros t d. reflexivity. Qed.

Lemma last_or_before {A : Type} (l0 l1 l2 : list A) (x y : A) :
  l0 ++ [x] = l1 ++ y :: l2 -> l2 = [] \/ In y l0.
Proof.
  intros E. destruct (exists_last (l := y :: l2) ltac:(discriminate))
    as (l2' & z & E2).
  destruct l2 as [|w l2]; [left; reflexivity|right].
  rewrite E2, app_assoc in E. apply app_inj_tail in E as (-> & _).
  destruct l2' as [|y' l2']; cbn in E2.
  - discriminate E2.
  - injection E2 as <- _. apply in_or_app. right. left. reflexivity.
Qed.

(** X12 -- Stalling the output.  The calls of [ap130x_stall] with
    [stall = true] are an initial stretch of: the stall register
    written twice (stall mode, then stall enable), 200 ms of sleep, the
    page-select write when the page of the interrupt enable register is
    not the cached one, and the write of the interrupt enable register.
    It returns 0 exactly when the whole sequence was issued and every
    write succeeded; the cached page is then the page of that register.
    Otherwise it stops at the first write that fails and returns its
    error: the writes before it succeeded and no call follows a write
    that failed; in particular it does not sleep when a write to the
    stall register failed.  The streaming flag is never touched. *)
Theorem stall_sequence (d d' : ap130x_device) (r : Z) :
  ap130x_stall env true d = (d', r) ->
  (exists rest,
      stall_calls (reg_page d =? AP130X_REG_PAGE AP130X_ADV_IRQ_SYS_INTE)
      = map fst (emitted d d') ++ rest
      /\ (r = 0 <-> rest = [] /\ writes_ok (emitted d d')))
  /\ (r = 0 -> reg_page d' = AP130X_REG_PAGE AP130X_ADV_IRQ_SYS_INTE)
  /\ (r <> 0 -> stops_at_failed_write (emitted d d') r)
  /\ (forall evs1 c rsp evs2,
        emitted d d' = evs1 ++ (c, rsp) :: evs2 ->
        is_regmap_write c = true -> r_status rsp <> Ok ->
        evs2 = [] /\ r = errno (r_status rsp))
  /\ streaming d' = streaming d.
Proof.
  intros H.
  destruct (stall_on_run env d d' r H) as (rest & Ec & _ & H0 & Hn).
  assert (Hlast : forall evs1 c rsp evs2,
             emitted d d' = evs1 ++ (c, rsp) :: evs2 ->
             is_regmap_write c = true -> r_status rsp <> Ok ->
             evs2 = [] /\ r = errno (r_status rsp)).
  { intros evs1 c rsp evs2 E Hc Hs.
    assert (Bad : ~ writes_ok (evs1 ++ (c, rsp) :: evs2)).
    { intros W. unfold writes_ok in W. rewrite Forall_app in W.
      destruct W as (_ & W). inversion W as [|? ? Wc _]. subst.
      apply Hs, Wc, Hc. }
    destruct (Z.eq_dec r 0) as [Hr|Hr].
    - destruct (H0 Hr) as (_ & _ & W). rewrite E in W. contradiction.
    - destruct (Hn Hr) as (evs0 & c0 & rsp0 & E0 & _ & Er & _ & W0).
      rewrite E in E0. symmetry in E0.
      destruct (last_or_before _ _ _ _ _ E0) as [-> | Hin].
      + apply app_inj_tail in E0 as (_ & Ex). injection Ex as _ <-.
        split; [reflexivity|exact Er].
      + exfalso. unfold writes_ok in W0. rewrite Forall_forall in W0.
        apply Hs, (W0 _ Hin), Hc. }
  split.
  { exists rest. split; [exact Ec|]. split.
    - intros Hr. destruct (H0 Hr) as (Hrest & _ & W). split; assumption.
    - intros (Hrest & W). destruct (Z.eq_dec r 0) as [Hr|Hr]; [exact Hr|].
      exfalso. destruct (Hn Hr) as (evs0 & c0 & rsp0 & E0 & Hc0 & Er & Hneg & _).
      unfold writes_ok in W. rewrite E0, Forall_app in W.
      destruct W as (_ & W). inversion W as [|? ? Wc _]. subst.
      specialize (Wc Hc0). unfold answered_ok in Wc. cbn [snd] in Wc.
      rewrite Wc in Hneg. cbn [errno] in Hneg. lia. }
  split; [intros Hr; now apply H0|]. split; [exact Hn|].
  split; [exact Hlast|].
  pose proof (frame_stall env streaming streaming_blind (fun _ _ => eq_refl)
                true d) as F.
  now rewrite H in F.
Qed.

(** X13 -- The streaming flag follows the outcome of [ap130x_s_stream]:
    after a call that returns 0 the flag tells whether [enable] is
    non-zero; after a call that fails (a negative error) the flag is
    what it was before. *)
Theorem s_stream_tracks_success (enable : Z) (d d' : ap130x_device) (r : Z) :
  ap130x_s_stream env enable d = (d', r) ->
  r <= 0
  /\ (r = 0 -> streaming d' = negb (enable =? 0))
  /\ (r <> 0 -> streaming d' = streaming d).
Proof.
  unfold ap130x_s_stream, bind at 1, gets at 1.
  destruct (Z.eqb_spec enable (if streaming d then 1 else 0)) as [He|He].
  { unfold ret. intros H. apply pair_inv in H as (<- & <-).
    split; [lia|]. split; [|intros H; now contradiction H].
    intros _. rewrite He. now destruct (streaming d). }
  destruct (negb (enable =? 0)) eqn:C1.
  - unfold bind at 1.
    destruct (ap130x_configure env d) as [d1 r1] eqn:E1.
    pose proof (frame_configure env streaming streaming_blind
                  (fun _ _ => eq_refl) d) as F1.
    rewrite E1 in F1. cbn [fst] in F1.
    destruct (Z.ltb_spec r1 0) as [L|G].
    { unfold ret. intros H. apply pair_inv in H as (<- & <-).
      split; [lia|]. split; [intros; lia|auto]. }
    unfold bind at 1. rewrite stall_off_run. cbv beta iota zeta.
    set (c := regmap_write regmap16 _ _).
    set (d2 := with_trace (trace d1 ++ [(c, env (trace d1) c)]) d1).
    pose proof (errno_nonpos (r_status (env (trace d1) c))) as Hle.
    match goal with
    | |- context [if ?b then _ else _] => destruct b eqn:E0
    end.
    + unfold bind, modify, ret. intros H. apply pair_inv in H as (<- & <-).
      split; [lia|]. split; [reflexivity|].
      apply Z.eqb_eq in E0. intros Hx. now contradiction Hx.
    + unfold ret. intros H. apply pair_inv in H as (<- & <-).
      apply Z.eqb_neq in E0.
      split; [lia|]. split; [intros Hx; now contradiction E0|auto].
  - unfold bind at 1.
    destruct (ap130x_stall env true d) as [d1 r1] eqn:E1.
    pose proof (frame_stall env streaming streaming_blind (fun _ _ => eq_refl)
                  true d) as F1.
    rewrite E1 in F1. cbn [fst] in F1.
    destruct (stall_on_run env d d1 r1 E1) as (_ & _ & _ & _ & Hn).
    destruct (Z.eqb_spec r1 0) as [E0|N0].
    + unfold bind, modify, ret. intros H. apply pair_inv in H as (<- & <-).
      split; [lia|]. split; [reflexivity|intros Hx; now contradiction Hx].
    + unfold ret. intros H. apply pair_inv in H as (<- & <-).
      destruct (Hn N0) as (? & ? & ? & _ & _ & _ & L).
      split; [lia|]. split; [intros Hx; now contradiction N0|auto].
Qed.

End X_Stream.

(** * Witnesses, batch 3 *)

Lemma boot_success_state_witness :
  let res := hw_init (env_ok fw_small) false dev0 in
  snd res = 0
  /\ streaming (fst res) = false
  /\ reg_page (fst res) = 0x230000
  /\ fw (fst res) = Some fw_small.
Proof.
  set (env := env_ok fw_small).
  destruct (hw_init env false dev0) as [d' r] eqn:E.
  assert (Hr : r = 0)
    by (apply (f_equal snd) in E; vm_compute in E; now symmetry).
  subst r.
  destruct (boot_success_state env false dev0 d' E) as (H1 & H2 & _ & _).
  cbn [fst snd]. split; [reflexivity|]. split; [exact H1|].
  split; [exact H2|].
  apply (f_equal fst) in E. cbn [fst] in E. rewrite <- E. reflexivity.
Defined.

Lemma boot_rejects_invalid_image_witness :
  hw_init (env_ok [x01; x02]) false dev0
  = (with_fw (Some [x01; x02])
       (with_trace [(request_firmware, mk_resp Ok 0 [x01; x02])] dev0),
     - EINVAL).
Proof.
  destruct (boot_rejects_invalid_image (env_ok [x01; x02]) false dev0)
    as (H & _).
  apply H; [reflexivity|]. left. reflexivity.
Defined.

Lemma stall_sequence_witness :
  let res := ap130x_stall (env_page_select_fails) true dev0 in
  snd res = -5
  /\ stops_at_failed_write (emitted dev0 (fst res)) (-5)
  /\ streaming (fst res) = false.
Proof.
  set (env := env_page_select_fails).
  destruct (ap130x_stall env true dev0) as [d' r] eqn:E.
  assert (Hr : r = -5)
    by (apply (f_equal snd) in E; vm_compute in E; now symmetry).
  destruct (stall_sequence env dev0 d' r E) as (_ & _ & Hs & _ & Hf).
  cbn [fst snd]. split; [exact Hr|]. rewrite <- Hr.
  split; [apply Hs; rewrite Hr; discriminate|exact Hf].
Defined.

Lemma s_stream_tracks_success_witness :
  (let res := ap130x_s_stream (env_ok []) 1 dev0 in
   snd res = 0 /\ streaming (fst res) = true)
  /\ (let res := ap130x_s_stream (env_write16_fails 0x601a) 1 dev0 in
      snd res = -5 /\ streaming (fst res) = false).
Proof.
  split.
  - set (env := env_ok []).
    destruct (ap130x_s_stream env 1 dev0) as [d' r] eqn:E.
    assert (Hr : r = 0)
      by (apply (f_equal snd) in E; vm_compute in E; now symmetry).
    destruct (s_stream_tracks_success env 1 dev0 d' r E) as (_ & H0 & _).
    cbn [fst snd]. split; [exact Hr|exact (H0 Hr)].
  - set (env := env_write16_fails 0x601a).
    destruct (ap130x_s_stream env 1 dev0) as [d' r] eqn:E.
    assert (Hr : r = -5)
      by (apply (f_equal snd) in E; vm_compute in E; now symmetry).
    destruct (s_stream_tracks_success env 1 dev0 d' r E) as (_ & _ & Hn).
    cbn [fst snd]. split; [exact Hr|]. apply Hn. rewrite Hr. discriminate.
Defined.

Section X_Ctrl.

Variable env : oracle.

(** X14 -- The control table keeps the setters inside their tables.
    For every control of [ap130x_ctrls] and every value between its
    minimum and its maximum (the values the control framework lets
    through): the default lies in that range; when the setter of the
    control indexes a table, the value is a valid index of that table;
    an index the menu skips maps to the normal mode (0) and is not the
    default; and the control has a register of its own, except the link
    frequency, which [ap130x_s_ctrl] refuses with [-EINVAL] without
    touching the bus. *)
Theorem ctrl_table_bounds (cfg : v4l2_ctrl_config) (val : Z) :
  In cfg ap130x_ctrls ->
  cfg_min cfg <= val <= cfg_max cfg ->
  cfg_min cfg <= cfg_def cfg <= cfg_max cfg
  /\ (forall t, ctrl_table (cfg_id cfg) = Some t ->
        0 <= val < Z.of_nat (length t)
        /\ nth_error t (Z.to_nat val) = Some (table_at t val)
        /\ (Z.testbit (cfg_menu_skip_mask cfg) val = true ->
            table_at t val = 0 /\ val <> cfg_def cfg))
  /\ (ctrl_reg (cfg_id cfg) = None ->
      cfg_id cfg = V4L2_CID_LINK_FREQ
      /\ forall d, ap130x_s_ctrl env (cfg_id cfg) val d = (d, - EINVAL)).
Proof.
  intros Hin Hv.
  assert (Idx : forall t : list Z, 0 <= val < Z.of_nat (length t) ->
                  nth_error t (Z.to_nat val) = Some (table_at t val)).
  { intros t Ht. unfold table_at. apply nth_error_nth'. lia. }
  cbn [ap130x_ctrls In] in Hin.
  repeat (destruct Hin as [<-|Hin]); try contradiction;
    cbn [cfg_min cfg_max cfg_def cfg_id cfg_menu_skip_mask ctrl_table
         ctrl_reg] in *;
    (split; [lia|]); (split; [|try discriminate]).
  all: try (intros t Ht; discriminate Ht).
  - intros t Ht. injection Ht as <-.
    split; [cbn; lia|]. split; [apply Idx; cbn; lia|].
    rewrite Z.bits_0. discriminate.
  - intros t Ht. injection Ht as <-.
    split; [cbn; lia|]. split; [apply Idx; cbn; lia|].
    assert (C : val = 0 \/ val = 1 \/ val = 2 \/ val = 3 \/ val = 4 \/ val = 5
                \/ val = 6 \/ val = 7 \/ val = 8 \/ val = 9 \/ val = 10
                \/ val = 11 \/ val = 12 \/ val = 13 \/ val = 14 \/ val = 15)
      by lia.
    repeat (destruct C as [->|C]); try subst val;
      try (intros Hx; discriminate Hx);
      intros _; (split; [reflexivity|discriminate]).
  - intros t Ht. injection Ht as <-.
    split; [cbn; lia|]. split; [apply Idx; cbn; lia|].
    assert (C : val = 0 \/ val = 1 \/ val = 2 \/ val = 3 \/ val = 4 \/ val = 5
                \/ val = 6 \/ val = 7 \/ val = 8 \/ val = 9 \/ val = 10
                \/ val = 11 \/ val = 12 \/ val = 13)
      by lia.
    repeat (destruct C as [->|C]); try subst val;
      try (intros Hx; discriminate Hx);
      intros _; (split; [reflexivity|discriminate]).
  - intros t Ht. injection Ht as <-.
    split; [cbn; lia|]. split; [apply Idx; cbn; lia|].
    rewrite Z.bits_0. discriminate.
  - intros _. split; reflexivity.
Qed.

Lemma table_at_range (t : list Z) (i bound : Z) :
  0 < bound -> Forall (fun v => 0 <= v < bound) t ->
  0 <= table_at t i < bound.
Proof.
  intros Hb F. unfold table_at.
  destruct (nth_in_or_default (Z.to_nat i) t 0) as [Hin| ->]; [|lia].
  rewrite Forall_forall in F. now apply F.
Qed.

(** Replacing the low four bits of a 32-bit word. *)
Lemma replace_low_bits (v t : Z) :
  0 <= v -> 0 <= t < 16 ->
  Z.lor (Z.land v (Z.lnot 0xf)) t = 16 * (v / 16) + t.
Proof.
  intros Hv Ht. change 0xf with (Z.ones 4).
  rewrite <- Z.ldiff_land, Z.ldiff_ones_r by lia.
  rewrite Z.shiftr_div_pow2, Z.shiftl_mul_pow2 by lia.
  change (2 ^ 4) with 16.
  rewrite (lor_disjoint_add _ t 4); [lia|lia|exact Ht|].
  change (2 ^ 4) with 16. apply Z.mod_mul. lia.
Qed.

Lemma low_bits_spec (q t n : Z) :
  0 <= t < 16 -> 0 <= n ->
  Z.testbit (16 * q + t) n
  = if n <? 4 then Z.testbit t n else Z.testbit q (n - 4).
Proof.
  intros Ht Hn. destruct (Z.ltb_spec n 4).
  - rewrite <- (Z.mod_pow2_bits_low (16 * q + t) 4 n) by lia.
    change (2 ^ 4) with 16.
    rewrite Z.add_comm, Z.mul_comm, Z.mod_add by lia.
    now rewrite Z.mod_small by lia.
  - replace n with ((n - 4) + 4) at 1 by lia.
    rewrite <- Z.shiftr_spec by lia.
    rewrite Z.shiftr_div_pow2 by lia. change (2 ^ 4) with 16.
    rewrite Z.add_comm, Z.mul_comm, Z.div_add by lia.
    rewrite (Z.div_small t) by lia. reflexivity.
Qed.

Lemma div16_testbit (v n : Z) :
  4 <= n -> Z.testbit (v / 16) (n - 4) = Z.testbit v n.
Proof.
  intros Hn. change 16 with (2 ^ 4).
  rewrite <- Z.shiftr_div_pow2, Z.shiftr_spec by lia.
  f_equal. lia.
Qed.

Lemma read_ctrl16 (reg : Z) (d : ap130x_device) :
  AP130X_REG_PAGE reg = 0 -> AP130X_REG_SIZE reg = 2 ->
  ap130x_read env reg d =
  (let c := regmap_read regmap16 (AP130X_REG_ADDR reg) in
   let r := env (trace d) c in
   (with_trace (trace d ++ [(c, r)]) d,
    (errno (r_status r),
     match r_status r with Ok => wrap32 (r_val r) | Err _ => 0 end))).
Proof.
  intros Hp Hs. rewrite read_page0 by exact Hp.
  unfold __ap130x_read. rewrite Hs. reflexivity.
Qed.

Lemma set_wb_mode_run (mode : Z) (d : ap130x_device) :
  ap130x_set_wb_mode env mode d = rmw_run env AP130X_AWB_CTRL (wb_word mode) d.
Proof.
  unfold ap130x_set_wb_mode, rmw_run.
  unfold bind at 1. rewrite read_ctrl16 by reflexivity.
  cbv beta iota zeta.
  destruct (r_status _) as [|e]; cbn [errno Z.eqb negb]; [|reflexivity].
  unfold bind at 1. rewrite write16_run by reflexivity.
  reflexivity.
Qed.

Lemma set_exposure_run (mode : Z) (d : ap130x_device) :
  ap130x_set_exposure env mode d
  = rmw_run env AP130X_AE_CTRL (exposure_word mode) d.
Proof.
  unfold ap130x_set_exposure, rmw_run.
  unfold bind at 1. rewrite read_ctrl16 by reflexivity.
  cbv beta iota zeta.
  destruct (r_status _) as [|e]; cbn [errno Z.eqb negb]; [|reflexivity].
  unfold bind at 1. rewrite write16_run by reflexivity.
  reflexivity.
Qed.

Lemma wb_word_bits (mode v n : Z) :
  0 <= v -> 0 <= n ->
  Z.testbit (wb_word mode v) n
  = if n <? 4 then Z.testbit (table_at ap130x_wb_values mode) n
    else if n =? 8 then mode =? V4L2_WHITE_BALANCE_FLASH
    else Z.testbit v n.
Proof.
  intros Hv Hn. unfold wb_word.
  assert (Ht : 0 <= table_at ap130x_wb_values mode < 16).
  { apply table_at_range; [lia|]. repeat constructor; lia. }
  change AP130X_AWB_CTRL_MODE_MASK with 0xf.
  rewrite replace_low_bits by lia.
  set (x := 16 * (v / 16) + table_at ap130x_wb_values mode).
  assert (Hx : Z.testbit x n
               = if n <? 4
                 then Z.testbit (table_at ap130x_wb_values mode) n
                 else Z.testbit v n).
  { unfold x. rewrite low_bits_spec by lia.
    destruct (Z.ltb_spec n 4); [reflexivity|]. apply div16_testbit. lia. }
  assert (Hf : Z.testbit AP130X_AWB_CTRL_FLASH n = (n =? 8)).
  { unfold AP130X_AWB_CTRL_FLASH, BIT. rewrite Z.shiftl_1_l.
    rewrite Z.pow2_bits_eqb by lia. apply Z.eqb_sym. }
  cbv zeta. destruct (mode =? V4L2_WHITE_BALANCE_FLASH).
  - rewrite Z.lor_spec, Hx, Hf.
    destruct (Z.ltb_spec n 4), (Z.eqb_spec n 8);
      try lia; now rewrite ?orb_false_r, ?orb_true_r.
  - rewrite Z.land_spec, Z.lnot_spec, Hx, Hf by lia.
    destruct (Z.ltb_spec n 4), (Z.eqb_spec n 8);
      try lia; cbn [negb]; now rewrite ?andb_true_r, ?andb_false_r.
Qed.

Lemma exposure_word_bits (mode v n : Z) :
  0 <= v < 2 ^ 32 -> 0 <= mode < 16 -> 0 <= n ->
  Z.testbit (exposure_word mode v) n
  = if n <? 4 then Z.testbit mode n else Z.testbit v n.
Proof.
  intros Hv Hm Hn. unfold exposure_word.
  change AP130X_AE_CTRL_MODE_MASK with 0xf.
  rewrite replace_low_bits by lia.
  assert (Hq : 0 <= v / 16 < 2 ^ 28).
  { split; [apply Z.div_pos; lia|apply Z.div_lt_upper_bound; lia]. }
  unfold wrap32. rewrite Z.mod_small by lia.
  rewrite low_bits_spec by lia.
  destruct (Z.ltb_spec n 4); [reflexivity|]. apply div16_testbit. lia.
Qed.

(** X15 -- The two read-modify-write controls.  [ap130x_set_wb_mode]
    and [ap130x_set_exposure] first read their register; when the read
    fails they return its error and write nothing.  Otherwise they
    write the register once, with the word read in which only the mode
    field (bits 3:0) has been replaced -- by the table entry of the
    white balance mode, respectively by the exposure mode itself -- and,
    for the white balance, bit 8 (flash) set exactly for the flash
    mode.  Every other bit is written back as it was read. *)
Theorem ctrl_read_modify_write :
  (forall mode d,
      let c := regmap_read regmap16 (AP130X_REG_ADDR AP130X_AWB_CTRL) in
      let rsp := env (trace d) c in
      (forall e, r_status rsp = Err e ->
         ap130x_set_wb_mode env mode d
         = (with_trace (trace d ++ [(c, rsp)]) d, Z.neg e))
      /\ (r_status rsp = Ok -> 0 <= mode <= 9 ->
          exists w rw,
            emitted d (fst (ap130x_set_wb_mode env mode d))
            = [(c, rsp);
               (regmap_write regmap16 (AP130X_REG_ADDR AP130X_AWB_CTRL) w, rw)]
            /\ snd (ap130x_set_wb_mode env mode d) = errno (r_status rw)
            /\ forall n, 0 <= n ->
                 Z.testbit w n
                 = if n <? 4 then Z.testbit (table_at ap130x_wb_values mode) n
                   else if n =? 8 then mode =? V4L2_WHITE_BALANCE_FLASH
                   else Z.testbit (wrap32 (r_val rsp)) n))
  /\ (forall mode d,
      let c := regmap_read regmap16 (AP130X_REG_ADDR AP130X_AE_CTRL) in
      let rsp := env (trace d) c in
      (forall e, r_status rsp = Err e ->
         ap130x_set_exposure env mode d
         = (with_trace (trace d ++ [(c, rsp)]) d, Z.neg e))
      /\ (r_status rsp = Ok -> 0 <= mode <= 0xC ->
          exists w rw,
            emitted d (fst (ap130x_set_exposure env mode d))
            = [(c, rsp);
               (regmap_write regmap16 (AP130X_REG_ADDR AP130X_AE_CTRL) w, rw)]
            /\ snd (ap130x_set_exposure env mode d) = errno (r_status rw)
            /\ forall n, 0 <= n ->
                 Z.testbit w n
                 = if n <? 4 then Z.testbit mode n
                   else Z.testbit (wrap32 (r_val rsp)) n)).
Proof.
  assert (Hv : forall x, 0 <= wrap32 x < 2 ^ 32)
    by (intros; apply Z.mod_pos_bound; lia).
  split.
  - intros mode d c rsp. rewrite set_wb_mode_run. unfold rmw_run.
    fold c. fold rsp. cbv zeta.
    split.
    + intros e He. rewrite He. reflexivity.
    + intros Hok Hm. rewrite Hok. cbn [fst snd].
      eexists. eexists. split; [|split; [reflexivity|]].
      * apply emitted_app. cbn [trace with_trace].
        rewrite <- app_assoc. reflexivity.
      * intros n Hn. apply wb_word_bits; [apply Hv|exact Hn].
  - intros mode d c rsp. rewrite set_exposure_run. unfold rmw_run.
    fold c. fold rsp. cbv zeta.
    split.
    + intros e He. rewrite He. reflexivity.
    + intros Hok Hm. rewrite Hok. cbn [fst snd].
      eexists. eexists. split; [|split; [reflexivity|]].
      * apply emitted_app. cbn [trace with_trace].
        rewrite <- app_assoc. reflexivity.
      * intros n Hn. apply exposure_word_bits; [apply Hv|lia|exact Hn].
Qed.

(** X16 -- A control only ever touches its own register.  Whatever
    the value and whatever the bus answers, every call [ap130x_s_ctrl]
    makes for a control is a read or a write of the 16-bit register of
    that control; the page cache of the transport and the streaming
    flag are left as they were. *)
Theorem ctrl_touches_own_register (id : v4l2_cid) (val reg : Z)
  (d : ap130x_device) :
  ctrl_reg id = Some reg ->
  let d' := fst (ap130x_s_ctrl env id val d) in
  Forall (touches_only reg) (emitted d d')
  /\ reg_page d' = reg_page d
  /\ streaming d' = streaming d.
Proof.
  intros Hr d'. subst d'.
  assert (E : emits (touches_only reg) (ap130x_s_ctrl env id val)).
  { destruct id; cbn [ctrl_reg] in Hr; try discriminate Hr;
      injection Hr as <-;
      unfold ap130x_s_ctrl, ap130x_set_reg, ap130x_set_wb_mode,
        ap130x_set_exposure;
      repeat first
        [ apply emits_write16; [reflexivity|reflexivity|];
          intros; split; reflexivity
        | apply emits_read16; [reflexivity|reflexivity|];
          intros; split; reflexivity
        | emits_step ]. }
  split; [|split].
  - destruct (E d) as (evs & Et & F). now rewrite (emitted_app _ _ _ Et).
  - destruct id; cbn [ctrl_reg] in Hr; try discriminate Hr;
      unfold ap130x_s_ctrl, ap130x_set_reg;
      try rewrite set_wb_mode_run; try rewrite set_exposure_run;
      unfold rmw_run; cbv zeta;
      try (destruct (r_status _); reflexivity);
      unfold bind at 1; rewrite write16_run by reflexivity; reflexivity.
  - apply (frame_s_ctrl env streaming streaming_blind (fun _ _ => eq_refl)).
Qed.

End X_Ctrl.

Lemma ctrl_table_bounds_witness :
  In (mk_ctrl_config V4L2_CID_SCENE_MODE 0 13 0 0 (Z.lor (BIT 5) (BIT 4)))
    ap130x_ctrls
  /\ nth_error ap130x_scene_mode_values 4
     = Some (table_at ap130x_scene_mode_values 4)
  /\ table_at ap130x_scene_mode_values 4 = 0.
Proof.
  assert (Hin : In (mk_ctrl_config V4L2_CID_SCENE_MODE 0 13 0 0
                      (Z.lor (BIT 5) (BIT 4))) ap130x_ctrls)
    by (cbn; auto 20).
  assert (Hv : 0 <= 4 <= 13) by lia.
  destruct (ctrl_table_bounds (env_ok []) _ 4 Hin Hv) as (_ & H & _).
  destruct (H _ eq_refl) as (_ & H1 & H2).
  destruct (H2 eq_refl) as (H3 & _).
  split; [exact Hin|]. split; [exact H1|exact H3].
Defined.

Lemma ctrl_read_modify_write_witness :
  let env := env_reg16 0x5100 0xabcd in
  exists w rw,
    emitted dev0 (fst (ap130x_set_wb_mode env 7 dev0))
    = [(regmap_read regmap16 0x5100, resp_ok 0xabcd);
       (regmap_write regmap16 0x5100 w, rw)]
    /\ Z.testbit w 8 = true
    /\ Z.testbit w 9 = Z.testbit 0xabcd 9.
Proof.
  intros env.
  destruct (ctrl_read_modify_write env) as (H & _).
  destruct (H 7 dev0) as (_ & H1).
  destruct H1 as (w & rw & He & _ & Hb); [reflexivity|lia|].
  exists w, rw. split; [exact He|].
  split; [now rewrite Hb by lia|now rewrite Hb by lia].
Defined.

Lemma ctrl_touches_own_register_witness :
  ctrl_reg V4L2_CID_GAIN = Some AP130X_AE_MANUAL_GAIN
  /\ Forall (touches_only AP130X_AE_MANUAL_GAIN)
       (emitted dev0 (fst (ap130x_s_ctrl (env_ok []) V4L2_CID_GAIN 0x200 dev0))).
Proof.
  destruct (ctrl_touches_own_register (env_ok []) V4L2_CID_GAIN 0x200
              AP130X_AE_MANUAL_GAIN dev0 eq_refl) as (H & _).
  split; [reflexivity|exact H].
Defined.

Section X_Format.

Lemma wrap32_lnot_ones_bit (k n : Z) :
  0 <= k -> 0 <= n ->
  Z.testbit (wrap32 (Z.lnot (Z.ones k))) n = (n <? 32) && negb (n <? k).
Proof.
  intros Hk Hn. rewrite wrap32_testbit by lia.
  destruct (Z.ltb_spec n 32); [|reflexivity].
  rewrite Z.lnot_spec, Z.testbit_ones_nonneg by lia. reflexivity.
Qed.

(** [ALIGN_DOWN] to a power of two rounds down to a multiple of it. *)
Lemma ALIGN_DOWN_pow2 (x k : Z) :
  0 <= x < 2 ^ 32 -> 0 <= k < 32 ->
  ALIGN_DOWN x (2 ^ k) = x - x mod 2 ^ k.
Proof.
  intros Hx Hk. unfold ALIGN_DOWN.
  assert (P : 0 < 2 ^ k <= 2 ^ 31).
  { split; [apply Z.pow_pos_nonneg; lia|apply Z.pow_le_mono_r; lia]. }
  assert (Hm : wrap32 (2 ^ k - 1) = Z.ones k).
  { rewrite Z.ones_equiv, <- Z.sub_1_r. unfold wrap32. apply Z.mod_small. lia. }
  cbv zeta. rewrite Hm.
  assert (Hxx : wrap32 (wrap32 (x - Z.ones k) + Z.ones k) = x).
  { unfold wrap32. rewrite Zplus_mod_idemp_l.
    replace (x - Z.ones k + Z.ones k) with x by lia. apply Z.mod_small. lia. }
  rewrite Hxx.
  replace (x - x mod 2 ^ k) with (Z.ldiff x (Z.ones k)).
  - apply Z.bits_inj'. intros n Hn.
    rewrite Z.land_spec, Z.ldiff_spec, wrap32_lnot_ones_bit by lia.
    rewrite Z.testbit_ones_nonneg by lia.
    destruct (Z.ltb_spec n 32); [reflexivity|].
    rewrite (testbit_above x 32 n) by lia. reflexivity.
  - rewrite Z.ldiff_ones_r by lia.
    rewrite Z.shiftr_div_pow2, Z.shiftl_mul_pow2 by lia.
    pose proof (Z.div_mod x (2 ^ k) ltac:(lia)). lia.
Qed.

Lemma aligned_width (w factor : Z) :
  factor = 1 \/ factor = 2 -> 0 <= w < 2 ^ 32 ->
  ALIGN_DOWN w (wrap32 (4 * factor)) = w - w mod (4 * factor).
Proof.
  intros [-> | ->] Hw.
  - apply (ALIGN_DOWN_pow2 w 2); [assumption|lia].
  - apply (ALIGN_DOWN_pow2 w 3); [assumption|lia].
Qed.

Lemma aligned_height (h : Z) :
  0 <= h < 2 ^ 32 -> ALIGN_DOWN h 2 = h - h mod 2.
Proof. intros Hh. apply (ALIGN_DOWN_pow2 h 1); [assumption|lia]. Qed.

Lemma round_down_mod (x a : Z) : 0 < a -> (x - x mod a) mod a = 0.
Proof.
  intros Ha. rewrite Zminus_mod_idemp_r, Z.sub_diag. apply Z.mod_0_l. lia.
Qed.

(** What the clamp of a rounded-down value is. *)
Lemma clamp_round_down (x a lo hi : Z) :
  0 < a -> 0 <= x -> lo <= hi -> lo mod a = 0 -> hi mod a = 0 ->
  let r := clamp (x - x mod a) lo hi in
  lo <= r <= hi /\ r mod a = 0 /\ r <= Z.max x lo
  /\ (lo <= x <= hi -> x mod a = 0 -> r = x).
Proof.
  intros Ha Hx Hlh Hlo Hhi r. subst r. unfold clamp.
  pose proof (Z.mod_pos_bound x a Ha) as Hm.
  pose proof (round_down_mod x a Ha) as Hr.
  split; [lia|]. split; [|split; [lia|intros Hin H0; rewrite H0; lia]].
  destruct (Z.max_spec (x - x mod a) lo) as [[_ ->] | [_ ->]];
    [destruct (Z.min_spec lo hi) as [[_ ->] | [_ ->]]
    |destruct (Z.min_spec (x - x mod a) hi) as [[_ ->] | [_ ->]]];
    assumption.
Qed.

Lemma find_supported (code : Z) :
  find (fun i => info_code i =? code) supported_video_formats
  = if code =? MEDIA_BUS_FMT_UYVY8_1X16
    then Some (nth 0 supported_video_formats (mk_format_info 0 0))
    else if code =? MEDIA_BUS_FMT_UYYVYY8_0_5X24
         then Some (nth 1 supported_video_formats (mk_format_info 0 0))
         else None.
Proof.
  cbn [find supported_video_formats info_code nth].
  rewrite (Z.eqb_sym MEDIA_BUS_FMT_UYVY8_1X16),
          (Z.eqb_sym MEDIA_BUS_FMT_UYYVYY8_0_5X24).
  reflexivity.
Qed.

Lemma selected_info (code : Z) :
  match find (fun i => info_code i =? code) supported_video_formats with
  | Some i => i
  | None => nth 0 supported_video_formats (mk_format_info 0 0)
  end = info_for code.
Proof.
  rewrite find_supported. unfold info_for.
  destruct (Z.eqb_spec code MEDIA_BUS_FMT_UYVY8_1X16) as [-> | _];
    [reflexivity|].
  destruct (code =? MEDIA_BUS_FMT_UYYVYY8_0_5X24); reflexivity.
Qed.

Lemma pad_get_set {A : Type} (a : pad_array A) (p q : ap130x_pad) (v : A) :
  pad_get (pad_set a p v) q = if pad_eqb q p then v else pad_get a q.
Proof. destruct p, q; reflexivity. Qed.

Lemma pad_set_set {A : Type} (a : pad_array A) (p : ap130x_pad) (v w : A) :
  pad_set (pad_set a p v) p w = pad_set a p w.
Proof. destruct p; reflexivity. Qed.

(** The run of [ap130x_set_fmt] on the source pad. *)
Lemma set_fmt_source_run (ap : ap130x_pads) (st : v4l2_subdev_state)
  (which : v4l2_subdev_format_whence) (f : v4l2_mbus_framefmt) :
  pads_width_factor ap = 1 \/ pads_width_factor ap = 2 ->
  0 <= fmt_width f < 2 ^ 32 -> 0 <= fmt_height f < 2 ^ 32 ->
  let factor := pads_width_factor ap in
  let old := ap130x_get_pad_format ap st AP130X_PAD_SOURCE which in
  let new :=
    mk_framefmt
      (clamp (fmt_width f - fmt_width f mod (4 * factor))
         (AP130X_MIN_WIDTH * factor) AP130X_MAX_WIDTH)
      (clamp (fmt_height f - fmt_height f mod 2)
         AP130X_MIN_HEIGHT AP130X_MAX_HEIGHT)
      (info_code (info_for (fmt_code f)))
      (fmt_field old) (fmt_colorspace old) in
  ap130x_set_fmt ap st AP130X_PAD_SOURCE which f
  = (match which with
     | V4L2_SUBDEV_FORMAT_TRY =>
         (ap, pad_set st AP130X_PAD_SOURCE new)
     | V4L2_SUBDEV_FORMAT_ACTIVE =>
         (mk_pads (pads_sensor_info ap) factor
            (pad_set (pads_formats ap) AP130X_PAD_SOURCE
               (mk_format new (info_for (fmt_code f)))),
          st)
     end, (0, new)).
Proof.
  intros Hf Hw Hh. cbv zeta.
  unfold ap130x_set_fmt. cbn [pad_eqb negb]. cbv zeta.
  rewrite selected_info, aligned_width, aligned_height by assumption.
  assert (Hm : wrap32 (AP130X_MIN_WIDTH * pads_width_factor ap)
               = AP130X_MIN_WIDTH * pads_width_factor ap).
  { destruct Hf as [-> | ->]; reflexivity. }
  rewrite Hm.
  destruct which; cbn [store_pad_format store_pad_info pads_formats
    pads_sensor_info pads_width_factor]; [reflexivity|].
  unfold store_pad_info. cbn [pads_formats pads_sensor_info pads_width_factor].
  rewrite pad_set_set, pad_get_set. cbn [pad_eqb format]. reflexivity.
Qed.

Lemma new_format_ok (factor w h code fld cs : Z) :
  factor = 1 \/ factor = 2 -> 0 <= w -> 0 <= h ->
  source_format_ok factor
    (mk_framefmt
       (clamp (w - w mod (4 * factor)) (AP130X_MIN_WIDTH * factor)
          AP130X_MAX_WIDTH)
       (clamp (h - h mod 2) AP130X_MIN_HEIGHT AP130X_MAX_HEIGHT)
       (info_code (info_for code)) fld cs).
Proof.
  intros Hf Hw Hh. unfold source_format_ok.
  cbn [fmt_width fmt_height fmt_code].
  pose proof (clamp_round_down w (4 * factor) (AP130X_MIN_WIDTH * factor)
                AP130X_MAX_WIDTH) as Cw.
  pose proof (clamp_round_down h 2 AP130X_MIN_HEIGHT AP130X_MAX_HEIGHT
                ltac:(lia) Hh ltac:(unfold AP130X_MIN_HEIGHT,
                  AP130X_MAX_HEIGHT; lia) eq_refl eq_refl) as Ch.
  cbv zeta in Cw, Ch.
  assert (Cw' := fun H1 H2 H3 H4 => Cw H1 Hw H2 H3 H4). clear Cw.
  destruct Ch as (Ch1 & Ch2 & _).
  assert (Hc : info_code (info_for code) = MEDIA_BUS_FMT_UYVY8_1X16
               \/ info_code (info_for code) = MEDIA_BUS_FMT_UYYVYY8_0_5X24).
  { unfold info_for. destruct (code =? _); [right|left]; reflexivity. }
  destruct Hf as [-> | ->].
  - destruct (Cw' ltac:(lia) ltac:(unfold AP130X_MIN_WIDTH, AP130X_MAX_WIDTH; lia)
               eq_refl eq_refl) as (C1 & C2 & _).
    repeat split; try assumption; try apply C1; try apply Ch1.
  - destruct (Cw' ltac:(lia) ltac:(unfold AP130X_MIN_WIDTH, AP130X_MAX_WIDTH; lia)
               eq_refl eq_refl) as (C1 & C2 & _).
    repeat split; try assumption; try apply C1; try apply Ch1.
Qed.

Lemma info_for_supported (code : Z) :
  In (info_for code) supported_video_formats.
Proof.
  unfold info_for. destruct (code =? _); [right; left|left]; reflexivity.
Qed.

(** One request keeps what holds of the formats, whatever it asks. *)
Lemma set_fmt_keeps_inv (si : sensor_info) (factor : Z) (ap : ap130x_pads)
  (st : v4l2_subdev_state) (pad : ap130x_pad)
  (which : v4l2_subdev_format_whence) (f : v4l2_mbus_framefmt) :
  let s := fst (ap130x_set_fmt ap st pad which f) in
  (active_inv si factor ap -> active_inv si factor (fst s))
  /\ (try_inv si st -> try_inv si (snd s)).
Proof.
  cbv zeta. unfold ap130x_set_fmt.
  destruct pad; cbn [pad_eqb negb fst snd]; try (split; intros H; exact H).
  cbv zeta. rewrite selected_info.
  destruct which; cbn [store_pad_format store_pad_info fst snd].
  - split; [intros H; exact H|].
    intros (H0 & H1 & H2 & H3). unfold try_inv.
    cbn [pad_set at_sink_0 at_sink_1 at_source fmt_field fmt_colorspace
         ap130x_get_pad_format pad_get].
    repeat split; assumption.
  - split; [|intros H; exact H].
    intros (Hi & Hf & H0 & H1 & H2 & H3 & H4 & H5). unfold active_inv.
    cbn [pads_formats pads_sensor_info pads_width_factor pad_set pad_get
         at_sink_0 at_sink_1 at_source format info fmt_field fmt_colorspace
         fmt_code ap130x_get_pad_format].
    repeat split; try assumption. apply info_for_supported.
Qed.

Lemma set_fmt_all_inv (P : ap130x_pads * v4l2_subdev_state -> Prop)
  (reqs : list v4l2_subdev_format) :
  (forall s r, P s ->
     P (fst (ap130x_set_fmt (fst s) (snd s) (sf_pad r) (sf_which r)
               (sf_format r)))) ->
  forall s, P s -> P (set_fmt_all reqs s).
Proof.
  intros Step. unfold set_fmt_all.
  induction reqs as [|r reqs IH]; intros s Hs; [exact Hs|].
  cbn [fold_left]. apply IH, Step, Hs.
Qed.

(** The run of [ap130x_init_cfg]. *)
Lemma init_cfg_run (ap : ap130x_pads) (st : v4l2_subdev_state)
  (has_state : bool) :
  let si := pads_sensor_info ap in
  let sink := snd (ap130x_sensor_get_fmt si) in
  let source :=
    mk_framefmt
      (wrap32 (size_width (si_resolution si) * pads_width_factor ap))
      (size_height (si_resolution si))
      (info_code (info (at_source (pads_formats ap))))
      V4L2_FIELD_NONE V4L2_COLORSPACE_SRGB in
  ap130x_init_cfg ap st has_state
  = (if has_state then (ap, mk_pad_array sink sink source)
     else (mk_pads si (pads_width_factor ap)
             (mk_pad_array
                (mk_format sink (info (at_sink_0 (pads_formats ap))))
                (mk_format sink (info (at_sink_1 (pads_formats ap))))
                (mk_format source (info (at_source (pads_formats ap))))),
           st),
     0).
Proof.
  cbv zeta. unfold ap130x_init_cfg.
  destruct has_state; reflexivity.
Qed.

(** X17 -- [ap130x_set_fmt] on the source pad, with one or two sensors,
    always succeeds and turns any request into a format the pad
    accepts: the width a multiple of 4 times the number of sensors
    between the minimum and 4224, the height even between 16 and 4092,
    the code one of the two supported ones.  The size is never rounded
    up above the request unless the request is below the minimum; a
    request that is acceptable keeps its size and code; field and
    colour space are those already stored, not the requested ones. *)
Theorem set_fmt_source_adjusts (ap : ap130x_pads) (st : v4l2_subdev_state)
  (which : v4l2_subdev_format_whence) (f : v4l2_mbus_framefmt) :
  pads_width_factor ap = 1 \/ pads_width_factor ap = 2 ->
  0 <= fmt_width f < 2 ^ 32 -> 0 <= fmt_height f < 2 ^ 32 ->
  let factor := pads_width_factor ap in
  let old := ap130x_get_pad_format ap st AP130X_PAD_SOURCE which in
  let out := snd (snd (ap130x_set_fmt ap st AP130X_PAD_SOURCE which f)) in
  fst (snd (ap130x_set_fmt ap st AP130X_PAD_SOURCE which f)) = 0
  /\ source_format_ok factor out
  /\ fmt_width out <= Z.max (fmt_width f) (AP130X_MIN_WIDTH * factor)
  /\ fmt_height out <= Z.max (fmt_height f) AP130X_MIN_HEIGHT
  /\ (source_format_ok factor f ->
      fmt_width out = fmt_width f /\ fmt_height out = fmt_height f
      /\ fmt_code out = fmt_code f)
  /\ fmt_field out = fmt_field old
  /\ fmt_colorspace out = fmt_colorspace old.
Proof.
  intros Hf Hw Hh. cbv zeta.
  rewrite set_fmt_source_run by assumption. cbn [fst snd].
  split; [reflexivity|].
  split; [apply new_format_ok; [assumption|lia|lia]|].
  cbn [fmt_width fmt_height fmt_code fmt_field fmt_colorspace].
  assert (Wlo : (AP130X_MIN_WIDTH * pads_width_factor ap)
                mod (4 * pads_width_factor ap) = 0)
    by (destruct Hf as [-> | ->]; reflexivity).
  assert (Whi : AP130X_MAX_WIDTH mod (4 * pads_width_factor ap) = 0)
    by (destruct Hf as [-> | ->]; reflexivity).
  assert (Wle : AP130X_MIN_WIDTH * pads_width_factor ap <= AP130X_MAX_WIDTH)
    by (unfold AP130X_MIN_WIDTH, AP130X_MAX_WIDTH; lia).
  destruct (clamp_round_down (fmt_width f) (4 * pads_width_factor ap)
              (AP130X_MIN_WIDTH * pads_width_factor ap) AP130X_MAX_WIDTH
              ltac:(lia) ltac:(lia) Wle Wlo Whi) as (_ & _ & W3 & W4).
  destruct (clamp_round_down (fmt_height f) 2 AP130X_MIN_HEIGHT
              AP130X_MAX_HEIGHT ltac:(lia) ltac:(lia)
              ltac:(unfold AP130X_MIN_HEIGHT, AP130X_MAX_HEIGHT; lia)
              eq_refl eq_refl) as (_ & _ & H3 & H4).
  split; [exact W3|]. split; [exact H3|].
  split; [|split; reflexivity].
  intros (A1 & A2 & A3 & A4 & A5).
  split; [apply W4; assumption|]. split; [apply H4; assumption|].
  unfold info_for. destruct A5 as [-> | ->]; reflexivity.
Qed.

(** An acceptable format that carries the stored field and colour
    space is stored as it is. *)
Lemma set_fmt_source_fixed (ap : ap130x_pads) (st : v4l2_subdev_state)
  (which : v4l2_subdev_format_whence) (f : v4l2_mbus_framefmt) :
  pads_width_factor ap = 1 \/ pads_width_factor ap = 2 ->
  source_format_ok (pads_width_factor ap) f ->
  fmt_field (ap130x_get_pad_format ap st AP130X_PAD_SOURCE which)
  = fmt_field f ->
  fmt_colorspace (ap130x_get_pad_format ap st AP130X_PAD_SOURCE which)
  = fmt_colorspace f ->
  ap130x_set_fmt ap st AP130X_PAD_SOURCE which f
  = (match which with
     | V4L2_SUBDEV_FORMAT_TRY => (ap, pad_set st AP130X_PAD_SOURCE f)
     | V4L2_SUBDEV_FORMAT_ACTIVE =>
         (mk_pads (pads_sensor_info ap) (pads_width_factor ap)
            (pad_set (pads_formats ap) AP130X_PAD_SOURCE
               (mk_format f (info_for (fmt_code f)))),
          st)
     end, (0, f)).
Proof.
  intros Hf Ok E2 E3.
  destruct Ok as (O1 & O2 & O3 & O4 & O5).
  assert (Hw : 0 <= fmt_width f < 2 ^ 32)
    by (unfold AP130X_MIN_WIDTH, AP130X_MAX_WIDTH in O1; lia).
  assert (Hh : 0 <= fmt_height f < 2 ^ 32)
    by (unfold AP130X_MIN_HEIGHT, AP130X_MAX_HEIGHT in O3; lia).
  rewrite (set_fmt_source_run ap st which f Hf Hw Hh).
  assert (Wlo : (AP130X_MIN_WIDTH * pads_width_factor ap)
                mod (4 * pads_width_factor ap) = 0)
    by (destruct Hf as [-> | ->]; reflexivity).
  assert (Whi : AP130X_MAX_WIDTH mod (4 * pads_width_factor ap) = 0)
    by (destruct Hf as [-> | ->]; reflexivity).
  destruct (clamp_round_down (fmt_width f) (4 * pads_width_factor ap)
              (AP130X_MIN_WIDTH * pads_width_factor ap) AP130X_MAX_WIDTH
              ltac:(lia) ltac:(lia)
              ltac:(unfold AP130X_MIN_WIDTH, AP130X_MAX_WIDTH; lia)
              Wlo Whi) as (_ & _ & _ & W4).
  destruct (clamp_round_down (fmt_height f) 2 AP130X_MIN_HEIGHT
              AP130X_MAX_HEIGHT ltac:(lia) ltac:(lia)
              ltac:(unfold AP130X_MIN_HEIGHT, AP130X_MAX_HEIGHT; lia)
              eq_refl eq_refl) as (_ & _ & _ & H4).
  rewrite (W4 O1 O2), (H4 O3 O4), E2, E3.
  assert (Hc : info_code (info_for (fmt_code f)) = fmt_code f).
  { unfold info_for. destruct O5 as [-> | ->]; reflexivity. }
  rewrite Hc. destruct f; reflexivity.
Qed.

Lemma info_for_idem (code : Z) :
  info_for (info_code (info_for code)) = info_for code.
Proof. unfold info_for. destruct (code =? _); reflexivity. Qed.

(** X18 -- A format set on the source pad is the one read back, and
    setting the returned format again changes nothing.  A trial request
    leaves the active formats and the format information alone, an
    active one leaves the trial formats alone, and neither touches a
    sink pad, the sensor description or the width factor. *)
Theorem set_fmt_round_trip (ap : ap130x_pads) (st : v4l2_subdev_state)
  (which : v4l2_subdev_format_whence) (f : v4l2_mbus_framefmt) :
  pads_width_factor ap = 1 \/ pads_width_factor ap = 2 ->
  0 <= fmt_width f < 2 ^ 32 -> 0 <= fmt_height f < 2 ^ 32 ->
  let res := ap130x_set_fmt ap st AP130X_PAD_SOURCE which f in
  let ap' := fst (fst res) in
  let st' := snd (fst res) in
  let out := snd (snd res) in
  ap130x_get_fmt ap' st' AP130X_PAD_SOURCE which = (0, out)
  /\ ap130x_set_fmt ap' st' AP130X_PAD_SOURCE which out = res
  /\ (which = V4L2_SUBDEV_FORMAT_TRY -> ap' = ap)
  /\ (which = V4L2_SUBDEV_FORMAT_ACTIVE -> st' = st)
  /\ (forall pad w, pad <> AP130X_PAD_SOURCE ->
        ap130x_get_fmt ap' st' pad w = ap130x_get_fmt ap st pad w)
  /\ pads_sensor_info ap' = pads_sensor_info ap
  /\ pads_width_factor ap' = pads_width_factor ap.
Proof.
  intros Hf Hw Hh. cbv zeta.
  pose proof (new_format_ok (pads_width_factor ap) (fmt_width f)
                (fmt_height f) (fmt_code f)
                (fmt_field (ap130x_get_pad_format ap st AP130X_PAD_SOURCE which))
                (fmt_colorspace
                   (ap130x_get_pad_format ap st AP130X_PAD_SOURCE which))
                Hf ltac:(lia) ltac:(lia)) as Ok.
  rewrite (set_fmt_source_run ap st which f Hf Hw Hh). cbn [fst snd].
  split; [destruct which; reflexivity|].
  split.
  - destruct which; cbn [fst snd].
    + rewrite set_fmt_source_fixed; try assumption; reflexivity.
    + rewrite set_fmt_source_fixed; try assumption; try reflexivity.
      cbn [pads_sensor_info pads_width_factor pads_formats fmt_code pad_set
           at_sink_0 at_sink_1 at_source].
      rewrite info_for_idem. reflexivity.
  - split; [intros ->; reflexivity|]. split; [intros ->; reflexivity|].
    split; [|destruct which; split; reflexivity].
    intros pad w Hp. unfold ap130x_get_fmt, ap130x_get_pad_format.
    destruct which, w, pad; try reflexivity; exfalso; apply Hp; reflexivity.
Qed.

(** X19 -- After the formats are initialised, no sequence of requests,
    whatever they ask, changes the format of a sink pad: it stays the
    format of the sensor, as the sensor sub-device reports it.  On the
    source pad field and colour space stay [V4L2_FIELD_NONE] and
    [V4L2_COLORSPACE_SRGB], and the active code stays the code of the
    format information [ap130x_configure] programs, one of the
    supported ones.  The same holds of the trial formats of a state
    initialised by [ap130x_init_cfg]. *)
Theorem pad_format_invariants (ap : ap130x_pads) (st : v4l2_subdev_state)
  (reqs : list v4l2_subdev_format) :
  active_inv (pads_sensor_info ap) (pads_width_factor ap)
    (fst (set_fmt_all reqs (fst (config_v4l2_formats ap st))))
  /\ try_inv (pads_sensor_info ap)
       (snd (set_fmt_all reqs (fst (ap130x_init_cfg ap st true)))).
Proof.
  split.
  - apply (set_fmt_all_inv
             (fun s => active_inv (pads_sensor_info ap) (pads_width_factor ap)
                         (fst s))).
    + intros s r H.
      apply (set_fmt_keeps_inv (pads_sensor_info ap) (pads_width_factor ap)
               (fst s) (snd s) (sf_pad r) (sf_which r) (sf_format r)), H.
    + unfold config_v4l2_formats. rewrite init_cfg_run. cbn [fst].
      unfold active_inv.
      cbn [fold_left store_pad_info pads_formats pads_sensor_info
           pads_width_factor pad_set pad_get at_sink_0 at_sink_1 at_source
           format info fmt_field fmt_colorspace fmt_code].
      repeat split. left. reflexivity.
  - apply (set_fmt_all_inv
             (fun s => try_inv (pads_sensor_info ap) (snd s))).
    + intros s r H.
      apply (set_fmt_keeps_inv (pads_sensor_info ap) 0
               (fst s) (snd s) (sf_pad r) (sf_which r) (sf_format r)), H.
    + rewrite init_cfg_run. cbn [fst snd]. unfold try_inv.
      cbn [at_sink_0 at_sink_1 at_source fmt_field fmt_colorspace].
      repeat split.
Qed.

(** X20 -- The codes [ap130x_enum_mbus_code] lists on the source pad
    are the two supported ones and no other, they are the codes
    [ap130x_set_fmt] keeps as requested and the codes
    [ap130x_enum_frame_size] accepts there.  On a sink pad both
    enumerations answer as the sensor sub-device does.  A frame size
    enumeration that succeeds has index 0 and reports the resolution of
    the sensor, on every pad. *)
Theorem enum_matches_set_fmt (ap : ap130x_pads) (st : v4l2_subdev_state)
  (which : v4l2_subdev_format_whence) (f : v4l2_mbus_framefmt)
  (pad : ap130x_pad) (index code : Z) :
  let listed c :=
    exists i, 0 <= i /\ ap130x_enum_mbus_code ap AP130X_PAD_SOURCE i
                        = (0, Some c) in
  (listed code <->
   code = MEDIA_BUS_FMT_UYVY8_1X16 \/ code = MEDIA_BUS_FMT_UYYVYY8_0_5X24)
  /\ (listed (fmt_code f) <->
      fmt_code (snd (snd (ap130x_set_fmt ap st AP130X_PAD_SOURCE which f)))
      = fmt_code f)
  /\ (listed code <->
      fst (ap130x_enum_frame_size ap AP130X_PAD_SOURCE 0 code) = 0)
  /\ (2 <= index ->
      ap130x_enum_mbus_code ap AP130X_PAD_SOURCE index = (- EINVAL, None))
  /\ (pad <> AP130X_PAD_SOURCE ->
      ap130x_enum_mbus_code ap pad index
      = ap130x_sensor_enum_mbus_code (pads_sensor_info ap) index
      /\ ap130x_enum_frame_size ap pad index code
         = ap130x_sensor_enum_frame_size (pads_sensor_info ap) index code)
  /\ (forall r sizes,
        ap130x_enum_frame_size ap pad index code = (r, Some sizes) ->
        r = 0 /\ index = 0 /\ sizes = frame_size_of (pads_sensor_info ap)).
Proof.
  cbv zeta.
  assert (L : forall c,
    (exists i, 0 <= i /\ ap130x_enum_mbus_code ap AP130X_PAD_SOURCE i
                         = (0, Some c))
    <-> c = MEDIA_BUS_FMT_UYVY8_1X16 \/ c = MEDIA_BUS_FMT_UYYVYY8_0_5X24).
  { intros c. split.
    - intros (i & Hi & E). unfold ap130x_enum_mbus_code in E.
      cbn [pad_eqb negb] in E.
      destruct (Z.to_nat i) as [|[|n]] eqn:En; cbn in E.
      + left. injection E as <-. reflexivity.
      + right. injection E as <-. reflexivity.
      + destruct n; discriminate E.
    - intros [-> | ->]; [exists 0|exists 1]; split; try lia; reflexivity. }
  split; [apply L|].
  split.
  { rewrite L. unfold ap130x_set_fmt. cbn [pad_eqb negb]. cbv zeta.
    rewrite selected_info.
    destruct (store_pad_format _ _ _ _ _) as [ap1 st1]. cbn [snd fmt_code].
    unfold info_for.
    destruct (Z.eqb_spec (fmt_code f) MEDIA_BUS_FMT_UYYVYY8_0_5X24) as [E | N];
      cbn [info_code].
    - split; [intros _; symmetry; exact E|intros _; right; exact E].
    - split; [intros [E | E]; [symmetry; exact E|contradiction]|].
      intros E. left. symmetry. exact E. }
  split.
  { rewrite L. unfold ap130x_enum_frame_size.
    cbn [Z.eqb negb pad_eqb]. rewrite find_supported.
    destruct (Z.eqb_spec code MEDIA_BUS_FMT_UYVY8_1X16) as [E1 | N1].
    - cbn [fst]. split; [reflexivity|intros _; left; exact E1].
    - destruct (Z.eqb_spec code MEDIA_BUS_FMT_UYYVYY8_0_5X24) as [E2 | N2].
      + cbn [fst]. split; [reflexivity|intros _; right; exact E2].
      + cbn [fst]. split; [intros [E | E]; contradiction|].
        intros E. discriminate E. }
  split.
  { intros Hi. unfold ap130x_enum_mbus_code. cbn [pad_eqb negb].
    destruct (Z.to_nat index) as [|[|n]] eqn:En; try lia.
    destruct n; reflexivity. }
  split.
  { intros Hp. destruct pad; try (exfalso; apply Hp; reflexivity);
      split; reflexivity. }
  intros r sizes. unfold ap130x_enum_frame_size.
  destruct (Z.eqb_spec index 0) as [-> | N]; cbn [negb];
    [|intros E; discriminate E].
  destruct (negb (pad_eqb pad AP130X_PAD_SOURCE)).
  - destruct (negb (code =? _)); intros E; [discriminate E|].
    injection E as <- <-. repeat split.
  - destruct (find _ _); intros E; [|discriminate E].
    injection E as <- <-. repeat split.
Qed.

(** X21 -- [ap130x_init_cfg] always returns 0 and leaves, in the set
    of formats it initialises, every sink pad with the format the
    sensor sub-device reports and the source pad with the size of the
    rectangle [ap130x_get_selection] reports; the other set of formats
    is not touched.  The selection is reported for the four crop and
    native-size targets and refused with [-EINVAL] for any other. *)
Theorem init_cfg_formats (ap : ap130x_pads) (st : v4l2_subdev_state)
  (has_state : bool) (target : Z) :
  let res := ap130x_init_cfg ap st has_state in
  let ap' := fst (fst res) in
  let st' := snd (fst res) in
  let which := if has_state then V4L2_SUBDEV_FORMAT_TRY
               else V4L2_SUBDEV_FORMAT_ACTIVE in
  let other := if has_state then V4L2_SUBDEV_FORMAT_ACTIVE
               else V4L2_SUBDEV_FORMAT_TRY in
  let source := snd (ap130x_get_fmt ap' st' AP130X_PAD_SOURCE which) in
  snd res = 0
  /\ (forall pad, pad <> AP130X_PAD_SOURCE ->
        ap130x_get_fmt ap' st' pad which
        = ap130x_sensor_get_fmt (pads_sensor_info ap))
  /\ (forall pad,
        ap130x_get_fmt ap' st' pad other = ap130x_get_fmt ap st pad other)
  /\ (0 <= target <= 3 ->
      ap130x_get_selection ap' target
      = (0, Some (0, 0, fmt_width source, fmt_height source)))
  /\ (~ 0 <= target <= 3 ->
      ap130x_get_selection ap' target = (- EINVAL, None))
  /\ fmt_field source = V4L2_FIELD_NONE
  /\ fmt_colorspace source = V4L2_COLORSPACE_SRGB.
Proof.
  cbv zeta. rewrite init_cfg_run. cbn [fst snd].
  split; [reflexivity|].
  split.
  { intros pad Hp. destruct has_state, pad; try reflexivity;
      exfalso; apply Hp; reflexivity. }
  split; [intros pad; destruct has_state, pad; reflexivity|].
  split.
  { intros Ht. unfold ap130x_get_selection.
    assert (Hb : ((target =? V4L2_SEL_TGT_NATIVE_SIZE)
                  || (target =? V4L2_SEL_TGT_CROP_BOUNDS)
                  || (target =? V4L2_SEL_TGT_CROP_DEFAULT)
                  || (target =? V4L2_SEL_TGT_CROP)) = true).
    { unfold V4L2_SEL_TGT_NATIVE_SIZE, V4L2_SEL_TGT_CROP_BOUNDS,
        V4L2_SEL_TGT_CROP_DEFAULT, V4L2_SEL_TGT_CROP.
      destruct (Z.eqb_spec target 3); [reflexivity|].
      destruct (Z.eqb_spec target 2); [reflexivity|].
      destruct (Z.eqb_spec target 1); [reflexivity|].
      destruct (Z.eqb_spec target 0); [reflexivity|]. lia. }
    rewrite Hb. destruct has_state; reflexivity. }
  split.
  { intros Ht. unfold ap130x_get_selection.
    assert (Hb : ((target =? V4L2_SEL_TGT_NATIVE_SIZE)
                  || (target =? V4L2_SEL_TGT_CROP_BOUNDS)
                  || (target =? V4L2_SEL_TGT_CROP_DEFAULT)
                  || (target =? V4L2_SEL_TGT_CROP)) = false).
    { unfold V4L2_SEL_TGT_NATIVE_SIZE, V4L2_SEL_TGT_CROP_BOUNDS,
        V4L2_SEL_TGT_CROP_DEFAULT, V4L2_SEL_TGT_CROP.
      destruct (Z.eqb_spec target 3); [lia|].
      destruct (Z.eqb_spec target 2); [lia|].
      destruct (Z.eqb_spec target 1); [lia|].
      destruct (Z.eqb_spec target 0); [lia|]. reflexivity. }
    rewrite Hb. reflexivity. }
  destruct has_state; split; reflexivity.
Qed.

End X_Format.

Section X_FormatConfigure.

Variable env : oracle.

(** X22 -- A format made active on the source pad is what
    [ap130x_configure] programs: when it returns 0, its first four
    writes succeeded and carry the lane setup, the width of one sensor
    (the width of the pad divided by the number of sensors, a multiple
    of 4 not below 24), the height of the pad and the output format
    of the code of the pad (0x51 for UYYVYY8_0_5X24, else 0x50).  A
    trial request, on any pad, changes nothing of what is programmed. *)
Theorem active_format_reaches_configure (ap : ap130x_pads)
  (st : v4l2_subdev_state) (f : v4l2_mbus_framefmt)
  (d d' : ap130x_device) :
  pads_width_factor ap = 1 \/ pads_width_factor ap = 2 ->
  0 <= fmt_width f < 2 ^ 32 -> 0 <= fmt_height f < 2 ^ 32 ->
  let res := ap130x_set_fmt ap st AP130X_PAD_SOURCE
               V4L2_SUBDEV_FORMAT_ACTIVE f in
  let out := snd (snd res) in
  let d1 := with_pads (fst (fst res)) d in
  ap130x_configure env d1 = (d', 0) ->
  (exists evs rest w,
     emitted d1 d' = evs ++ rest
     /\ Forall answered_ok evs
     /\ map fst evs
        = [regmap_write regmap16 (AP130X_REG_ADDR AP130X_PREVIEW_HINF_CTRL)
             (Z.lor AP130X_PREVIEW_HINF_CTRL_SPOOF
                (AP130X_PREVIEW_HINF_CTRL_MIPI_LANES (num_data_lanes d)));
           regmap_write regmap16 (AP130X_REG_ADDR AP130X_PREVIEW_WIDTH) w;
           regmap_write regmap16 (AP130X_REG_ADDR AP130X_PREVIEW_HEIGHT)
             (fmt_height out);
           regmap_write regmap16 (AP130X_REG_ADDR AP130X_PREVIEW_OUT_FMT)
             (if fmt_code out =? MEDIA_BUS_FMT_UYYVYY8_0_5X24
              then 0x51 else 0x50)]
     /\ w * pads_width_factor ap = fmt_width out
     /\ AP130X_MIN_WIDTH <= w
     /\ w * pads_width_factor ap <= AP130X_MAX_WIDTH
     /\ w mod 4 = 0)
  /\ (forall pad g,
        with_pads
          (fst (fst (ap130x_set_fmt ap st pad V4L2_SUBDEV_FORMAT_TRY g))) d
        = with_pads ap d).
Proof.
  intros Hf Hw Hh. cbv zeta.
  pose proof (new_format_ok (pads_width_factor ap) (fmt_width f)
                (fmt_height f) (fmt_code f)
                (fmt_field (ap130x_get_pad_format ap st AP130X_PAD_SOURCE
                              V4L2_SUBDEV_FORMAT_ACTIVE))
                (fmt_colorspace
                   (ap130x_get_pad_format ap st AP130X_PAD_SOURCE
                      V4L2_SUBDEV_FORMAT_ACTIVE))
                Hf ltac:(lia) ltac:(lia)) as Ok.
  rewrite (set_fmt_source_run ap st V4L2_SUBDEV_FORMAT_ACTIVE f Hf Hw Hh).
  cbn [fst snd]. intros Run. split.
  - destruct (configure_shape env _ _ _ Run) as (S0 & _).
    destruct (S0 eq_refl) as (evs & rest & Ee & Em & Ha).
    destruct Ok as ((O1 & O2) & O3 & _).
    cbn [fmt_width] in O1, O2, O3.
    set (W := clamp _ _ AP130X_MAX_WIDTH) in *.
    exists evs, rest, (W / pads_width_factor ap).
    split; [exact Ee|]. split; [exact Ha|].
    split.
    { rewrite Em. unfold configure_writes, with_pads.
      cbn [num_data_lanes format_width format_height format_out_fmt
           width_factor pads_formats pads_width_factor pad_get pad_set
           at_source format info fmt_width fmt_height fmt_code].
      unfold info_for.
      destruct (fmt_code f =? MEDIA_BUS_FMT_UYYVYY8_0_5X24); reflexivity. }
    unfold AP130X_MIN_WIDTH, AP130X_MAX_WIDTH in *.
    cbn [fmt_width].
    destruct Hf as [E | E]; rewrite E in *.
    + rewrite Z.div_1_r. change (4 * 1) with 4 in O3.
      repeat split; try lia; exact O3.
    + change (4 * 2) with 8 in O3.
      assert (Hd : W = 2 * (W / 2)).
      { apply Z.div_exact; [lia|].
        replace 8 with (2 * 4) in O3 by reflexivity.
        rewrite Z.rem_mul_r in O3 by lia.
        pose proof (Z.mod_pos_bound W 2 ltac:(lia)).
        pose proof (Z.mod_pos_bound (W / 2) 4 ltac:(lia)). lia. }
      assert (H4 : (W / 2) mod 4 = 0).
      { replace 8 with (2 * 4) in O3 by reflexivity.
        rewrite Z.rem_mul_r in O3 by lia.
        pose proof (Z.mod_pos_bound W 2 ltac:(lia)).
        pose proof (Z.mod_pos_bound (W / 2) 4 ltac:(lia)). lia. }
      repeat split; try lia.
  - intros pad g. unfold ap130x_set_fmt.
    destruct pad; cbn [pad_eqb negb fst]; reflexivity.
Qed.

End X_FormatConfigure.

(** Witnesses *)

Lemma set_fmt_source_adjusts_witness :
  let out := snd (snd (ap130x_set_fmt pads0 state0 AP130X_PAD_SOURCE
                         V4L2_SUBDEV_FORMAT_ACTIVE fmt_request)) in
  fmt_width out = 1920 /\ fmt_height out = 1080
  /\ fmt_code out = MEDIA_BUS_FMT_UYVY8_1X16
  /\ source_format_ok 2 out.
Proof.
  cbv zeta.
  destruct (set_fmt_source_adjusts pads0 state0 V4L2_SUBDEV_FORMAT_ACTIVE
              fmt_request) as (_ & Ok & _).
  - right. reflexivity.
  - cbn. lia.
  - cbn. lia.
  - split; [reflexivity|split; [reflexivity|split; [reflexivity|exact Ok]]].
Defined.

Lemma set_fmt_round_trip_witness :
  let res := ap130x_set_fmt pads0 state0 AP130X_PAD_SOURCE
               V4L2_SUBDEV_FORMAT_TRY fmt_request in
  ap130x_set_fmt (fst (fst res)) (snd (fst res)) AP130X_PAD_SOURCE
    V4L2_SUBDEV_FORMAT_TRY (snd (snd res)) = res
  /\ fst (fst res) = pads0.
Proof.
  cbv zeta.
  destruct (set_fmt_round_trip pads0 state0 V4L2_SUBDEV_FORMAT_TRY
              fmt_request) as (_ & Again & Same & _).
  - right. reflexivity.
  - cbn. lia.
  - cbn. lia.
  - split; [exact Again|apply Same; reflexivity].
Defined.

Lemma active_format_reaches_configure_witness :
  let res := ap130x_set_fmt pads0 state0 AP130X_PAD_SOURCE
               V4L2_SUBDEV_FORMAT_ACTIVE fmt_request in
  let d1 := with_pads (fst (fst res)) dev0 in
  let run := ap130x_configure (env_write16_fails 0x7000) d1 in
  snd run = 0
  /\ exists evs rest,
       emitted d1 (fst run) = evs ++ rest
       /\ map fst evs
          = [regmap_write regmap16 0x2030 (Z.lor 0x10 (num_data_lanes dev0));
             regmap_write regmap16 0x2000 960;
             regmap_write regmap16 0x2002 1080;
             regmap_write regmap16 0x2012 0x50].
Proof.
  cbv zeta.
  set (res := ap130x_set_fmt pads0 state0 AP130X_PAD_SOURCE
                V4L2_SUBDEV_FORMAT_ACTIVE fmt_request).
  set (d1 := with_pads (fst (fst res)) dev0).
  destruct (ap130x_configure (env_write16_fails 0x7000) d1) as [d' r] eqn:E.
  assert (Hr : r = 0)
    by (apply (f_equal snd) in E; vm_compute in E; now symmetry).
  subst r. cbn [fst snd]. split; [reflexivity|].
  destruct (active_format_reaches_configure (env_write16_fails 0x7000)
              pads0 state0 fmt_request dev0 d') as (Hrun & _).
  - right. reflexivity.
  - cbn. lia.
  - cbn. lia.
  - exact E.
  - destruct Hrun as (evs & rest & w & Ee & _ & Em & Hw & _).
    exists evs, rest. split; [exact Ee|].
    rewrite Em.
    assert (w = 960) by (cbn in Hw; lia). subst w. reflexivity.
Defined.

Section X_Window.

Variable env : oracle.

(** A run of the loop that fails: the failed write is the last event
    and starts at the cursor returned, the writes before it succeeded
    and follow the plan, carrying the first bytes of the buffer. *)
Lemma window_loop_fail (fuel : nat) :
  forall d buf len pos d' r pos',
    0 <= pos < AP130X_FW_WINDOW_SIZE -> 0 <= len < 2 ^ 32 ->
    write_fw_window_loop env fuel d buf len pos = Some (d', (r, pos')) ->
    r <> 0 ->
    exists evs data n rsp k,
      trace d' = trace d
                 ++ evs
                 ++ [(regmap_raw_write regmap16
                        (AP130X_FW_WINDOW_OFFSET + pos') data n, rsp)]
      /\ Forall answered_ok evs
      /\ r = errno (r_status rsp)
      /\ map fst evs
         ++ [regmap_raw_write regmap16 (AP130X_FW_WINDOW_OFFSET + pos') data n]
         = firstn (S (length evs)) (window_plan_loop fuel buf len pos)
      /\ stream_of evs = firstn k buf
      /\ Z.of_nat k <= len
      /\ pos' = (pos + Z.of_nat k) mod AP130X_FW_WINDOW_SIZE.
Proof.
  induction fuel as [|fuel IH]; intros d buf len pos d' r pos' Hp Hl H Hr.
  - discriminate H.
  - destruct (Z.eq_dec len 0) as [->|Hn].
    + rewrite window_loop_done in H.
      apply (f_equal (fun o => match o with Some x => x | None => (d, (0, 0)) end)) in H.
      apply pair3_inv in H as (_ & <- & _). contradiction Hr. reflexivity.
    + rewrite window_loop_step in H by lia. cbv zeta in H.
      assert (Hlt : (0 <? len) = true) by (apply Z.ltb_lt; lia).
      set (run := Z.min len (AP130X_FW_WINDOW_SIZE - pos)) in *.
      set (c := regmap_raw_write regmap16 _ _ run) in *.
      set (rsp := env (trace d) c) in *.
      set (d1 := with_trace _ d) in *.
      assert (Hrun : 0 < run <= AP130X_FW_WINDOW_SIZE - pos /\ run <= len)
        by (unfold run; lia).
      destruct (negb (errno (r_status rsp) =? 0)) eqn:Cr.
      * apply (f_equal (fun o => match o with Some x => x | None => (d, (0, 0)) end)) in H.
        apply pair3_inv in H as (<- & <- & <-).
        exists [], (firstn (Z.to_nat run) buf), run, rsp, O.
        split; [reflexivity|]. split; [constructor|]. split; [reflexivity|].
        split; [|split; [reflexivity|split; [lia|]]].
        { cbn [map app length firstn window_plan_loop]. rewrite Hlt.
          reflexivity. }
        rewrite Z.add_0_r, Z.mod_small; [reflexivity|exact Hp].
      * set (pos1 := if pos + run =? AP130X_FW_WINDOW_SIZE then 0 else pos + run) in *.
        assert (Hp1 : 0 <= pos1 < AP130X_FW_WINDOW_SIZE).
        { unfold pos1. destruct (Z.eqb_spec (pos + run) AP130X_FW_WINDOW_SIZE);
            unfold AP130X_FW_WINDOW_SIZE in *; lia. }
        destruct (IH d1 _ (len - run) pos1 d' r pos' Hp1 ltac:(lia) H Hr)
          as (evs & data & n & rsp' & k & Et & Fa & Er & Ep & Es & Hk & Hc).
        exists ((c, rsp) :: evs), data, n, rsp', (Z.to_nat run + k)%nat.
        split; [|split; [|split; [|split; [|split; [|split]]]]].
        -- rewrite Et. unfold d1. cbn [trace with_trace].
           rewrite <- app_assoc. reflexivity.
        -- constructor; [|exact Fa]. unfold answered_ok. cbn [snd].
           apply negb_false_iff, Z.eqb_eq in Cr.
           destruct (r_status rsp) as [|e]; [reflexivity|].
           pose proof (errno_nonpos (Err e)) as Hn0. cbn [errno] in Cr, Hn0.
           exfalso. revert Cr. clear. destruct e; discriminate.
        -- exact Er.
        -- cbn [map fst length app]. rewrite Ep.
           cbn [window_plan_loop]. rewrite Hlt. fold run. fold c. fold pos1.
           reflexivity.
        -- unfold stream_of in *. cbn [map concat fst]. rewrite Es.
           unfold c. cbn [raw_write_data]. rewrite firstn_plus. reflexivity.
        -- lia.
        -- rewrite Hc. unfold pos1.
           destruct (Z.eqb_spec (pos + run) AP130X_FW_WINDOW_SIZE) as [Ew|Ew].
           ++ replace (pos + Z.of_nat (Z.to_nat run + k))
                with (0 + Z.of_nat k + 1 * AP130X_FW_WINDOW_SIZE) by lia.
              rewrite Z.mod_add by (unfold AP130X_FW_WINDOW_SIZE; lia).
              reflexivity.
           ++ f_equal. lia.
Qed.

(** A run of the loop that returns 0 had every write answered with
    success. *)
Lemma window_loop_all_ok (fuel : nat) :
  forall d buf len pos d' pos',
    0 <= pos < AP130X_FW_WINDOW_SIZE -> 0 <= len < 2 ^ 32 ->
    write_fw_window_loop env fuel d buf len pos = Some (d', (0, pos')) ->
    exists evs, trace d' = trace d ++ evs /\ Forall answered_ok evs.
Proof.
  induction fuel as [|fuel IH]; intros d buf len pos d' pos' Hp Hl H.
  - discriminate H.
  - destruct (Z.eq_dec len 0) as [->|Hn].
    + rewrite window_loop_done in H.
      apply (f_equal (fun o => match o with Some x => x | None => (d, (0, 0)) end)) in H.
      apply pair3_inv in H as (<- & _ & _).
      exists []. rewrite app_nil_r. split; [reflexivity|constructor].
    + rewrite window_loop_step in H by lia. cbv zeta in H.
      set (run := Z.min len (AP130X_FW_WINDOW_SIZE - pos)) in *.
      set (c := regmap_raw_write regmap16 _ _ run) in *.
      set (rsp := env (trace d) c) in *.
      set (d1 := with_trace _ d) in *.
      assert (Hrun : 0 < run <= AP130X_FW_WINDOW_SIZE - pos /\ run <= len)
        by (unfold run; lia).
      destruct (negb (errno (r_status rsp) =? 0)) eqn:Cr.
      * apply (f_equal (fun o => match o with Some x => x | None => (d, (0, 0)) end)) in H.
        apply pair3_inv in H as (_ & E0 & _).
        rewrite E0 in Cr. discriminate Cr.
      * set (pos1 := if pos + run =? AP130X_FW_WINDOW_SIZE then 0 else pos + run) in *.
        assert (Hp1 : 0 <= pos1 < AP130X_FW_WINDOW_SIZE).
        { unfold pos1. destruct (Z.eqb_spec (pos + run) AP130X_FW_WINDOW_SIZE);
            unfold AP130X_FW_WINDOW_SIZE in *; lia. }
        destruct (IH d1 _ (len - run) pos1 d' pos' Hp1 ltac:(lia) H)
          as (evs & Et & Fa).
        exists ((c, rsp) :: evs). split.
        -- rewrite Et. unfold d1. cbn [trace with_trace].
           rewrite <- app_assoc. reflexivity.
        -- constructor; [|exact Fa]. unfold answered_ok. cbn [snd].
           apply negb_false_iff, Z.eqb_eq in Cr.
           destruct (r_status rsp) as [|e]; [reflexivity|].
           exfalso. revert Cr. clear. destruct e; discriminate.
Qed.

(** The number of runs of the plan. *)
Lemma window_plan_loop_length (fuel : nat) :
  forall buf len pos,
    0 <= pos < AP130X_FW_WINDOW_SIZE -> 0 < len ->
    (Z.to_nat len < fuel)%nat ->
    Z.of_nat (length (window_plan_loop fuel buf len pos))
    = (pos + len + AP130X_FW_WINDOW_SIZE - 1) / AP130X_FW_WINDOW_SIZE.
Proof.
  induction fuel as [|fuel IH]; intros buf len pos Hp Hl Hf; [lia|].
  cbn [window_plan_loop].
  assert (Hlt : (0 <? len) = true) by (apply Z.ltb_lt; lia).
  rewrite Hlt. cbv zeta. cbn [length].
  set (run := Z.min len (AP130X_FW_WINDOW_SIZE - pos)).
  assert (Hrun : 0 < run <= AP130X_FW_WINDOW_SIZE - pos /\ run <= len)
    by (unfold run; lia).
  destruct (Z.eq_dec (len - run) 0) as [E0 | N0].
  - rewrite E0. destruct fuel as [|fuel']; [lia|]. cbn [window_plan_loop Z.ltb Z.compare length].
    apply Z.div_unique with (r := pos + len - 1);
      unfold AP130X_FW_WINDOW_SIZE in *; lia.
  - rewrite Nat2Z.inj_succ, IH.
    + destruct (Z.eqb_spec (pos + run) AP130X_FW_WINDOW_SIZE) as [Ew|Ew].
      * replace (pos + len + AP130X_FW_WINDOW_SIZE - 1)
          with (0 + (len - run) + AP130X_FW_WINDOW_SIZE - 1
                + 1 * AP130X_FW_WINDOW_SIZE) by lia.
        rewrite Z.div_add by (unfold AP130X_FW_WINDOW_SIZE; lia). lia.
      * exfalso. unfold run in *. lia.
    + destruct (Z.eqb_spec (pos + run) AP130X_FW_WINDOW_SIZE);
        unfold AP130X_FW_WINDOW_SIZE in *; lia.
    + lia.
    + lia.
Qed.

(** X23 -- A call of [ap130x_write_fw_window] that succeeds, for
    [len > 0] bytes from a cursor below the window size, issues
    exactly ceil((pos + len) / 8192) raw writes and nothing else: one
    per stretch of the window the data crosses. *)
Theorem window_write_count (d : ap130x_device) (buf : list byte)
  (len pos : Z) (d' : ap130x_device) (pos' : Z) :
  0 <= pos < AP130X_FW_WINDOW_SIZE -> 0 < len < 2 ^ 32 ->
  ap130x_write_fw_window env buf len pos d = (d', (0, pos')) ->
  Z.of_nat (length (emitted d d'))
  = (pos + len + AP130X_FW_WINDOW_SIZE - 1) / AP130X_FW_WINDOW_SIZE
  /\ Forall (fun e => is_raw_write (fst e) = true) (emitted d d')
  /\ Forall answered_ok (emitted d d').
Proof.
  intros Hp Hl Run.
  destruct (write_fw_window_spec env d buf len pos d' 0 pos' Hp
              ltac:(lia) Run) as (evs & Et & _ & Fw & _ & Hok).
  destruct (Hok eq_refl) as (Hplan & _ & _).
  rewrite (emitted_app _ _ _ Et).
  split; [|split].
  - replace (length evs) with (length (map fst evs)) by apply length_map.
    rewrite Hplan. unfold window_plan.
    apply window_plan_loop_length; lia.
  - revert Fw. apply Forall_impl. intros [c r]. cbn [fst].
    destruct c; cbn; try contradiction. reflexivity.
  - unfold ap130x_write_fw_window in Run.
    destruct (write_fw_window_loop_total env (S (S (Z.to_nat len))) d buf len
                pos Hp ltac:(lia) ltac:(lia)) as ([d0 [r0 p0]] & Hres).
    rewrite Hres in Run. apply pair3_inv in Run as (-> & -> & ->).
    destruct (window_loop_all_ok _ d buf len pos d' pos' Hp ltac:(lia) Hres)
      as (evs' & Et' & Fa).
    rewrite Et in Et'. apply app_inv_head in Et'. subst evs'. exact Fa.
Qed.

(** X24 -- A call of [ap130x_write_fw_window] that fails stops at the
    raw write that failed and returns its error.  The writes before it
    succeeded and are the first of the plan; they carry the first [k]
    bytes of the buffer, and the cursor returned has advanced by those
    [k] bytes only, so that it is the offset of the write that failed. *)
Theorem window_write_failure (d : ap130x_device) (buf : list byte)
  (len pos : Z) (d' : ap130x_device) (r pos' : Z) :
  0 <= pos < AP130X_FW_WINDOW_SIZE -> 0 <= len < 2 ^ 32 ->
  ap130x_write_fw_window env buf len pos d = (d', (r, pos')) ->
  r <> 0 ->
  exists evs data n rsp k,
    emitted d d'
    = evs ++ [(regmap_raw_write regmap16 (AP130X_FW_WINDOW_OFFSET + pos')
                 data n, rsp)]
    /\ Forall answered_ok evs
    /\ r = errno (r_status rsp) /\ r < 0
    /\ map fst evs
       ++ [regmap_raw_write regmap16 (AP130X_FW_WINDOW_OFFSET + pos') data n]
       = firstn (S (length evs)) (window_plan buf len pos)
    /\ stream_of evs = firstn k buf
    /\ Z.of_nat k <= len
    /\ pos' = (pos + Z.of_nat k) mod AP130X_FW_WINDOW_SIZE.
Proof.
  intros Hp Hl Run Hr. unfold ap130x_write_fw_window in Run.
  destruct (write_fw_window_loop_total env (S (S (Z.to_nat len))) d buf len
              pos Hp Hl ltac:(lia)) as ([d0 [r0 p0]] & Hres).
  rewrite Hres in Run. apply pair3_inv in Run as (-> & -> & ->).
  destruct (window_loop_fail _ _ _ _ _ _ _ _ Hp Hl Hres Hr)
    as (evs & data & n & rsp & k & Et & Fa & Er & Ep & Es & Hk & Hc).
  exists evs, data, n, rsp, k.
  split; [apply emitted_app; exact Et|].
  split; [exact Fa|]. split; [exact Er|].
  split; [pose proof (errno_nonpos (r_status rsp)); lia|].
  split; [exact Ep|]. split; [exact Es|]. split; [exact Hk|exact Hc].
Qed.

End X_Window.

Lemma window_write_count_witness :
  let run := ap130x_write_fw_window (env_ok []) (repeat x00 16) 16 8185
               dev0 in
  fst (snd run) = 0
  /\ length (emitted dev0 (fst run)) = 2%nat.
Proof.
  cbv zeta.
  destruct (ap130x_write_fw_window (env_ok []) (repeat x00 16) 16 8185
              dev0) as [d' [r pos']] eqn:E.
  assert (Hr : r = 0)
    by (apply (f_equal (fun x => fst (snd x))) in E; vm_compute in E;
        now symmetry).
  subst r. cbn [fst snd]. split; [reflexivity|].
  destruct (window_write_count (env_ok []) dev0 (repeat x00 16) 16 8185
              d' pos') as (Hc & _).
  - unfold AP130X_FW_WINDOW_SIZE. lia.
  - lia.
  - exact E.
  - apply Nat2Z.inj. rewrite Hc. reflexivity.
Defined.

Lemma window_write_failure_witness :
  let run := ap130x_write_fw_window (env_raw_fails 1 []) (repeat x00 16)
               16 8185 dev0 in
  fst (snd run) < 0
  /\ snd (snd run) = 0
  /\ length (emitted dev0 (fst run)) = 2%nat.
Proof.
  cbv zeta.
  destruct (ap130x_write_fw_window (env_raw_fails 1 []) (repeat x00 16)
              16 8185 dev0) as [d' [r pos']] eqn:E.
  assert (Hr : r <> 0)
    by (apply (f_equal (fun x => fst (snd x))) in E; vm_compute in E;
        rewrite <- E; discriminate).
  assert (Hp : pos' = 0)
    by (apply (f_equal (fun x => snd (snd x))) in E; vm_compute in E;
        now symmetry).
  assert (Hl : length (emitted dev0 d') = 2%nat)
    by (apply (f_equal fst) in E; cbn [fst] in E; rewrite <- E;
        vm_compute; reflexivity).
  destruct (window_write_failure (env_raw_fails 1 []) dev0 (repeat x00 16)
              16 8185 d' r pos') as (evs & data & n & rsp & k & _ & _ & _
                                        & Hneg & _).
  - unfold AP130X_FW_WINDOW_SIZE. lia.
  - lia.
  - exact E.
  - exact Hr.
  - cbn [fst snd]. split; [exact Hneg|]. split; [exact Hp|exact Hl].
Defined.
